(** * Intel IOMMU (VT-d) emulation: translation, caching, invalidation
      and fault reporting core of [hw/i386/intel_iommu.c]

    A shallow embedding of the address-translation core of the device
    model.  C integers are [Z] with the wrap-around of their width
    written out, the register file [csr] is a byte array read and
    written little-endian, the GLib hash tables are finite maps, guest
    memory is a partial function from addresses to quad-words, and a
    failed [assert] is the outcome [None]. *)

From Stdlib Require Import ZArith Lia Bool List.
From stdpp Require Import base option gmap strings.

Local Open Scope Z_scope.

(** ** Machine integers *)

Definition u8 (x : Z) : Z := x mod 2 ^ 8.
Definition u16 (x : Z) : Z := x mod 2 ^ 16.
Definition u32 (x : Z) : Z := x mod 2 ^ 32.
Definition u64 (x : Z) : Z := x mod 2 ^ 64.

(** [~x] on a [uint64_t]. *)
Definition not64 (x : Z) : Z := u64 (Z.lnot x).

(** C truth value of an integer expression. *)
Definition nonzero (x : Z) : bool := negb (x =? 0).

(** [assert(b)]: the emulator aborts when [b] is false. *)
Definition assert_ (b : bool) : option unit := if b then Some tt else None.

(** ** Little-endian access to a byte array

    [ldl_le_p], [ldq_le_p], [stl_le_p] and [stq_le_p] of QEMU's
    [bswap.h], on an array of [uint8_t] given as a function from
    offsets to bytes. *)

Fixpoint ld_le (n : nat) (m : Z -> Z) (a : Z) : Z :=
  match n with
  | O => 0
  | S k => (m a) mod 256 + 256 * ld_le k m (a + 1)
  end.

Definition st_le (n : nat) (m : Z -> Z) (a v : Z) : Z -> Z :=
  fun x =>
    if (a <=? x) && (x <? a + Z.of_nat n)
    then (v / 2 ^ (8 * (x - a))) mod 256
    else m x.

Definition ldl_le_p := ld_le 4.
Definition ldq_le_p := ld_le 8.
Definition stl_le_p := st_le 4.
Definition stq_le_p := st_le 8.

(** ** Enumerations

    [VTDFaultReason], with the enumerators the device model names. *)
Inductive VTDFaultReason :=
  | VTD_FR_RESERVED
  | VTD_FR_ROOT_ENTRY_P
  | VTD_FR_CONTEXT_ENTRY_P
  | VTD_FR_CONTEXT_ENTRY_INV
  | VTD_FR_ADDR_BEYOND_MGAW
  | VTD_FR_WRITE
  | VTD_FR_READ
  | VTD_FR_PAGING_ENTRY_INV
  | VTD_FR_ROOT_TABLE_INV
  | VTD_FR_CONTEXT_TABLE_INV
  | VTD_FR_INTERRUPT_ADDR
  | VTD_FR_ROOT_ENTRY_RSVD
  | VTD_FR_CONTEXT_ENTRY_RSVD
  | VTD_FR_PAGING_ENTRY_RSVD
  | VTD_FR_CONTEXT_ENTRY_TT
  | VTD_FR_PASID_DIR_ACCESS_ERR
  | VTD_FR_PASID_DIR_ENTRY_P
  | VTD_FR_PASID_TABLE_ACCESS_ERR
  | VTD_FR_PASID_ENTRY_P
  | VTD_FR_PASID_TABLE_ENTRY_INV
  | VTD_FR_SM_INTERRUPT_ADDR
  | VTD_FR_MAX.

(** The [int] results of the resolver and the walkers: [0], or the
    negated fault reason. *)
Inductive vtd_status :=
  | VTD_SUCCESS
  | VTD_FAULT (fr : VTDFaultReason).

Definition is_fault (r : vtd_status) : bool :=
  match r with VTD_SUCCESS => false | VTD_FAULT _ => true end.

(** [IOMMUAccessFlags] of the memory API; [IOMMU_NONE] is the zero
    enumerator. *)
Inductive IOMMUAccessFlags := IOMMU_NONE | IOMMU_RO | IOMMU_WO | IOMMU_RW.

Definition IOMMU_ACCESS_FLAG (r w : bool) : IOMMUAccessFlags :=
  match r, w with
  | false, false => IOMMU_NONE
  | true, false => IOMMU_RO
  | false, true => IOMMU_WO
  | true, true => IOMMU_RW
  end.

(** [flag & IOMMU_WO]. *)
Definition flag_has_wo (f : IOMMUAccessFlags) : bool :=
  match f with IOMMU_WO | IOMMU_RW => true | _ => false end.

(** ** Constants of [intel_iommu_internal.h] used by the fault reporter

    The header is not part of the sources under study; its register
    offsets and bit masks are parameters of the development.
    [VTD_FRCD_FR] encodes a fault reason (through the numbering of the
    enumeration) and [VTD_FR_lt_MAX fault] is [fault < VTD_FR_MAX]. *)

Class VTDRegHeader := {
  DMAR_FSTS_REG : Z;
  DMAR_FECTL_REG : Z;
  DMAR_FEDATA_REG : Z;
  DMAR_FEADDR_REG : Z;
  DMAR_FRCD_REG_OFFSET : Z;
  DMAR_FRCD_REG_NR : Z;
  DMAR_REG_SIZE : Z;
  DMAR_IQH_REG : Z;
  DMAR_IQT_REG : Z;
  VTD_FSTS_PFO : Z;
  VTD_FSTS_PPF : Z;
  VTD_FSTS_IQE : Z;
  VTD_FSTS_FRI_MASK : Z;
  VTD_FSTS_FRI : Z -> Z;
  VTD_FECTL_IM : Z;
  VTD_FECTL_IP : Z;
  VTD_FRCD_F : Z;
  VTD_FRCD_T : Z;
  VTD_FRCD_SID_MASK : Z;
  VTD_FRCD_SID : Z -> Z;
  VTD_FRCD_FR : VTDFaultReason -> Z;
  VTD_FR_lt_MAX : VTDFaultReason -> bool;
  VTD_FRCD_PV : Z -> Z;
  VTD_FRCD_PP : Z -> Z;
  VTD_FRCD_FI : Z -> Z;
}.

(** ** Data model *)

(** [struct vtd_iotlb_key]: [gfn] is a [uint64_t], [pasid] a
    [uint32_t], [sid] a [uint16_t] and [level] a [uint8_t]. *)
Record vtd_iotlb_key := {
  key_gfn : Z;
  key_pasid : Z;
  key_sid : Z;
  key_level : Z;
}.

(** Keys are compared field by field ([vtd_iotlb_equal]). *)
#[global] Instance vtd_iotlb_key_eq_dec : EqDecision vtd_iotlb_key.
Proof. solve_decision. Defined.

#[global] Instance vtd_iotlb_key_countable : Countable vtd_iotlb_key.
Proof.
  refine (inj_countable'
            (fun k => (key_gfn k, key_pasid k, key_sid k, key_level k))
            (fun t => match t with
                      | (g, p, s, l) =>
                          {| key_gfn := g; key_pasid := p;
                             key_sid := s; key_level := l |}
                      end) _).
  intros []; reflexivity.
Defined.

(** [VTDIOTLBEntry]. *)
Record VTDIOTLBEntry := {
  iotlb_gfn : Z;
  iotlb_domain_id : Z;
  iotlb_pte : Z;
  iotlb_access_flags : IOMMUAccessFlags;
  iotlb_mask : Z;
  iotlb_pasid : Z;
}.

(** [VTDContextEntry]: a union of [{lo, hi}] and [val[4]]. *)
Record VTDContextEntry := {
  ce_val0 : Z;
  ce_val1 : Z;
  ce_val2 : Z;
  ce_val3 : Z;
}.
Definition ce_lo := ce_val0.
Definition ce_hi := ce_val1.

(** [VTDRootEntry]. *)
Record VTDRootEntry := { re_lo : Z; re_hi : Z }.

(** [VTDPASIDEntry]: [val[8]]. *)
Record VTDPASIDEntry := { pe_vals : list Z }.
Definition pe_val (pe : VTDPASIDEntry) (i : nat) : Z := nth i (pe_vals pe) 0.

(** [VTDContextCacheEntry]. *)
Record VTDContextCacheEntry := {
  cc_context_entry : VTDContextEntry;
  cc_context_cache_gen : Z;
}.

(** [struct vtd_as_key]: the bus object (by identity), the devfn and
    the pasid. *)
Definition vtd_as_key : Type := Z * Z * Z.

(** [VTDAddressSpace], restricted to the fields the translation core
    reads and writes. *)
Record VTDAddressSpace := {
  as_bus : Z;
  as_devfn : Z;
  as_pasid : Z;
  context_cache_entry : VTDContextCacheEntry;
}.

(** [IOMMUTLBEntry] of the memory API, without [target_as]. *)
Record IOMMUTLBEntry := {
  iova : Z;
  translated_addr : Z;
  addr_mask : Z;
  perm : IOMMUAccessFlags;
}.

(** [VTDInvDesc]: a union of [{lo, hi}] and [val[4]]. *)
Record VTDInvDesc := {
  desc_val0 : Z;
  desc_val1 : Z;
  desc_val2 : Z;
  desc_val3 : Z;
}.
Definition desc_lo := desc_val0.
Definition desc_hi := desc_val1.

(** [IntelIOMMUState] together with what the device model reaches
    through globals: the static reserved-bit tables, guest memory
    ([address_space_memory], one little-endian quad-word per read, a
    failed read being [None]) and the messages handed to [send_msi]. *)
Record IntelIOMMUState := {
  csr : Z -> Z;
  next_frcd_reg : Z;
  msi_log : list (Z * Z);
  root : Z;
  root_scalable : bool;
  scalable_mode : bool;
  dmar_enabled : bool;
  aw_bits : Z;
  cap : Z;
  ecap : Z;
  pt_supported : bool;
  dt_supported : bool;
  context_cache_gen : Z;
  iotlb : gmap vtd_iotlb_key VTDIOTLBEntry;
  p_iotlb : gmap string VTDIOTLBEntry;
  vtd_address_spaces : gmap vtd_as_key VTDAddressSpace;
  iq : Z;
  iq_head : Z;
  iq_tail : Z;
  iq_size : Z;
  iq_dw : bool;
  qi_enabled : bool;
  iq_last_desc_type : Z;
  vtd_spte_rsvd : list Z;
  vtd_spte_rsvd_large : list Z;
  guest_mem : Z -> option Z;
}.

Definition set_csr (v : Z -> Z) (s : IntelIOMMUState) :=
  {| csr := v; next_frcd_reg := next_frcd_reg s; msi_log := msi_log s;
     root := root s; root_scalable := root_scalable s;
     scalable_mode := scalable_mode s; dmar_enabled := dmar_enabled s;
     aw_bits := aw_bits s; cap := cap s; ecap := ecap s;
     pt_supported := pt_supported s; dt_supported := dt_supported s;
     context_cache_gen := context_cache_gen s; iotlb := iotlb s;
     p_iotlb := p_iotlb s; vtd_address_spaces := vtd_address_spaces s;
     iq := iq s; iq_head := iq_head s; iq_tail := iq_tail s;
     iq_size := iq_size s; iq_dw := iq_dw s; qi_enabled := qi_enabled s;
     iq_last_desc_type := iq_last_desc_type s;
     vtd_spte_rsvd := vtd_spte_rsvd s;
     vtd_spte_rsvd_large := vtd_spte_rsvd_large s;
     guest_mem := guest_mem s |}.

Definition set_next_frcd_reg (v : Z) (s : IntelIOMMUState) :=
  {| csr := csr s; next_frcd_reg := v; msi_log := msi_log s;
     root := root s; root_scalable := root_scalable s;
     scalable_mode := scalable_mode s; dmar_enabled := dmar_enabled s;
     aw_bits := aw_bits s; cap := cap s; ecap := ecap s;
     pt_supported := pt_supported s; dt_supported := dt_supported s;
     context_cache_gen := context_cache_gen s; iotlb := iotlb s;
     p_iotlb := p_iotlb s; vtd_address_spaces := vtd_address_spaces s;
     iq := iq s; iq_head := iq_head s; iq_tail := iq_tail s;
     iq_size := iq_size s; iq_dw := iq_dw s; qi_enabled := qi_enabled s;
     iq_last_desc_type := iq_last_desc_type s;
     vtd_spte_rsvd := vtd_spte_rsvd s;
     vtd_spte_rsvd_large := vtd_spte_rsvd_large s;
     guest_mem := guest_mem s |}.

Definition set_msi_log (v : list (Z * Z)) (s : IntelIOMMUState) :=
  {| csr := csr s; next_frcd_reg := next_frcd_reg s; msi_log := v;
     root := root s; root_scalable := root_scalable s;
     scalable_mode := scalable_mode s; dmar_enabled := dmar_enabled s;
     aw_bits := aw_bits s; cap := cap s; ecap := ecap s;
     pt_supported := pt_supported s; dt_supported := dt_supported s;
     context_cache_gen := context_cache_gen s; iotlb := iotlb s;
     p_iotlb := p_iotlb s; vtd_address_spaces := vtd_address_spaces s;
     iq := iq s; iq_head := iq_head s; iq_tail := iq_tail s;
     iq_size := iq_size s; iq_dw := iq_dw s; qi_enabled := qi_enabled s;
     iq_last_desc_type := iq_last_desc_type s;
     vtd_spte_rsvd := vtd_spte_rsvd s;
     vtd_spte_rsvd_large := vtd_spte_rsvd_large s;
     guest_mem := guest_mem s |}.

Definition set_context_cache_gen (v : Z) (s : IntelIOMMUState) :=
  {| csr := csr s; next_frcd_reg := next_frcd_reg s; msi_log := msi_log s;
     root := root s; root_scalable := root_scalable s;
     scalable_mode := scalable_mode s; dmar_enabled := dmar_enabled s;
     aw_bits := aw_bits s; cap := cap s; ecap := ecap s;
     pt_supported := pt_supported s; dt_supported := dt_supported s;
     context_cache_gen := v; iotlb := iotlb s;
     p_iotlb := p_iotlb s; vtd_address_spaces := vtd_address_spaces s;
     iq := iq s; iq_head := iq_head s; iq_tail := iq_tail s;
     iq_size := iq_size s; iq_dw := iq_dw s; qi_enabled := qi_enabled s;
     iq_last_desc_type := iq_last_desc_type s;
     vtd_spte_rsvd := vtd_spte_rsvd s;
     vtd_spte_rsvd_large := vtd_spte_rsvd_large s;
     guest_mem := guest_mem s |}.

Definition set_iotlb (v : gmap vtd_iotlb_key VTDIOTLBEntry)
    (s : IntelIOMMUState) :=
  {| csr := csr s; next_frcd_reg := next_frcd_reg s; msi_log := msi_log s;
     root := root s; root_scalable := root_scalable s;
     scalable_mode := scalable_mode s; dmar_enabled := dmar_enabled s;
     aw_bits := aw_bits s; cap := cap s; ecap := ecap s;
     pt_supported := pt_supported s; dt_supported := dt_supported s;
     context_cache_gen := context_cache_gen s; iotlb := v;
     p_iotlb := p_iotlb s; vtd_address_spaces := vtd_address_spaces s;
     iq := iq s; iq_head := iq_head s; iq_tail := iq_tail s;
     iq_size := iq_size s; iq_dw := iq_dw s; qi_enabled := qi_enabled s;
     iq_last_desc_type := iq_last_desc_type s;
     vtd_spte_rsvd := vtd_spte_rsvd s;
     vtd_spte_rsvd_large := vtd_spte_rsvd_large s;
     guest_mem := guest_mem s |}.

Definition set_p_iotlb (v : gmap string VTDIOTLBEntry)
    (s : IntelIOMMUState) :=
  {| csr := csr s; next_frcd_reg := next_frcd_reg s; msi_log := msi_log s;
     root := root s; root_scalable := root_scalable s;
     scalable_mode := scalable_mode s; dmar_enabled := dmar_enabled s;
     aw_bits := aw_bits s; cap := cap s; ecap := ecap s;
     pt_supported := pt_supported s; dt_supported := dt_supported s;
     context_cache_gen := context_cache_gen s; iotlb := iotlb s;
     p_iotlb := v; vtd_address_spaces := vtd_address_spaces s;
     iq := iq s; iq_head := iq_head s; iq_tail := iq_tail s;
     iq_size := iq_size s; iq_dw := iq_dw s; qi_enabled := qi_enabled s;
     iq_last_desc_type := iq_last_desc_type s;
     vtd_spte_rsvd := vtd_spte_rsvd s;
     vtd_spte_rsvd_large := vtd_spte_rsvd_large s;
     guest_mem := guest_mem s |}.

Definition set_vtd_address_spaces (v : gmap vtd_as_key VTDAddressSpace)
    (s : IntelIOMMUState) :=
  {| csr := csr s; next_frcd_reg := next_frcd_reg s; msi_log := msi_log s;
     root := root s; root_scalable := root_scalable s;
     scalable_mode := scalable_mode s; dmar_enabled := dmar_enabled s;
     aw_bits := aw_bits s; cap := cap s; ecap := ecap s;
     pt_supported := pt_supported s; dt_supported := dt_supported s;
     context_cache_gen := context_cache_gen s; iotlb := iotlb s;
     p_iotlb := p_iotlb s; vtd_address_spaces := v;
     iq := iq s; iq_head := iq_head s; iq_tail := iq_tail s;
     iq_size := iq_size s; iq_dw := iq_dw s; qi_enabled := qi_enabled s;
     iq_last_desc_type := iq_last_desc_type s;
     vtd_spte_rsvd := vtd_spte_rsvd s;
     vtd_spte_rsvd_large := vtd_spte_rsvd_large s;
     guest_mem := guest_mem s |}.

Definition set_iq_head (v : Z) (s : IntelIOMMUState) :=
  {| csr := csr s; next_frcd_reg := next_frcd_reg s; msi_log := msi_log s;
     root := root s; root_scalable := root_scalable s;
     scalable_mode := scalable_mode s; dmar_enabled := dmar_enabled s;
     aw_bits := aw_bits s; cap := cap s; ecap := ecap s;
     pt_supported := pt_supported s; dt_supported := dt_supported s;
     context_cache_gen := context_cache_gen s; iotlb := iotlb s;
     p_iotlb := p_iotlb s; vtd_address_spaces := vtd_address_spaces s;
     iq := iq s; iq_head := v; iq_tail := iq_tail s;
     iq_size := iq_size s; iq_dw := iq_dw s; qi_enabled := qi_enabled s;
     iq_last_desc_type := iq_last_desc_type s;
     vtd_spte_rsvd := vtd_spte_rsvd s;
     vtd_spte_rsvd_large := vtd_spte_rsvd_large s;
     guest_mem := guest_mem s |}.

Definition set_iq_tail (v : Z) (s : IntelIOMMUState) :=
  {| csr := csr s; next_frcd_reg := next_frcd_reg s; msi_log := msi_log s;
     root := root s; root_scalable := root_scalable s;
     scalable_mode := scalable_mode s; dmar_enabled := dmar_enabled s;
     aw_bits := aw_bits s; cap := cap s; ecap := ecap s;
     pt_supported := pt_supported s; dt_supported := dt_supported s;
     context_cache_gen := context_cache_gen s; iotlb := iotlb s;
     p_iotlb := p_iotlb s; vtd_address_spaces := vtd_address_spaces s;
     iq := iq s; iq_head := iq_head s; iq_tail := v;
     iq_size := iq_size s; iq_dw := iq_dw s; qi_enabled := qi_enabled s;
     iq_last_desc_type := iq_last_desc_type s;
     vtd_spte_rsvd := vtd_spte_rsvd s;
     vtd_spte_rsvd_large := vtd_spte_rsvd_large s;
     guest_mem := guest_mem s |}.

Definition set_iq_last_desc_type (v : Z) (s : IntelIOMMUState) :=
  {| csr := csr s; next_frcd_reg := next_frcd_reg s; msi_log := msi_log s;
     root := root s; root_scalable := root_scalable s;
     scalable_mode := scalable_mode s; dmar_enabled := dmar_enabled s;
     aw_bits := aw_bits s; cap := cap s; ecap := ecap s;
     pt_supported := pt_supported s; dt_supported := dt_supported s;
     context_cache_gen := context_cache_gen s; iotlb := iotlb s;
     p_iotlb := p_iotlb s; vtd_address_spaces := vtd_address_spaces s;
     iq := iq s; iq_head := iq_head s; iq_tail := iq_tail s;
     iq_size := iq_size s; iq_dw := iq_dw s; qi_enabled := qi_enabled s;
     iq_last_desc_type := v;
     vtd_spte_rsvd := vtd_spte_rsvd s;
     vtd_spte_rsvd_large := vtd_spte_rsvd_large s;
     guest_mem := guest_mem s |}.

(** ** Register access and the fault reporter *)

Section FaultReporter.
Context {RH : VTDRegHeader}.

(** "Internal" get/set operations. *)
Definition vtd_get_quad_raw (s : IntelIOMMUState) (addr : Z) : Z :=
  ldq_le_p (csr s) addr.

Definition vtd_get_long_raw (s : IntelIOMMUState) (addr : Z) : Z :=
  ldl_le_p (csr s) addr.

Definition vtd_set_quad_raw (s : IntelIOMMUState) (addr val : Z)
    : IntelIOMMUState :=
  set_csr (stq_le_p (csr s) addr val) s.

Definition vtd_set_clear_mask_long (s : IntelIOMMUState)
    (addr clear mask : Z) : Z * IntelIOMMUState :=
  let new_val :=
    u32 (Z.lor (Z.land (ldl_le_p (csr s) addr) (Z.lnot clear)) mask) in
  (new_val, set_csr (stl_le_p (csr s) addr new_val) s).

Definition vtd_set_clear_mask_quad (s : IntelIOMMUState)
    (addr clear mask : Z) : Z * IntelIOMMUState :=
  let new_val :=
    u64 (Z.lor (Z.land (ldq_le_p (csr s) addr) (Z.lnot clear)) mask) in
  (new_val, set_csr (stq_le_p (csr s) addr new_val) s).

(** Given the register offsets of the message address and data, send
    an MSI; [send_msi] is recorded in [msi_log]. *)
Definition vtd_generate_interrupt (s : IntelIOMMUState)
    (mesg_addr_reg mesg_data_reg : Z) : option IntelIOMMUState :=
  _ ← assert_ (mesg_data_reg <? DMAR_REG_SIZE);
  _ ← assert_ (mesg_addr_reg <? DMAR_REG_SIZE);
  let address := vtd_get_long_raw s mesg_addr_reg in
  let data := vtd_get_long_raw s mesg_data_reg in
  Some (set_msi_log (msi_log s ++ [(address, data)]) s).

(** Generate a fault event to software via MSI if conditions are met;
    [pre_fsts] is the value of FSTS_REG before any update. *)
Definition vtd_generate_fault_event (s : IntelIOMMUState) (pre_fsts : Z)
    : option IntelIOMMUState :=
  if nonzero (Z.land pre_fsts VTD_FSTS_PPF)
     || nonzero (Z.land pre_fsts VTD_FSTS_PFO)
     || nonzero (Z.land pre_fsts VTD_FSTS_IQE)
  then Some s
  else
    let s1 := (vtd_set_clear_mask_long s DMAR_FECTL_REG 0 VTD_FECTL_IP).2 in
    if nonzero (Z.land (vtd_get_long_raw s1 DMAR_FECTL_REG) VTD_FECTL_IM)
    then Some s1
    else
      s2 ← vtd_generate_interrupt s1 DMAR_FEADDR_REG DMAR_FEDATA_REG;
      Some (vtd_set_clear_mask_long s2 DMAR_FECTL_REG VTD_FECTL_IP 0).2.

(** Offset of the 128-bit fault recording register [index]. *)
Definition frcd_reg_addr (index : Z) : Z :=
  u64 (DMAR_FRCD_REG_OFFSET + u64 (Z.shiftl index 4)).

(** Check if the Fault (F) field of the fault recording register
    referenced by [index] is set. *)
Definition vtd_is_frcd_set (s : IntelIOMMUState) (index : Z) : option bool :=
  let addr := u64 (frcd_reg_addr index + 8) in
  _ ← assert_ (index <? DMAR_FRCD_REG_NR);
  Some (nonzero (Z.land (vtd_get_quad_raw s addr) VTD_FRCD_F)).

(** The loop of [vtd_update_fsts_ppf]: [n] iterations from index [i],
    leaving at the first register whose F field is set. *)
Fixpoint vtd_any_frcd_set (s : IntelIOMMUState) (i : Z) (n : nat)
    : option bool :=
  match n with
  | O => Some false
  | S n' =>
      b ← vtd_is_frcd_set s i;
      if b : bool then Some true else vtd_any_frcd_set s (u32 (i + 1)) n'
  end.

(** Update the PPF field of the Fault Status Register. *)
Definition vtd_update_fsts_ppf (s : IntelIOMMUState) : option IntelIOMMUState :=
  b ← vtd_any_frcd_set s 0 (Z.to_nat DMAR_FRCD_REG_NR);
  let ppf_mask := if b : bool then VTD_FSTS_PPF else 0 in
  Some (vtd_set_clear_mask_long s DMAR_FSTS_REG VTD_FSTS_PPF ppf_mask).2.

Definition vtd_set_frcd_and_update_ppf (s : IntelIOMMUState) (index : Z)
    : option IntelIOMMUState :=
  let addr := u64 (frcd_reg_addr index + 8) in
  _ ← assert_ (index <? DMAR_FRCD_REG_NR);
  vtd_update_fsts_ppf (vtd_set_clear_mask_quad s addr 0 VTD_FRCD_F).2.

(** Must not update the F field now, should be done later. *)
Definition vtd_record_frcd (s : IntelIOMMUState) (index hi lo : Z)
    : option IntelIOMMUState :=
  let a := frcd_reg_addr index in
  _ ← assert_ (index <? DMAR_FRCD_REG_NR);
  Some (vtd_set_quad_raw (vtd_set_quad_raw s a lo) (u64 (a + 8)) hi).

(** The loop of [vtd_try_collapse_fault]: [n] iterations, [addr]
    being the high half of the current register. *)
Fixpoint vtd_try_collapse_loop (s : IntelIOMMUState) (source_id addr : Z)
    (n : nat) : bool :=
  match n with
  | O => false
  | S n' =>
      let frcd_reg := vtd_get_quad_raw s addr in
      if nonzero (Z.land frcd_reg VTD_FRCD_F)
         && (Z.land frcd_reg VTD_FRCD_SID_MASK =? source_id)
      then true
      else vtd_try_collapse_loop s source_id (u64 (addr + 16)) n'
  end.

(** Try to collapse multiple pending faults from the same requester;
    [source_id] is a [uint16_t]. *)
Definition vtd_try_collapse_fault (s : IntelIOMMUState) (source_id : Z)
    : bool :=
  vtd_try_collapse_loop s source_id (u64 (DMAR_FRCD_REG_OFFSET + 8))
    (Z.to_nat DMAR_FRCD_REG_NR).

(** [s->next_frcd_reg++] followed by the wrap to register 0. *)
Definition vtd_advance_next_frcd_reg (s : IntelIOMMUState) : IntelIOMMUState :=
  let n := u16 (next_frcd_reg s + 1) in
  set_next_frcd_reg (if n =? DMAR_FRCD_REG_NR then 0 else n) s.

(** Log and report a DMAR (address translation) fault to software. *)
Definition vtd_report_frcd_fault (s : IntelIOMMUState)
    (source_id hi lo : Z) : option IntelIOMMUState :=
  let fsts_reg := vtd_get_long_raw s DMAR_FSTS_REG in
  if nonzero (Z.land fsts_reg VTD_FSTS_PFO) then Some s
  else if vtd_try_collapse_fault s (u16 source_id) then Some s
  else
    used ← vtd_is_frcd_set s (next_frcd_reg s);
    if used : bool
    then Some (vtd_set_clear_mask_long s DMAR_FSTS_REG 0 VTD_FSTS_PFO).2
    else
      s1 ← vtd_record_frcd s (next_frcd_reg s) hi lo;
      if nonzero (Z.land fsts_reg VTD_FSTS_PPF)
      then
        s2 ← vtd_set_frcd_and_update_ppf s1 (next_frcd_reg s1);
        Some (vtd_advance_next_frcd_reg s2)
      else
        let s2 := (vtd_set_clear_mask_long s1 DMAR_FSTS_REG VTD_FSTS_FRI_MASK
                     (VTD_FSTS_FRI (next_frcd_reg s1))).2 in
        s3 ← vtd_set_frcd_and_update_ppf s2 (next_frcd_reg s2);
        vtd_generate_fault_event (vtd_advance_next_frcd_reg s3) fsts_reg.

(** Handle Invalidation Queue Errors of the queued invalidation
    interface. *)
Definition vtd_handle_inv_queue_error (s : IntelIOMMUState)
    : option IntelIOMMUState :=
  let fsts_reg := vtd_get_long_raw s DMAR_FSTS_REG in
  vtd_generate_fault_event
    (vtd_set_clear_mask_long s DMAR_FSTS_REG 0 VTD_FSTS_IQE).2 fsts_reg.

(** Log and report a DMAR (address translation) fault to software;
    [source_id] is a [uint16_t]. *)
Definition vtd_report_dmar_fault (s : IntelIOMMUState) (source_id addr : Z)
    (fault : VTDFaultReason) (is_write is_pasid : bool) (pasid : Z)
    : option IntelIOMMUState :=
  _ ← assert_ (VTD_FR_lt_MAX fault);
  let lo := VTD_FRCD_FI addr in
  let hi := Z.lor (Z.lor (Z.lor (VTD_FRCD_SID source_id) (VTD_FRCD_FR fault))
                     (VTD_FRCD_PV pasid))
              (VTD_FRCD_PP (if is_pasid then 1 else 0)) in
  let hi := if negb is_write then Z.lor hi VTD_FRCD_T else hi in
  vtd_report_frcd_fault s source_id hi lo.

(** [vtd_qualified_faults]; the reasons the table does not list are
    zero-initialised. *)
Definition vtd_qualified_faults (fault : VTDFaultReason) : bool :=
  match fault with
  | VTD_FR_RESERVED => false
  | VTD_FR_ROOT_ENTRY_P => false
  | VTD_FR_CONTEXT_ENTRY_P => true
  | VTD_FR_CONTEXT_ENTRY_INV => true
  | VTD_FR_ADDR_BEYOND_MGAW => true
  | VTD_FR_WRITE => true
  | VTD_FR_READ => true
  | VTD_FR_PAGING_ENTRY_INV => true
  | VTD_FR_ROOT_TABLE_INV => false
  | VTD_FR_CONTEXT_TABLE_INV => false
  | VTD_FR_INTERRUPT_ADDR => true
  | VTD_FR_ROOT_ENTRY_RSVD => false
  | VTD_FR_CONTEXT_ENTRY_RSVD => false
  | VTD_FR_PAGING_ENTRY_RSVD => true
  | VTD_FR_CONTEXT_ENTRY_TT => true
  | VTD_FR_PASID_DIR_ACCESS_ERR => false
  | VTD_FR_PASID_DIR_ENTRY_P => true
  | VTD_FR_PASID_TABLE_ACCESS_ERR => false
  | VTD_FR_PASID_ENTRY_P => true
  | VTD_FR_PASID_TABLE_ENTRY_INV => true
  | VTD_FR_SM_INTERRUPT_ADDR => true
  | VTD_FR_MAX => false
  end.

(** Whether a fault condition is "qualified", i.e. reported only if
    the FPD field of the context entry is 0. *)
Definition vtd_is_qualified_fault (fault : VTDFaultReason) : bool :=
  vtd_qualified_faults fault.

Definition vtd_report_fault (s : IntelIOMMUState) (err : VTDFaultReason)
    (is_fpd_set : bool) (source_id addr : Z) (is_write is_pasid : bool)
    (pasid : Z) : option IntelIOMMUState :=
  if is_fpd_set && vtd_is_qualified_fault err
  then Some s
  else vtd_report_dmar_fault s source_id addr err is_write is_pasid pasid.

End FaultReporter.

(** ** Paging constants *)

(** Modelled from the spec: the leaf page is 4 KiB ([size=4096] for a
    leaf mapping), so [VTD_PAGE_SHIFT_4K], absent from the sources, is
    12. *)
Definition VTD_PAGE_SHIFT_4K : Z := 12.

(** Modelled from the spec: a 4-level second-stage table spans an
    address width of 48 bits over 4 KiB pages, so each level indexes
    [VTD_SL_LEVEL_BITS] = 9 bits. *)
Definition VTD_SL_LEVEL_BITS : Z := 9.

(** Modelled from the spec: second-stage levels are numbered 1..4 from
    the leaf (page table) to the top (PML4); the header naming them is
    absent. *)
Definition VTD_SL_PT_LEVEL : Z := 1.
Definition VTD_SL_PD_LEVEL : Z := 2.
Definition VTD_SL_PDP_LEVEL : Z := 3.
Definition VTD_SL_PML4_LEVEL : Z := 4.

(** Modelled from the spec: the reserved local-interrupt address
    window is [0xFEE00000]–[0xFEEFFFFF]. *)
Definition VTD_INTERRUPT_ADDR_FIRST : Z := 0xfee00000.
Definition VTD_INTERRUPT_ADDR_LAST : Z := 0xfeefffff.

(** [VTD_SPTE_RSVD_LEN], defined in the source file itself. *)
Definition VTD_SPTE_RSVD_LEN : Z := 5.

(** [1ULL << n]; a shift by 64 or more, undefined in C, is taken to
    push the bit out of the word. *)
Definition shl1_64 (n : Z) : Z := u64 (Z.shiftl 1 n).

(** [~(VTD_PAGE_SIZE_4K - 1)]. *)
Definition VTD_PAGE_MASK_4K : Z := not64 (u64 (shl1_64 VTD_PAGE_SHIFT_4K - 1)).

(** The remaining paging and cache constants of the absent header. *)
Class VTDPagingHeader := {
  VTD_SL_R : Z;
  VTD_SL_W : Z;
  VTD_SL_PT_PAGE_SIZE_MASK : Z;
  VTD_SL_PT_BASE_ADDR_MASK : Z -> Z;
  VTD_SL_PT_ENTRY_NR : Z;
  VTD_FL_LEVEL_BITS : Z;
  VTD_FL_PT_LEVEL : Z;
  VTD_FL_RW_MASK : Z;
  VTD_FL_PT_PAGE_SIZE_MASK : Z;
  VTD_FL_PT_BASE_ADDR_MASK : Z -> Z;
  VTD_FL_PT_ENTRY_NR : Z;
  VTD_IOTLB_MAX_SIZE : Z;
  VTD_PASID_IOTLB_MAX_SIZE : Z;
  VTD_CONTEXT_CACHE_GEN_MAX : Z;
}.

(** ** The leaf translation cache (IOTLB) *)

Section IOTLB.
Context {PH : VTDPagingHeader}.

(** The shift of an address for a certain level of paging structure;
    [level] is a [uint32_t]. *)
Definition vtd_slpt_level_shift (level : Z) : option Z :=
  _ ← assert_ (negb (level =? 0));
  Some (u32 (VTD_PAGE_SHIFT_4K + u32 (u32 (level - 1) * VTD_SL_LEVEL_BITS))).

Definition vtd_slpt_level_page_mask (level : Z) : option Z :=
  sh ← vtd_slpt_level_shift level;
  Some (not64 (u64 (shl1_64 sh - 1))).

Definition vtd_get_iotlb_gfn (addr level : Z) : option Z :=
  m ← vtd_slpt_level_page_mask level;
  Some (Z.shiftr (Z.land addr m) VTD_PAGE_SHIFT_4K).

(** The key built by [vtd_lookup_iotlb] and [vtd_update_iotlb]; the
    assignments narrow [level] to [uint8_t]. *)
Definition mk_iotlb_key (gfn source_id level pasid : Z) : vtd_iotlb_key :=
  {| key_gfn := gfn; key_pasid := pasid; key_sid := source_id;
     key_level := u8 level |}.

(** The loop of [vtd_lookup_iotlb]: [n] iterations from [level]
    upward, leaving at the first hit; the result is the last value of
    [entry]. *)
Fixpoint vtd_lookup_iotlb_loop (s : IntelIOMMUState)
    (source_id pasid addr level : Z) (n : nat)
    : option (option VTDIOTLBEntry) :=
  match n with
  | O => Some None
  | S n' =>
      gfn ← vtd_get_iotlb_gfn addr level;
      match iotlb s !! mk_iotlb_key gfn source_id level pasid with
      | Some entry => Some (Some entry)
      | None => vtd_lookup_iotlb_loop s source_id pasid addr (level + 1) n'
      end
  end.

(** [for (level = VTD_SL_PT_LEVEL; level < VTD_SL_PML4_LEVEL; level++)]. *)
Definition vtd_lookup_iotlb (s : IntelIOMMUState) (source_id pasid addr : Z)
    : option (option VTDIOTLBEntry) :=
  vtd_lookup_iotlb_loop s source_id pasid addr VTD_SL_PT_LEVEL
    (Z.to_nat (VTD_SL_PML4_LEVEL - VTD_SL_PT_LEVEL)).

Definition vtd_reset_iotlb_locked (s : IntelIOMMUState) : IntelIOMMUState :=
  set_iotlb ∅ s.

(** [vtd_update_iotlb]: [source_id] and [domain_id] are [uint16_t],
    [level] and [pasid] are [uint32_t]. *)
Definition vtd_update_iotlb (s : IntelIOMMUState)
    (source_id domain_id addr slpte : Z) (access_flags : IOMMUAccessFlags)
    (level pasid : Z) : option IntelIOMMUState :=
  gfn ← vtd_get_iotlb_gfn addr level;
  let s1 :=
    if Z.of_nat (size (iotlb s)) >=? VTD_IOTLB_MAX_SIZE
    then vtd_reset_iotlb_locked s else s in
  mask ← vtd_slpt_level_page_mask level;
  let entry :=
    {| iotlb_gfn := gfn; iotlb_domain_id := domain_id; iotlb_pte := slpte;
       iotlb_access_flags := access_flags; iotlb_mask := mask;
       iotlb_pasid := pasid |} in
  let key := mk_iotlb_key gfn source_id level pasid in
  Some (set_iotlb (<[key := entry]> (iotlb s1)) s1).

(** [vtd_hash_remove_by_domain]. *)
Definition vtd_hash_remove_by_domain (entry : VTDIOTLBEntry) (domain_id : Z)
    : bool :=
  iotlb_domain_id entry =? domain_id.

(** [VTDIOTLBPageInvInfo]. *)
Record VTDIOTLBPageInvInfo := {
  info_domain_id : Z;
  info_pasid : Z;
  info_addr : Z;
  info_mask : Z;
  info_is_piotlb : bool;
}.

(** [vtd_hash_remove_by_page]. *)
Definition vtd_hash_remove_by_page (entry : VTDIOTLBEntry)
    (info : VTDIOTLBPageInvInfo) : bool :=
  let gfn := Z.land (Z.shiftr (info_addr info) VTD_PAGE_SHIFT_4K)
                    (info_mask info) in
  let gfn_tlb := Z.shiftr (Z.land (info_addr info) (iotlb_mask entry))
                          VTD_PAGE_SHIFT_4K in
  (iotlb_domain_id entry =? info_domain_id info)
  && (if info_is_piotlb info
      then iotlb_pasid entry =? info_pasid info else true)
  && ((Z.land (iotlb_gfn entry) (info_mask info) =? gfn)
      || (iotlb_gfn entry =? gfn_tlb)).

(** [g_hash_table_foreach_remove(s->iotlb, pred, data)]. *)
Definition iotlb_foreach_remove (pred : VTDIOTLBEntry -> bool)
    (s : IntelIOMMUState) : IntelIOMMUState :=
  set_iotlb (filter (fun kv => pred kv.2 = false) (iotlb s)) s.

End IOTLB.

(** ** Guest memory *)

(** [dma_memory_read] of one little-endian quad-word. *)
Definition dma_read_q (mem : Z -> option Z) (addr : Z) : option Z :=
  v ← mem (u64 addr); Some (u64 v).

(** [dma_memory_read] of [n] consecutive quad-words; the read fails as
    a whole when one of them does. *)
Fixpoint dma_read_qs (mem : Z -> option Z) (addr : Z) (n : nat)
    : option (list Z) :=
  match n with
  | O => Some []
  | S k =>
      v ← dma_read_q mem addr;
      vs ← dma_read_qs mem (addr + 8) k;
      Some (v :: vs)
  end.

(** ** Constants of the absent header used by the device-context
    resolver, and the PCI helpers it calls *)

Class VTDContextHeader := {
  VTD_ROOT_ENTRY_P : Z;
  VTD_ROOT_ENTRY_CTP : Z;
  VTD_ROOT_ENTRY_RSVD : Z -> Z;
  VTD_CONTEXT_ENTRY_P : Z;
  VTD_CONTEXT_ENTRY_FPD : Z;
  VTD_CONTEXT_ENTRY_SLPTPTR : Z;
  VTD_CONTEXT_ENTRY_AW : Z;
  VTD_CONTEXT_ENTRY_TT : Z;
  VTD_CONTEXT_TT_MULTI_LEVEL : Z;
  VTD_CONTEXT_TT_DEV_IOTLB : Z;
  VTD_CONTEXT_TT_PASS_THROUGH : Z;
  VTD_CONTEXT_ENTRY_RSVD_HI : Z;
  VTD_CONTEXT_ENTRY_RSVD_LO : Z -> Z;
  VTD_SM_CONTEXT_ENTRY_RSVD_VAL0 : Z -> Z;
  VTD_SM_CONTEXT_ENTRY_RSVD_VAL1 : Z;
  VTD_CONTEXT_ENTRY_DID : Z -> Z;
  VTD_CTX_ENTRY_SCALABLE_SIZE : Z;
  VTD_CTX_ENTRY_LEGACY_SIZE : Z;
  VTD_DEVFN_CHECK_MASK : Z;
  VTD_CAP_SAGAW_MASK : Z;
  VTD_CAP_SAGAW_SHIFT : Z;
  VTD_SM_CONTEXT_ENTRY_RID2PASID_MASK : Z;
  VTD_PASID_DIR_BASE_ADDR_MASK : Z;
  VTD_SM_PASID_ENTRY_PGTT : Z;
  VTD_SM_PASID_ENTRY_AW : Z;
  VTD_PASID_DIR_INDEX : Z -> Z;
  VTD_PASID_DIR_ENTRY_SIZE : Z;
  VTD_PASID_TABLE_INDEX : Z -> Z;
  VTD_PASID_ENTRY_SIZE : Z;
  VTD_PASID_TABLE_BASE_ADDR_MASK : Z;
  VTD_SM_PASID_ENTRY_FLT : Z;
  VTD_SM_PASID_ENTRY_SLT : Z;
  VTD_SM_PASID_ENTRY_NESTED : Z;
  VTD_SM_PASID_ENTRY_PT : Z;
  VTD_PASID_ENTRY_P : Z;
  VTD_PASID_ENTRY_FPD : Z;
  VTD_PASID_DIR_FPD : Z;
  VTD_SM_PASID_ENTRY_FLPM : Z;
  VTD_SM_PASID_ENTRY_FLPTPTR : Z;
  VTD_SM_PASID_ENTRY_SLPTPTR : Z;
  VTD_SM_PASID_ENTRY_DID : Z -> Z;
  VTD_ECAP_RPS : Z;
  PCI_NO_PASID : Z;
  PCI_BUILD_BDF : Z -> Z -> Z;
  pci_bus_num : Z -> Z;
}.

(** ** The device-context resolver *)

Section ContextResolver.
Context {PH : VTDPagingHeader} {CH : VTDContextHeader}.

(** Locals that the C code declares without initialising them
    ([VTDContextEntry ce;], [VTDPASIDEntry pe;], [VTDPASIDDirEntry
    pdire;]) hold indeterminate values until they are written. *)
Variable ce_uninit : VTDContextEntry.
Variable pe_uninit : VTDPASIDEntry.
Variable pdire_uninit : Z.
Variable re_uninit : VTDRootEntry.

(* context entry operations *)
Definition VTD_CE_GET_RID2PASID (ce : VTDContextEntry) : Z :=
  Z.land (ce_val1 ce) VTD_SM_CONTEXT_ENTRY_RID2PASID_MASK.
Definition VTD_CE_GET_PASID_DIR_TABLE (ce : VTDContextEntry) : Z :=
  Z.land (ce_val0 ce) VTD_PASID_DIR_BASE_ADDR_MASK.

(* pe operations *)
Definition VTD_PE_GET_TYPE (pe : VTDPASIDEntry) : Z :=
  Z.land (pe_val pe 0) VTD_SM_PASID_ENTRY_PGTT.
Definition VTD_PE_GET_LEVEL (pe : VTDPASIDEntry) : Z :=
  u32 (2 + Z.land (Z.shiftr (pe_val pe 0) 2) VTD_SM_PASID_ENTRY_AW).

Definition vtd_root_entry_present (s : IntelIOMMUState) (re : VTDRootEntry)
    (devfn : Z) : bool :=
  if root_scalable s && (devfn >? 255 / 2)
  then nonzero (Z.land (re_hi re) VTD_ROOT_ENTRY_P)
  else nonzero (Z.land (re_lo re) VTD_ROOT_ENTRY_P).

(** [index] is a [uint8_t]; a root entry is two quad-words. *)
Definition vtd_get_root_entry (s : IntelIOMMUState) (index : Z)
    (re : VTDRootEntry) : vtd_status * VTDRootEntry :=
  let addr := u64 (root s + index * 16) in
  match dma_read_qs (guest_mem s) addr 2 with
  | Some [lo; hi] => (VTD_SUCCESS, {| re_lo := lo; re_hi := hi |})
  | _ => (VTD_FAULT VTD_FR_ROOT_TABLE_INV, {| re_lo := 0; re_hi := re_hi re |})
  end.

Definition vtd_ce_present (context : VTDContextEntry) : bool :=
  nonzero (Z.land (ce_lo context) VTD_CONTEXT_ENTRY_P).

(** [index] is a [uint8_t]; [ce_size] bytes are read into [ce]. *)
Definition vtd_get_context_entry_from_root (s : IntelIOMMUState)
    (re : VTDRootEntry) (index : Z) (ce : VTDContextEntry)
    : vtd_status * VTDContextEntry :=
  let ce_size := if root_scalable s then VTD_CTX_ENTRY_SCALABLE_SIZE
                 else VTD_CTX_ENTRY_LEGACY_SIZE in
  let '(index, addr) :=
    if root_scalable s && (index >? 255 / 2)
    then (u8 (Z.land index (Z.lnot VTD_DEVFN_CHECK_MASK)),
          Z.land (re_hi re) VTD_ROOT_ENTRY_CTP)
    else (index, Z.land (re_lo re) VTD_ROOT_ENTRY_CTP) in
  let addr := u64 (addr + index * ce_size) in
  match dma_read_qs (guest_mem s) addr (Z.to_nat (ce_size / 8)) with
  | None => (VTD_FAULT VTD_FR_CONTEXT_TABLE_INV, ce)
  | Some vs =>
      let v i old := match vs !! i with Some x => x | None => old end in
      (VTD_SUCCESS,
       {| ce_val0 := v 0%nat (ce_val0 ce); ce_val1 := v 1%nat (ce_val1 ce);
          ce_val2 := v 2%nat (ce_val2 ce); ce_val3 := v 3%nat (ce_val3 ce) |})
  end.

Definition vtd_ce_get_slpt_base (ce : VTDContextEntry) : Z :=
  Z.land (ce_lo ce) VTD_CONTEXT_ENTRY_SLPTPTR.

(** Check the Capability Register to see if the [level] of page table
    is supported. *)
Definition vtd_is_level_supported (s : IntelIOMMUState) (level : Z) : bool :=
  nonzero (Z.land (Z.land VTD_CAP_SAGAW_MASK (cap s))
                  (shl1_64 (u32 (level - 2 + VTD_CAP_SAGAW_SHIFT)))).

(** Return true if the check passed, otherwise false. *)
Definition vtd_pe_type_check (s : IntelIOMMUState) (pe : VTDPASIDEntry)
    : bool :=
  let t := VTD_PE_GET_TYPE pe in
  if (t =? VTD_SM_PASID_ENTRY_FLT) || (t =? VTD_SM_PASID_ENTRY_SLT)
     || (t =? VTD_SM_PASID_ENTRY_NESTED)
  then true
  else if t =? VTD_SM_PASID_ENTRY_PT then pt_supported s
  else false.

Definition vtd_pe_get_domain_id (pe : VTDPASIDEntry) : Z :=
  u16 (VTD_SM_PASID_ENTRY_DID (pe_val pe 1)).

Definition vtd_pe_get_flpt_base (pe : VTDPASIDEntry) : Z :=
  Z.land (pe_val pe 2) VTD_SM_PASID_ENTRY_FLPTPTR.

Definition vtd_pdire_present (pdire : Z) : bool := nonzero (Z.land pdire 1).

Definition vtd_get_pdire_from_pdir_table (s : IntelIOMMUState)
    (pasid_dir_base pasid pdire : Z) : vtd_status * Z :=
  let index := VTD_PASID_DIR_INDEX pasid in
  let entry_size := VTD_PASID_DIR_ENTRY_SIZE in
  let addr := u64 (pasid_dir_base + index * entry_size) in
  match dma_read_q (guest_mem s) addr with
  | None => (VTD_FAULT VTD_FR_PASID_DIR_ACCESS_ERR, pdire)
  | Some v => (VTD_SUCCESS, v)
  end.

Definition vtd_pe_present (pe : VTDPASIDEntry) : bool :=
  nonzero (Z.land (pe_val pe 0) VTD_PASID_ENTRY_P).

Definition vtd_pe_get_flpt_level (pe : VTDPASIDEntry) : Z :=
  u32 (4 + Z.land (Z.shiftr (pe_val pe 2) 2) VTD_SM_PASID_ENTRY_FLPM).

Definition vtd_get_pe_in_pasid_leaf_table (s : IntelIOMMUState)
    (pasid addr : Z) (pe : VTDPASIDEntry) : vtd_status * VTDPASIDEntry :=
  let index := VTD_PASID_TABLE_INDEX pasid in
  let entry_size := VTD_PASID_ENTRY_SIZE in
  let addr := u64 (addr + index * entry_size) in
  match dma_read_qs (guest_mem s) addr 8 with
  | None => (VTD_FAULT VTD_FR_PASID_TABLE_ACCESS_ERR, pe)
  | Some vs =>
      let pe := {| pe_vals := vs |} in
      if negb (vtd_pe_type_check s pe)
      then (VTD_FAULT VTD_FR_PASID_TABLE_ENTRY_INV, pe)
      else
        let pgtt := u8 (VTD_PE_GET_TYPE pe) in
        if (pgtt =? VTD_SM_PASID_ENTRY_SLT)
           && negb (vtd_is_level_supported s (VTD_PE_GET_LEVEL pe))
        then (VTD_FAULT VTD_FR_PASID_TABLE_ENTRY_INV, pe)
        else if (pgtt =? VTD_SM_PASID_ENTRY_FLT)
                && negb (vtd_pe_get_flpt_level pe =? 4)
        then (VTD_FAULT VTD_FR_PASID_TABLE_ENTRY_INV, pe)
        else (VTD_SUCCESS, pe)
  end.

Definition vtd_get_pe_from_pdire (s : IntelIOMMUState) (pasid pdire : Z)
    (pe : VTDPASIDEntry) : vtd_status * VTDPASIDEntry :=
  let addr := Z.land pdire VTD_PASID_TABLE_BASE_ADDR_MASK in
  vtd_get_pe_in_pasid_leaf_table s pasid addr pe.

(** Get a pasid entry from a pasid table (directory and leaf table)
    with a specified pasid. *)
Definition vtd_get_pe_from_pasid_table (s : IntelIOMMUState)
    (pasid_dir_base pasid : Z) (pe : VTDPASIDEntry)
    : vtd_status * VTDPASIDEntry :=
  match vtd_get_pdire_from_pdir_table s pasid_dir_base pasid pdire_uninit with
  | (VTD_FAULT fr, _) => (VTD_FAULT fr, pe)
  | (VTD_SUCCESS, pdire) =>
      if negb (vtd_pdire_present pdire)
      then (VTD_FAULT VTD_FR_PASID_DIR_ENTRY_P, pe)
      else
        match vtd_get_pe_from_pdire s pasid pdire pe with
        | (VTD_FAULT fr, pe) => (VTD_FAULT fr, pe)
        | (VTD_SUCCESS, pe) =>
            if negb (vtd_pe_present pe)
            then (VTD_FAULT VTD_FR_PASID_ENTRY_P, pe)
            else (VTD_SUCCESS, pe)
        end
  end.

Definition vtd_ce_get_rid2pasid_entry (s : IntelIOMMUState)
    (ce : VTDContextEntry) (pe : VTDPASIDEntry) (pasid : Z)
    : vtd_status * VTDPASIDEntry :=
  let pasid := if pasid =? PCI_NO_PASID then VTD_CE_GET_RID2PASID ce
               else pasid in
  let pasid_dir_base := VTD_CE_GET_PASID_DIR_TABLE ce in
  vtd_get_pe_from_pasid_table s pasid_dir_base pasid pe.

(** The result is the status and the final value of [*pe_fpd_set]. *)
Definition vtd_ce_get_pasid_fpd (s : IntelIOMMUState) (ce : VTDContextEntry)
    (pe_fpd_set : bool) (pasid : Z) : vtd_status * bool :=
  let pasid := if pasid =? PCI_NO_PASID then VTD_CE_GET_RID2PASID ce
               else pasid in
  let pasid_dir_base := VTD_CE_GET_PASID_DIR_TABLE ce in
  match vtd_get_pdire_from_pdir_table s pasid_dir_base pasid pdire_uninit with
  | (VTD_FAULT fr, _) => (VTD_FAULT fr, pe_fpd_set)
  | (VTD_SUCCESS, pdire) =>
      if nonzero (Z.land pdire VTD_PASID_DIR_FPD)
      then (VTD_SUCCESS, true)
      else if negb (vtd_pdire_present pdire)
      then (VTD_FAULT VTD_FR_PASID_DIR_ENTRY_P, pe_fpd_set)
      else
        match vtd_get_pe_from_pdire s pasid pdire pe_uninit with
        | (VTD_FAULT fr, _) => (VTD_FAULT fr, pe_fpd_set)
        | (VTD_SUCCESS, pe) =>
            if nonzero (Z.land (pe_val pe 0) VTD_PASID_ENTRY_FPD)
            then (VTD_SUCCESS, true)
            else (VTD_SUCCESS, pe_fpd_set)
        end
  end.

(** Get the page-table level that hardware should use for the
    second-level page-table walk from the Address Width field of the
    context entry. *)
Definition vtd_ce_get_level (ce : VTDContextEntry) : Z :=
  u32 (2 + Z.land (ce_hi ce) VTD_CONTEXT_ENTRY_AW).

Definition vtd_get_iova_level (s : IntelIOMMUState) (ce : VTDContextEntry)
    (pasid : Z) : Z :=
  if root_scalable s
  then VTD_PE_GET_LEVEL (vtd_ce_get_rid2pasid_entry s ce pe_uninit pasid).2
  else vtd_ce_get_level ce.

Definition vtd_ce_get_agaw (ce : VTDContextEntry) : Z :=
  u32 (30 + Z.land (ce_hi ce) VTD_CONTEXT_ENTRY_AW * 9).

Definition vtd_get_iova_agaw (s : IntelIOMMUState) (ce : VTDContextEntry)
    (pasid : Z) : Z :=
  if root_scalable s
  then
    let pe := (vtd_ce_get_rid2pasid_entry s ce pe_uninit pasid).2 in
    u32 (30 + Z.land (Z.shiftr (pe_val pe 0) 2) VTD_SM_PASID_ENTRY_AW * 9)
  else vtd_ce_get_agaw ce.

Definition vtd_ce_get_type (ce : VTDContextEntry) : Z :=
  u32 (Z.land (ce_lo ce) VTD_CONTEXT_ENTRY_TT).

(** Only for Legacy Mode.  Return true if the check passed. *)
Definition vtd_ce_type_check (s : IntelIOMMUState) (ce : VTDContextEntry)
    : bool :=
  let t := vtd_ce_get_type ce in
  if t =? VTD_CONTEXT_TT_MULTI_LEVEL then true
  else if t =? VTD_CONTEXT_TT_DEV_IOTLB then dt_supported s
  else if t =? VTD_CONTEXT_TT_PASS_THROUGH then pt_supported s
  else false.

(** [aw] is a [uint8_t]. *)
Definition vtd_iova_limit (s : IntelIOMMUState) (ce : VTDContextEntry)
    (aw pasid : Z) : Z :=
  let ce_agaw := vtd_get_iova_agaw s ce pasid in
  shl1_64 (Z.min ce_agaw aw).

(** Return true if the IOVA passes the range check, otherwise false. *)
Definition vtd_iova_range_check (s : IntelIOMMUState) (iova : Z)
    (ce : VTDContextEntry) (aw pasid : Z) : bool :=
  negb (nonzero (Z.land iova (not64 (u64 (vtd_iova_limit s ce aw pasid - 1))))).

Definition vtd_get_iova_pgtbl_base (s : IntelIOMMUState)
    (ce : VTDContextEntry) (pasid : Z) : Z :=
  if root_scalable s
  then
    let pe := (vtd_ce_get_rid2pasid_entry s ce pe_uninit pasid).2 in
    Z.land (pe_val pe 0) VTD_SM_PASID_ENTRY_SLPTPTR
  else vtd_ce_get_slpt_base ce.

Definition vtd_root_entry_rsvd_bits_check (s : IntelIOMMUState)
    (re : VTDRootEntry) : vtd_status :=
  if negb (root_scalable s)
     && (nonzero (re_hi re)
         || nonzero (Z.land (re_lo re) (VTD_ROOT_ENTRY_RSVD (aw_bits s))))
  then VTD_FAULT VTD_FR_ROOT_ENTRY_RSVD
  else if root_scalable s
     && (nonzero (Z.land (re_lo re) (VTD_ROOT_ENTRY_RSVD (aw_bits s)))
         || nonzero (Z.land (re_hi re) (VTD_ROOT_ENTRY_RSVD (aw_bits s))))
  then VTD_FAULT VTD_FR_ROOT_ENTRY_RSVD
  else VTD_SUCCESS.

Definition vtd_context_entry_rsvd_bits_check (s : IntelIOMMUState)
    (ce : VTDContextEntry) : vtd_status :=
  if negb (root_scalable s)
     && (nonzero (Z.land (ce_hi ce) VTD_CONTEXT_ENTRY_RSVD_HI)
         || nonzero (Z.land (ce_lo ce) (VTD_CONTEXT_ENTRY_RSVD_LO (aw_bits s))))
  then VTD_FAULT VTD_FR_CONTEXT_ENTRY_RSVD
  else if root_scalable s
     && (nonzero (Z.land (ce_val0 ce)
                    (VTD_SM_CONTEXT_ENTRY_RSVD_VAL0 (aw_bits s)))
         || nonzero (Z.land (ce_val1 ce) VTD_SM_CONTEXT_ENTRY_RSVD_VAL1)
         || nonzero (ce_val2 ce)
         || nonzero (ce_val3 ce))
  then VTD_FAULT VTD_FR_CONTEXT_ENTRY_RSVD
  else VTD_SUCCESS.

Definition vtd_ce_rid2pasid_check (s : IntelIOMMUState)
    (ce : VTDContextEntry) : vtd_status :=
  (vtd_ce_get_rid2pasid_entry s ce pe_uninit PCI_NO_PASID).1.

(** Map a device to its corresponding domain (context entry);
    [bus_num] and [devfn] are [uint8_t]. *)
Definition vtd_dev_to_context_entry (s : IntelIOMMUState)
    (bus_num devfn : Z) (ce : VTDContextEntry)
    : vtd_status * VTDContextEntry :=
  match vtd_get_root_entry s bus_num re_uninit with
  | (VTD_FAULT fr, _) => (VTD_FAULT fr, ce)
  | (VTD_SUCCESS, re) =>
      if negb (vtd_root_entry_present s re devfn)
      then (VTD_FAULT VTD_FR_ROOT_ENTRY_P, ce)
      else
        match vtd_root_entry_rsvd_bits_check s re with
        | VTD_FAULT fr => (VTD_FAULT fr, ce)
        | VTD_SUCCESS =>
            match vtd_get_context_entry_from_root s re devfn ce with
            | (VTD_FAULT fr, ce) => (VTD_FAULT fr, ce)
            | (VTD_SUCCESS, ce) =>
                if negb (vtd_ce_present ce)
                then (VTD_FAULT VTD_FR_CONTEXT_ENTRY_P, ce)
                else
                  match vtd_context_entry_rsvd_bits_check s ce with
                  | VTD_FAULT fr => (VTD_FAULT fr, ce)
                  | VTD_SUCCESS =>
                      if negb (root_scalable s)
                         && negb (vtd_is_level_supported s (vtd_ce_get_level ce))
                      then (VTD_FAULT VTD_FR_CONTEXT_ENTRY_INV, ce)
                      else if negb (root_scalable s)
                      then
                        if negb (vtd_ce_type_check s ce)
                        then (VTD_FAULT VTD_FR_CONTEXT_ENTRY_INV, ce)
                        else (VTD_SUCCESS, ce)
                      else (vtd_ce_rid2pasid_check s ce, ce)
                  end
            end
        end
  end.

Definition vtd_get_domain_id (s : IntelIOMMUState) (ce : VTDContextEntry)
    (pasid : Z) : Z :=
  if root_scalable s
  then
    let pe := (vtd_ce_get_rid2pasid_entry s ce pe_uninit pasid).2 in
    u16 (VTD_SM_PASID_ENTRY_DID (pe_val pe 1))
  else u16 (VTD_CONTEXT_ENTRY_DID (ce_hi ce)).

Definition vtd_pe_pgtt_is_pt (pe : VTDPASIDEntry) : bool :=
  VTD_PE_GET_TYPE pe =? VTD_SM_PASID_ENTRY_PT.

(** Check if a device is configured to bypass address translation for
    DMA requests. *)
Definition vtd_dev_pt_enabled (s : IntelIOMMUState) (ce : VTDContextEntry)
    (pasid : Z) : bool :=
  if root_scalable s
  then
    match vtd_ce_get_rid2pasid_entry s ce pe_uninit pasid with
    | (VTD_FAULT _, _) => false
    | (VTD_SUCCESS, pe) => vtd_pe_pgtt_is_pt pe
    end
  else vtd_ce_get_type ce =? VTD_CONTEXT_TT_PASS_THROUGH.

(** The result is the status and the final value of [*rid_pasid]. *)
Definition vtd_dev_get_rid2pasid (s : IntelIOMMUState) (bus_num devfn : Z)
    (rid_pasid : Z) : vtd_status * Z :=
  if negb (nonzero (Z.land (ecap s) VTD_ECAP_RPS))
  then (VTD_SUCCESS, 0)
  else
    match vtd_dev_to_context_entry s bus_num devfn ce_uninit with
    | (VTD_SUCCESS, ce) => (VTD_SUCCESS, VTD_CE_GET_RID2PASID ce)
    | (VTD_FAULT fr, _) => (VTD_FAULT fr, rid_pasid)
    end.

Definition vtd_is_interrupt_addr (addr : Z) : bool :=
  (VTD_INTERRUPT_ADDR_FIRST <=? addr) && (addr <=? VTD_INTERRUPT_ADDR_LAST).

End ContextResolver.

(** ** The page-table walkers *)

(** What a walk loop leaves behind: a fault, or the leaf entry and its
    level; in both cases with the current [*reads] and [*writes]. *)
Inductive walk_result :=
  | WalkFault (fr : VTDFaultReason) (reads writes : bool)
  | WalkLeaf (pte level : Z) (reads writes : bool).

(** The [int] result of a walker together with the final values of its
    output parameters. *)
Record walk_out := {
  w_ret : vtd_status;
  w_ptep : Z;
  w_level : Z;
  w_reads : bool;
  w_writes : bool;
}.

Section Walkers.
Context {PH : VTDPagingHeader} {CH : VTDContextHeader}.
Variable pe_uninit : VTDPASIDEntry.
Variable pdire_uninit : Z.

Definition vtd_get_slpte_addr (slpte aw : Z) : Z :=
  Z.land slpte (VTD_SL_PT_BASE_ADDR_MASK aw).

(** Whether the pte indicates the address of the page frame. *)
Definition vtd_is_last_slpte (slpte level : Z) : bool :=
  (level =? VTD_SL_PT_LEVEL)
  || nonzero (Z.land slpte VTD_SL_PT_PAGE_SIZE_MASK).

(** Get the content of a spte located in [base_addr[index]]; a failed
    read yields [(uint64_t)-1]. *)
Definition vtd_get_slpte (s : IntelIOMMUState) (base_addr index : Z)
    : option Z :=
  _ ← assert_ (index <? VTD_SL_PT_ENTRY_NR);
  match dma_read_q (guest_mem s) (u64 (base_addr + index * 8)) with
  | None => Some (u64 (-1))
  | Some slpte => Some slpte
  end.

(** Given an iova and the level of paging structure, return the
    offset of the current level. *)
Definition vtd_iova_level_offset (iova level : Z) : option Z :=
  sh ← vtd_slpt_level_shift level;
  Some (u32 (Z.land (Z.shiftr iova sh)
                    (u64 (shl1_64 VTD_SL_LEVEL_BITS - 1)))).

Definition vtd_slpte_nonzero_rsvd (s : IntelIOMMUState) (slpte level : Z)
    : option bool :=
  _ ← assert_ (level <? VTD_SPTE_RSVD_LEN);
  _ ← assert_ (negb (level =? 0));
  let rsvd_mask :=
    if ((level =? VTD_SL_PD_LEVEL) || (level =? VTD_SL_PDP_LEVEL))
       && nonzero (Z.land slpte VTD_SL_PT_PAGE_SIZE_MASK)
    then nth (Z.to_nat level) (vtd_spte_rsvd_large s) 0
    else nth (Z.to_nat level) (vtd_spte_rsvd s) 0 in
  Some (nonzero (Z.land slpte rsvd_mask)).

(** The [while (true)] loop of [vtd_iova_to_slpte].  The loop variable
    [level] only decreases, and level 0 trips the assertion of
    [vtd_slpt_level_shift], so the loop is a recursion on [level]. *)
Fixpoint vtd_iova_to_slpte_loop (s : IntelIOMMUState) (ce : VTDContextEntry)
    (iova : Z) (is_write : bool) (aw_bits pasid : Z)
    (level : nat) (addr : Z) (reads writes : bool) : option walk_result :=
  let access_right_check := if is_write then VTD_SL_W else VTD_SL_R in
  match level with
  | O => None
  | S level' =>
      let lv := Z.of_nat level in
      offset ← vtd_iova_level_offset iova lv;
      slpte ← vtd_get_slpte s addr offset;
      if slpte =? u64 (-1)
      then
        if lv =? vtd_get_iova_level pe_uninit pdire_uninit s ce pasid
        then Some (WalkFault VTD_FR_CONTEXT_ENTRY_INV reads writes)
        else Some (WalkFault VTD_FR_PAGING_ENTRY_INV reads writes)
      else
        let reads := reads && nonzero (Z.land slpte VTD_SL_R) in
        let writes := writes && nonzero (Z.land slpte VTD_SL_W) in
        if negb (nonzero (Z.land slpte access_right_check))
        then Some (WalkFault (if is_write then VTD_FR_WRITE else VTD_FR_READ)
                     reads writes)
        else
          rsvd ← vtd_slpte_nonzero_rsvd s slpte lv;
          if rsvd : bool
          then Some (WalkFault VTD_FR_PAGING_ENTRY_RSVD reads writes)
          else if vtd_is_last_slpte slpte lv
          then Some (WalkLeaf slpte lv reads writes)
          else vtd_iova_to_slpte_loop s ce iova is_write aw_bits pasid
                 level' (vtd_get_slpte_addr slpte aw_bits) reads writes
  end.

(** The check that follows the loop: translations that land in the
    interrupt range are blocked. *)
Definition vtd_slpte_interrupt_check (s : IntelIOMMUState)
    (slpte level aw_bits : Z) : option vtd_status :=
  let xlat := vtd_get_slpte_addr slpte aw_bits in
  m ← vtd_slpt_level_page_mask level;
  let size := u64 (not64 m + 1) in
  if (xlat >? VTD_INTERRUPT_ADDR_LAST)
     || (u64 (xlat + size - 1) <? VTD_INTERRUPT_ADDR_FIRST)
  then Some VTD_SUCCESS
  else Some (VTD_FAULT (if scalable_mode s then VTD_FR_SM_INTERRUPT_ADDR
                        else VTD_FR_INTERRUPT_ADDR)).

(** Given the [iova], get the relevant [slptep]; [slpte_level] is the
    last level of the translation.  The four arguments before
    [aw_bits] are the values of the output parameters on entry. *)
Definition vtd_iova_to_slpte (s : IntelIOMMUState) (ce : VTDContextEntry)
    (iova : Z) (is_write : bool) (slptep slpte_level : Z)
    (reads writes : bool) (aw_bits pasid : Z) : option walk_out :=
  let addr := vtd_get_iova_pgtbl_base pe_uninit pdire_uninit s ce pasid in
  let level := vtd_get_iova_level pe_uninit pdire_uninit s ce pasid in
  if negb (vtd_iova_range_check pe_uninit pdire_uninit s iova ce aw_bits pasid)
  then Some {| w_ret := VTD_FAULT VTD_FR_ADDR_BEYOND_MGAW; w_ptep := slptep;
               w_level := slpte_level; w_reads := reads; w_writes := writes |}
  else
    r ← vtd_iova_to_slpte_loop s ce iova is_write aw_bits pasid
          (Z.to_nat level) addr reads writes;
    match r with
    | WalkFault fr reads writes =>
        Some {| w_ret := VTD_FAULT fr; w_ptep := slptep;
                w_level := slpte_level; w_reads := reads;
                w_writes := writes |}
    | WalkLeaf slpte level reads writes =>
        st ← vtd_slpte_interrupt_check s slpte level aw_bits;
        Some {| w_ret := st; w_ptep := slpte; w_level := level;
                w_reads := reads; w_writes := writes |}
    end.

(** *** First-stage walk *)

(** The shift of an address for a certain level of paging structure. *)
Definition vtd_flpt_level_shift (level : Z) : option Z :=
  _ ← assert_ (negb (level =? 0));
  Some (u32 (VTD_PAGE_SHIFT_4K + u32 (u32 (level - 1) * VTD_FL_LEVEL_BITS))).

Definition vtd_flpt_level_page_mask (level : Z) : option Z :=
  sh ← vtd_flpt_level_shift level;
  Some (not64 (u64 (shl1_64 sh - 1))).

Definition vtd_iova_fl_level_offset (iova level : Z) : option Z :=
  sh ← vtd_flpt_level_shift level;
  Some (u32 (Z.land (Z.shiftr iova sh)
                    (u64 (shl1_64 VTD_FL_LEVEL_BITS - 1)))).

(** Get the content of a flpte located in [base_addr[index]]. *)
Definition vtd_get_flpte (s : IntelIOMMUState) (base_addr index : Z)
    : option Z :=
  _ ← assert_ (index <? VTD_FL_PT_ENTRY_NR);
  match dma_read_q (guest_mem s) (u64 (base_addr + index * 8)) with
  | None => Some (u64 (-1))
  | Some flpte => Some flpte
  end.

Definition vtd_flpte_present (flpte : Z) : bool :=
  nonzero (Z.land flpte 1).

(** Whether the pte indicates the address of the page frame. *)
Definition vtd_is_last_flpte (flpte level : Z) : bool :=
  (level =? VTD_FL_PT_LEVEL)
  || nonzero (Z.land flpte VTD_FL_PT_PAGE_SIZE_MASK).

Definition vtd_get_flpte_addr (flpte aw : Z) : Z :=
  Z.land flpte (VTD_FL_PT_BASE_ADDR_MASK aw).

(** The [while (true)] loop of [vtd_iova_to_flpte], a recursion on the
    decreasing [level] as for the second stage. *)
Fixpoint vtd_iova_to_flpte_loop (s : IntelIOMMUState) (pe : VTDPASIDEntry)
    (iova : Z) (is_write : bool) (aw_bits : Z)
    (level : nat) (addr : Z) (reads writes : bool) : option walk_result :=
  match level with
  | O => None
  | S level' =>
      let lv := Z.of_nat level in
      offset ← vtd_iova_fl_level_offset iova lv;
      flpte ← vtd_get_flpte s addr offset;
      if flpte =? u64 (-1)
      then
        if lv =? VTD_PE_GET_LEVEL pe
        then Some (WalkFault VTD_FR_CONTEXT_ENTRY_INV reads writes)
        else Some (WalkFault VTD_FR_PAGING_ENTRY_INV reads writes)
      else if negb (vtd_flpte_present flpte)
      then Some (WalkFault VTD_FR_PAGING_ENTRY_INV false false)
      else
        let reads := true in
        let writes := writes && nonzero (Z.land flpte VTD_FL_RW_MASK) in
        if is_write && negb (nonzero (Z.land flpte VTD_FL_RW_MASK))
        then Some (WalkFault VTD_FR_WRITE reads writes)
        else if vtd_is_last_flpte flpte lv
        then Some (WalkLeaf flpte lv reads writes)
        else vtd_iova_to_flpte_loop s pe iova is_write aw_bits
               level' (vtd_get_flpte_addr flpte aw_bits) reads writes
  end.

(** Given the [iova], get the relevant [flptep]; [flpte_level] is the
    last level of the translation. *)
Definition vtd_iova_to_flpte (s : IntelIOMMUState) (pe : VTDPASIDEntry)
    (iova : Z) (is_write : bool) (flptep flpte_level : Z)
    (reads writes : bool) (aw_bits : Z) : option walk_out :=
  let addr := vtd_pe_get_flpt_base pe in
  let level := vtd_pe_get_flpt_level pe in
  r ← vtd_iova_to_flpte_loop s pe iova is_write aw_bits
        (Z.to_nat level) addr reads writes;
  match r with
  | WalkFault fr reads writes =>
      Some {| w_ret := VTD_FAULT fr; w_ptep := flptep;
              w_level := flpte_level; w_reads := reads;
              w_writes := writes |}
  | WalkLeaf flpte level reads writes =>
      Some {| w_ret := VTD_SUCCESS; w_ptep := flpte; w_level := level;
              w_reads := reads; w_writes := writes |}
  end.

End Walkers.

(** ** The single-access translation entry points *)

(** How the context-entry step of [vtd_do_iommu_translate] ends: with
    [goto error] after reporting a fault, or with the context entry to
    use and the value of [is_fpd_set]. *)
Inductive ce_fetch :=
  | CEError (s : IntelIOMMUState)
  | CEReady (ce : VTDContextEntry) (is_fpd_set : bool) (s : IntelIOMMUState).

Section Translate.
Context {RH : VTDRegHeader} {PH : VTDPagingHeader} {CH : VTDContextHeader}.
Variable ce_uninit : VTDContextEntry.
Variable pe_uninit : VTDPASIDEntry.
Variable pdire_uninit : Z.
Variable re_uninit : VTDRootEntry.
(** Indeterminate initial value of a scalar local. *)
Variable z_uninit : Z.
(** The string that [snprintf(key, 64,
    "rsv%010dsid%06dpasid%010dgfn%017lldlevel%01d", 0, source_id, pasid,
    gfn, level)] of the C library leaves in [key], as a function of
    [gfn], [pasid], [level] and [source_id]. *)
Variable vtd_get_piotlb_key : Z -> Z -> Z -> Z -> string.

Local Abbreviation vtd_dev_to_context_entry' :=
  (vtd_dev_to_context_entry pe_uninit pdire_uninit re_uninit).
Local Abbreviation vtd_ce_get_pasid_fpd' := (vtd_ce_get_pasid_fpd pe_uninit pdire_uninit).
Local Abbreviation vtd_ce_get_rid2pasid_entry' :=
  (vtd_ce_get_rid2pasid_entry pdire_uninit).

Definition zero_entry : IOMMUTLBEntry :=
  {| iova := 0; translated_addr := 0; addr_mask := 0; perm := IOMMU_NONE |}.

(** The entry of a pass-through translation. *)
Definition pt_entry (addr : Z) : IOMMUTLBEntry :=
  {| iova := Z.land addr VTD_PAGE_MASK_4K;
     translated_addr := Z.land addr VTD_PAGE_MASK_4K;
     addr_mask := not64 VTD_PAGE_MASK_4K;
     perm := IOMMU_RW |}.

(** [vtd_pt_enable_fast_path] switches the memory regions of the
    address space and refreshes [vtd_as_cache]; neither is part of the
    modelled state. *)
Definition vtd_pt_enable_fast_path (s : IntelIOMMUState) (source_id : Z)
    : IntelIOMMUState := s.

(** [cc_entry->context_entry = ce; cc_entry->context_cache_gen =
    s->context_cache_gen] on the address space stored under [k]. *)
Definition update_context_cache (s : IntelIOMMUState) (k : vtd_as_key)
    (vtd_as : VTDAddressSpace) (ce : VTDContextEntry) : IntelIOMMUState :=
  let vtd_as' :=
    {| as_bus := as_bus vtd_as; as_devfn := as_devfn vtd_as;
       as_pasid := as_pasid vtd_as;
       context_cache_entry :=
         {| cc_context_entry := ce;
            cc_context_cache_gen := context_cache_gen s |} |} in
  set_vtd_address_spaces (<[k := vtd_as']> (vtd_address_spaces s)) s.

(** "Try to fetch context-entry from cache first": the step of
    [vtd_do_iommu_translate] between the first IOTLB lookup and the
    pass-through test. *)
Definition vtd_translate_fetch_ce (s : IntelIOMMUState) (k : vtd_as_key)
    (vtd_as : VTDAddressSpace) (bus_num devfn pasid source_id addr : Z)
    (is_write : bool) : option ce_fetch :=
  let cc_entry := context_cache_entry vtd_as in
  if cc_context_cache_gen cc_entry =? context_cache_gen s
  then
    let ce := cc_context_entry cc_entry in
    let is_fpd_set := nonzero (Z.land (ce_lo ce) VTD_CONTEXT_ENTRY_FPD) in
    if negb is_fpd_set && root_scalable s
    then
      match vtd_ce_get_pasid_fpd' s ce is_fpd_set pasid with
      | (VTD_FAULT fr, is_fpd_set) =>
          s' ← vtd_report_fault s fr is_fpd_set source_id addr is_write
                 false 0;
          Some (CEError s')
      | (VTD_SUCCESS, is_fpd_set) => Some (CEReady ce is_fpd_set s)
      end
    else Some (CEReady ce is_fpd_set s)
  else
    let '(ret_fr, ce) := vtd_dev_to_context_entry' s bus_num devfn ce_uninit in
    let is_fpd_set := nonzero (Z.land (ce_lo ce) VTD_CONTEXT_ENTRY_FPD) in
    let '(ret_fr, is_fpd_set) :=
      if negb (is_fault ret_fr) && negb is_fpd_set && root_scalable s
      then vtd_ce_get_pasid_fpd' s ce is_fpd_set pasid
      else (ret_fr, is_fpd_set) in
    match ret_fr with
    | VTD_FAULT fr =>
        s' ← vtd_report_fault s fr is_fpd_set source_id addr is_write
               false 0;
        Some (CEError s')
    | VTD_SUCCESS =>
        Some (CEReady ce is_fpd_set (update_context_cache s k vtd_as ce))
    end.

(** The [out:] exit of [vtd_do_iommu_translate]. *)
Definition translate_out (s : IntelIOMMUState) (addr slpte page_mask : Z)
    (access_flags : IOMMUAccessFlags) : IOMMUTLBEntry :=
  {| iova := Z.land addr page_mask;
     translated_addr :=
       Z.land (vtd_get_slpte_addr slpte (aw_bits s)) page_mask;
     addr_mask := not64 page_mask;
     perm := access_flags |}.

(** Map a device to its context entry, then do a paging-structures walk
    to do an iommu translation.  [k] designates the address-space
    object [vtd_as]; the result is the returned flag, the final
    [*entry] and the final state. *)
Definition vtd_do_iommu_translate (s : IntelIOMMUState) (k : vtd_as_key)
    (bus devfn addr : Z) (is_write : bool) (entry : IOMMUTLBEntry)
    : option (bool * IOMMUTLBEntry * IntelIOMMUState) :=
  vtd_as ← vtd_address_spaces s !! k;
  let bus_num := u8 (pci_bus_num bus) in
  let pasid := as_pasid vtd_as in
  let source_id := u16 (PCI_BUILD_BDF bus_num devfn) in
  let rid2pasid := (pasid =? PCI_NO_PASID) && root_scalable s in
  _ ← assert_ (negb (vtd_is_interrupt_addr addr));
  hit ← (if negb rid2pasid then vtd_lookup_iotlb s source_id pasid addr
         else Some None);
  match hit with
  | Some iotlb_entry =>
      Some (true,
            translate_out s addr (iotlb_pte iotlb_entry)
              (iotlb_mask iotlb_entry) (iotlb_access_flags iotlb_entry),
            s)
  | None =>
      f ← vtd_translate_fetch_ce s k vtd_as bus_num devfn pasid source_id
            addr is_write;
      match f with
      | CEError s => Some (false, zero_entry, s)
      | CEReady ce is_fpd_set s =>
          let pasid := if rid2pasid then VTD_CE_GET_RID2PASID ce else pasid in
          if vtd_dev_pt_enabled pe_uninit pdire_uninit s ce pasid
          then Some (true, pt_entry addr, vtd_pt_enable_fast_path s source_id)
          else
            hit ← (if rid2pasid then vtd_lookup_iotlb s source_id pasid addr
                   else Some None);
            match hit with
            | Some iotlb_entry =>
                Some (true,
                      translate_out s addr (iotlb_pte iotlb_entry)
                        (iotlb_mask iotlb_entry)
                        (iotlb_access_flags iotlb_entry),
                      s)
            | None =>
                w ← vtd_iova_to_slpte pe_uninit pdire_uninit s ce addr
                      is_write z_uninit z_uninit true true (aw_bits s) pasid;
                match w_ret w with
                | VTD_FAULT fr =>
                    s' ← vtd_report_fault s fr is_fpd_set source_id addr
                           is_write (negb (pasid =? PCI_NO_PASID)) pasid;
                    Some (false, zero_entry, s')
                | VTD_SUCCESS =>
                    page_mask ← vtd_slpt_level_page_mask (w_level w);
                    let access_flags :=
                      IOMMU_ACCESS_FLAG (w_reads w) (w_writes w) in
                    s' ← vtd_update_iotlb s source_id
                           (vtd_get_domain_id pe_uninit pdire_uninit s ce pasid)
                           addr (w_ptep w) access_flags (w_level w) pasid;
                    Some (true,
                          translate_out s' addr (w_ptep w) page_mask
                            access_flags,
                          s')
                end
            end
      end
  end.

(** *** First-stage entry point *)

Definition vtd_get_piotlb_gfn (addr level : Z) : option Z :=
  m ← vtd_flpt_level_page_mask level;
  Some (Z.shiftr (Z.land addr m) VTD_PAGE_SHIFT_4K).

Fixpoint vtd_lookup_piotlb_loop (s : IntelIOMMUState)
    (pasid addr source_id level : Z) (n : nat)
    : option (option VTDIOTLBEntry) :=
  match n with
  | O => Some None
  | S n' =>
      gfn ← vtd_get_piotlb_gfn addr level;
      match p_iotlb s !! vtd_get_piotlb_key gfn pasid level source_id with
      | Some entry => Some (Some entry)
      | None => vtd_lookup_piotlb_loop s pasid addr source_id (level + 1) n'
      end
  end.

Definition vtd_lookup_piotlb (s : IntelIOMMUState) (pasid addr source_id : Z)
    : option (option VTDIOTLBEntry) :=
  vtd_lookup_piotlb_loop s pasid addr source_id VTD_SL_PT_LEVEL
    (Z.to_nat (VTD_SL_PML4_LEVEL - VTD_SL_PT_LEVEL)).

Definition vtd_reset_piotlb (s : IntelIOMMUState) : IntelIOMMUState :=
  set_p_iotlb ∅ s.

Definition vtd_update_piotlb (s : IntelIOMMUState)
    (pasid domain_id addr flpte : Z) (access_flags : IOMMUAccessFlags)
    (level source_id : Z) : option IntelIOMMUState :=
  gfn ← vtd_get_piotlb_gfn addr level;
  let s1 :=
    if Z.of_nat (size (p_iotlb s)) >=? VTD_PASID_IOTLB_MAX_SIZE
    then vtd_reset_piotlb s else s in
  mask ← vtd_flpt_level_page_mask level;
  let entry :=
    {| iotlb_gfn := gfn; iotlb_domain_id := domain_id; iotlb_pte := flpte;
       iotlb_access_flags := access_flags; iotlb_mask := mask;
       iotlb_pasid := pasid |} in
  let key := vtd_get_piotlb_key gfn pasid level source_id in
  Some (set_p_iotlb (<[key := entry]> (p_iotlb s1)) s1).

(** The [out:] exit of [vtd_do_iommu_fl_translate]. *)
Definition fl_translate_out (s : IntelIOMMUState) (addr flpte page_mask : Z)
    (access_flags : IOMMUAccessFlags) : IOMMUTLBEntry :=
  {| iova := Z.land addr page_mask;
     translated_addr :=
       Z.land (vtd_get_flpte_addr flpte (aw_bits s)) page_mask;
     addr_mask := not64 page_mask;
     perm := access_flags |}.

(** Map a device to its pasid entry, then do a paging-structures walk
    to do an iommu translation. *)
Definition vtd_do_iommu_fl_translate (s : IntelIOMMUState) (k : vtd_as_key)
    (bus devfn addr : Z) (is_write : bool) (entry : IOMMUTLBEntry)
    : option (bool * IOMMUTLBEntry * IntelIOMMUState) :=
  vtd_as ← vtd_address_spaces s !! k;
  let bus_num := u8 (pci_bus_num bus) in
  let source_id := u16 (PCI_BUILD_BDF bus_num devfn) in
  _ ← assert_ (negb (vtd_is_interrupt_addr addr));
  match vtd_dev_to_context_entry' s (u8 (pci_bus_num bus)) devfn ce_uninit with
  | (VTD_FAULT _, _) => Some (false, entry, s)
  | (VTD_SUCCESS, ce) =>
      match vtd_dev_get_rid2pasid ce_uninit pe_uninit pdire_uninit re_uninit
              s (u8 (pci_bus_num bus)) devfn z_uninit with
      | (VTD_FAULT _, _) => Some (false, entry, s)
      | (VTD_SUCCESS, pasid) =>
          hit ← vtd_lookup_piotlb s pasid addr source_id;
          match hit with
          | Some piotlb_entry =>
              Some (true,
                    fl_translate_out s addr (iotlb_pte piotlb_entry)
                      (iotlb_mask piotlb_entry)
                      (iotlb_access_flags piotlb_entry),
                    s)
          | None =>
              let '(ret, pe) :=
                vtd_ce_get_rid2pasid_entry' s ce pe_uninit PCI_NO_PASID in
              let is_fpd_set :=
                nonzero (Z.land (pe_val pe 0) VTD_PASID_ENTRY_FPD) in
              match ret with
              | VTD_FAULT fr =>
                  s' ← vtd_report_fault s fr is_fpd_set source_id addr
                         is_write false PCI_NO_PASID;
                  Some (false, zero_entry, s')
              | VTD_SUCCESS =>
                  if VTD_PE_GET_TYPE pe =? VTD_SM_PASID_ENTRY_PT
                  then Some (true, pt_entry addr, s)
                  else
                    w ← vtd_iova_to_flpte s pe addr is_write z_uninit
                          z_uninit true true (aw_bits s);
                    match w_ret w with
                    | VTD_FAULT fr =>
                        s' ← vtd_report_fault s fr is_fpd_set source_id addr
                               is_write false PCI_NO_PASID;
                        Some (false, zero_entry, s')
                    | VTD_SUCCESS =>
                        page_mask ← vtd_flpt_level_page_mask (w_level w);
                        let access_flags :=
                          IOMMU_ACCESS_FLAG (w_reads w) (w_writes w) in
                        s' ← vtd_update_piotlb s pasid
                               (vtd_pe_get_domain_id pe) addr (w_ptep w)
                               access_flags (w_level w) source_id;
                        Some (true,
                              fl_translate_out s' addr (w_ptep w) page_mask
                                access_flags,
                              s')
                    end
              end
          end
      end
  end.

(** [vtd_iommu_translate], the [translate] callback of the IOMMU
    memory region.  The C function returns the entry only; the flag of
    the result tells the exits apart: it is false on the two exits
    that report "detected translation failure". *)
Definition vtd_iommu_translate (s : IntelIOMMUState) (k : vtd_as_key)
    (addr : Z) (flag : IOMMUAccessFlags)
    : option (bool * IOMMUTLBEntry * IntelIOMMUState) :=
  vtd_as ← vtd_address_spaces s !! k;
  let iotlb := zero_entry in
  if dmar_enabled s
  then
    if root_scalable s
    then
      let '(_, ce) :=
        vtd_dev_to_context_entry' s (u8 (pci_bus_num (as_bus vtd_as)))
          (as_devfn vtd_as) ce_uninit in
      match vtd_ce_get_rid2pasid_entry' s ce pe_uninit PCI_NO_PASID with
      | (VTD_FAULT _, _) => Some (false, iotlb, s)
      | (VTD_SUCCESS, pe) =>
          if VTD_PE_GET_TYPE pe =? VTD_SM_PASID_ENTRY_FLT
          then vtd_do_iommu_fl_translate s k (as_bus vtd_as)
                 (as_devfn vtd_as) addr (flag_has_wo flag) iotlb
          else vtd_do_iommu_translate s k (as_bus vtd_as)
                 (as_devfn vtd_as) addr (flag_has_wo flag) iotlb
      end
    else vtd_do_iommu_translate s k (as_bus vtd_as) (as_devfn vtd_as)
           addr (flag_has_wo flag) iotlb
  else Some (true, pt_entry addr, s).

(** ** Context-cache invalidation *)

(** Reset all the gen of [VTDAddressSpace] to zero and set the gen of
    [IntelIOMMUState] to 1. *)
Definition vtd_reset_context_cache_locked (s : IntelIOMMUState)
    : IntelIOMMUState :=
  let clear (vtd_as : VTDAddressSpace) :=
    {| as_bus := as_bus vtd_as; as_devfn := as_devfn vtd_as;
       as_pasid := as_pasid vtd_as;
       context_cache_entry :=
         {| cc_context_entry := cc_context_entry (context_cache_entry vtd_as);
            cc_context_cache_gen := 0 |} |} in
  set_context_cache_gen 1
    (set_vtd_address_spaces (clear <$> vtd_address_spaces s) s).

(** What [vtd_context_global_invalidate] does after releasing the
    lock: [vtd_address_space_refresh_all], [vtd_iommu_replay_all] and
    [vtd_pasid_cache_sync] notify the mapping observers and the host
    pass-through path. *)
Variable vtd_context_global_resync : IntelIOMMUState -> IntelIOMMUState.

(** [context_cache_gen] is a [uint32_t]. *)
Definition vtd_context_global_invalidate (s : IntelIOMMUState)
    : IntelIOMMUState :=
  let s1 := set_context_cache_gen (u32 (context_cache_gen s + 1)) s in
  let s2 :=
    if context_cache_gen s1 =? VTD_CONTEXT_CACHE_GEN_MAX
    then vtd_reset_context_cache_locked s1 else s1 in
  vtd_context_global_resync s2.

End Translate.

(** ** The invalidation queue processor *)

(** Constants of the absent header used by the queue processor. *)
Class VTDQueueHeader := {
  VTD_INV_DESC_TYPE : Z;
  VTD_INV_DESC_CC : Z;
  VTD_INV_DESC_IOTLB : Z;
  VTD_INV_DESC_PC : Z;
  VTD_INV_DESC_PIOTLB : Z;
  VTD_INV_DESC_WAIT : Z;
  VTD_INV_DESC_IEC : Z;
  VTD_INV_DESC_DEV_PIOTLB : Z;
  VTD_INV_DESC_DEVICE : Z;
  VTD_INV_DESC_NONE : Z;
  VTD_IQH_QH_SHIFT_4 : Z;
  VTD_IQH_QH_SHIFT_5 : Z;
  VTD_IQH_QH_MASK : Z;
  VTD_IQT_QT : bool -> Z -> Z;
  VTD_IQT_QT_256_RSV_BIT : Z;
}.

(** How a run of the drain loop ends: it returns a state, an assertion
    of the device model fails, or the fuel given to the model of the
    loop is used up. *)
Inductive outcome (A : Type) :=
  | Finished (a : A)
  | Aborted
  | OutOfFuel.
Arguments Finished {A} a.
Arguments Aborted {A}.
Arguments OutOfFuel {A}.

(** The per-type descriptor handlers [vtd_process_context_cache_desc],
    [vtd_process_iotlb_desc], [vtd_process_pasid_desc],
    [vtd_process_piotlb_desc], [vtd_process_wait_desc],
    [vtd_process_inv_iec_desc], [vtd_process_device_piotlb_desc] and
    [vtd_process_device_iotlb_desc]: each returns its flag and the new
    state, or aborts on a failed assertion. *)
Record VTDDescHandlers := {
  vtd_process_context_cache_desc :
    IntelIOMMUState -> VTDInvDesc -> option (bool * IntelIOMMUState);
  vtd_process_iotlb_desc :
    IntelIOMMUState -> VTDInvDesc -> option (bool * IntelIOMMUState);
  vtd_process_pasid_desc :
    IntelIOMMUState -> VTDInvDesc -> option (bool * IntelIOMMUState);
  vtd_process_piotlb_desc :
    IntelIOMMUState -> VTDInvDesc -> option (bool * IntelIOMMUState);
  vtd_process_wait_desc :
    IntelIOMMUState -> VTDInvDesc -> option (bool * IntelIOMMUState);
  vtd_process_inv_iec_desc :
    IntelIOMMUState -> VTDInvDesc -> option (bool * IntelIOMMUState);
  vtd_process_device_piotlb_desc :
    IntelIOMMUState -> VTDInvDesc -> option (bool * IntelIOMMUState);
  vtd_process_device_iotlb_desc :
    IntelIOMMUState -> VTDInvDesc -> option (bool * IntelIOMMUState);
}.

Section InvQueue.
Context {RH : VTDRegHeader} {QH : VTDQueueHeader}.
Variable handlers : VTDDescHandlers.
Variable desc_uninit : VTDInvDesc.

(** Fetch an Invalidation Descriptor from the Invalidation Queue. *)
Definition vtd_get_inv_desc (s : IntelIOMMUState) (inv_desc : VTDInvDesc)
    : bool * VTDInvDesc :=
  let base_addr := iq s in
  let offset := iq_head s in
  let dw := if iq_dw s then 32 else 16 in
  let addr := u64 (base_addr + u32 (offset * dw)) in
  match dma_read_qs (guest_mem s) addr (Z.to_nat (dw / 8)) with
  | None => (false, inv_desc)
  | Some vs =>
      let v i old := match vs !! i with Some x => x | None => old end in
      (true,
       {| desc_val0 := v 0%nat (desc_val0 inv_desc);
          desc_val1 := v 1%nat (desc_val1 inv_desc);
          desc_val2 := v 2%nat (desc_val2 inv_desc);
          desc_val3 := v 3%nat (desc_val3 inv_desc) |})
  end.

(** The [switch (desc_type)] of [vtd_process_inv_desc]; the default
    case is an unknown type. *)
Definition vtd_dispatch_inv_desc (s : IntelIOMMUState) (desc_type : Z)
    (inv_desc : VTDInvDesc) : option (bool * IntelIOMMUState) :=
  if desc_type =? VTD_INV_DESC_CC
  then vtd_process_context_cache_desc handlers s inv_desc
  else if desc_type =? VTD_INV_DESC_IOTLB
  then vtd_process_iotlb_desc handlers s inv_desc
  else if desc_type =? VTD_INV_DESC_PC
  then vtd_process_pasid_desc handlers s inv_desc
  else if desc_type =? VTD_INV_DESC_PIOTLB
  then vtd_process_piotlb_desc handlers s inv_desc
  else if desc_type =? VTD_INV_DESC_WAIT
  then vtd_process_wait_desc handlers s inv_desc
  else if desc_type =? VTD_INV_DESC_IEC
  then vtd_process_inv_iec_desc handlers s inv_desc
  else if desc_type =? VTD_INV_DESC_DEV_PIOTLB
  then vtd_process_device_piotlb_desc handlers s inv_desc
  else if desc_type =? VTD_INV_DESC_DEVICE
  then vtd_process_device_iotlb_desc handlers s inv_desc
  else Some (false, s).

(** [s->iq_head++] on the [uint16_t] head, then the wrap at [iq_size]. *)
Definition vtd_advance_iq_head (s : IntelIOMMUState) : IntelIOMMUState :=
  let h := u16 (iq_head s + 1) in
  set_iq_head (if h =? iq_size s then 0 else h) s.

Definition vtd_process_inv_desc (s : IntelIOMMUState)
    : option (bool * IntelIOMMUState) :=
  match vtd_get_inv_desc s desc_uninit with
  | (false, _) => Some (false, set_iq_last_desc_type VTD_INV_DESC_NONE s)
  | (true, inv_desc) =>
      let desc_type := u8 (Z.land (desc_lo inv_desc) VTD_INV_DESC_TYPE) in
      let s := set_iq_last_desc_type desc_type s in
      r ← vtd_dispatch_inv_desc s desc_type inv_desc;
      match r with
      | (false, s) => Some (false, s)
      | (true, s) => Some (true, vtd_advance_iq_head s)
      end
  end.

(** "Must update the IQH_REG in time". *)
Definition vtd_persist_iq_head (s : IntelIOMMUState) (qi_shift : Z)
    : IntelIOMMUState :=
  vtd_set_quad_raw s DMAR_IQH_REG
    (Z.land (u64 (Z.shiftl (iq_head s) qi_shift)) VTD_IQH_QH_MASK).

(** The [while (s->iq_head != s->iq_tail)] loop of
    [vtd_fetch_inv_desc]. *)
Fixpoint vtd_fetch_inv_desc_loop (fuel : nat) (qi_shift : Z)
    (s : IntelIOMMUState) : outcome IntelIOMMUState :=
  match fuel with
  | O => OutOfFuel
  | S fuel' =>
      if iq_head s =? iq_tail s then Finished s
      else
        match vtd_process_inv_desc s with
        | None => Aborted
        | Some (false, s1) =>
            match vtd_handle_inv_queue_error s1 with
            | Some s2 => Finished s2
            | None => Aborted
            end
        | Some (true, s1) =>
            vtd_fetch_inv_desc_loop fuel' qi_shift
              (vtd_persist_iq_head s1 qi_shift)
        end
  end.

(** Try to fetch and process more Invalidation Descriptors. *)
Definition vtd_fetch_inv_desc (fuel : nat) (s : IntelIOMMUState)
    : outcome IntelIOMMUState :=
  let qi_shift := if iq_dw s then VTD_IQH_QH_SHIFT_5 else VTD_IQH_QH_SHIFT_4 in
  if iq_tail s >=? iq_size s
  then
    match vtd_handle_inv_queue_error s with
    | Some s' => Finished s'
    | None => Aborted
    end
  else vtd_fetch_inv_desc_loop fuel qi_shift s.

(** Handle write to the Invalidation Queue Tail Register; [iq_tail] is
    a [uint16_t]. *)
Definition vtd_handle_iqt_write (fuel : nat) (s : IntelIOMMUState)
    : outcome IntelIOMMUState :=
  let val := vtd_get_quad_raw s DMAR_IQT_REG in
  if iq_dw s && nonzero (Z.land val VTD_IQT_QT_256_RSV_BIT)
  then Finished s
  else
    let s := set_iq_tail (u16 (VTD_IQT_QT (iq_dw s) val)) s in
    if qi_enabled s
       && negb (nonzero (Z.land (vtd_get_long_raw s DMAR_FSTS_REG)
                                VTD_FSTS_IQE))
    then vtd_fetch_inv_desc fuel s
    else Finished s.

End InvQueue.

(** ** Well-formedness of the header constants

    What the proofs use of the layout that the absent header defines:
    the registers lie inside [csr] and do not overlap, and the flag
    bits are distinct bits of their registers. *)

Class VTDRegHeaderOK (RH : VTDRegHeader) : Prop := {
  frcd_nr_range : 0 < DMAR_FRCD_REG_NR <= 2 ^ 16;
  frcd_regs_fit :
    0 <= DMAR_FRCD_REG_OFFSET /\
    DMAR_FRCD_REG_OFFSET + 16 * DMAR_FRCD_REG_NR <= DMAR_REG_SIZE /\
    DMAR_REG_SIZE < 2 ^ 32;
  fsts_frcd_disjoint :
    DMAR_FSTS_REG + 4 <= DMAR_FRCD_REG_OFFSET \/
    DMAR_FRCD_REG_OFFSET + 16 * DMAR_FRCD_REG_NR <= DMAR_FSTS_REG;
  fectl_frcd_disjoint :
    DMAR_FECTL_REG + 4 <= DMAR_FRCD_REG_OFFSET \/
    DMAR_FRCD_REG_OFFSET + 16 * DMAR_FRCD_REG_NR <= DMAR_FECTL_REG;
  fsts_fectl_disjoint :
    DMAR_FSTS_REG + 4 <= DMAR_FECTL_REG \/
    DMAR_FECTL_REG + 4 <= DMAR_FSTS_REG;
  iqh_fsts_disjoint :
    DMAR_IQH_REG + 8 <= DMAR_FSTS_REG \/ DMAR_FSTS_REG + 4 <= DMAR_IQH_REG;
  iqh_fectl_disjoint :
    DMAR_IQH_REG + 8 <= DMAR_FECTL_REG \/ DMAR_FECTL_REG + 4 <= DMAR_IQH_REG;
  fe_regs_in_csr :
    DMAR_FEDATA_REG < DMAR_REG_SIZE /\ DMAR_FEADDR_REG < DMAR_REG_SIZE;
  fsts_pfo_bit : 0 < VTD_FSTS_PFO < 2 ^ 32;
  fsts_ppf_bit : 0 <= VTD_FSTS_PPF < 2 ^ 32;
  fsts_iqe_bit : 0 < VTD_FSTS_IQE < 2 ^ 32;
  fsts_ppf_not_pfo : Z.land VTD_FSTS_PPF VTD_FSTS_PFO = 0;
  fsts_fri_not_pfo : forall x, Z.land (VTD_FSTS_FRI x) VTD_FSTS_PFO = 0;
  frcd_f_bit : 0 < VTD_FRCD_F < 2 ^ 64;
  frcd_sid_mask_range : 0 <= VTD_FRCD_SID_MASK < 2 ^ 64;
  frcd_f_not_sid : Z.land VTD_FRCD_F VTD_FRCD_SID_MASK = 0;
}.

Section FaultObservers.
Context {RH : VTDRegHeader}.

(** The low and high halves of fault recording register [index], its
    Fault bit, and the source-id it records. *)
Definition vtd_frcd_lo (s : IntelIOMMUState) (index : Z) : Z :=
  vtd_get_quad_raw s (frcd_reg_addr index).
Definition vtd_frcd_hi (s : IntelIOMMUState) (index : Z) : Z :=
  vtd_get_quad_raw s (u64 (frcd_reg_addr index + 8)).
Definition vtd_frcd_present (s : IntelIOMMUState) (index : Z) : bool :=
  nonzero (Z.land (vtd_frcd_hi s index) VTD_FRCD_F).
Definition vtd_frcd_sid (s : IntelIOMMUState) (index : Z) : Z :=
  Z.land (vtd_frcd_hi s index) VTD_FRCD_SID_MASK.

(** The Primary Fault Overflow condition. *)
Definition vtd_fault_overflow (s : IntelIOMMUState) : bool :=
  nonzero (Z.land (vtd_get_long_raw s DMAR_FSTS_REG) VTD_FSTS_PFO).

End FaultObservers.

(** [fault_frame s s'] : [s'] differs from [s] at most in the register
    file, the fault-record cursor and the interrupts sent. *)
Definition fault_frame (s s' : IntelIOMMUState) : Prop :=
  s' = set_csr (csr s')
         (set_msi_log (msi_log s')
            (set_next_frcd_reg (next_frcd_reg s') s)).

(** The interrupts sent grow by at most one message. *)
Definition msi_at_most_one (s s' : IntelIOMMUState) : Prop :=
  msi_log s' = msi_log s \/ exists m, msi_log s' = msi_log s ++ [m].

(** ** Reachable contents of the leaf translation cache *)

Section IOTLBSpec.
Context {PH : VTDPagingHeader}.


(** The entry that [vtd_update_iotlb] builds and the key it stores it
    under. *)
Definition vtd_iotlb_new_entry (domain_id addr slpte : Z)
    (flags : IOMMUAccessFlags) (level pasid : Z) : option VTDIOTLBEntry :=
  gfn ← vtd_get_iotlb_gfn addr level;
  mask ← vtd_slpt_level_page_mask level;
  Some {| iotlb_gfn := gfn; iotlb_domain_id := domain_id;
          iotlb_pte := slpte; iotlb_access_flags := flags;
          iotlb_mask := mask; iotlb_pasid := pasid |}.

Definition vtd_iotlb_new_key (source_id addr level pasid : Z)
    : option vtd_iotlb_key :=
  gfn ← vtd_get_iotlb_gfn addr level;
  Some (mk_iotlb_key gfn source_id level pasid).

(** One probe of [vtd_lookup_iotlb]: the cached entry for [addr] at
    [level], if any. *)
Definition vtd_iotlb_probe (s : IntelIOMMUState)
    (source_id pasid addr level : Z) : option VTDIOTLBEntry :=
  gfn ← vtd_get_iotlb_gfn addr level;
  iotlb s !! mk_iotlb_key gfn source_id level pasid.

End IOTLBSpec.

(** ** Page-table chains in guest memory *)

Section WalkSpec.
Context {PH : VTDPagingHeader} {CH : VTDContextHeader}.

(** The second-stage entry that a walk of [iova] reads in the table at
    [addr] of level [level]. *)
Definition sl_entry_at (s : IntelIOMMUState) (iova : Z) (level : nat)
    (addr e : Z) : Prop :=
  exists offset,
    vtd_iova_level_offset iova (Z.of_nat level) = Some offset /\
    vtd_get_slpte s addr offset = Some e /\
    e <> u64 (-1).

(** The access-right bit that a request checks. *)
Definition sl_access_bit (is_write : bool) : Z :=
  if is_write then VTD_SL_W else VTD_SL_R.

(** [sl_path s iova is_write aw level addr es level' addr'] : walking
    [iova] from the table at [addr] of level [level], the walk reads
    the intermediate entries [es], each of them readable, granting the
    requested access, clean of reserved bits and not a leaf, and
    arrives at the table at [addr'] of level [level']. *)
Inductive sl_path (s : IntelIOMMUState) (iova : Z) (is_write : bool)
    (aw : Z) : nat -> Z -> list Z -> nat -> Z -> Prop :=
  | sl_path_nil level addr :
      sl_path s iova is_write aw level addr [] level addr
  | sl_path_cons level addr e es level' addr' :
      sl_entry_at s iova (S level) addr e ->
      nonzero (Z.land e (sl_access_bit is_write)) = true ->
      vtd_slpte_nonzero_rsvd s e (Z.of_nat (S level)) = Some false ->
      vtd_is_last_slpte e (Z.of_nat (S level)) = false ->
      sl_path s iova is_write aw level (vtd_get_slpte_addr e aw) es
        level' addr' ->
      sl_path s iova is_write aw (S level) addr (e :: es) level' addr'.

(** The permissions that a chain of second-stage entries grants: the
    conjunction of their read bits and of their write bits. *)
Definition sl_chain_reads (es : list Z) : bool :=
  forallb (fun e => nonzero (Z.land e VTD_SL_R)) es.
Definition sl_chain_writes (es : list Z) : bool :=
  forallb (fun e => nonzero (Z.land e VTD_SL_W)) es.

(** The page [xlat, xlat + size) has an address in the reserved
    local-interrupt window. *)
Definition overlaps_interrupt_window (xlat size : Z) : Prop :=
  exists a, xlat <= a < xlat + size /\
            VTD_INTERRUPT_ADDR_FIRST <= a <= VTD_INTERRUPT_ADDR_LAST.

(** The size in bytes of a second-stage page of level [level]. *)
Definition sl_page_size (level : Z) : Z := 2 ^ (12 + 9 * (level - 1)).

(** The first-stage entry that a walk of [iova] reads in the table at
    [addr] of level [level]. *)
Definition fl_entry_at (s : IntelIOMMUState) (iova : Z) (level : nat)
    (addr e : Z) : Prop :=
  exists offset,
    vtd_iova_fl_level_offset iova (Z.of_nat level) = Some offset /\
    vtd_get_flpte s addr offset = Some e /\
    e <> u64 (-1).

(** [fl_path s iova aw level addr es level' addr'] : walking [iova]
    from the table at [addr] of level [level], the walk reads the
    intermediate entries [es], each of them readable, present and not
    a leaf, and arrives at the table at [addr'] of level [level']. *)
Inductive fl_path (s : IntelIOMMUState) (iova : Z) (aw : Z)
    : nat -> Z -> list Z -> nat -> Z -> Prop :=
  | fl_path_nil level addr :
      fl_path s iova aw level addr [] level addr
  | fl_path_cons level addr e es level' addr' :
      fl_entry_at s iova (S level) addr e ->
      vtd_flpte_present e = true ->
      vtd_is_last_flpte e (Z.of_nat (S level)) = false ->
      fl_path s iova aw level (vtd_get_flpte_addr e aw) es level' addr' ->
      fl_path s iova aw (S level) addr (e :: es) level' addr'.

(** The conjunction of the writable bits of a chain of first-stage
    entries. *)
Definition fl_chain_writes (es : list Z) : bool :=
  forallb (fun e => nonzero (Z.land e VTD_FL_RW_MASK)) es.

End WalkSpec.

(** ** Well-formed context-cache generations *)

Section ContextCacheSpec.
Context {PH : VTDPagingHeader}.

(** The generation stored in the context-cache entry of an address
    space. *)
Definition as_cache_gen (vtd_as : VTDAddressSpace) : Z :=
  cc_context_cache_gen (context_cache_entry vtd_as).

(** The global generation is at least 1 and below the wrap value, and
    no address space stores a generation above it: generations are
    only ever copied from the global one, or zeroed. *)
Definition cc_wf (s : IntelIOMMUState) : Prop :=
  1 <= context_cache_gen s < VTD_CONTEXT_CACHE_GEN_MAX /\
  forall k vtd_as,
    vtd_address_spaces s !! k = Some vtd_as ->
    0 <= as_cache_gen vtd_as <= context_cache_gen s.

(** What is assumed of the notifications that follow a global
    context-cache invalidation: they leave the global generation and
    the leaf translation cache alone, and every address space they
    leave behind has a zero generation or the context-cache entry it
    had before. *)
Definition cc_resync_frame (resync : IntelIOMMUState -> IntelIOMMUState)
    : Prop :=
  forall t,
    context_cache_gen (resync t) = context_cache_gen t /\
    iotlb (resync t) = iotlb t /\
    forall k a',
      vtd_address_spaces (resync t) !! k = Some a' ->
      as_cache_gen a' = 0 \/
      exists a, vtd_address_spaces t !! k = Some a /\
                context_cache_entry a' = context_cache_entry a.

End ContextCacheSpec.

(** ** What is assumed of the descriptor handlers *)

Section QueueSpec.
Context {RH : VTDRegHeader}.

(** A descriptor handler leaves the queue cursors, the queue size and
    descriptor width, and the head register alone: in the device model
    these are written by [vtd_process_inv_desc], [vtd_fetch_inv_desc],
    [vtd_handle_iqt_write] and [vtd_handle_gcmd_qie] only. *)
Definition desc_handler_frame
    (h : IntelIOMMUState -> VTDInvDesc -> option (bool * IntelIOMMUState))
    : Prop :=
  forall s d b s',
    h s d = Some (b, s') ->
    iq_head s' = iq_head s /\ iq_tail s' = iq_tail s /\
    iq_size s' = iq_size s /\ iq_dw s' = iq_dw s /\
    vtd_get_quad_raw s' DMAR_IQH_REG = vtd_get_quad_raw s DMAR_IQH_REG.

Definition handlers_frame (hs : VTDDescHandlers) : Prop :=
  desc_handler_frame (vtd_process_context_cache_desc hs) /\
  desc_handler_frame (vtd_process_iotlb_desc hs) /\
  desc_handler_frame (vtd_process_pasid_desc hs) /\
  desc_handler_frame (vtd_process_piotlb_desc hs) /\
  desc_handler_frame (vtd_process_wait_desc hs) /\
  desc_handler_frame (vtd_process_inv_iec_desc hs) /\
  desc_handler_frame (vtd_process_device_piotlb_desc hs) /\
  desc_handler_frame (vtd_process_device_iotlb_desc hs).

(** The invalidation-queue-error condition. *)
Definition vtd_inv_queue_error (s : IntelIOMMUState) : bool :=
  nonzero (Z.land (vtd_get_long_raw s DMAR_FSTS_REG) VTD_FSTS_IQE).

End QueueSpec.

(** ** The drain of the invalidation queue, as the specification words it *)

(** What becomes of the descriptor under the head: its handler accepts
    it and leaves a state, or it is not processed (the read fails, the
    type is unknown or the handler refuses it), or an assertion of the
    handler fails. *)
Inductive iq_outcome :=
  | DescAccepted (s : IntelIOMMUState)
  | DescRefused (s : IntelIOMMUState)
  | DescAborted.

Section QueueDrainSpec.
Context {RH : VTDRegHeader} {QH : VTDQueueHeader}.
Variable handlers : VTDDescHandlers.
Variable desc_uninit : VTDInvDesc.

(** The descriptor that guest memory holds in the slot under the head:
    two quad-words of a 128-bit descriptor, four of a 256-bit one;
    [None] when guest memory cannot be read there. *)
Definition iq_desc_at_head (s : IntelIOMMUState) : option VTDInvDesc :=
  let width := if iq_dw s then 32 else 16 in
  let addr := u64 (iq s + u32 (iq_head s * width)) in
  if iq_dw s
  then
    match dma_read_qs (guest_mem s) addr 4 with
    | Some [v0; v1; v2; v3] =>
        Some {| desc_val0 := v0; desc_val1 := v1;
                desc_val2 := v2; desc_val3 := v3 |}
    | _ => None
    end
  else
    match dma_read_qs (guest_mem s) addr 2 with
    | Some [v0; v1] =>
        Some {| desc_val0 := v0; desc_val1 := v1;
                desc_val2 := desc_val2 desc_uninit;
                desc_val3 := desc_val3 desc_uninit |}
    | _ => None
    end.

(** The handler of a descriptor type; [None] for an unsupported
    type. *)
Definition iq_handler_for (desc_type : Z)
    : option (IntelIOMMUState -> VTDInvDesc
              -> option (bool * IntelIOMMUState)) :=
  if desc_type =? VTD_INV_DESC_CC
  then Some (vtd_process_context_cache_desc handlers)
  else if desc_type =? VTD_INV_DESC_IOTLB
  then Some (vtd_process_iotlb_desc handlers)
  else if desc_type =? VTD_INV_DESC_PC
  then Some (vtd_process_pasid_desc handlers)
  else if desc_type =? VTD_INV_DESC_PIOTLB
  then Some (vtd_process_piotlb_desc handlers)
  else if desc_type =? VTD_INV_DESC_WAIT
  then Some (vtd_process_wait_desc handlers)
  else if desc_type =? VTD_INV_DESC_IEC
  then Some (vtd_process_inv_iec_desc handlers)
  else if desc_type =? VTD_INV_DESC_DEV_PIOTLB
  then Some (vtd_process_device_piotlb_desc handlers)
  else if desc_type =? VTD_INV_DESC_DEVICE
  then Some (vtd_process_device_iotlb_desc handlers)
  else None.

(** The outcome of the descriptor under the head, read off guest
    memory and the handlers alone; the handler runs with the type of
    its descriptor recorded as the last one seen. *)
Definition iq_desc_outcome (s : IntelIOMMUState) : iq_outcome :=
  match iq_desc_at_head s with
  | None => DescRefused (set_iq_last_desc_type VTD_INV_DESC_NONE s)
  | Some inv_desc =>
      let desc_type := u8 (Z.land (desc_lo inv_desc) VTD_INV_DESC_TYPE) in
      let s := set_iq_last_desc_type desc_type s in
      match iq_handler_for desc_type with
      | None => DescRefused s
      | Some handler =>
          match handler s inv_desc with
          | Some (true, s') => DescAccepted s'
          | Some (false, s') => DescRefused s'
          | None => DescAborted
          end
      end
  end.

(** The state after a processed descriptor: the head is one further,
    modulo the queue size, and the head register holds it. *)
Definition iq_completed (qi_shift : Z) (s : IntelIOMMUState)
    : IntelIOMMUState :=
  let head := (iq_head s + 1) mod iq_size s in
  vtd_set_quad_raw (set_iq_head head s) DMAR_IQH_REG
    (Z.land (u64 (Z.shiftl head qi_shift)) VTD_IQH_QH_MASK).

(** [iq_drained qi_shift n s sk]: from [s], the [n] descriptors from
    the head on, none of them at the tail, are each accepted by its
    handler and completed, one after the other, and [sk] is the state
    after the last. *)
Inductive iq_drained (qi_shift : Z)
    : nat -> IntelIOMMUState -> IntelIOMMUState -> Prop :=
  | iq_drained_O s : iq_drained qi_shift O s s
  | iq_drained_S n s s1 sk :
      iq_head s <> iq_tail s ->
      iq_desc_outcome s = DescAccepted s1 ->
      iq_drained qi_shift n (iq_completed qi_shift s1) sk ->
      iq_drained qi_shift (S n) s sk.

End QueueDrainSpec.

(** ** An instance of the header and a test bench

    The theorems below are stated for any header; the definitions here
    fix one, so that the model can be evaluated on concrete states. *)

Module Example.

(** [~(2^n - 1)] on 64 bits, and the mask of the host address bits
    below [aw]. *)
Definition high_bits (n : Z) : Z := not64 (2 ^ n - 1).
Definition haw_mask (aw : Z) : Z := 2 ^ aw - 1.

(** Modelled from the spec: the code of a fault reason in the fault
    recording register; [enum VTDFaultReason] is declared in the
    absent header. *)
Definition fault_reason_code (fr : VTDFaultReason) : Z :=
  match fr with
  | VTD_FR_RESERVED => 0
  | VTD_FR_ROOT_ENTRY_P => 1
  | VTD_FR_CONTEXT_ENTRY_P => 2
  | VTD_FR_CONTEXT_ENTRY_INV => 3
  | VTD_FR_ADDR_BEYOND_MGAW => 4
  | VTD_FR_WRITE => 5
  | VTD_FR_READ => 6
  | VTD_FR_PAGING_ENTRY_INV => 7
  | VTD_FR_ROOT_TABLE_INV => 8
  | VTD_FR_CONTEXT_TABLE_INV => 9
  | VTD_FR_ROOT_ENTRY_RSVD => 0xa
  | VTD_FR_CONTEXT_ENTRY_RSVD => 0xb
  | VTD_FR_PAGING_ENTRY_RSVD => 0xc
  | VTD_FR_CONTEXT_ENTRY_TT => 0xd
  | VTD_FR_INTERRUPT_ADDR => 0xe
  | VTD_FR_PASID_DIR_ACCESS_ERR => 0x50
  | VTD_FR_PASID_DIR_ENTRY_P => 0x51
  | VTD_FR_PASID_TABLE_ACCESS_ERR => 0x58
  | VTD_FR_PASID_ENTRY_P => 0x59
  | VTD_FR_PASID_TABLE_ENTRY_INV => 0x5b
  | VTD_FR_SM_INTERRUPT_ADDR => 0x87
  | VTD_FR_MAX => 0x88
  end.

(** Modelled from the spec: the register offsets and flag bits of the
    absent header [intel_iommu_internal.h], with the layout of the
    VT-d architecture and a fault ring of one recording register. *)
Definition reg_header : VTDRegHeader := {|
  DMAR_FSTS_REG := 0x34;
  DMAR_FECTL_REG := 0x38;
  DMAR_FEDATA_REG := 0x3c;
  DMAR_FEADDR_REG := 0x40;
  DMAR_FRCD_REG_OFFSET := 0x220;
  DMAR_FRCD_REG_NR := 1;
  DMAR_REG_SIZE := 0x230;
  DMAR_IQH_REG := 0x80;
  DMAR_IQT_REG := 0x88;
  VTD_FSTS_PFO := 1;
  VTD_FSTS_PPF := 2;
  VTD_FSTS_IQE := 0x10;
  VTD_FSTS_FRI_MASK := 0xff00;
  VTD_FSTS_FRI := fun v => Z.land (Z.shiftl v 8) 0xff00;
  VTD_FECTL_IM := 2 ^ 31;
  VTD_FECTL_IP := 2 ^ 30;
  VTD_FRCD_F := 2 ^ 63;
  VTD_FRCD_T := 2 ^ 62;
  VTD_FRCD_SID_MASK := 0xffff;
  VTD_FRCD_SID := fun v => Z.land v 0xffff;
  VTD_FRCD_FR := fun fr => Z.shiftl (Z.land (fault_reason_code fr) 0xff) 32;
  VTD_FR_lt_MAX :=
    fun fr => fault_reason_code fr <? fault_reason_code VTD_FR_MAX;
  VTD_FRCD_PV := fun v => Z.shiftl (Z.land v 0xffff) 40;
  VTD_FRCD_PP := fun v => Z.shiftl (Z.land v 1) 31;
  VTD_FRCD_FI := fun v => Z.land v (high_bits 12);
|}.

(** Modelled from the spec: the paging constants of the absent
    header; 512 entries of nine index bits per table, read and write
    bits 0 and 1, page-size bit 7, and the caps of the caches. *)
Definition paging_header : VTDPagingHeader := {|
  VTD_SL_R := 1;
  VTD_SL_W := 2;
  VTD_SL_PT_PAGE_SIZE_MASK := 0x80;
  VTD_SL_PT_BASE_ADDR_MASK := fun aw => Z.land (high_bits 12) (haw_mask aw);
  VTD_SL_PT_ENTRY_NR := 512;
  VTD_FL_LEVEL_BITS := 9;
  VTD_FL_PT_LEVEL := 1;
  VTD_FL_RW_MASK := 2;
  VTD_FL_PT_PAGE_SIZE_MASK := 0x80;
  VTD_FL_PT_BASE_ADDR_MASK := fun aw => Z.land (high_bits 12) (haw_mask aw);
  VTD_FL_PT_ENTRY_NR := 512;
  VTD_IOTLB_MAX_SIZE := 1024;
  VTD_PASID_IOTLB_MAX_SIZE := 1024;
  VTD_CONTEXT_CACHE_GEN_MAX := 0xffffffff;
|}.

(** Modelled from the spec: the root, context and PASID entry fields
    of the absent header, and the PCI helpers. *)
Definition context_header : VTDContextHeader := {|
  VTD_ROOT_ENTRY_P := 1;
  VTD_ROOT_ENTRY_CTP := high_bits 12;
  VTD_ROOT_ENTRY_RSVD := fun aw => Z.lor 0xffe (not64 (haw_mask aw));
  VTD_CONTEXT_ENTRY_P := 1;
  VTD_CONTEXT_ENTRY_FPD := 2;
  VTD_CONTEXT_ENTRY_SLPTPTR := high_bits 12;
  VTD_CONTEXT_ENTRY_AW := 7;
  VTD_CONTEXT_ENTRY_TT := 0xc;
  VTD_CONTEXT_TT_MULTI_LEVEL := 0;
  VTD_CONTEXT_TT_DEV_IOTLB := 4;
  VTD_CONTEXT_TT_PASS_THROUGH := 8;
  VTD_CONTEXT_ENTRY_RSVD_HI := 0xffffffffff000080;
  VTD_CONTEXT_ENTRY_RSVD_LO := fun aw => Z.lor 0xff0 (not64 (haw_mask aw));
  VTD_SM_CONTEXT_ENTRY_RSVD_VAL0 :=
    fun aw => Z.lor 0xe1f (not64 (haw_mask aw));
  VTD_SM_CONTEXT_ENTRY_RSVD_VAL1 := 0xffffffffffe00000;
  VTD_CONTEXT_ENTRY_DID := fun v => Z.land (Z.shiftr v 8) 0xffff;
  VTD_CTX_ENTRY_SCALABLE_SIZE := 32;
  VTD_CTX_ENTRY_LEGACY_SIZE := 16;
  VTD_DEVFN_CHECK_MASK := 0x80;
  VTD_CAP_SAGAW_MASK := 0x1f00;
  VTD_CAP_SAGAW_SHIFT := 8;
  VTD_SM_CONTEXT_ENTRY_RID2PASID_MASK := 0xfffff;
  VTD_PASID_DIR_BASE_ADDR_MASK := high_bits 12;
  VTD_SM_PASID_ENTRY_PGTT := 0x1c0;
  VTD_SM_PASID_ENTRY_AW := 7;
  VTD_PASID_DIR_INDEX := fun pasid => Z.land (Z.shiftr pasid 6) 0x3fff;
  VTD_PASID_DIR_ENTRY_SIZE := 8;
  VTD_PASID_TABLE_INDEX := fun pasid => Z.land pasid 0x3f;
  VTD_PASID_ENTRY_SIZE := 64;
  VTD_PASID_TABLE_BASE_ADDR_MASK := high_bits 12;
  VTD_SM_PASID_ENTRY_FLT := 0x40;
  VTD_SM_PASID_ENTRY_SLT := 0x80;
  VTD_SM_PASID_ENTRY_NESTED := 0xc0;
  VTD_SM_PASID_ENTRY_PT := 0x100;
  VTD_PASID_ENTRY_P := 1;
  VTD_PASID_ENTRY_FPD := 2;
  VTD_PASID_DIR_FPD := 2;
  VTD_SM_PASID_ENTRY_FLPM := 3;
  VTD_SM_PASID_ENTRY_FLPTPTR := high_bits 12;
  VTD_SM_PASID_ENTRY_SLPTPTR := high_bits 12;
  VTD_SM_PASID_ENTRY_DID := fun v => Z.land v 0xffff;
  VTD_ECAP_RPS := 2 ^ 49;
  PCI_NO_PASID := 2 ^ 32 - 1;
  PCI_BUILD_BDF := fun bus devfn => Z.lor (Z.shiftl bus 8) devfn;
  pci_bus_num := fun bus => bus;
|}.

(** Modelled from the spec: the descriptor types and the head and tail
    register fields of the absent header. *)
Definition queue_header : VTDQueueHeader := {|
  VTD_INV_DESC_TYPE := 0xf;
  VTD_INV_DESC_CC := 1;
  VTD_INV_DESC_IOTLB := 2;
  VTD_INV_DESC_PC := 7;
  VTD_INV_DESC_PIOTLB := 6;
  VTD_INV_DESC_WAIT := 5;
  VTD_INV_DESC_IEC := 4;
  VTD_INV_DESC_DEV_PIOTLB := 8;
  VTD_INV_DESC_DEVICE := 3;
  VTD_INV_DESC_NONE := 0;
  VTD_IQH_QH_SHIFT_4 := 4;
  VTD_IQH_QH_SHIFT_5 := 5;
  VTD_IQH_QH_MASK := 0x7fff0;
  VTD_IQT_QT := fun dw v =>
    if dw then Z.land (Z.shiftr v 5) 0x3fff else Z.land (Z.shiftr v 4) 0x7fff;
  VTD_IQT_QT_256_RSV_BIT := 0x10;
|}.

(** *** Guest memory and device states of the test bench *)

(** A legacy-mode guest.  The root table is at [0x1000] and sends bus 0
    to the context table at [0x5000]; the context entry of device 0
    selects a four-level second-stage table at [0x10000] in domain 1.
    Under its first top-level entry, pages [0x1000] and [0x2000] map
    to frame [0x2000] and to the interrupt window, and pages [0x3000]
    and [0x4000] have a reserved bit in their entries, the second one
    without write access; its second top-level entry grants read
    only, and below it page [0x1000] maps to frame [0x3000] with read
    and write.  The invalidation queue at [0x20000] holds a wait
    descriptor, an IOTLB descriptor and a descriptor of unknown type. *)
Definition mem_table : list (Z * Z) :=
  [ (0x1000, 0x5001); (0x5000, 0x10001); (0x5008, 0x102);
    (0x10000, 0x11003); (0x10008, 0x14001);
    (0x11000, 0x12003); (0x12000, 0x13003);
    (0x13008, 0x2003); (0x13010, 0xfee00003); (0x13018, 0x4803);
    (0x13020, 0x5801);
    (0x14000, 0x15003); (0x15000, 0x16003); (0x16008, 0x3003);
    (0x20000, 5); (0x20010, 2); (0x20020, 0xf) ].

Fixpoint mem_find (t : list (Z * Z)) (a : Z) : Z :=
  match t with
  | [] => 0
  | (a', v) :: t' => if a =? a' then v else mem_find t' a
  end.

Definition mem (a : Z) : option Z := Some (mem_find mem_table a).

(** Reserved bits of a second-stage entry: bit 11 and bits 48 to 51. *)
Definition spte_rsvd : Z := 0x000f000000000800.

Definition ce0 : VTDContextEntry :=
  {| ce_val0 := 0; ce_val1 := 0; ce_val2 := 0; ce_val3 := 0 |}.

(** The context entry of device 0 as it is in guest memory. *)
Definition ce_dev0 : VTDContextEntry :=
  {| ce_val0 := 0x10001; ce_val1 := 0x102; ce_val2 := 0; ce_val3 := 0 |}.

Definition as_key0 : vtd_as_key := (0, 0, 2 ^ 32 - 1).

(** The address space of device 0 without PASID, its context-cache
    entry stamped with generation [gen]. *)
Definition as_dev0 (ce : VTDContextEntry) (gen : Z) : VTDAddressSpace :=
  {| as_bus := 0; as_devfn := 0; as_pasid := 2 ^ 32 - 1;
     context_cache_entry :=
       {| cc_context_entry := ce; cc_context_cache_gen := gen |} |}.

(** The device with guest memory [m], address spaces [spaces] and
    leaf translation cache [tlb]: the root table and the queue are
    programmed, the registers are clear, the global context-cache
    generation is 1, head 0 and tail 3 in a queue of four 128-bit
    descriptors. *)
Definition bench_state (m : Z -> option Z)
    (spaces : gmap vtd_as_key VTDAddressSpace)
    (tlb : gmap vtd_iotlb_key VTDIOTLBEntry) : IntelIOMMUState :=
  {| csr := fun _ => 0; next_frcd_reg := 0; msi_log := [];
     root := 0x1000; root_scalable := false; scalable_mode := false;
     dmar_enabled := true; aw_bits := 48; cap := 0x600; ecap := 0;
     pt_supported := false; dt_supported := false;
     context_cache_gen := 1;
     iotlb := tlb; p_iotlb := ∅;
     vtd_address_spaces := spaces;
     iq := 0x20000; iq_head := 0; iq_tail := 3; iq_size := 4;
     iq_dw := false; qi_enabled := true; iq_last_desc_type := 0;
     vtd_spte_rsvd := [0; spte_rsvd; spte_rsvd; spte_rsvd; spte_rsvd];
     vtd_spte_rsvd_large :=
       [0; spte_rsvd; spte_rsvd; spte_rsvd; spte_rsvd];
     guest_mem := m |}.

(** Before any translation: nothing is cached. *)
Definition state0 : IntelIOMMUState :=
  bench_state mem {[ as_key0 := as_dev0 ce0 0 ]} ∅.

(** After a translation of [0x1000] for device 0: its context entry is
    cached under generation 1 and the leaf of the page is in the
    translation cache. *)
Definition tlb_page1 : gmap vtd_iotlb_key VTDIOTLBEntry :=
  {[ {| key_gfn := 1; key_pasid := 2 ^ 32 - 1; key_sid := 0;
        key_level := 1 |} :=
     {| iotlb_gfn := 1; iotlb_domain_id := 1; iotlb_pte := 0x2003;
        iotlb_access_flags := IOMMU_RW; iotlb_mask := high_bits 12;
        iotlb_pasid := 2 ^ 32 - 1 |} ]}.

Definition state_cached : IntelIOMMUState :=
  bench_state mem {[ as_key0 := as_dev0 ce_dev0 1 ]} tlb_page1.

(** The same device after the guest has cleared its tables: guest
    memory reads as zero, so that the root entry is not present. *)
Definition state_cleared : IntelIOMMUState :=
  bench_state (fun _ => Some 0) {[ as_key0 := as_dev0 ce_dev0 1 ]} tlb_page1.

(** [n] printed in decimal in a field of [w] digits, for an [n] that
    fits the field. *)
Fixpoint pad_dec (w : nat) (n : Z) (acc : string) : string :=
  match w with
  | O => acc
  | S w' =>
      pad_dec w' (n / 10)
        (String (Ascii.ascii_of_nat (48 + Z.to_nat (n mod 10))) acc)
  end.

(** The key that [snprintf] builds for the first-stage cache. *)
Definition piotlb_key (gfn pasid level source_id : Z) : string :=
  "rsv0000000000sid" +:+ pad_dec 6 source_id
    ("pasid" +:+ pad_dec 10 pasid
       ("gfn" +:+ pad_dec 17 gfn ("level" +:+ pad_dec 1 level EmptyString))).

(** Handlers that accept every descriptor and do nothing. *)
Definition accept_desc (s : IntelIOMMUState) (d : VTDInvDesc)
    : option (bool * IntelIOMMUState) := Some (true, s).

Definition handlers0 : VTDDescHandlers :=
  {| vtd_process_context_cache_desc := accept_desc;
     vtd_process_iotlb_desc := accept_desc;
     vtd_process_pasid_desc := accept_desc;
     vtd_process_piotlb_desc := accept_desc;
     vtd_process_wait_desc := accept_desc;
     vtd_process_inv_iec_desc := accept_desc;
     vtd_process_device_piotlb_desc := accept_desc;
     vtd_process_device_iotlb_desc := accept_desc |}.

Definition desc0 : VTDInvDesc :=
  {| desc_val0 := 0; desc_val1 := 0; desc_val2 := 0; desc_val3 := 0 |}.

(** The device with its one fault recording register holding a fault
    of source-id [0x10]. *)
Definition state_full : IntelIOMMUState :=
  vtd_set_quad_raw state0 0x228 (2 ^ 63 + 0x10).

(** The device after reset when the guest has just written 3 to the
    tail field of the tail register. *)
Definition state_tail_written : IntelIOMMUState :=
  vtd_set_quad_raw state0 0x88 0x30.

Definition pe0 : VTDPASIDEntry := {| pe_vals := [] |}.
Definition re0 : VTDRootEntry := {| re_lo := 0; re_hi := 0 |}.

(** A PASID entry that selects the four-level table at [0x10000] as a
    first-stage table. *)
Definition pe_fl : VTDPASIDEntry :=
  {| pe_vals := [0x41; 1; 0x10000; 0; 0; 0; 0; 0] |}.

End Example.

(** ** Interrupt events and the status-register write handlers *)

(** Registers and flags of the invalidation-completion event, from the
    absent header. *)
Class VTDEventHeader := {
  DMAR_ICS_REG : Z;
  DMAR_IECTL_REG : Z;
  DMAR_IEDATA_REG : Z;
  DMAR_IEADDR_REG : Z;
  VTD_ICS_IWC : Z;
  VTD_IECTL_IM : Z;
  VTD_IECTL_IP : Z;
}.

Section EventHandlers.
Context {RH : VTDRegHeader} {EH : VTDEventHeader}.

(** Set the IWC field and try to generate an invalidation completion
    interrupt. *)
Definition vtd_generate_completion_event (s : IntelIOMMUState)
    : option IntelIOMMUState :=
  if nonzero (Z.land (vtd_get_long_raw s DMAR_ICS_REG) VTD_ICS_IWC)
  then Some s
  else
    let s1 := (vtd_set_clear_mask_long s DMAR_ICS_REG 0 VTD_ICS_IWC).2 in
    let s2 := (vtd_set_clear_mask_long s1 DMAR_IECTL_REG 0 VTD_IECTL_IP).2 in
    if nonzero (Z.land (vtd_get_long_raw s2 DMAR_IECTL_REG) VTD_IECTL_IM)
    then Some s2
    else
      s3 ← vtd_generate_interrupt s2 DMAR_IEADDR_REG DMAR_IEDATA_REG;
      Some (vtd_set_clear_mask_long s3 DMAR_IECTL_REG VTD_IECTL_IP 0).2.

(** Handle write to the Fault Status Register; [status_fields] is a
    [uint32_t]. *)
Definition vtd_handle_fsts_write (s : IntelIOMMUState) : IntelIOMMUState :=
  let fsts_reg := vtd_get_long_raw s DMAR_FSTS_REG in
  let fectl_reg := vtd_get_long_raw s DMAR_FECTL_REG in
  let status_fields :=
    u32 (Z.lor (Z.lor VTD_FSTS_PFO VTD_FSTS_PPF) VTD_FSTS_IQE) in
  if nonzero (Z.land fectl_reg VTD_FECTL_IP)
     && negb (nonzero (Z.land fsts_reg status_fields))
  then (vtd_set_clear_mask_long s DMAR_FECTL_REG VTD_FECTL_IP 0).2
  else s.

(** Handle write to the Fault Event Control Register. *)
Definition vtd_handle_fectl_write (s : IntelIOMMUState)
    : option IntelIOMMUState :=
  let fectl_reg := vtd_get_long_raw s DMAR_FECTL_REG in
  if nonzero (Z.land fectl_reg VTD_FECTL_IP)
     && negb (nonzero (Z.land fectl_reg VTD_FECTL_IM))
  then
    s1 ← vtd_generate_interrupt s DMAR_FEADDR_REG DMAR_FEDATA_REG;
    Some (vtd_set_clear_mask_long s1 DMAR_FECTL_REG VTD_FECTL_IP 0).2
  else Some s.

(** Handle write to the Invalidation Completion Status Register. *)
Definition vtd_handle_ics_write (s : IntelIOMMUState) : IntelIOMMUState :=
  let ics_reg := vtd_get_long_raw s DMAR_ICS_REG in
  let iectl_reg := vtd_get_long_raw s DMAR_IECTL_REG in
  if nonzero (Z.land iectl_reg VTD_IECTL_IP)
     && negb (nonzero (Z.land ics_reg VTD_ICS_IWC))
  then (vtd_set_clear_mask_long s DMAR_IECTL_REG VTD_IECTL_IP 0).2
  else s.

(** Handle write to the Invalidation Event Control Register. *)
Definition vtd_handle_iectl_write (s : IntelIOMMUState)
    : option IntelIOMMUState :=
  let iectl_reg := vtd_get_long_raw s DMAR_IECTL_REG in
  if nonzero (Z.land iectl_reg VTD_IECTL_IP)
     && negb (nonzero (Z.land iectl_reg VTD_IECTL_IM))
  then
    s1 ← vtd_generate_interrupt s DMAR_IEADDR_REG DMAR_IEDATA_REG;
    Some (vtd_set_clear_mask_long s1 DMAR_IECTL_REG VTD_IECTL_IP 0).2
  else Some s.

(** The Primary Pending Fault and the interrupt-pending conditions. *)
Definition vtd_fault_pending (s : IntelIOMMUState) : bool :=
  nonzero (Z.land (vtd_get_long_raw s DMAR_FSTS_REG) VTD_FSTS_PPF).
Definition vtd_fault_event_pending (s : IntelIOMMUState) : bool :=
  nonzero (Z.land (vtd_get_long_raw s DMAR_FECTL_REG) VTD_FECTL_IP).
Definition vtd_fault_event_masked (s : IntelIOMMUState) : bool :=
  nonzero (Z.land (vtd_get_long_raw s DMAR_FECTL_REG) VTD_FECTL_IM).
Definition vtd_wait_complete (s : IntelIOMMUState) : bool :=
  nonzero (Z.land (vtd_get_long_raw s DMAR_ICS_REG) VTD_ICS_IWC).
Definition vtd_inv_event_pending (s : IntelIOMMUState) : bool :=
  nonzero (Z.land (vtd_get_long_raw s DMAR_IECTL_REG) VTD_IECTL_IP).
Definition vtd_inv_event_masked (s : IntelIOMMUState) : bool :=
  nonzero (Z.land (vtd_get_long_raw s DMAR_IECTL_REG) VTD_IECTL_IM).

End EventHandlers.

(** What the proofs use of the event registers: they lie inside [csr]
    apart from each other, and the pending and mask flags are distinct
    bits. *)
Class VTDFaultEventOK (RH : VTDRegHeader) : Prop := {
  fectl_ip_bit : 0 < VTD_FECTL_IP < 2 ^ 32;
  fectl_ip_not_im : Z.land VTD_FECTL_IP VTD_FECTL_IM = 0;
  fedata_fectl_disjoint :
    DMAR_FEDATA_REG + 4 <= DMAR_FECTL_REG \/
    DMAR_FECTL_REG + 4 <= DMAR_FEDATA_REG;
  feaddr_fectl_disjoint :
    DMAR_FEADDR_REG + 4 <= DMAR_FECTL_REG \/
    DMAR_FECTL_REG + 4 <= DMAR_FEADDR_REG;
  fsts_ppf_pos : 0 < VTD_FSTS_PPF;
}.

Class VTDEventHeaderOK (RH : VTDRegHeader) (EH : VTDEventHeader) : Prop := {
  ie_regs_in_csr :
    DMAR_IEDATA_REG < DMAR_REG_SIZE /\ DMAR_IEADDR_REG < DMAR_REG_SIZE;
  ics_iwc_bit : 0 < VTD_ICS_IWC < 2 ^ 32;
  iectl_ip_bit : 0 < VTD_IECTL_IP < 2 ^ 32;
  iectl_ip_not_im : Z.land VTD_IECTL_IP VTD_IECTL_IM = 0;
  ics_iectl_disjoint :
    DMAR_ICS_REG + 4 <= DMAR_IECTL_REG \/ DMAR_IECTL_REG + 4 <= DMAR_ICS_REG;
  iedata_iectl_disjoint :
    DMAR_IEDATA_REG + 4 <= DMAR_IECTL_REG \/
    DMAR_IECTL_REG + 4 <= DMAR_IEDATA_REG;
  ieaddr_iectl_disjoint :
    DMAR_IEADDR_REG + 4 <= DMAR_IECTL_REG \/
    DMAR_IECTL_REG + 4 <= DMAR_IEADDR_REG;
  iedata_ics_disjoint :
    DMAR_IEDATA_REG + 4 <= DMAR_ICS_REG \/ DMAR_ICS_REG + 4 <= DMAR_IEDATA_REG;
  ieaddr_ics_disjoint :
    DMAR_IEADDR_REG + 4 <= DMAR_ICS_REG \/ DMAR_ICS_REG + 4 <= DMAR_IEADDR_REG;
}.

(** ** Cache invalidation *)

(** Constants of the absent header that the invalidation paths use:
    the maximum address mask value and the split of a source-id. *)
Class VTDInvHeader := {
  VTD_MAMV : Z;
  VTD_SID_TO_BUS : Z -> Z;
  VTD_SID_TO_DEVFN : Z -> Z;
}.

Section Invalidate.
Context {PH : VTDPagingHeader} {CH : VTDContextHeader} {IH : VTDInvHeader}.

(** Indeterminate value of the [pasid] field that
    [vtd_iotlb_page_invalidate] leaves unset. *)
Variable z_uninit : Z.

(** The notifications of the mapping observers and of the host
    pass-through path: [vtd_iommu_replay_all]; the loop over
    [vtd_as_with_notifiers] of [vtd_iotlb_domain_invalidate];
    [vtd_iotlb_page_invalidate_notify]; [vtd_pasid_cache_reset]; and
    what [vtd_context_device_invalidate] calls for a matching address
    space, [vtd_switch_address_space], [vtd_address_space_sync] and
    [vtd_pasid_cache_devsi]. *)
Variable vtd_iommu_replay_all : IntelIOMMUState -> IntelIOMMUState.
Variable vtd_iotlb_domain_sync : IntelIOMMUState -> Z -> IntelIOMMUState.
Variable vtd_iotlb_page_invalidate_notify :
  IntelIOMMUState -> Z -> Z -> Z -> Z -> IntelIOMMUState.
Variable vtd_pasid_cache_reset : IntelIOMMUState -> IntelIOMMUState.
Variable vtd_context_device_sync :
  IntelIOMMUState -> vtd_as_key -> Z -> IntelIOMMUState.

Definition vtd_reset_iotlb (s : IntelIOMMUState) : IntelIOMMUState :=
  vtd_reset_iotlb_locked s.

Definition vtd_reset_caches (s : IntelIOMMUState) : IntelIOMMUState :=
  let s := vtd_reset_iotlb_locked s in
  let s := vtd_reset_context_cache_locked s in
  let s := vtd_pasid_cache_reset s in
  vtd_reset_piotlb s.

Definition vtd_iotlb_global_invalidate (s : IntelIOMMUState)
    : IntelIOMMUState :=
  vtd_iommu_replay_all (vtd_reset_iotlb s).

(** [domain_id] is a [uint16_t]. *)
Definition vtd_iotlb_domain_invalidate (s : IntelIOMMUState) (domain_id : Z)
    : IntelIOMMUState :=
  let s :=
    iotlb_foreach_remove (fun e => vtd_hash_remove_by_domain e domain_id) s in
  vtd_iotlb_domain_sync s domain_id.

(** [am] is a [uint8_t]; [~((1 << am) - 1)] is computed on [int] and
    widened with its sign to the [uint64_t] mask. *)
Definition vtd_iotlb_page_invalidate (s : IntelIOMMUState)
    (domain_id addr am : Z) : option IntelIOMMUState :=
  _ ← assert_ (am <=? VTD_MAMV);
  let info :=
    {| info_domain_id := domain_id; info_pasid := z_uninit;
       info_addr := addr;
       info_mask := u64 (Z.lnot (Z.shiftl 1 am - 1));
       info_is_piotlb := false |} in
  let s := iotlb_foreach_remove (fun e => vtd_hash_remove_by_page e info) s in
  Some (vtd_iotlb_page_invalidate_notify s domain_id addr am PCI_NO_PASID).

(** The test of [vtd_context_device_invalidate] on an address space;
    [mask] is the complement, as a [uint16_t], of the masked function
    bits, [bus_n] and [devfn] are [uint8_t]. *)
Definition vtd_context_device_match (source_id func_mask : Z)
    (vtd_as : VTDAddressSpace) : bool :=
  let mask :=
    if Z.land func_mask 3 =? 0 then 0
    else if Z.land func_mask 3 =? 1 then 4
    else if Z.land func_mask 3 =? 2 then 6
    else 7 in
  let mask := u16 (Z.lnot mask) in
  let bus_n := u8 (VTD_SID_TO_BUS source_id) in
  let devfn := u8 (VTD_SID_TO_DEVFN source_id) in
  (pci_bus_num (as_bus vtd_as) =? bus_n)
  && (Z.land (as_devfn vtd_as) mask =? Z.land devfn mask).

(** [vtd_as->context_cache_entry.context_cache_gen = 0] on the address
    space stored under [k]. *)
Definition vtd_as_clear_gen (vtd_as : VTDAddressSpace) : VTDAddressSpace :=
  {| as_bus := as_bus vtd_as; as_devfn := as_devfn vtd_as;
     as_pasid := as_pasid vtd_as;
     context_cache_entry :=
       {| cc_context_entry := cc_context_entry (context_cache_entry vtd_as);
          cc_context_cache_gen := 0 |} |}.

(** The loop over [s->vtd_address_spaces]; [source_id] and [func_mask]
    are [uint16_t]. *)
Definition vtd_context_device_invalidate (s : IntelIOMMUState)
    (source_id func_mask : Z) : IntelIOMMUState :=
  let devfn := u8 (VTD_SID_TO_DEVFN source_id) in
  map_fold
    (fun k vtd_as s =>
       if vtd_context_device_match source_id func_mask vtd_as
       then
         let s :=
           set_vtd_address_spaces
             (<[k := vtd_as_clear_gen vtd_as]> (vtd_address_spaces s)) s in
         vtd_context_device_sync s k devfn
       else s)
    s (vtd_address_spaces s).

End Invalidate.

(** ** Consistency of the leaf translation cache *)

Section IOTLBConsistency.
Context {PH : VTDPagingHeader}.

(** Every entry is as [vtd_update_iotlb] stores it: its frame number
    is the one of its key and its mask is the page mask of the level
    of its key. *)
Definition iotlb_wf (s : IntelIOMMUState) : Prop :=
  forall k e,
    iotlb s !! k = Some e ->
    iotlb_gfn e = key_gfn k /\
    vtd_slpt_level_page_mask (key_level k) = Some (iotlb_mask e).

(** What is assumed of a notification: it leaves the translation
    caches and the context-cache generations alone. *)
Definition notify_frame (s s' : IntelIOMMUState) : Prop :=
  iotlb s' = iotlb s /\ p_iotlb s' = p_iotlb s /\
  vtd_address_spaces s' = vtd_address_spaces s /\
  context_cache_gen s' = context_cache_gen s.

End IOTLBConsistency.

(** ** Invalidation requests: queued descriptors and registers *)

(** Fields of the invalidation descriptors and of the invalidation
    registers, from the absent header. *)
Class VTDInvDescHeader := {
  VTD_INV_DESC_WAIT_RSVD_HI : Z;
  VTD_INV_DESC_WAIT_RSVD_LO : Z;
  VTD_INV_DESC_WAIT_SW : Z;
  VTD_INV_DESC_WAIT_IF : Z;
  VTD_INV_DESC_WAIT_FN : Z;
  VTD_INV_DESC_WAIT_DATA_SHIFT : Z;
  VTD_INV_DESC_CC_RSVD : Z;
  VTD_INV_DESC_CC_G : Z;
  VTD_INV_DESC_CC_DOMAIN : Z;
  VTD_INV_DESC_CC_GLOBAL : Z;
  VTD_INV_DESC_CC_DEVICE : Z;
  VTD_INV_DESC_CC_SID : Z -> Z;
  VTD_INV_DESC_CC_FM : Z -> Z;
  VTD_INV_DESC_IOTLB_RSVD_LO : Z;
  VTD_INV_DESC_IOTLB_RSVD_HI : Z;
  VTD_INV_DESC_IOTLB_G : Z;
  VTD_INV_DESC_IOTLB_GLOBAL : Z;
  VTD_INV_DESC_IOTLB_DOMAIN : Z;
  VTD_INV_DESC_IOTLB_PAGE : Z;
  VTD_INV_DESC_IOTLB_DID : Z -> Z;
  VTD_INV_DESC_IOTLB_ADDR : Z -> Z;
  VTD_INV_DESC_IOTLB_AM : Z -> Z;
  DMAR_IOTLB_REG : Z;
  DMAR_IVA_REG : Z;
  VTD_TLB_IVT : Z;
  VTD_TLB_FLUSH_GRANU_MASK : Z;
  VTD_TLB_GLOBAL_FLUSH : Z;
  VTD_TLB_DSI_FLUSH : Z;
  VTD_TLB_PSI_FLUSH : Z;
  VTD_TLB_FLUSH_GRANU_MASK_A : Z;
  VTD_TLB_GLOBAL_FLUSH_A : Z;
  VTD_TLB_DSI_FLUSH_A : Z;
  VTD_TLB_PSI_FLUSH_A : Z;
  VTD_TLB_DID : Z -> Z;
  VTD_IVA_ADDR : Z -> Z;
  VTD_IVA_AM : Z -> Z;
}.

(** The descriptor handlers of the source, under the names the queue
    processor calls them by. *)
Module InvDesc.
Section Handlers.
Context {RH : VTDRegHeader} {PH : VTDPagingHeader} {CH : VTDContextHeader}.
Context {EH : VTDEventHeader} {IH : VTDInvHeader} {DH : VTDInvDescHeader}.
Variable z_uninit : Z.
Variable vtd_iommu_replay_all : IntelIOMMUState -> IntelIOMMUState.
Variable vtd_iotlb_domain_sync : IntelIOMMUState -> Z -> IntelIOMMUState.
Variable vtd_iotlb_page_invalidate_notify :
  IntelIOMMUState -> Z -> Z -> Z -> Z -> IntelIOMMUState.
Variable vtd_context_device_sync :
  IntelIOMMUState -> vtd_as_key -> Z -> IntelIOMMUState.
Variable vtd_context_global_resync : IntelIOMMUState -> IntelIOMMUState.

(** [dma_memory_write] of the four bytes of the status data at an
    address of guest memory: its error flag and the state with the
    memory written. *)
Variable dma_memory_write_long :
  IntelIOMMUState -> Z -> Z -> bool * IntelIOMMUState.

(** [status_data] is a [uint32_t]. *)
Definition vtd_process_wait_desc (s : IntelIOMMUState) (inv_desc : VTDInvDesc)
    : option (bool * IntelIOMMUState) :=
  let lo := desc_lo inv_desc in
  let hi := desc_hi inv_desc in
  if nonzero (Z.land hi VTD_INV_DESC_WAIT_RSVD_HI)
     || nonzero (Z.land lo VTD_INV_DESC_WAIT_RSVD_LO)
  then Some (false, s)
  else if nonzero (Z.land lo VTD_INV_DESC_WAIT_SW)
  then
    let status_data := u32 (Z.shiftr lo VTD_INV_DESC_WAIT_DATA_SHIFT) in
    _ ← assert_ (negb (nonzero (Z.land lo VTD_INV_DESC_WAIT_IF)));
    let status_addr := hi in
    match dma_memory_write_long s status_addr status_data with
    | (true, s) => Some (false, s)
    | (false, s) => Some (true, s)
    end
  else if nonzero (Z.land lo VTD_INV_DESC_WAIT_IF)
  then
    s ← vtd_generate_completion_event s;
    Some (true, s)
  else if nonzero (Z.land lo VTD_INV_DESC_WAIT_FN)
  then Some (true, s)
  else Some (false, s).

(** [sid] and [fmask] are [uint16_t]; the domain case falls through to
    the global one. *)
Definition vtd_process_context_cache_desc (s : IntelIOMMUState)
    (inv_desc : VTDInvDesc) : option (bool * IntelIOMMUState) :=
  let lo := desc_lo inv_desc in
  let hi := desc_hi inv_desc in
  if nonzero (Z.land lo VTD_INV_DESC_CC_RSVD) || nonzero hi
  then Some (false, s)
  else
    let g := Z.land lo VTD_INV_DESC_CC_G in
    if (g =? VTD_INV_DESC_CC_DOMAIN) || (g =? VTD_INV_DESC_CC_GLOBAL)
    then Some (true, vtd_context_global_invalidate vtd_context_global_resync s)
    else if g =? VTD_INV_DESC_CC_DEVICE
    then
      let sid := u16 (VTD_INV_DESC_CC_SID lo) in
      let fmask := u16 (VTD_INV_DESC_CC_FM lo) in
      Some (true,
            vtd_context_device_invalidate vtd_context_device_sync s sid fmask)
    else Some (false, s).

(** [domain_id] is a [uint16_t], [am] a [uint8_t]. *)
Definition vtd_process_iotlb_desc (s : IntelIOMMUState) (inv_desc : VTDInvDesc)
    : option (bool * IntelIOMMUState) :=
  let lo := desc_lo inv_desc in
  let hi := desc_hi inv_desc in
  if nonzero (Z.land lo VTD_INV_DESC_IOTLB_RSVD_LO)
     || nonzero (Z.land hi VTD_INV_DESC_IOTLB_RSVD_HI)
  then Some (false, s)
  else
    let g := Z.land lo VTD_INV_DESC_IOTLB_G in
    if g =? VTD_INV_DESC_IOTLB_GLOBAL
    then Some (true, vtd_iotlb_global_invalidate vtd_iommu_replay_all s)
    else if g =? VTD_INV_DESC_IOTLB_DOMAIN
    then
      let domain_id := u16 (VTD_INV_DESC_IOTLB_DID lo) in
      Some (true, vtd_iotlb_domain_invalidate vtd_iotlb_domain_sync s domain_id)
    else if g =? VTD_INV_DESC_IOTLB_PAGE
    then
      let domain_id := u16 (VTD_INV_DESC_IOTLB_DID lo) in
      let addr := VTD_INV_DESC_IOTLB_ADDR hi in
      let am := u8 (VTD_INV_DESC_IOTLB_AM hi) in
      if am >? VTD_MAMV
      then Some (false, s)
      else
        s ← vtd_iotlb_page_invalidate z_uninit vtd_iotlb_page_invalidate_notify
              s domain_id addr am;
        Some (true, s)
    else Some (false, s).

End Handlers.
End InvDesc.

Section RegisterInvalidate.
Context {RH : VTDRegHeader} {PH : VTDPagingHeader} {CH : VTDContextHeader}.
Context {IH : VTDInvHeader} {DH : VTDInvDescHeader}.
Variable z_uninit : Z.
Variable vtd_iommu_replay_all : IntelIOMMUState -> IntelIOMMUState.
Variable vtd_iotlb_domain_sync : IntelIOMMUState -> Z -> IntelIOMMUState.
Variable vtd_iotlb_page_invalidate_notify :
  IntelIOMMUState -> Z -> Z -> Z -> Z -> IntelIOMMUState.

(** Flush IOTLB: the actual invalidation granularity for the register,
    0 if the request is invalid, and the new state. *)
Definition vtd_iotlb_flush (s : IntelIOMMUState) (val : Z)
    : option (Z * IntelIOMMUState) :=
  let type := Z.land val VTD_TLB_FLUSH_GRANU_MASK in
  if type =? VTD_TLB_GLOBAL_FLUSH
  then Some (VTD_TLB_GLOBAL_FLUSH_A,
             vtd_iotlb_global_invalidate vtd_iommu_replay_all s)
  else if type =? VTD_TLB_DSI_FLUSH
  then
    let domain_id := u16 (VTD_TLB_DID val) in
    Some (VTD_TLB_DSI_FLUSH_A,
          vtd_iotlb_domain_invalidate vtd_iotlb_domain_sync s domain_id)
  else if type =? VTD_TLB_PSI_FLUSH
  then
    let domain_id := u16 (VTD_TLB_DID val) in
    let addr := vtd_get_quad_raw s DMAR_IVA_REG in
    let am := u8 (VTD_IVA_AM addr) in
    let addr := VTD_IVA_ADDR addr in
    if am >? VTD_MAMV
    then Some (0, s)
    else
      s ← vtd_iotlb_page_invalidate z_uninit vtd_iotlb_page_invalidate_notify
            s domain_id addr am;
      Some (VTD_TLB_PSI_FLUSH_A, s)
  else Some (0, s).

(** Handle write to IOTLB Invalidation Register. *)
Definition vtd_handle_iotlb_write (s : IntelIOMMUState)
    : option IntelIOMMUState :=
  let val := vtd_get_quad_raw s DMAR_IOTLB_REG in
  if nonzero (Z.land val VTD_TLB_IVT)
  then
    if qi_enabled s then Some s
    else
      r ← vtd_iotlb_flush s val;
      let '(ret, s) := r in
      let s := (vtd_set_clear_mask_quad s DMAR_IOTLB_REG VTD_TLB_IVT 0).2 in
      Some (vtd_set_clear_mask_quad s DMAR_IOTLB_REG
              VTD_TLB_FLUSH_GRANU_MASK_A ret).2
  else Some s.

End RegisterInvalidate.

Section RequestFrames.
Context {RH : VTDRegHeader}.

(** What is assumed further of a notification where the registers or
    the queue matter: it leaves the registers, the queue cursors and
    the interrupts sent alone. *)
Definition notify_regs_frame (s s' : IntelIOMMUState) : Prop :=
  csr s' = csr s /\ msi_log s' = msi_log s /\
  qi_enabled s' = qi_enabled s /\
  iq_head s' = iq_head s /\ iq_tail s' = iq_tail s /\
  iq_size s' = iq_size s /\ iq_dw s' = iq_dw s.

End RequestFrames.

(** What the handshake of the IOTLB invalidation register needs of
    its fields: the request bit and the field of the actual
    granularity lie in the 64-bit register and do not overlap, and
    each actual granularity lies in its field. *)
Class VTDTlbRegOK (DH : VTDInvDescHeader) : Prop := {
  tlb_ivt_bit : 0 < VTD_TLB_IVT < 2 ^ 64;
  tlb_granu_a_range : 0 <= VTD_TLB_FLUSH_GRANU_MASK_A < 2 ^ 64;
  tlb_ivt_not_granu_a : Z.land VTD_TLB_FLUSH_GRANU_MASK_A VTD_TLB_IVT = 0;
  tlb_global_a_field :
    Z.land VTD_TLB_GLOBAL_FLUSH_A VTD_TLB_FLUSH_GRANU_MASK_A
    = VTD_TLB_GLOBAL_FLUSH_A;
  tlb_dsi_a_field :
    Z.land VTD_TLB_DSI_FLUSH_A VTD_TLB_FLUSH_GRANU_MASK_A
    = VTD_TLB_DSI_FLUSH_A;
  tlb_psi_a_field :
    Z.land VTD_TLB_PSI_FLUSH_A VTD_TLB_FLUSH_GRANU_MASK_A
    = VTD_TLB_PSI_FLUSH_A;
}.

(** ** An instance of the event and invalidation headers

    The constants that the event, invalidation and descriptor code
    takes from the absent header, fixed for the test bench. *)

Module RequestExample.
Import Example.

(** Modelled from the spec: the registers and flags of the
    invalidation completion event in the absent header, with the
    layout of the VT-d architecture. *)
Definition event_header : VTDEventHeader := {|
  DMAR_ICS_REG := 0x9c;
  DMAR_IECTL_REG := 0xa0;
  DMAR_IEDATA_REG := 0xa4;
  DMAR_IEADDR_REG := 0xa8;
  VTD_ICS_IWC := 1;
  VTD_IECTL_IM := 2 ^ 31;
  VTD_IECTL_IP := 2 ^ 30;
|}.

(** Modelled from the spec: the maximum address mask value and the
    split of a source-id into bus and device-function numbers. *)
Definition inv_header : VTDInvHeader := {|
  VTD_MAMV := 18;
  VTD_SID_TO_BUS := fun sid => Z.land (Z.shiftr sid 8) 0xff;
  VTD_SID_TO_DEVFN := fun sid => Z.land sid 0xff;
|}.

(** Modelled from the spec: the fields of the wait, context-cache and
    IOTLB descriptors and of the IOTLB invalidation registers of the
    absent header, with the layout of the VT-d architecture. *)
Definition inv_desc_header : VTDInvDescHeader := {|
  VTD_INV_DESC_WAIT_RSVD_HI := 3;
  VTD_INV_DESC_WAIT_RSVD_LO := 0xffffff80;
  VTD_INV_DESC_WAIT_SW := 0x20;
  VTD_INV_DESC_WAIT_IF := 0x10;
  VTD_INV_DESC_WAIT_FN := 0x40;
  VTD_INV_DESC_WAIT_DATA_SHIFT := 32;
  VTD_INV_DESC_CC_RSVD := 0xfffc00000000ffc0;
  VTD_INV_DESC_CC_G := 0x30;
  VTD_INV_DESC_CC_DOMAIN := 0x20;
  VTD_INV_DESC_CC_GLOBAL := 0x10;
  VTD_INV_DESC_CC_DEVICE := 0x30;
  VTD_INV_DESC_CC_SID := fun v => Z.land (Z.shiftr v 32) 0xffff;
  VTD_INV_DESC_CC_FM := fun v => Z.land (Z.shiftr v 48) 3;
  VTD_INV_DESC_IOTLB_RSVD_LO := 0xffffffff0000f100;
  VTD_INV_DESC_IOTLB_RSVD_HI := 0xf80;
  VTD_INV_DESC_IOTLB_G := 0x30;
  VTD_INV_DESC_IOTLB_GLOBAL := 0x10;
  VTD_INV_DESC_IOTLB_DOMAIN := 0x20;
  VTD_INV_DESC_IOTLB_PAGE := 0x30;
  VTD_INV_DESC_IOTLB_DID := fun v => Z.land (Z.shiftr v 16) 0xffff;
  VTD_INV_DESC_IOTLB_ADDR := fun v => Z.land v (high_bits 12);
  VTD_INV_DESC_IOTLB_AM := fun v => Z.land v 0x3f;
  DMAR_IOTLB_REG := 0xf8;
  DMAR_IVA_REG := 0xf0;
  VTD_TLB_IVT := 2 ^ 63;
  VTD_TLB_FLUSH_GRANU_MASK := 3 * 2 ^ 60;
  VTD_TLB_GLOBAL_FLUSH := 2 ^ 60;
  VTD_TLB_DSI_FLUSH := 2 * 2 ^ 60;
  VTD_TLB_PSI_FLUSH := 3 * 2 ^ 60;
  VTD_TLB_FLUSH_GRANU_MASK_A := 3 * 2 ^ 57;
  VTD_TLB_GLOBAL_FLUSH_A := 2 ^ 57;
  VTD_TLB_DSI_FLUSH_A := 2 * 2 ^ 57;
  VTD_TLB_PSI_FLUSH_A := 3 * 2 ^ 57;
  VTD_TLB_DID := fun v => Z.land (Z.shiftr v 32) 0xffff;
  VTD_IVA_ADDR := fun v => Z.land v (high_bits 12);
  VTD_IVA_AM := fun v => Z.land v 0x3f;
|}.

(** *** States and requests of the test bench *)

(** The device after reset with a fault event pending and not masked:
    Interrupt Pending is set in the fault event control register. *)
Definition state_event_pending : IntelIOMMUState :=
  (vtd_set_clear_mask_long state0 0x38 0 (2 ^ 30)).2.

(** The cached device with queued invalidation disabled and a global
    flush requested in the IOTLB invalidation register. *)
Definition state_flush : IntelIOMMUState :=
  {| csr := stq_le_p (fun _ => 0) 0xf8 (2 ^ 63 + 2 ^ 60);
     next_frcd_reg := 0; msi_log := [];
     root := 0x1000; root_scalable := false; scalable_mode := false;
     dmar_enabled := true; aw_bits := 48; cap := 0x600; ecap := 0;
     pt_supported := false; dt_supported := false;
     context_cache_gen := 1;
     iotlb := tlb_page1; p_iotlb := ∅;
     vtd_address_spaces := {[ as_key0 := as_dev0 ce_dev0 1 ]};
     iq := 0x20000; iq_head := 0; iq_tail := 0; iq_size := 4;
     iq_dw := false; qi_enabled := false; iq_last_desc_type := 0;
     vtd_spte_rsvd := [0; spte_rsvd; spte_rsvd; spte_rsvd; spte_rsvd];
     vtd_spte_rsvd_large :=
       [0; spte_rsvd; spte_rsvd; spte_rsvd; spte_rsvd];
     guest_mem := mem |}.

(** Notifications with no observer registered. *)
Definition notify_none (s : IntelIOMMUState) : IntelIOMMUState := s.
Definition domain_sync_none (s : IntelIOMMUState) (domain_id : Z)
    : IntelIOMMUState := s.
Definition page_notify_none (s : IntelIOMMUState)
    (domain_id addr am pasid : Z) : IntelIOMMUState := s.
Definition device_sync_none (s : IntelIOMMUState) (k : vtd_as_key)
    (devfn : Z) : IntelIOMMUState := s.

(** A write of the status data that succeeds and that no modelled
    table overlaps. *)
Definition dma_write_ok (s : IntelIOMMUState) (addr data : Z)
    : bool * IntelIOMMUState := (false, s).

(** An IOTLB descriptor of global granularity, a context-cache
    descriptor of global granularity, and a wait descriptor with the
    status-write and the interrupt flag both set. *)
Definition desc_iotlb_global : VTDInvDesc :=
  {| desc_val0 := 0x12; desc_val1 := 0; desc_val2 := 0; desc_val3 := 0 |}.
Definition desc_cc_global : VTDInvDesc :=
  {| desc_val0 := 0x11; desc_val1 := 0; desc_val2 := 0; desc_val3 := 0 |}.
Definition desc_wait_sw_if : VTDInvDesc :=
  {| desc_val0 := 0x35; desc_val1 := 0; desc_val2 := 0; desc_val3 := 0 |}.

End RequestExample.

(** * Properties *)

(** ** Machine integers and little-endian bytes *)

Lemma land_mod_pow2 (x m n : Z) :
  0 <= n -> 0 <= m < 2 ^ n -> Z.land (x mod 2 ^ n) m = Z.land x m.
Proof.
  intros Hn Hm.
  rewrite <- Z.land_ones by lia.
  rewrite <- Z.land_assoc, (Z.land_comm (Z.ones n) m), Z.land_ones by lia.
  now rewrite Z.mod_small.
Qed.

Lemma land_u32 (x m : Z) : 0 <= m < 2 ^ 32 -> Z.land (u32 x) m = Z.land x m.
Proof. intros. unfold u32. apply land_mod_pow2; lia. Qed.

Lemma land_u64 (x m : Z) : 0 <= m < 2 ^ 64 -> Z.land (u64 x) m = Z.land x m.
Proof. intros. unfold u64. apply land_mod_pow2; lia. Qed.

Lemma u64_small (x : Z) : 0 <= x < 2 ^ 64 -> u64 x = x.
Proof. intros. unfold u64. now apply Z.mod_small. Qed.

Lemma u32_small (x : Z) : 0 <= x < 2 ^ 32 -> u32 x = x.
Proof. intros. unfold u32. now apply Z.mod_small. Qed.

Lemma u16_small (x : Z) : 0 <= x < 2 ^ 16 -> u16 x = x.
Proof. intros. unfold u16. now apply Z.mod_small. Qed.

Lemma u8_small (x : Z) : 0 <= x < 2 ^ 8 -> u8 x = x.
Proof. intros. unfold u8. now apply Z.mod_small. Qed.

Lemma u64_range (x : Z) : 0 <= u64 x < 2 ^ 64.
Proof. unfold u64. apply Z.mod_pos_bound. lia. Qed.

Lemma nonzero_true (x : Z) : nonzero x = true <-> x <> 0.
Proof.
  unfold nonzero. destruct (Z.eqb_spec x 0); simpl; split; intros; congruence.
Qed.

Lemma nonzero_false (x : Z) : nonzero x = false <-> x = 0.
Proof.
  unfold nonzero. destruct (Z.eqb_spec x 0); simpl; split; intros; congruence.
Qed.

(** A load only depends on the bytes it covers. *)
Lemma ld_le_ext (n : nat) (m1 m2 : Z -> Z) (a : Z) :
  (forall x, a <= x < a + Z.of_nat n -> m1 x = m2 x) ->
  ld_le n m1 a = ld_le n m2 a.
Proof.
  revert a. induction n as [|n IH]; intros a H; simpl; [reflexivity|].
  rewrite (H a) by lia. rewrite (IH (a + 1)); [reflexivity|].
  intros x Hx. apply H. lia.
Qed.

Lemma st_le_outside (n : nat) (m : Z -> Z) (a v x : Z) :
  x < a \/ a + Z.of_nat n <= x -> st_le n m a v x = m x.
Proof.
  intros H. unfold st_le.
  destruct (Z.leb_spec a x), (Z.ltb_spec x (a + Z.of_nat n)); simpl;
    try reflexivity; lia.
Qed.

Lemma st_le_inside (n : nat) (m : Z -> Z) (a v x : Z) :
  a <= x < a + Z.of_nat n ->
  st_le n m a v x = (v / 2 ^ (8 * (x - a))) mod 256.
Proof.
  intros H. unfold st_le.
  destruct (Z.leb_spec a x), (Z.ltb_spec x (a + Z.of_nat n)); simpl;
    try reflexivity; lia.
Qed.

(** A store does not disturb a load of bytes it does not cover. *)
Lemma ld_le_st_le_other (n n' : nat) (m : Z -> Z) (a a' v : Z) :
  a' + Z.of_nat n' <= a \/ a + Z.of_nat n <= a' ->
  ld_le n' (st_le n m a v) a' = ld_le n' m a'.
Proof.
  intros H. apply ld_le_ext. intros x Hx. apply st_le_outside. lia.
Qed.

Lemma ld_le_bytes (n : nat) (m : Z -> Z) (a v : Z) :
  (forall i, 0 <= i < Z.of_nat n -> m (a + i) = (v / 2 ^ (8 * i)) mod 256) ->
  ld_le n m a = v mod 2 ^ (8 * Z.of_nat n).
Proof.
  revert a v. induction n as [|n IH]; intros a v H.
  - simpl. now rewrite Z.mod_1_r.
  - cbn [ld_le].
    assert (H0 := H 0 ltac:(lia)).
    rewrite Z.add_0_r, Z.mul_0_r, Z.pow_0_r, Z.div_1_r in H0.
    rewrite H0, Zmod_mod.
    rewrite (IH (a + 1) (v / 256)).
    + replace (8 * Z.of_nat (S n)) with (8 + 8 * Z.of_nat n) by lia.
      rewrite Z.pow_add_r by lia.
      change (2 ^ 8) with 256.
      rewrite Z.rem_mul_r by lia. reflexivity.
    + intros i Hi.
      replace (a + 1 + i) with (a + (i + 1)) by lia.
      rewrite H by lia.
      replace (8 * (i + 1)) with (8 + 8 * i) by lia.
      rewrite Z.pow_add_r by lia.
      change (2 ^ 8) with 256.
      rewrite Z.div_div by lia. reflexivity.
Qed.

(** A load reads back what a store of the same width wrote. *)
Lemma ld_le_st_le_same (n : nat) (m : Z -> Z) (a v : Z) :
  ld_le n (st_le n m a v) a = v mod 2 ^ (8 * Z.of_nat n).
Proof.
  apply ld_le_bytes. intros i Hi.
  rewrite st_le_inside by lia.
  now replace (a + i - a) with i by lia.
Qed.

Lemma ldq_stq_same (m : Z -> Z) (a v : Z) :
  ldq_le_p (stq_le_p m a v) a = u64 v.
Proof. apply (ld_le_st_le_same 8). Qed.

Lemma ldl_stl_same (m : Z -> Z) (a v : Z) :
  ldl_le_p (stl_le_p m a v) a = u32 v.
Proof. apply (ld_le_st_le_same 4). Qed.

Lemma ldq_stq_other (m : Z -> Z) (a a' v : Z) :
  a' + 8 <= a \/ a + 8 <= a' ->
  ldq_le_p (stq_le_p m a v) a' = ldq_le_p m a'.
Proof. intros. apply (ld_le_st_le_other 8 8). lia. Qed.

Lemma ldq_stl_other (m : Z -> Z) (a a' v : Z) :
  a' + 8 <= a \/ a + 4 <= a' ->
  ldq_le_p (stl_le_p m a v) a' = ldq_le_p m a'.
Proof. intros. apply (ld_le_st_le_other 4 8). lia. Qed.

Lemma ldl_stq_other (m : Z -> Z) (a a' v : Z) :
  a' + 4 <= a \/ a + 8 <= a' ->
  ldl_le_p (stq_le_p m a v) a' = ldl_le_p m a'.
Proof. intros. apply (ld_le_st_le_other 8 4). lia. Qed.

Lemma ldl_stl_other (m : Z -> Z) (a a' v : Z) :
  a' + 4 <= a \/ a + 4 <= a' ->
  ldl_le_p (stl_le_p m a v) a' = ldl_le_p m a'.
Proof. intros. apply (ld_le_st_le_other 4 4). lia. Qed.

(** ** The fault reporter *)

Section FaultReporterFacts.
Context {RH : VTDRegHeader} {OK : VTDRegHeaderOK RH}.

Lemma frcd_reg_addr_lo (i : Z) :
  0 <= i < DMAR_FRCD_REG_NR -> frcd_reg_addr i = DMAR_FRCD_REG_OFFSET + 16 * i.
Proof.
  intros Hi. destruct frcd_regs_fit as (H0 & H1 & H2).
  unfold frcd_reg_addr. rewrite Z.shiftl_mul_pow2 by lia.
  change (2 ^ 4) with 16.
  rewrite (u64_small (i * 16)) by lia. rewrite u64_small by lia. lia.
Qed.

Lemma frcd_reg_addr_hi (i : Z) :
  0 <= i < DMAR_FRCD_REG_NR ->
  u64 (frcd_reg_addr i + 8) = DMAR_FRCD_REG_OFFSET + 16 * i + 8.
Proof.
  intros Hi. destruct frcd_regs_fit as (H0 & H1 & H2).
  rewrite frcd_reg_addr_lo by lia. rewrite u64_small by lia. lia.
Qed.

Lemma vtd_is_frcd_set_present (s : IntelIOMMUState) (i : Z) :
  i < DMAR_FRCD_REG_NR -> vtd_is_frcd_set s i = Some (vtd_frcd_present s i).
Proof.
  intros Hi. unfold vtd_is_frcd_set, assert_.
  destruct (Z.ltb_spec i DMAR_FRCD_REG_NR); [reflexivity | lia].
Qed.

Lemma vtd_any_frcd_set_total (s : IntelIOMMUState) (n : nat) (i : Z) :
  0 <= i -> i + Z.of_nat n <= DMAR_FRCD_REG_NR ->
  exists b, vtd_any_frcd_set s i n = Some b.
Proof.
  revert i. induction n as [|n IH]; intros i H0 H1; simpl.
  - eauto.
  - rewrite vtd_is_frcd_set_present by lia. simpl.
    destruct (vtd_frcd_present s i); [eauto|].
    destruct frcd_nr_range.
    rewrite u32_small by lia. apply IH; lia.
Qed.

(** The scan of [vtd_try_collapse_fault] finds a present register with
    the given source-id exactly when there is one. *)
Lemma vtd_try_collapse_loop_spec (s : IntelIOMMUState) (sid : Z) (n : nat)
    (i : Z) :
  0 <= i -> i + Z.of_nat n <= DMAR_FRCD_REG_NR ->
  vtd_try_collapse_loop s sid (DMAR_FRCD_REG_OFFSET + 16 * i + 8) n = true <->
  exists j, i <= j < i + Z.of_nat n /\
            vtd_frcd_present s j = true /\ vtd_frcd_sid s j = sid.
Proof.
  revert i. induction n as [|n IH]; intros i H0 H1; simpl.
  - split; [congruence | intros (j & Hj & _); lia].
  - assert (Hhi : vtd_get_quad_raw s (DMAR_FRCD_REG_OFFSET + 16 * i + 8)
                  = vtd_frcd_hi s i).
    { unfold vtd_frcd_hi. now rewrite frcd_reg_addr_hi by lia. }
    rewrite Hhi.
    fold (vtd_frcd_present s i). fold (vtd_frcd_sid s i).
    destruct frcd_regs_fit as (F0 & F1 & F2).
    replace (u64 (DMAR_FRCD_REG_OFFSET + 16 * i + 8 + 16))
      with (DMAR_FRCD_REG_OFFSET + 16 * (i + 1) + 8)
      by (rewrite u64_small by lia; lia).
    destruct (vtd_frcd_present s i) eqn:Hp;
      [destruct (Z.eqb_spec (vtd_frcd_sid s i) sid) as [He|He]|]; simpl.
    + split; [|reflexivity]. intros _. exists i. repeat split; [lia|lia|done|done].
    + rewrite IH by lia. split.
      * intros (j & Hj & Hq). exists j. split; [lia|done].
      * intros (j & Hj & Hpj & Hsj). exists j. split; [|done].
        destruct (Z.eq_dec j i) as [->|]; [congruence|lia].
    + rewrite IH by lia. split.
      * intros (j & Hj & Hq). exists j. split; [lia|done].
      * intros (j & Hj & Hpj & Hsj). exists j. split; [|done].
        destruct (Z.eq_dec j i) as [->|]; [congruence|lia].
Qed.

Lemma vtd_try_collapse_fault_spec (s : IntelIOMMUState) (sid : Z) :
  vtd_try_collapse_fault s sid = true <->
  exists j, 0 <= j < DMAR_FRCD_REG_NR /\
            vtd_frcd_present s j = true /\ vtd_frcd_sid s j = sid.
Proof.
  unfold vtd_try_collapse_fault.
  destruct frcd_regs_fit as (F0 & F1 & F2). destruct frcd_nr_range.
  replace (u64 (DMAR_FRCD_REG_OFFSET + 8))
    with (DMAR_FRCD_REG_OFFSET + 16 * 0 + 8)
    by (rewrite u64_small by lia; lia).
  rewrite vtd_try_collapse_loop_spec by lia.
  rewrite Z2Nat.id by lia. reflexivity.
Qed.

End FaultReporterFacts.

(** *** Frame properties of the register accessors *)

Lemma fault_frame_refl (s : IntelIOMMUState) : fault_frame s s.
Proof. unfold fault_frame. now destruct s. Qed.

Lemma fault_frame_trans (s1 s2 s3 : IntelIOMMUState) :
  fault_frame s1 s2 -> fault_frame s2 s3 -> fault_frame s1 s3.
Proof.
  unfold fault_frame. intros H12 H23. rewrite H23 at 1. rewrite H12 at 1.
  reflexivity.
Qed.

Lemma fault_frame_set_csr (s : IntelIOMMUState) (v : Z -> Z) :
  fault_frame s (set_csr v s).
Proof. unfold fault_frame. now destruct s. Qed.

Lemma fault_frame_set_msi_log (s : IntelIOMMUState) (v : list (Z * Z)) :
  fault_frame s (set_msi_log v s).
Proof. unfold fault_frame. now destruct s. Qed.

Lemma fault_frame_set_next_frcd_reg (s : IntelIOMMUState) (v : Z) :
  fault_frame s (set_next_frcd_reg v s).
Proof. unfold fault_frame. now destruct s. Qed.

Section RegisterFacts.
Context {RH : VTDRegHeader}.

Lemma get_quad_set_quad_same (s : IntelIOMMUState) (a v : Z) :
  vtd_get_quad_raw (vtd_set_quad_raw s a v) a = u64 v.
Proof. apply ldq_stq_same. Qed.

Lemma get_quad_set_quad_other (s : IntelIOMMUState) (a a' v : Z) :
  a' + 8 <= a \/ a + 8 <= a' ->
  vtd_get_quad_raw (vtd_set_quad_raw s a v) a' = vtd_get_quad_raw s a'.
Proof. apply ldq_stq_other. Qed.

Lemma get_long_set_quad_other (s : IntelIOMMUState) (a a' v : Z) :
  a' + 4 <= a \/ a + 8 <= a' ->
  vtd_get_long_raw (vtd_set_quad_raw s a v) a' = vtd_get_long_raw s a'.
Proof. apply ldl_stq_other. Qed.

Lemma get_long_scm_long_same (s : IntelIOMMUState) (r c m : Z) :
  vtd_get_long_raw (vtd_set_clear_mask_long s r c m).2 r
  = u32 (Z.lor (Z.land (vtd_get_long_raw s r) (Z.lnot c)) m).
Proof.
  unfold vtd_set_clear_mask_long, vtd_get_long_raw. cbn [snd csr set_csr].
  rewrite ldl_stl_same. unfold u32. now rewrite Zmod_mod.
Qed.

Lemma get_long_scm_long_other (s : IntelIOMMUState) (r c m a' : Z) :
  a' + 4 <= r \/ r + 4 <= a' ->
  vtd_get_long_raw (vtd_set_clear_mask_long s r c m).2 a'
  = vtd_get_long_raw s a'.
Proof. apply ldl_stl_other. Qed.

Lemma get_quad_scm_long_other (s : IntelIOMMUState) (r c m a' : Z) :
  a' + 8 <= r \/ r + 4 <= a' ->
  vtd_get_quad_raw (vtd_set_clear_mask_long s r c m).2 a'
  = vtd_get_quad_raw s a'.
Proof. apply ldq_stl_other. Qed.

Lemma get_quad_scm_quad_same (s : IntelIOMMUState) (r c m : Z) :
  vtd_get_quad_raw (vtd_set_clear_mask_quad s r c m).2 r
  = u64 (Z.lor (Z.land (vtd_get_quad_raw s r) (Z.lnot c)) m).
Proof.
  unfold vtd_set_clear_mask_quad, vtd_get_quad_raw. cbn [snd csr set_csr].
  rewrite ldq_stq_same. unfold u64. now rewrite Zmod_mod.
Qed.

Lemma get_quad_scm_quad_other (s : IntelIOMMUState) (r c m a' : Z) :
  a' + 8 <= r \/ r + 8 <= a' ->
  vtd_get_quad_raw (vtd_set_clear_mask_quad s r c m).2 a'
  = vtd_get_quad_raw s a'.
Proof. apply ldq_stq_other. Qed.

Lemma get_long_scm_quad_other (s : IntelIOMMUState) (r c m a' : Z) :
  a' + 4 <= r \/ r + 8 <= a' ->
  vtd_get_long_raw (vtd_set_clear_mask_quad s r c m).2 a'
  = vtd_get_long_raw s a'.
Proof. apply ldl_stq_other. Qed.

Lemma fault_frame_scm_long (s : IntelIOMMUState) (r c m : Z) :
  fault_frame s (vtd_set_clear_mask_long s r c m).2.
Proof. apply fault_frame_set_csr. Qed.

Lemma fault_frame_scm_quad (s : IntelIOMMUState) (r c m : Z) :
  fault_frame s (vtd_set_clear_mask_quad s r c m).2.
Proof. apply fault_frame_set_csr. Qed.

Lemma fault_frame_set_quad (s : IntelIOMMUState) (a v : Z) :
  fault_frame s (vtd_set_quad_raw s a v).
Proof. apply fault_frame_set_csr. Qed.

End RegisterFacts.

Section FaultReporterSteps.
Context {RH : VTDRegHeader} {OK : VTDRegHeaderOK RH}.

Lemma vtd_generate_fault_event_spec (s : IntelIOMMUState) (pre_fsts : Z) :
  exists s',
    vtd_generate_fault_event s pre_fsts = Some s' /\
    fault_frame s s' /\
    next_frcd_reg s' = next_frcd_reg s /\
    (forall a, a + 8 <= DMAR_FECTL_REG \/ DMAR_FECTL_REG + 4 <= a ->
               vtd_get_quad_raw s' a = vtd_get_quad_raw s a) /\
    (forall a, a + 4 <= DMAR_FECTL_REG \/ DMAR_FECTL_REG + 4 <= a ->
               vtd_get_long_raw s' a = vtd_get_long_raw s a) /\
    msi_at_most_one s s'.
Proof.
  unfold vtd_generate_fault_event, msi_at_most_one.
  destruct (_ || _ || _).
  { exists s. split_and!; auto using fault_frame_refl. }
  set (s1 := (vtd_set_clear_mask_long s DMAR_FECTL_REG 0 VTD_FECTL_IP).2).
  assert (F1 : fault_frame s s1) by apply fault_frame_scm_long.
  destruct (nonzero _).
  { exists s1. split_and!; auto.
    - intros a Ha. apply get_quad_scm_long_other. lia.
    - intros a Ha. apply get_long_scm_long_other. lia. }
  unfold vtd_generate_interrupt, assert_.
  destruct fe_regs_in_csr as [Hd Ha].
  destruct (Z.ltb_spec DMAR_FEDATA_REG DMAR_REG_SIZE); [|lia].
  destruct (Z.ltb_spec DMAR_FEADDR_REG DMAR_REG_SIZE); [|lia].
  cbn [mbind option_bind].
  eexists. split; [reflexivity|].
  split_and!.
  - eapply fault_frame_trans; [exact F1|].
    eapply fault_frame_trans; [apply fault_frame_set_msi_log|].
    apply fault_frame_scm_long.
  - reflexivity.
  - intros a Hx. rewrite get_quad_scm_long_other by lia.
    unfold vtd_get_quad_raw. cbn [csr set_msi_log].
    apply (get_quad_scm_long_other s). lia.
  - intros a Hx. rewrite get_long_scm_long_other by lia.
    unfold vtd_get_long_raw. cbn [csr set_msi_log].
    apply (get_long_scm_long_other s). lia.
  - right. eexists. reflexivity.
Qed.

Lemma vtd_update_fsts_ppf_spec (s : IntelIOMMUState) :
  exists m,
    vtd_update_fsts_ppf s
    = Some (vtd_set_clear_mask_long s DMAR_FSTS_REG VTD_FSTS_PPF m).2 /\
    (m = VTD_FSTS_PPF \/ m = 0).
Proof.
  unfold vtd_update_fsts_ppf. destruct frcd_nr_range.
  destruct (vtd_any_frcd_set_total s (Z.to_nat DMAR_FRCD_REG_NR) 0)
    as [b Hb]; [lia|lia|].
  rewrite Hb. cbn [mbind option_bind].
  destruct b; eexists; split; eauto.
Qed.

(** The Primary Fault Overflow flag survives an update of FSTS that
    neither sets nor clears it. *)
Lemma pfo_after_scm (s : IntelIOMMUState) (c m : Z) :
  Z.land m VTD_FSTS_PFO = 0 ->
  Z.land (vtd_get_long_raw (vtd_set_clear_mask_long s DMAR_FSTS_REG c m).2
            DMAR_FSTS_REG) VTD_FSTS_PFO
  = Z.land (Z.land (vtd_get_long_raw s DMAR_FSTS_REG) VTD_FSTS_PFO)
           (Z.lnot c).
Proof.
  intros Hm. rewrite get_long_scm_long_same.
  destruct fsts_pfo_bit.
  rewrite land_u32 by lia.
  rewrite Z.land_lor_distr_l, Hm, Z.lor_0_r.
  rewrite <- !Z.land_assoc. f_equal. apply Z.land_comm.
Qed.

End FaultReporterSteps.

Section FaultReporterReport.
Context {RH : VTDRegHeader} {OK : VTDRegHeaderOK RH}.

Lemma get_quad_set_next (s : IntelIOMMUState) (v a : Z) :
  vtd_get_quad_raw (set_next_frcd_reg v s) a = vtd_get_quad_raw s a.
Proof. reflexivity. Qed.

Lemma get_long_set_next (s : IntelIOMMUState) (v a : Z) :
  vtd_get_long_raw (set_next_frcd_reg v s) a = vtd_get_long_raw s a.
Proof. reflexivity. Qed.

Ltac reg_read :=
  repeat first
    [ rewrite get_quad_set_next
    | rewrite get_long_set_next
    | rewrite get_quad_set_quad_same
    | rewrite get_quad_scm_quad_same
    | rewrite get_quad_set_quad_other by lia
    | rewrite get_long_set_quad_other by lia
    | rewrite get_long_scm_long_other by lia
    | rewrite get_quad_scm_long_other by lia
    | rewrite get_quad_scm_quad_other by lia
    | rewrite get_long_scm_quad_other by lia ].

(** The registers after [vtd_set_frcd_and_update_ppf] on register [n]. *)
Lemma set_frcd_spec (s1 : IntelIOMMUState) (n : Z) :
  0 <= n < DMAR_FRCD_REG_NR ->
  exists s3,
    vtd_set_frcd_and_update_ppf s1 n = Some s3 /\
    fault_frame s1 s3 /\
    next_frcd_reg s3 = next_frcd_reg s1 /\
    msi_log s3 = msi_log s1 /\
    vtd_frcd_lo s3 n = vtd_frcd_lo s1 n /\
    vtd_frcd_hi s3 n = u64 (Z.lor (vtd_frcd_hi s1 n) VTD_FRCD_F) /\
    (forall j, 0 <= j < DMAR_FRCD_REG_NR -> j <> n ->
               vtd_frcd_lo s3 j = vtd_frcd_lo s1 j /\
               vtd_frcd_hi s3 j = vtd_frcd_hi s1 j) /\
    Z.land (vtd_get_long_raw s3 DMAR_FSTS_REG) VTD_FSTS_PFO
    = Z.land (Z.land (vtd_get_long_raw s1 DMAR_FSTS_REG) VTD_FSTS_PFO)
             (Z.lnot VTD_FSTS_PPF).
Proof.
  intros Hn.
  pose proof frcd_regs_fit as (F0 & F1 & F2).
  pose proof fsts_frcd_disjoint as D1.
  unfold vtd_set_frcd_and_update_ppf, assert_.
  destruct (Z.ltb_spec n DMAR_FRCD_REG_NR); [|lia].
  cbn [mbind option_bind].
  match goal with |- context [vtd_update_fsts_ppf ?x] =>
    destruct (vtd_update_fsts_ppf_spec x) as (m & Hm & Hmv) end.
  rewrite Hm. eexists.
  split; [reflexivity|].
  assert (Hpfo : Z.land m VTD_FSTS_PFO = 0).
  { destruct Hmv as [-> | ->]; [apply fsts_ppf_not_pfo | apply Z.land_0_l]. }
  unfold vtd_frcd_lo, vtd_frcd_hi.
  rewrite !frcd_reg_addr_hi, !frcd_reg_addr_lo by lia.
  split_and!.
  - eapply fault_frame_trans; [|apply fault_frame_scm_long].
    apply fault_frame_scm_quad.
  - reflexivity.
  - reflexivity.
  - reg_read. reflexivity.
  - reg_read. now rewrite Z.lnot_0, Z.land_m1_r.
  - intros j Hj Hne.
    rewrite !frcd_reg_addr_hi, !frcd_reg_addr_lo by lia.
    split; reg_read; reflexivity.
  - rewrite pfo_after_scm by exact Hpfo. reg_read. reflexivity.
Qed.

(** The registers after [vtd_record_frcd] on register [n]. *)
Lemma record_frcd_spec (s0 : IntelIOMMUState) (n hi lo : Z) :
  0 <= n < DMAR_FRCD_REG_NR ->
  exists s1,
    vtd_record_frcd s0 n hi lo = Some s1 /\
    fault_frame s0 s1 /\
    next_frcd_reg s1 = next_frcd_reg s0 /\
    msi_log s1 = msi_log s0 /\
    vtd_frcd_lo s1 n = u64 lo /\
    vtd_frcd_hi s1 n = u64 hi /\
    (forall j, 0 <= j < DMAR_FRCD_REG_NR -> j <> n ->
               vtd_frcd_lo s1 j = vtd_frcd_lo s0 j /\
               vtd_frcd_hi s1 j = vtd_frcd_hi s0 j) /\
    vtd_get_long_raw s1 DMAR_FSTS_REG = vtd_get_long_raw s0 DMAR_FSTS_REG.
Proof.
  intros Hn.
  pose proof frcd_regs_fit as (F0 & F1 & F2).
  pose proof fsts_frcd_disjoint as D1.
  unfold vtd_record_frcd, assert_.
  destruct (Z.ltb_spec n DMAR_FRCD_REG_NR); [|lia].
  cbn [mbind option_bind].
  eexists. split; [reflexivity|].
  unfold vtd_frcd_lo, vtd_frcd_hi.
  rewrite !frcd_reg_addr_hi, !frcd_reg_addr_lo by lia.
  split_and!.
  - eapply fault_frame_trans; apply fault_frame_set_quad.
  - reflexivity.
  - reflexivity.
  - reg_read. reflexivity.
  - reg_read. reflexivity.
  - intros j Hj Hne.
    rewrite !frcd_reg_addr_hi, !frcd_reg_addr_lo by lia.
    split; reg_read; reflexivity.
  - reg_read. reflexivity.
Qed.

End FaultReporterReport.

Section FaultReporterRecorded.
Context {RH : VTDRegHeader} {OK : VTDRegHeaderOK RH}.

Lemma land_lor_same (a b : Z) : Z.land (Z.lor a b) b = b.
Proof.
  apply Z.bits_inj'. intros n Hn.
  rewrite Z.land_spec, Z.lor_spec.
  destruct (Z.testbit a n), (Z.testbit b n); reflexivity.
Qed.

(** A fault reported while no overflow is pending, no present
    register carries its source-id and the register under the cursor
    is free, is recorded in that register. *)
Lemma vtd_report_frcd_fault_recorded (s : IntelIOMMUState)
    (source_id hi lo : Z) :
  0 <= next_frcd_reg s < DMAR_FRCD_REG_NR ->
  vtd_fault_overflow s = false ->
  vtd_try_collapse_fault s (u16 source_id) = false ->
  vtd_frcd_present s (next_frcd_reg s) = false ->
  exists s',
    vtd_report_frcd_fault s source_id hi lo = Some s' /\
    fault_frame s s' /\
    vtd_frcd_lo s' (next_frcd_reg s) = u64 lo /\
    vtd_frcd_hi s' (next_frcd_reg s) = u64 (Z.lor (u64 hi) VTD_FRCD_F) /\
    (forall j, 0 <= j < DMAR_FRCD_REG_NR -> j <> next_frcd_reg s ->
               vtd_frcd_lo s' j = vtd_frcd_lo s j /\
               vtd_frcd_hi s' j = vtd_frcd_hi s j) /\
    vtd_fault_overflow s' = false /\
    msi_at_most_one s s'.
Proof.
  intros Hn Hov Hcol Hfree.
  pose proof frcd_regs_fit as (F0 & F1 & F2).
  pose proof fsts_frcd_disjoint as D1.
  pose proof fectl_frcd_disjoint as D2.
  pose proof fsts_fectl_disjoint as D3.
  unfold vtd_report_frcd_fault.
  fold (vtd_fault_overflow s). rewrite Hov, Hcol.
  rewrite vtd_is_frcd_set_present by lia. rewrite Hfree.
  cbn [mbind option_bind].
  destruct (record_frcd_spec s (next_frcd_reg s) hi lo Hn)
    as (s1 & E1 & Fr1 & Hnx1 & Hmsi1 & Hlo1 & Hhi1 & Hoth1 & Hfsts1).
  rewrite E1. cbn [mbind option_bind]. rewrite Hnx1.
  unfold vtd_fault_overflow in Hov. apply nonzero_false in Hov.
  destruct (nonzero (Z.land _ VTD_FSTS_PPF)).
  - (* pending faults already: no fault event *)
    destruct (set_frcd_spec s1 (next_frcd_reg s) Hn)
      as (s3 & E3 & Fr & Hnx & Hmsi & Hlo & Hhi & Hoth & Hpfo).
    rewrite E3. cbn [mbind option_bind].
    eexists. split; [reflexivity|].
    unfold vtd_advance_next_frcd_reg, vtd_fault_overflow,
      vtd_frcd_lo, vtd_frcd_hi in *.
    split_and!.
    + eapply fault_frame_trans; [exact Fr1|].
      eapply fault_frame_trans; [exact Fr|].
      apply fault_frame_set_next_frcd_reg.
    + rewrite get_quad_set_next. congruence.
    + rewrite get_quad_set_next. congruence.
    + intros j Hj Hne. rewrite !get_quad_set_next.
      destruct (Hoth j Hj Hne), (Hoth1 j Hj Hne). split; congruence.
    + rewrite get_long_set_next, Hpfo, Hfsts1, Hov. reflexivity.
    + left. cbn [msi_log set_next_frcd_reg]. congruence.
  - (* first pending fault: FRI is updated and the event generated *)
    set (s2 := (vtd_set_clear_mask_long s1 DMAR_FSTS_REG _ _).2).
    change (next_frcd_reg s2) with (next_frcd_reg s1). rewrite Hnx1.
    destruct (set_frcd_spec s2 (next_frcd_reg s) Hn)
      as (s3 & E3 & Fr & Hnx & Hmsi & Hlo & Hhi & Hoth & Hpfo).
    rewrite E3. cbn [mbind option_bind].
    destruct (vtd_generate_fault_event_spec (vtd_advance_next_frcd_reg s3)
                (vtd_get_long_raw s DMAR_FSTS_REG))
      as (s5 & E5 & Fr5 & Hnx5 & Hq5 & Hl5 & Hmsi5).
    rewrite E5. eexists. split; [reflexivity|].
    assert (Hq2 : forall a,
               a + 8 <= DMAR_FSTS_REG \/ DMAR_FSTS_REG + 4 <= a ->
               vtd_get_quad_raw s2 a = vtd_get_quad_raw s1 a).
    { intros a Ha. subst s2. now rewrite get_quad_scm_long_other by lia. }
    unfold vtd_advance_next_frcd_reg, vtd_fault_overflow,
      vtd_frcd_lo, vtd_frcd_hi, msi_at_most_one in *.
    rewrite !frcd_reg_addr_hi, !frcd_reg_addr_lo in * by lia.
    split_and!.
    + eapply fault_frame_trans; [exact Fr1|].
      eapply fault_frame_trans; [apply fault_frame_scm_long|].
      eapply fault_frame_trans; [exact Fr|].
      eapply fault_frame_trans; [apply fault_frame_set_next_frcd_reg|].
      exact Fr5.
    + rewrite Hq5, get_quad_set_next, Hlo, Hq2 by lia. exact Hlo1.
    + rewrite Hq5, get_quad_set_next, Hhi, Hq2 by lia. now rewrite Hhi1.
    + intros j Hj Hne.
      rewrite !frcd_reg_addr_hi, !frcd_reg_addr_lo by lia.
      specialize (Hoth j Hj Hne). specialize (Hoth1 j Hj Hne).
      rewrite !frcd_reg_addr_hi, !frcd_reg_addr_lo in Hoth, Hoth1 by lia.
      destruct Hoth as [Ha Hb], Hoth1 as [Hc Hd].
      rewrite !Hq5, !get_quad_set_next by lia.
      rewrite Ha, Hb, !Hq2 by lia. split; assumption.
    + rewrite Hl5, get_long_set_next, Hpfo by lia.
      subst s2. rewrite pfo_after_scm by apply fsts_fri_not_pfo.
      rewrite Hfsts1, Hov. reflexivity.
    + cbn [msi_log set_next_frcd_reg] in Hmsi5.
      assert (Hm2 : msi_log s3 = msi_log s) by (rewrite Hmsi; subst s2; cbn; exact Hmsi1).
      rewrite Hm2 in Hmsi5. exact Hmsi5.
Qed.

End FaultReporterRecorded.

Section FaultReporterTheorems.
Context {RH : VTDRegHeader}.

(** C4 (fault compression).  Two faults are reported from the same
    source-id, the second before the first is cleared; the first is
    one that gets recorded (no overflow pending, no pending fault of
    that source, the register under the cursor free) and its record
    carries the source-id.  Then the first report writes exactly one
    fault recording register, the one under the cursor, marks it
    present, and sends at most one interrupt message; the second
    report finds that present register with a matching source-id and
    returns the state as it is: no register, no cursor and no
    interrupt changes. *)
Theorem vtd_fault_compression (s : IntelIOMMUState)
    (source_id hi1 lo1 hi2 lo2 : Z) :
  VTDRegHeaderOK RH ->
  0 <= next_frcd_reg s < DMAR_FRCD_REG_NR ->
  vtd_fault_overflow s = false ->
  vtd_try_collapse_fault s (u16 source_id) = false ->
  vtd_frcd_present s (next_frcd_reg s) = false ->
  Z.land hi1 VTD_FRCD_SID_MASK = u16 source_id ->
  exists s1,
    vtd_report_frcd_fault s source_id hi1 lo1 = Some s1 /\
    vtd_frcd_present s1 (next_frcd_reg s) = true /\
    vtd_frcd_sid s1 (next_frcd_reg s) = u16 source_id /\
    vtd_frcd_lo s1 (next_frcd_reg s) = u64 lo1 /\
    (forall j, 0 <= j < DMAR_FRCD_REG_NR -> j <> next_frcd_reg s ->
               vtd_frcd_lo s1 j = vtd_frcd_lo s j /\
               vtd_frcd_hi s1 j = vtd_frcd_hi s j) /\
    msi_at_most_one s s1 /\
    vtd_try_collapse_fault s1 (u16 source_id) = true /\
    vtd_report_frcd_fault s1 source_id hi2 lo2 = Some s1.
Proof.
  intros OK Hn Hov Hcol Hfree Hsid.
  destruct (vtd_report_frcd_fault_recorded s source_id hi1 lo1
              Hn Hov Hcol Hfree)
    as (s1 & E1 & _ & Hlo & Hhi & Hoth & Hov1 & Hmsi).
  pose proof frcd_f_bit as HF. pose proof frcd_sid_mask_range as HM.
  assert (Hp : vtd_frcd_present s1 (next_frcd_reg s) = true).
  { unfold vtd_frcd_present. rewrite Hhi, land_u64 by lia.
    rewrite land_lor_same. apply nonzero_true. lia. }
  assert (Hs : vtd_frcd_sid s1 (next_frcd_reg s) = u16 source_id).
  { unfold vtd_frcd_sid. rewrite Hhi, land_u64 by lia.
    rewrite Z.land_lor_distr_l, frcd_f_not_sid, Z.lor_0_r.
    rewrite land_u64 by lia. exact Hsid. }
  assert (Hc : vtd_try_collapse_fault s1 (u16 source_id) = true).
  { apply vtd_try_collapse_fault_spec. exists (next_frcd_reg s). auto. }
  exists s1. split_and!; auto.
  unfold vtd_report_frcd_fault. fold (vtd_fault_overflow s1).
  now rewrite Hov1, Hc.
Qed.

(** C5 (fault ring overflow).  When every fault recording register is
    present, none of them carries the source-id of the new fault, and
    one more fault is reported, the report sets (or finds set) the
    Primary Fault Overflow condition and drops the fault: the contents
    of every register, hence its present bit, the cursor and the
    interrupts sent are as before. *)
Theorem vtd_fault_ring_overflow (s : IntelIOMMUState) (source_id hi lo : Z) :
  VTDRegHeaderOK RH ->
  0 <= next_frcd_reg s < DMAR_FRCD_REG_NR ->
  (forall j, 0 <= j < DMAR_FRCD_REG_NR -> vtd_frcd_present s j = true) ->
  (forall j, 0 <= j < DMAR_FRCD_REG_NR -> vtd_frcd_sid s j <> u16 source_id) ->
  exists s',
    vtd_report_frcd_fault s source_id hi lo = Some s' /\
    vtd_fault_overflow s' = true /\
    (forall j, 0 <= j < DMAR_FRCD_REG_NR ->
               vtd_frcd_lo s' j = vtd_frcd_lo s j /\
               vtd_frcd_hi s' j = vtd_frcd_hi s j /\
               vtd_frcd_present s' j = vtd_frcd_present s j) /\
    next_frcd_reg s' = next_frcd_reg s /\
    msi_log s' = msi_log s.
Proof.
  intros OK Hn Hall Hnew.
  pose proof frcd_regs_fit as (F0 & F1 & F2).
  pose proof fsts_frcd_disjoint as D1.
  pose proof fsts_pfo_bit as HP.
  unfold vtd_report_frcd_fault. fold (vtd_fault_overflow s).
  destruct (vtd_fault_overflow s) eqn:Hov.
  { exists s. split_and!; auto. }
  destruct (vtd_try_collapse_fault s (u16 source_id)) eqn:Hcol.
  { apply vtd_try_collapse_fault_spec in Hcol.
    destruct Hcol as (j & Hj & _ & Hs). now destruct (Hnew j Hj). }
  rewrite vtd_is_frcd_set_present by lia. rewrite Hall by lia.
  cbn [mbind option_bind].
  eexists. split; [reflexivity|]. split_and!.
  - unfold vtd_fault_overflow. rewrite get_long_scm_long_same.
    rewrite land_u32, land_lor_same by lia. apply nonzero_true. lia.
  - intros j Hj. unfold vtd_frcd_present, vtd_frcd_lo, vtd_frcd_hi.
    rewrite !frcd_reg_addr_hi, !frcd_reg_addr_lo by lia.
    rewrite !get_quad_scm_long_other by lia. auto.
  - reflexivity.
  - reflexivity.
Qed.

End FaultReporterTheorems.

(** ** The leaf translation cache *)

Section IOTLBFacts.
Context {PH : VTDPagingHeader}.

Lemma vtd_update_iotlb_unfold (s : IntelIOMMUState)
    (source_id domain_id addr slpte : Z) (flags : IOMMUAccessFlags)
    (level pasid : Z) (s' : IntelIOMMUState) :
  vtd_update_iotlb s source_id domain_id addr slpte flags level pasid
    = Some s' ->
  exists key entry,
    vtd_iotlb_new_key source_id addr level pasid = Some key /\
    vtd_iotlb_new_entry domain_id addr slpte flags level pasid = Some entry /\
    iotlb s' =
      <[key := entry]>
        (if Z.of_nat (size (iotlb s)) >=? VTD_IOTLB_MAX_SIZE
         then ∅ else iotlb s).
Proof.
  unfold vtd_update_iotlb, vtd_iotlb_new_key, vtd_iotlb_new_entry.
  destruct (vtd_get_iotlb_gfn addr level) as [gfn|]; [|discriminate].
  cbn [mbind option_bind].
  destruct (vtd_slpt_level_page_mask level) as [mask|]; [|discriminate].
  cbn [mbind option_bind].
  intros [= <-]. eexists _, _. split_and!; try reflexivity.
  destruct (_ >=? _); reflexivity.
Qed.


End IOTLBFacts.

Section IOTLBTheorems.
Context {PH : VTDPagingHeader}.


End IOTLBTheorems.

Section PageMaskFacts.

Lemma shl1_64_small (sh : Z) : 0 <= sh < 64 -> shl1_64 sh = 2 ^ sh.
Proof.
  intros H. unfold shl1_64. rewrite Z.shiftl_1_l. apply u64_small.
  split; [apply Z.pow_nonneg; lia | apply Z.pow_lt_mono_r; lia].
Qed.

(** [~((1ULL << sh) - 1)] is the mask of the bits from [sh] upward. *)
Lemma page_mask_value (sh : Z) :
  0 <= sh < 64 -> not64 (u64 (shl1_64 sh - 1)) = 2 ^ 64 - 2 ^ sh.
Proof.
  intros H. rewrite shl1_64_small by lia.
  assert (0 < 2 ^ sh < 2 ^ 64)
    by (split; [apply Z.pow_pos_nonneg; lia | apply Z.pow_lt_mono_r; lia]).
  rewrite u64_small by lia.
  unfold not64, Z.lnot, u64.
  symmetry. apply (Z.mod_unique_pos _ _ (-1)); lia.
Qed.

Lemma land_page_mask (addr sh : Z) :
  0 <= sh < 64 -> 0 <= addr < 2 ^ 64 ->
  Z.land addr (not64 (u64 (shl1_64 sh - 1))) = Z.shiftl (Z.shiftr addr sh) sh.
Proof.
  intros Hs Ha. rewrite shl1_64_small by lia.
  assert (0 < 2 ^ sh < 2 ^ 64)
    by (split; [apply Z.pow_pos_nonneg; lia | apply Z.pow_lt_mono_r; lia]).
  rewrite u64_small by lia.
  unfold not64, u64.
  rewrite <- (Z.land_ones (Z.lnot _)) by lia.
  rewrite Z.land_assoc, (Z.land_comm addr), <- Z.land_assoc.
  replace (Z.land addr (Z.ones 64)) with addr
    by (rewrite Z.land_ones by lia; symmetry; apply Z.mod_small; lia).
  rewrite Z.land_comm.
  replace (2 ^ sh - 1) with (Z.ones sh) by (rewrite Z.ones_equiv; lia).
  rewrite <- Z.ldiff_land.
  apply Z.ldiff_ones_r. lia.
Qed.

Lemma vtd_slpt_level_shift_val (level : Z) :
  1 <= level <= 4 ->
  vtd_slpt_level_shift level = Some (12 + 9 * (level - 1)).
Proof.
  intros H.
  assert (level = 1 \/ level = 2 \/ level = 3 \/ level = 4) as
    [-> | [-> | [-> | ->]]] by lia; reflexivity.
Qed.

Lemma vtd_slpt_level_page_mask_val (level : Z) :
  1 <= level <= 4 ->
  vtd_slpt_level_page_mask level = Some (2 ^ 64 - 2 ^ (12 + 9 * (level - 1))).
Proof.
  intros H. unfold vtd_slpt_level_page_mask.
  rewrite vtd_slpt_level_shift_val by lia. cbn [mbind option_bind].
  rewrite page_mask_value by lia. reflexivity.
Qed.

(** The frame number that keys the cache at [level] only depends on
    the page of [addr] at that level. *)
Lemma vtd_get_iotlb_gfn_val (addr level : Z) :
  1 <= level <= 4 -> 0 <= addr < 2 ^ 64 ->
  vtd_get_iotlb_gfn addr level =
    Some (Z.shiftl (addr / 2 ^ (12 + 9 * (level - 1))) (9 * (level - 1))).
Proof.
  intros Hl Ha. unfold vtd_get_iotlb_gfn, vtd_slpt_level_page_mask.
  rewrite vtd_slpt_level_shift_val by lia. cbn [mbind option_bind].
  rewrite land_page_mask by lia.
  unfold VTD_PAGE_SHIFT_4K.
  rewrite Z.shiftr_shiftl_l by lia.
  rewrite Z.shiftr_div_pow2 by lia.
  do 2 f_equal. lia.
Qed.

Lemma vtd_get_iotlb_gfn_total (addr level : Z) :
  level <> 0 -> exists gfn, vtd_get_iotlb_gfn addr level = Some gfn.
Proof.
  intros H. unfold vtd_get_iotlb_gfn, vtd_slpt_level_page_mask,
    vtd_slpt_level_shift, assert_.
  destruct (Z.eqb_spec level 0); [contradiction|].
  cbn. eauto.
Qed.

End PageMaskFacts.

Section IOTLBLookup.
Context {PH : VTDPagingHeader}.

(** The lookup returns the first hit among the probes at the levels
    1, 2 and 3, in this order. *)
Lemma vtd_lookup_iotlb_first_hit (s : IntelIOMMUState)
    (source_id pasid addr : Z) :
  vtd_lookup_iotlb s source_id pasid addr =
    Some match vtd_iotlb_probe s source_id pasid addr 1 with
         | Some e => Some e
         | None =>
             match vtd_iotlb_probe s source_id pasid addr 2 with
             | Some e => Some e
             | None => vtd_iotlb_probe s source_id pasid addr 3
             end
         end.
Proof.
  unfold vtd_lookup_iotlb, vtd_iotlb_probe.
  change (Z.to_nat (VTD_SL_PML4_LEVEL - VTD_SL_PT_LEVEL)) with 3%nat.
  change VTD_SL_PT_LEVEL with 1.
  cbn [vtd_lookup_iotlb_loop].
  change (1 + 1) with 2. change (2 + 1) with 3.
  destruct (vtd_get_iotlb_gfn_total addr 1) as [g1 ->]; [lia|].
  destruct (vtd_get_iotlb_gfn_total addr 2) as [g2 ->]; [lia|].
  destruct (vtd_get_iotlb_gfn_total addr 3) as [g3 ->]; [lia|].
  cbn [mbind option_bind].
  destruct (iotlb s !! _); [reflexivity|].
  destruct (iotlb s !! _); [reflexivity|].
  destruct (iotlb s !! _); reflexivity.
Qed.

(** C7 (lookup granularity).  An entry is inserted for [addr] at a
    level below the top one (4 KiB, 2 MiB or 1 GiB page), and [addr']
    is any address of the same page at that level.  Then a lookup of
    [addr'] probes the levels 1, 2, 3 in this order and returns the
    first hit; the probe at the level of the insertion hits the
    inserted entry, so the lookup hits, and it returns the inserted
    entry unless a finer level holds an entry for [addr'] as well. *)
Theorem vtd_iotlb_lookup_granularity (s s' : IntelIOMMUState)
    (source_id domain_id addr addr' slpte : Z) (flags : IOMMUAccessFlags)
    (level pasid : Z) :
  VTD_SL_PT_LEVEL <= level < VTD_SL_PML4_LEVEL ->
  0 <= addr < 2 ^ 64 -> 0 <= addr' < 2 ^ 64 ->
  addr' / 2 ^ (12 + 9 * (level - 1)) = addr / 2 ^ (12 + 9 * (level - 1)) ->
  vtd_update_iotlb s source_id domain_id addr slpte flags level pasid
    = Some s' ->
  vtd_lookup_iotlb s' source_id pasid addr' =
    Some match vtd_iotlb_probe s' source_id pasid addr' 1 with
         | Some e => Some e
         | None =>
             match vtd_iotlb_probe s' source_id pasid addr' 2 with
             | Some e => Some e
             | None => vtd_iotlb_probe s' source_id pasid addr' 3
             end
         end /\
  exists entry,
    vtd_iotlb_new_entry domain_id addr slpte flags level pasid = Some entry /\
    vtd_iotlb_probe s' source_id pasid addr' level = Some entry /\
    (exists e, vtd_lookup_iotlb s' source_id pasid addr' = Some (Some e)) /\
    ((forall l, 1 <= l < level ->
                vtd_iotlb_probe s' source_id pasid addr' l = None) ->
     vtd_lookup_iotlb s' source_id pasid addr' = Some (Some entry)).
Proof.
  unfold VTD_SL_PT_LEVEL, VTD_SL_PML4_LEVEL.
  intros Hl Ha Ha' Hpage Hup.
  split; [apply vtd_lookup_iotlb_first_hit|].
  apply vtd_update_iotlb_unfold in Hup.
  destruct Hup as (key & entry & Hk & He & Hs').
  exists entry. split; [exact He|].
  assert (Hprobe : vtd_iotlb_probe s' source_id pasid addr' level = Some entry).
  { unfold vtd_iotlb_probe. unfold vtd_iotlb_new_key in Hk.
    rewrite vtd_get_iotlb_gfn_val in * by lia.
    cbn [mbind option_bind] in *. rewrite Hpage.
    injection Hk as <-. rewrite Hs'. apply lookup_insert_eq. }
  split; [exact Hprobe|].
  rewrite vtd_lookup_iotlb_first_hit.
  assert (level = 1 \/ level = 2 \/ level = 3) as [-> | [-> | ->]] by lia.
  - rewrite Hprobe. split; [eauto|reflexivity].
  - split.
    + destruct (vtd_iotlb_probe s' source_id pasid addr' 1); [eauto|].
      rewrite Hprobe. eauto.
    + intros Hfine. rewrite (Hfine 1) by lia. now rewrite Hprobe.
  - split.
    + destruct (vtd_iotlb_probe s' source_id pasid addr' 1); [eauto|].
      destruct (vtd_iotlb_probe s' source_id pasid addr' 2); [eauto|].
      rewrite Hprobe. eauto.
    + intros Hfine. rewrite (Hfine 1), (Hfine 2) by lia. now rewrite Hprobe.
Qed.

End IOTLBLookup.

(** ** The second-stage walk *)

Section SLWalkFacts.
Context {PH : VTDPagingHeader} {CH : VTDContextHeader}.
Variable pe_uninit : VTDPASIDEntry.
Variable pdire_uninit : Z.

Local Abbreviation loop := (vtd_iova_to_slpte_loop pe_uninit pdire_uninit).

(** Along a path the loop descends, accumulating the permissions. *)
Lemma sl_loop_path (s : IntelIOMMUState) (ce : VTDContextEntry)
    (iova : Z) (is_write : bool) (aw pasid : Z)
    (level : nat) (addr : Z) (es : list Z) (level' : nat) (addr' : Z) :
  sl_path s iova is_write aw level addr es level' addr' ->
  forall reads writes,
    loop s ce iova is_write aw pasid level addr reads writes =
    loop s ce iova is_write aw pasid level' addr'
      (reads && sl_chain_reads es) (writes && sl_chain_writes es).
Proof.
  induction 1 as [level addr | level addr e es level' addr'
                    (offset & Hoff & Hrd & Hne) Hacc Hrsvd Hlast Hp IH];
    intros reads writes.
  - cbn. now rewrite !andb_true_r.
  - cbn [vtd_iova_to_slpte_loop].
    rewrite Hoff. cbn [mbind option_bind]. rewrite Hrd.
    cbn [mbind option_bind].
    destruct (Z.eqb_spec e (u64 (-1))); [contradiction|].
    unfold sl_access_bit in Hacc. rewrite Hacc. cbn [negb].
    rewrite Hrsvd. cbn [mbind option_bind]. rewrite Hlast.
    rewrite IH. cbn [sl_chain_reads sl_chain_writes forallb].
    now rewrite !andb_assoc.
Qed.

(** At a clean leaf that grants the access the loop stops. *)
Lemma sl_loop_leaf (s : IntelIOMMUState) (ce : VTDContextEntry)
    (iova : Z) (is_write : bool) (aw pasid : Z)
    (level : nat) (addr e : Z) (reads writes : bool) :
  sl_entry_at s iova level addr e ->
  nonzero (Z.land e (sl_access_bit is_write)) = true ->
  vtd_slpte_nonzero_rsvd s e (Z.of_nat level) = Some false ->
  vtd_is_last_slpte e (Z.of_nat level) = true ->
  loop s ce iova is_write aw pasid level addr reads writes =
  Some (WalkLeaf e (Z.of_nat level)
          (reads && nonzero (Z.land e VTD_SL_R))
          (writes && nonzero (Z.land e VTD_SL_W))).
Proof.
  intros (offset & Hoff & Hrd & Hne) Hacc Hrsvd Hlast.
  destruct level as [|level].
  { cbn in Hoff. discriminate. }
  cbn [vtd_iova_to_slpte_loop].
  rewrite Hoff. cbn [mbind option_bind]. rewrite Hrd.
  cbn [mbind option_bind].
  destruct (Z.eqb_spec e (u64 (-1))); [contradiction|].
  unfold sl_access_bit in Hacc. rewrite Hacc. cbn [negb].
  rewrite Hrsvd. cbn [mbind option_bind]. now rewrite Hlast.
Qed.

(** At an entry that grants the access but has a reserved bit set the
    loop fails. *)
Lemma sl_loop_rsvd (s : IntelIOMMUState) (ce : VTDContextEntry)
    (iova : Z) (is_write : bool) (aw pasid : Z)
    (level : nat) (addr e : Z) (reads writes : bool) :
  sl_entry_at s iova level addr e ->
  nonzero (Z.land e (sl_access_bit is_write)) = true ->
  vtd_slpte_nonzero_rsvd s e (Z.of_nat level) = Some true ->
  loop s ce iova is_write aw pasid level addr reads writes =
  Some (WalkFault VTD_FR_PAGING_ENTRY_RSVD
          (reads && nonzero (Z.land e VTD_SL_R))
          (writes && nonzero (Z.land e VTD_SL_W))).
Proof.
  intros (offset & Hoff & Hrd & Hne) Hacc Hrsvd.
  destruct level as [|level].
  { cbn in Hoff. discriminate. }
  cbn [vtd_iova_to_slpte_loop].
  rewrite Hoff. cbn [mbind option_bind]. rewrite Hrd.
  cbn [mbind option_bind].
  destruct (Z.eqb_spec e (u64 (-1))); [contradiction|].
  unfold sl_access_bit in Hacc. rewrite Hacc. cbn [negb].
  rewrite Hrsvd. reflexivity.
Qed.

End SLWalkFacts.

Section SLWalkTheorems.
Context {PH : VTDPagingHeader} {CH : VTDContextHeader}.
Variable pe_uninit : VTDPASIDEntry.
Variable pdire_uninit : Z.

Lemma sl_entry_at_range (s : IntelIOMMUState) (iova : Z) (level : nat)
    (addr e : Z) :
  sl_entry_at s iova level addr e -> 0 <= e < 2 ^ 64.
Proof.
  intros (offset & _ & Hrd & _). unfold vtd_get_slpte in Hrd.
  destruct (assert_ _); [|discriminate]. cbn in Hrd.
  unfold dma_read_q in Hrd.
  destruct (guest_mem s _); cbn in Hrd; injection Hrd as <-;
    apply u64_range.
Qed.

Lemma vtd_slpte_nonzero_rsvd_level (s : IntelIOMMUState) (e : Z)
    (level : nat) (b : bool) :
  vtd_slpte_nonzero_rsvd s e (Z.of_nat level) = Some b ->
  1 <= Z.of_nat level <= 4.
Proof.
  unfold vtd_slpte_nonzero_rsvd, assert_, VTD_SPTE_RSVD_LEN.
  destruct (Z.ltb_spec (Z.of_nat level) 5); [|discriminate].
  destruct (Z.eqb_spec (Z.of_nat level) 0); [discriminate|].
  intros _. lia.
Qed.

(** The check after the loop succeeds exactly when the translated
    page has no address in the interrupt window. *)
Lemma vtd_slpte_interrupt_check_spec (s : IntelIOMMUState)
    (slpte level aw : Z) :
  1 <= level <= 4 -> 0 <= slpte ->
  let xlat := vtd_get_slpte_addr slpte aw in
  (~ overlaps_interrupt_window xlat (sl_page_size level) ->
   vtd_slpte_interrupt_check s slpte level aw = Some VTD_SUCCESS) /\
  (overlaps_interrupt_window xlat (sl_page_size level) ->
   vtd_slpte_interrupt_check s slpte level aw =
     Some (VTD_FAULT (if scalable_mode s then VTD_FR_SM_INTERRUPT_ADDR
                      else VTD_FR_INTERRUPT_ADDR))).
Proof.
  intros Hl Hs xlat.
  assert (Hx : 0 <= xlat).
  { subst xlat. unfold vtd_get_slpte_addr. apply Z.land_nonneg. now left. }
  unfold vtd_slpte_interrupt_check. fold xlat.
  rewrite vtd_slpt_level_page_mask_val by lia. cbn [mbind option_bind].
  assert (Hsz : u64 (not64 (2 ^ 64 - 2 ^ (12 + 9 * (level - 1))) + 1)
                = sl_page_size level).
  { unfold sl_page_size.
    assert (level = 1 \/ level = 2 \/ level = 3 \/ level = 4) as
      [-> | [-> | [-> | ->]]] by lia; reflexivity. }
  rewrite Hsz.
  assert (Hsize : 0 < sl_page_size level <= 2 ^ 39).
  { unfold sl_page_size. split; [apply Z.pow_pos_nonneg; lia|].
    apply Z.pow_le_mono_r; lia. }
  unfold overlaps_interrupt_window,
    VTD_INTERRUPT_ADDR_FIRST, VTD_INTERRUPT_ADDR_LAST in *.
  destruct (Z.gtb_spec xlat 4277141503) as [Hgt | Hle]; cbn [orb].
  { split; [reflexivity|]. intros (a & Ha1 & Ha2). lia. }
  rewrite u64_small by lia.
  destruct (Z.ltb_spec (xlat + sl_page_size level - 1) 4276092928)
    as [Hlt | Hge].
  { split; [reflexivity|]. intros (a & Ha1 & Ha2). lia. }
  split; [|reflexivity].
  intros Hno. exfalso. apply Hno.
  exists (Z.max xlat 4276092928). lia.
Qed.

(** The walk along a path that ends in a clean leaf granting the
    access: the result of the check after the loop, the leaf and its
    level, and the accumulated permissions. *)
Lemma vtd_iova_to_slpte_leaf (s : IntelIOMMUState) (ce : VTDContextEntry)
    (iova : Z) (is_write : bool) (slptep0 level0 aw pasid : Z)
    (es : list Z) (level' : nat) (addr' leaf : Z) :
  vtd_iova_range_check pe_uninit pdire_uninit s iova ce aw pasid = true ->
  sl_path s iova is_write aw
    (Z.to_nat (vtd_get_iova_level pe_uninit pdire_uninit s ce pasid))
    (vtd_get_iova_pgtbl_base pe_uninit pdire_uninit s ce pasid)
    es level' addr' ->
  sl_entry_at s iova level' addr' leaf ->
  nonzero (Z.land leaf (sl_access_bit is_write)) = true ->
  vtd_slpte_nonzero_rsvd s leaf (Z.of_nat level') = Some false ->
  vtd_is_last_slpte leaf (Z.of_nat level') = true ->
  vtd_iova_to_slpte pe_uninit pdire_uninit s ce iova is_write
    slptep0 level0 true true aw pasid =
  (st ← vtd_slpte_interrupt_check s leaf (Z.of_nat level') aw;
   Some {| w_ret := st; w_ptep := leaf; w_level := Z.of_nat level';
           w_reads := sl_chain_reads (es ++ [leaf]);
           w_writes := sl_chain_writes (es ++ [leaf]) |}).
Proof.
  intros Hrange Hpath Hleaf Hacc Hrsvd Hlast.
  unfold vtd_iova_to_slpte. rewrite Hrange. cbn [negb].
  rewrite (sl_loop_path _ _ _ _ _ _ _ _ _ _ _ _ _ Hpath).
  rewrite (sl_loop_leaf _ _ _ _ _ _ _ _ _ _ _ _ _ Hleaf Hacc Hrsvd Hlast).
  cbn [mbind option_bind andb].
  unfold sl_chain_reads, sl_chain_writes.
  rewrite !forallb_app. cbn [forallb]. rewrite !andb_true_r.
  reflexivity.
Qed.

(** C1, as amended (second-stage walk correctness).  The IOVA is
    within the address width and the walk reads, from the root table,
    intermediate entries that are readable, grant the requested access,
    have clean reserved bits and are not leaves.  If the next entry is
    a leaf that grants the access, is clean and translates to a page
    outside the interrupt window, the walk succeeds and returns that
    leaf and its level, and its read and write permissions are the
    conjunctions of the read bits and of the write bits of all the
    entries of the chain (the leaf's own bits only where every level
    above grants them too).  If the next entry grants the access but
    has a reserved bit set, the walk fails with
    [VTD_FR_PAGING_ENTRY_RSVD]. *)
Theorem vtd_iova_to_slpte_walk (s : IntelIOMMUState) (ce : VTDContextEntry)
    (iova : Z) (is_write : bool) (slptep0 level0 aw pasid : Z)
    (es : list Z) (level' : nat) (addr' e : Z) :
  vtd_iova_range_check pe_uninit pdire_uninit s iova ce aw pasid = true ->
  sl_path s iova is_write aw
    (Z.to_nat (vtd_get_iova_level pe_uninit pdire_uninit s ce pasid))
    (vtd_get_iova_pgtbl_base pe_uninit pdire_uninit s ce pasid)
    es level' addr' ->
  sl_entry_at s iova level' addr' e ->
  nonzero (Z.land e (sl_access_bit is_write)) = true ->
  (vtd_slpte_nonzero_rsvd s e (Z.of_nat level') = Some false ->
   vtd_is_last_slpte e (Z.of_nat level') = true ->
   ~ overlaps_interrupt_window (vtd_get_slpte_addr e aw)
       (sl_page_size (Z.of_nat level')) ->
   vtd_iova_to_slpte pe_uninit pdire_uninit s ce iova is_write
     slptep0 level0 true true aw pasid =
   Some {| w_ret := VTD_SUCCESS; w_ptep := e; w_level := Z.of_nat level';
           w_reads := sl_chain_reads (es ++ [e]);
           w_writes := sl_chain_writes (es ++ [e]) |}) /\
  (vtd_slpte_nonzero_rsvd s e (Z.of_nat level') = Some true ->
   exists out,
     vtd_iova_to_slpte pe_uninit pdire_uninit s ce iova is_write
       slptep0 level0 true true aw pasid = Some out /\
     w_ret out = VTD_FAULT VTD_FR_PAGING_ENTRY_RSVD).
Proof.
  intros Hrange Hpath Hent Hacc. split.
  - intros Hrsvd Hlast Hout.
    rewrite (vtd_iova_to_slpte_leaf _ _ _ _ _ _ _ _ _ _ _ _
               Hrange Hpath Hent Hacc Hrsvd Hlast).
    pose proof (vtd_slpte_nonzero_rsvd_level _ _ _ _ Hrsvd) as Hl.
    pose proof (sl_entry_at_range _ _ _ _ _ Hent) as He.
    destruct (vtd_slpte_interrupt_check_spec s e (Z.of_nat level') aw)
      as [Hok _]; [lia|lia|].
    now rewrite (Hok Hout).
  - intros Hrsvd.
    unfold vtd_iova_to_slpte. rewrite Hrange. cbn [negb].
    rewrite (sl_loop_path _ _ _ _ _ _ _ _ _ _ _ _ _ Hpath).
    rewrite (sl_loop_rsvd _ _ _ _ _ _ _ _ _ _ _ _ _ Hent Hacc Hrsvd).
    cbn [mbind option_bind]. eexists. split; reflexivity.
Qed.

(** C8 (interrupt-window rejection).  Whenever the second-stage walk
    resolves a translation, i.e. reaches through a clean chain a clean
    leaf that grants the access, it succeeds exactly when the
    translated page has no address in the window
    [0xFEE00000]-[0xFEEFFFFF]; when the page overlaps the window the
    walk fails, with [VTD_FR_SM_INTERRUPT_ADDR] if scalable mode is
    enabled and with [VTD_FR_INTERRUPT_ADDR] otherwise. *)
Theorem vtd_iova_to_slpte_interrupt_window (s : IntelIOMMUState)
    (ce : VTDContextEntry) (iova : Z) (is_write : bool)
    (slptep0 level0 aw pasid : Z)
    (es : list Z) (level' : nat) (addr' leaf : Z) :
  vtd_iova_range_check pe_uninit pdire_uninit s iova ce aw pasid = true ->
  sl_path s iova is_write aw
    (Z.to_nat (vtd_get_iova_level pe_uninit pdire_uninit s ce pasid))
    (vtd_get_iova_pgtbl_base pe_uninit pdire_uninit s ce pasid)
    es level' addr' ->
  sl_entry_at s iova level' addr' leaf ->
  nonzero (Z.land leaf (sl_access_bit is_write)) = true ->
  vtd_slpte_nonzero_rsvd s leaf (Z.of_nat level') = Some false ->
  vtd_is_last_slpte leaf (Z.of_nat level') = true ->
  exists out,
    vtd_iova_to_slpte pe_uninit pdire_uninit s ce iova is_write
      slptep0 level0 true true aw pasid = Some out /\
    (w_ret out = VTD_SUCCESS <->
     ~ overlaps_interrupt_window (vtd_get_slpte_addr leaf aw)
         (sl_page_size (Z.of_nat level'))) /\
    (overlaps_interrupt_window (vtd_get_slpte_addr leaf aw)
       (sl_page_size (Z.of_nat level')) ->
     w_ret out = VTD_FAULT (if scalable_mode s then VTD_FR_SM_INTERRUPT_ADDR
                            else VTD_FR_INTERRUPT_ADDR)).
Proof.
  intros Hrange Hpath Hent Hacc Hrsvd Hlast.
  rewrite (vtd_iova_to_slpte_leaf _ _ _ _ _ _ _ _ _ _ _ _
             Hrange Hpath Hent Hacc Hrsvd Hlast).
  pose proof (vtd_slpte_nonzero_rsvd_level _ _ _ _ Hrsvd) as Hl.
  pose proof (sl_entry_at_range _ _ _ _ _ Hent) as He.
  destruct (vtd_slpte_interrupt_check_spec s leaf (Z.of_nat level') aw)
    as [Hok Hbad]; [lia|lia|].
  set (xlat := vtd_get_slpte_addr leaf aw) in *.
  set (size := sl_page_size (Z.of_nat level')) in *.
  assert (Hsz : 0 < size)
    by (subst size; unfold sl_page_size; apply Z.pow_pos_nonneg; lia).
  assert (Hdec : overlaps_interrupt_window xlat size \/
                 ~ overlaps_interrupt_window xlat size).
  { unfold overlaps_interrupt_window,
      VTD_INTERRUPT_ADDR_FIRST, VTD_INTERRUPT_ADDR_LAST.
    destruct (Z_le_gt_dec xlat 4277141503);
      [destruct (Z_le_gt_dec 4276092928 (xlat + size - 1))|].
    - left. exists (Z.max xlat 4276092928). lia.
    - right. intros (a & ? & ?). lia.
    - right. intros (a & ? & ?). lia. }
  destruct Hdec as [Hov | Hno].
  - rewrite (Hbad Hov). cbn [mbind option_bind]. eexists.
    split; [reflexivity|]. cbn [w_ret]. split_and!.
    + split; [discriminate | contradiction].
    + reflexivity.
  - rewrite (Hok Hno). cbn [mbind option_bind]. eexists.
    split; [reflexivity|]. cbn [w_ret]. split_and!.
    + split; auto.
    + contradiction.
Qed.

End SLWalkTheorems.

(** ** The first-stage walk *)

Section FLWalk.
Context {PH : VTDPagingHeader} {CH : VTDContextHeader}.

(** Along a path of present entries the loop descends; a write access
    stops with a Write fault at the first entry that lacks the
    writable bit. *)
Lemma fl_loop_path (s : IntelIOMMUState) (pe : VTDPASIDEntry)
    (iova : Z) (is_write : bool) (aw : Z)
    (level : nat) (addr : Z) (es : list Z) (level' : nat) (addr' : Z) :
  fl_path s iova aw level addr es level' addr' ->
  forall writes,
    vtd_iova_to_flpte_loop s pe iova is_write aw level addr true writes =
    if is_write && negb (fl_chain_writes es)
    then Some (WalkFault VTD_FR_WRITE true false)
    else vtd_iova_to_flpte_loop s pe iova is_write aw level' addr' true
           (writes && fl_chain_writes es).
Proof.
  induction 1 as [level addr | level addr e es level' addr'
                    (offset & Hoff & Hrd & Hne) Hpres Hlast Hp IH];
    intros writes.
  - cbn. rewrite andb_false_r, andb_true_r. reflexivity.
  - cbn [vtd_iova_to_flpte_loop].
    rewrite Hoff. cbn [mbind option_bind]. rewrite Hrd.
    cbn [mbind option_bind].
    destruct (Z.eqb_spec e (u64 (-1))); [contradiction|].
    rewrite Hpres. cbn [negb]. rewrite Hlast.
    cbn [fl_chain_writes forallb].
    fold (fl_chain_writes es).
    destruct is_write, (nonzero (Z.land e VTD_FL_RW_MASK));
      cbn [andb negb]; rewrite ?andb_true_r, ?andb_false_r;
      try rewrite IH; cbn [andb negb];
      rewrite ?andb_true_r, ?andb_false_r; reflexivity.
Qed.

(** C9 (first-stage walk permission rule).  The walk reads, from the
    root table, intermediate entries that are readable, present and
    not leaves, and then the entry [e].  If [e] has its present bit
    clear -- and, for a write, the entries walked so far are all
    writable -- the walk fails with [VTD_FR_PAGING_ENTRY_INV].  If [e]
    is a present leaf, the walk fails with [VTD_FR_WRITE] exactly when
    the access is a write and some entry of the chain lacks the
    writable bit, and succeeds otherwise; on success it returns the
    leaf and its level, read permission is granted, and the write
    permission is the conjunction of the writable bits of all the
    entries of the chain. *)
Theorem vtd_iova_to_flpte_permissions (s : IntelIOMMUState)
    (pe : VTDPASIDEntry) (iova : Z) (is_write : bool)
    (flptep0 level0 aw : Z) (es : list Z) (level' : nat) (addr' e : Z) :
  fl_path s iova aw (Z.to_nat (vtd_pe_get_flpt_level pe))
    (vtd_pe_get_flpt_base pe) es level' addr' ->
  fl_entry_at s iova level' addr' e ->
  (vtd_flpte_present e = false ->
   (is_write = true -> fl_chain_writes es = true) ->
   exists out,
     vtd_iova_to_flpte s pe iova is_write flptep0 level0 true true aw
       = Some out /\
     w_ret out = VTD_FAULT VTD_FR_PAGING_ENTRY_INV) /\
  (vtd_flpte_present e = true ->
   vtd_is_last_flpte e (Z.of_nat level') = true ->
   exists out,
     vtd_iova_to_flpte s pe iova is_write flptep0 level0 true true aw
       = Some out /\
     (w_ret out = VTD_FAULT VTD_FR_WRITE <->
      is_write = true /\ fl_chain_writes (es ++ [e]) = false) /\
     (w_ret out = VTD_SUCCESS <->
      ~ (is_write = true /\ fl_chain_writes (es ++ [e]) = false)) /\
     (w_ret out = VTD_SUCCESS ->
      w_ptep out = e /\ w_level out = Z.of_nat level' /\
      w_reads out = true /\
      w_writes out = fl_chain_writes (es ++ [e]))).
Proof.
  intros Hpath (offset & Hoff & Hrd & Hne).
  assert (Hlv : exists l, level' = S l).
  { destruct level'; [cbn in Hoff; discriminate | eauto]. }
  destruct Hlv as [l ->].
  unfold vtd_iova_to_flpte.
  rewrite (fl_loop_path _ _ _ _ _ _ _ _ _ _ Hpath).
  assert (Happ : fl_chain_writes (es ++ [e])
                 = fl_chain_writes es && nonzero (Z.land e VTD_FL_RW_MASK)).
  { unfold fl_chain_writes. rewrite forallb_app. cbn [forallb].
    now rewrite andb_true_r. }
  split.
  - intros Hnp Hw.
    assert (Hc : is_write && negb (fl_chain_writes es) = false).
    { destruct is_write; [rewrite Hw by reflexivity|]; reflexivity. }
    rewrite Hc. cbn [vtd_iova_to_flpte_loop].
    rewrite Hoff. cbn [mbind option_bind]. rewrite Hrd.
    cbn [mbind option_bind].
    destruct (Z.eqb_spec e (u64 (-1))); [contradiction|].
    rewrite Hnp. cbn [negb]. eexists. split; reflexivity.
  - intros Hp Hlast. rewrite Happ.
    destruct is_write, (fl_chain_writes es);
      cbn [andb negb vtd_iova_to_flpte_loop].
    all: try (rewrite Hoff; cbn [mbind option_bind]; rewrite Hrd;
              cbn [mbind option_bind];
              destruct (Z.eqb_spec e (u64 (-1))); [contradiction|];
              rewrite Hp; cbn [negb andb]).
    + destruct (nonzero (Z.land e VTD_FL_RW_MASK)); cbn [negb].
      * rewrite Hlast. eexists. split; [reflexivity|]. cbn.
        split_and!; [split; [discriminate|intros [_ ?]; discriminate]
                    | split; [intros _ [_ ?]; discriminate|reflexivity]
                    | auto].
      * eexists. split; [reflexivity|]. cbn.
        split_and!; [split; auto
                    | split; [discriminate|intros H; exfalso; apply H; auto]
                    | discriminate].
    + eexists. split; [reflexivity|]. cbn.
      split_and!; [split; auto
                  | split; [discriminate|intros H; exfalso; apply H; auto]
                  | discriminate].
    + rewrite Hlast. eexists. split; [reflexivity|]. cbn.
      split_and!; [split; [discriminate|intros [? _]; discriminate]
                  | split; [intros _ [? _]; discriminate|reflexivity]
                  | auto].
    + rewrite Hlast. eexists. split; [reflexivity|]. cbn.
      split_and!; [split; [discriminate|intros [? _]; discriminate]
                  | split; [intros _ [? _]; discriminate|reflexivity]
                  | auto].
Qed.

End FLWalk.

(** ** The translation entry points *)

Section FaultFrames.
Context {RH : VTDRegHeader}.

Lemma fault_frame_caches (s s' : IntelIOMMUState) :
  fault_frame s s' ->
  iotlb s' = iotlb s /\ p_iotlb s' = p_iotlb s /\
  vtd_address_spaces s' = vtd_address_spaces s /\
  context_cache_gen s' = context_cache_gen s /\
  guest_mem s' = guest_mem s.
Proof. unfold fault_frame. intros ->. now destruct s. Qed.

Lemma fault_frame_queue (s s' : IntelIOMMUState) :
  fault_frame s s' ->
  iq_head s' = iq_head s /\ iq_tail s' = iq_tail s /\
  iq_size s' = iq_size s /\ iq_dw s' = iq_dw s /\
  qi_enabled s' = qi_enabled s.
Proof. unfold fault_frame. intros ->. now destruct s. Qed.

Lemma vtd_generate_fault_event_frame (s s' : IntelIOMMUState) (pre : Z) :
  vtd_generate_fault_event s pre = Some s' -> fault_frame s s'.
Proof.
  unfold vtd_generate_fault_event, vtd_generate_interrupt.
  destruct (_ || _ || _); [intros [= <-]; apply fault_frame_refl|].
  destruct (nonzero _); [intros [= <-]; apply fault_frame_scm_long|].
  intros H. apply bind_Some in H as (s2 & H & [= <-]).
  apply bind_Some in H as (_ & _ & H).
  apply bind_Some in H as (_ & _ & [= <-]).
  eapply fault_frame_trans; [apply fault_frame_scm_long|].
  eapply fault_frame_trans; [apply fault_frame_set_msi_log|].
  apply fault_frame_scm_long.
Qed.

Lemma vtd_update_fsts_ppf_frame (s s' : IntelIOMMUState) :
  vtd_update_fsts_ppf s = Some s' -> fault_frame s s'.
Proof.
  unfold vtd_update_fsts_ppf.
  intros H. apply bind_Some in H as (b & _ & [= <-]).
  apply fault_frame_scm_long.
Qed.

Lemma vtd_set_frcd_and_update_ppf_frame (s s' : IntelIOMMUState) (i : Z) :
  vtd_set_frcd_and_update_ppf s i = Some s' -> fault_frame s s'.
Proof.
  unfold vtd_set_frcd_and_update_ppf.
  intros H. apply bind_Some in H as (_ & _ & H).
  apply vtd_update_fsts_ppf_frame in H.
  eapply fault_frame_trans; [apply fault_frame_scm_quad | exact H].
Qed.

Lemma vtd_record_frcd_frame (s s' : IntelIOMMUState) (i hi lo : Z) :
  vtd_record_frcd s i hi lo = Some s' -> fault_frame s s'.
Proof.
  unfold vtd_record_frcd.
  intros H. apply bind_Some in H as (_ & _ & [= <-]).
  eapply fault_frame_trans; apply fault_frame_set_quad.
Qed.

Lemma vtd_report_frcd_fault_frame (s s' : IntelIOMMUState)
    (source_id hi lo : Z) :
  vtd_report_frcd_fault s source_id hi lo = Some s' -> fault_frame s s'.
Proof.
  unfold vtd_report_frcd_fault.
  destruct (nonzero _); [intros [= <-]; apply fault_frame_refl|].
  destruct (vtd_try_collapse_fault _ _);
    [intros [= <-]; apply fault_frame_refl|].
  intros H. apply bind_Some in H as ([|] & _ & H);
    [injection H as <-; apply fault_frame_scm_long|].
  apply bind_Some in H as (s1 & E1 & H).
  apply vtd_record_frcd_frame in E1.
  destruct (nonzero _).
  - apply bind_Some in H as (s2 & E2 & [= <-]).
    apply vtd_set_frcd_and_update_ppf_frame in E2.
    eapply fault_frame_trans; [exact E1|].
    eapply fault_frame_trans; [exact E2|].
    apply fault_frame_set_next_frcd_reg.
  - apply bind_Some in H as (s3 & E3 & H).
    apply vtd_set_frcd_and_update_ppf_frame in E3.
    apply vtd_generate_fault_event_frame in H.
    eapply fault_frame_trans; [exact E1|].
    eapply fault_frame_trans; [apply fault_frame_scm_long|].
    eapply fault_frame_trans; [exact E3|].
    eapply fault_frame_trans; [apply fault_frame_set_next_frcd_reg|].
    exact H.
Qed.

Lemma vtd_report_fault_frame (s s' : IntelIOMMUState) (err : VTDFaultReason)
    (is_fpd_set : bool) (source_id addr : Z) (is_write is_pasid : bool)
    (pasid : Z) :
  vtd_report_fault s err is_fpd_set source_id addr is_write is_pasid pasid
    = Some s' ->
  fault_frame s s'.
Proof.
  unfold vtd_report_fault, vtd_report_dmar_fault.
  destruct (_ && _); [intros [= <-]; apply fault_frame_refl|].
  intros H. apply bind_Some in H as (_ & _ & H).
  revert H. apply vtd_report_frcd_fault_frame.
Qed.

Lemma vtd_handle_inv_queue_error_frame (s s' : IntelIOMMUState) :
  vtd_handle_inv_queue_error s = Some s' -> fault_frame s s'.
Proof.
  unfold vtd_handle_inv_queue_error. intros H.
  apply vtd_generate_fault_event_frame in H.
  eapply fault_frame_trans; [apply fault_frame_scm_long | exact H].
Qed.

End FaultFrames.

Section TranslateFailure.
Context {RH : VTDRegHeader} {PH : VTDPagingHeader} {CH : VTDContextHeader}.
Variable ce_uninit : VTDContextEntry.
Variable pe_uninit : VTDPASIDEntry.
Variable pdire_uninit : Z.
Variable re_uninit : VTDRootEntry.
Variable z_uninit : Z.
Variable vtd_get_piotlb_key : Z -> Z -> Z -> Z -> string.

Local Abbreviation fetch_ce :=
  (vtd_translate_fetch_ce ce_uninit pe_uninit pdire_uninit re_uninit).
Local Abbreviation do_translate :=
  (vtd_do_iommu_translate ce_uninit pe_uninit pdire_uninit re_uninit z_uninit).
Local Abbreviation do_fl_translate :=
  (vtd_do_iommu_fl_translate ce_uninit pe_uninit pdire_uninit re_uninit
     z_uninit vtd_get_piotlb_key).
Local Abbreviation iommu_translate :=
  (vtd_iommu_translate ce_uninit pe_uninit pdire_uninit re_uninit
     z_uninit vtd_get_piotlb_key).

(** The context-entry step leaves both leaf caches alone. *)
Lemma vtd_translate_fetch_ce_caches (s : IntelIOMMUState) (k : vtd_as_key)
    (vtd_as : VTDAddressSpace) (bus_num devfn pasid source_id addr : Z)
    (is_write : bool) (f : ce_fetch) :
  fetch_ce s k vtd_as bus_num devfn pasid source_id addr is_write = Some f ->
  match f with
  | CEError s' => fault_frame s s'
  | CEReady ce _ s' =>
      s' = s \/ s' = update_context_cache s k vtd_as ce
  end.
Proof.
  unfold vtd_translate_fetch_ce.
  destruct (_ =? _).
  - destruct (_ && _).
    + destruct (vtd_ce_get_pasid_fpd _ _ _ _ _ _) as [[|fr] fpd].
      * intros [= <-]. now left.
      * intros H. apply bind_Some in H as (s' & H & [= <-]).
        now apply vtd_report_fault_frame in H.
    + intros [= <-]. now left.
  - destruct (vtd_dev_to_context_entry _ _ _ _ _ _ _) as [ret ce].
    destruct (_ && _ && _).
    + destruct (vtd_ce_get_pasid_fpd _ _ _ _ _ _) as [[|fr] fpd].
      * intros [= <-]. now right.
      * intros H. apply bind_Some in H as (s' & H & [= <-]).
        now apply vtd_report_fault_frame in H.
    + destruct ret as [|fr].
      * intros [= <-]. now right.
      * intros H. apply bind_Some in H as (s' & H & [= <-]).
        now apply vtd_report_fault_frame in H.
Qed.

Lemma update_context_cache_caches (s : IntelIOMMUState) (k : vtd_as_key)
    (vtd_as : VTDAddressSpace) (ce : VTDContextEntry) :
  iotlb (update_context_cache s k vtd_as ce) = iotlb s /\
  p_iotlb (update_context_cache s k vtd_as ce) = p_iotlb s.
Proof. split; reflexivity. Qed.

Lemma vtd_do_iommu_translate_failure (s : IntelIOMMUState) (k : vtd_as_key)
    (bus devfn addr : Z) (is_write : bool) (entry e' : IOMMUTLBEntry)
    (s' : IntelIOMMUState) :
  do_translate s k bus devfn addr is_write entry = Some (false, e', s') ->
  e' = zero_entry /\ iotlb s' = iotlb s /\ p_iotlb s' = p_iotlb s.
Proof.
  unfold vtd_do_iommu_translate. intros H.
  apply bind_Some in H as (vtd_as & _ & H).
  apply bind_Some in H as (_ & _ & H).
  apply bind_Some in H as ([hit|] & _ & H); [discriminate|].
  apply bind_Some in H as (f & Hf & H).
  apply vtd_translate_fetch_ce_caches in Hf.
  destruct f as [s1 | ce fpd s1].
  - injection H as <- <-. split; [reflexivity|].
    apply fault_frame_caches in Hf. tauto.
  - assert (Hc : iotlb s1 = iotlb s /\ p_iotlb s1 = p_iotlb s).
    { destruct Hf as [-> | ->]; [auto | apply update_context_cache_caches]. }
    destruct (vtd_dev_pt_enabled _ _ _ _ _); [discriminate|].
    apply bind_Some in H as ([hit|] & _ & H); [discriminate|].
    apply bind_Some in H as (w & _ & H).
    destruct (w_ret w) as [|fr].
    + apply bind_Some in H as (pm & _ & H).
      apply bind_Some in H as (s2 & _ & H). discriminate.
    + apply bind_Some in H as (s2 & Hr & H). injection H as <- <-.
      apply vtd_report_fault_frame, fault_frame_caches in Hr.
      split; [reflexivity|]. destruct Hr as (-> & -> & _). exact Hc.
Qed.

Lemma vtd_do_iommu_fl_translate_failure (s : IntelIOMMUState) (k : vtd_as_key)
    (bus devfn addr : Z) (is_write : bool) (entry e' : IOMMUTLBEntry)
    (s' : IntelIOMMUState) :
  do_fl_translate s k bus devfn addr is_write entry = Some (false, e', s') ->
  (e' = zero_entry \/ e' = entry) /\
  iotlb s' = iotlb s /\ p_iotlb s' = p_iotlb s.
Proof.
  unfold vtd_do_iommu_fl_translate. intros H.
  apply bind_Some in H as (vtd_as & _ & H).
  apply bind_Some in H as (_ & _ & H).
  destruct (vtd_dev_to_context_entry _ _ _ _ _ _ _) as [[|fr0] ce];
    [|injection H as <- <-; auto].
  destruct (vtd_dev_get_rid2pasid _ _ _ _ _ _ _ _) as [[|fr1] pasid];
    [|injection H as <- <-; auto].
  apply bind_Some in H as ([hit|] & _ & H); [discriminate|].
  destruct (vtd_ce_get_rid2pasid_entry _ _ _ _ _) as [[|fr2] pe].
  - destruct (_ =? _); [discriminate|].
    apply bind_Some in H as (w & _ & H).
    destruct (w_ret w) as [|fr].
    + apply bind_Some in H as (pm & _ & H).
      apply bind_Some in H as (s2 & _ & H). discriminate.
    + apply bind_Some in H as (s2 & Hr & H). injection H as <- <-.
      apply vtd_report_fault_frame, fault_frame_caches in Hr.
      split; [auto|]. tauto.
  - apply bind_Some in H as (s2 & Hr & H). injection H as <- <-.
    apply vtd_report_fault_frame, fault_frame_caches in Hr.
    split; [auto|]. tauto.
Qed.

Lemma vtd_iommu_translate_failure (s : IntelIOMMUState) (k : vtd_as_key)
    (addr : Z) (flag : IOMMUAccessFlags) (e' : IOMMUTLBEntry)
    (s' : IntelIOMMUState) :
  iommu_translate s k addr flag = Some (false, e', s') ->
  e' = zero_entry /\ iotlb s' = iotlb s /\ p_iotlb s' = p_iotlb s.
Proof.
  unfold vtd_iommu_translate. intros H.
  apply bind_Some in H as (vtd_as & _ & H).
  destruct (dmar_enabled s); [|discriminate].
  destruct (root_scalable s).
  - destruct (vtd_dev_to_context_entry _ _ _ _ _ _ _) as [ret ce].
    destruct (vtd_ce_get_rid2pasid_entry _ _ _ _ _) as [[|fr] pe];
      [|injection H as <- <-; auto].
    destruct (_ =? _).
    + apply vtd_do_iommu_fl_translate_failure in H.
      destruct H as ([-> | ->] & ?); auto.
    + now apply vtd_do_iommu_translate_failure in H.
  - now apply vtd_do_iommu_translate_failure in H.
Qed.

(** C10 (translate failure atomicity).  A translation request that
    fails leaves a fully zeroed result entry (iova 0, translated
    address 0, address mask 0, no permission) and inserts nothing into
    the leaf translation caches.  This holds for the second-stage entry
    point whatever entry it is given, for the first-stage entry point
    on the zero-initialised entry that its caller passes, and for the
    public [translate] callback. *)
Theorem vtd_translate_failure_atomic (s : IntelIOMMUState) (k : vtd_as_key)
    (bus devfn addr : Z) (is_write : bool) (flag : IOMMUAccessFlags)
    (entry : IOMMUTLBEntry)
    (r : option (bool * IOMMUTLBEntry * IntelIOMMUState))
    (e' : IOMMUTLBEntry) (s' : IntelIOMMUState) :
  r = do_translate s k bus devfn addr is_write entry \/
  r = do_fl_translate s k bus devfn addr is_write zero_entry \/
  r = iommu_translate s k addr flag ->
  r = Some (false, e', s') ->
  e' = zero_entry /\ iotlb s' = iotlb s /\ p_iotlb s' = p_iotlb s.
Proof.
  intros [-> | [-> | ->]] H.
  - now apply vtd_do_iommu_translate_failure in H.
  - apply vtd_do_iommu_fl_translate_failure in H.
    destruct H as ([-> | ->] & ?); auto.
  - now apply vtd_iommu_translate_failure in H.
Qed.

End TranslateFailure.

(** ** The context cache *)

Section ContextCache.
Context {RH : VTDRegHeader} {PH : VTDPagingHeader} {CH : VTDContextHeader}.
Variable ce_uninit : VTDContextEntry.
Variable pe_uninit : VTDPASIDEntry.
Variable pdire_uninit : Z.
Variable re_uninit : VTDRootEntry.
Variable z_uninit : Z.
Variable resync : IntelIOMMUState -> IntelIOMMUState.

Local Abbreviation fetch_ce :=
  (vtd_translate_fetch_ce ce_uninit pe_uninit pdire_uninit re_uninit).
Local Abbreviation do_translate :=
  (vtd_do_iommu_translate ce_uninit pe_uninit pdire_uninit re_uninit z_uninit).
Local Abbreviation dev_to_ce :=
  (vtd_dev_to_context_entry pe_uninit pdire_uninit re_uninit).

(** With equal generations the step uses the cached context entry and
    leaves the state alone. *)
Lemma vtd_translate_fetch_ce_cached (t : IntelIOMMUState) (k : vtd_as_key)
    (vtd_as : VTDAddressSpace) (bus_num devfn pasid source_id addr : Z)
    (is_write : bool) (ce : VTDContextEntry) (fpd : bool)
    (t' : IntelIOMMUState) :
  as_cache_gen vtd_as = context_cache_gen t ->
  fetch_ce t k vtd_as bus_num devfn pasid source_id addr is_write
    = Some (CEReady ce fpd t') ->
  ce = cc_context_entry (context_cache_entry vtd_as) /\ t' = t.
Proof.
  unfold vtd_translate_fetch_ce, as_cache_gen. intros ->.
  rewrite Z.eqb_refl.
  destruct (_ && _).
  - destruct (vtd_ce_get_pasid_fpd _ _ _ _ _ _) as [[|fr] b].
    + intros [= <- _ <-]. auto.
    + intros H. apply bind_Some in H as (? & _ & ?). discriminate.
  - intros [= <- _ <-]. auto.
Qed.

(** With different generations the step reads the context entry from
    guest memory and refreshes the cache entry. *)
Lemma vtd_translate_fetch_ce_fresh (t : IntelIOMMUState) (k : vtd_as_key)
    (vtd_as : VTDAddressSpace) (bus_num devfn pasid source_id addr : Z)
    (is_write : bool) (ce : VTDContextEntry) (fpd : bool)
    (t' : IntelIOMMUState) :
  as_cache_gen vtd_as <> context_cache_gen t ->
  fetch_ce t k vtd_as bus_num devfn pasid source_id addr is_write
    = Some (CEReady ce fpd t') ->
  dev_to_ce t bus_num devfn ce_uninit = (VTD_SUCCESS, ce) /\
  t' = update_context_cache t k vtd_as ce.
Proof.
  unfold vtd_translate_fetch_ce, as_cache_gen. intros Hne.
  destruct (Z.eqb_spec (cc_context_cache_gen (context_cache_entry vtd_as))
              (context_cache_gen t)); [contradiction|].
  destruct (vtd_dev_to_context_entry _ _ _ _ _ _ _) as [ret ce0].
  destruct ret as [|fr0]; cbn [is_fault negb andb].
  - destruct (_ && _).
    + destruct (vtd_ce_get_pasid_fpd _ _ _ _ _ _) as [[|fr] b].
      * intros [= <- _ <-]. auto.
      * intros H. apply bind_Some in H as (? & _ & ?). discriminate.
    + intros [= <- _ <-]. auto.
  - intros H. apply bind_Some in H as (? & _ & ?). discriminate.
Qed.

Lemma vtd_context_global_invalidate_spec (s : IntelIOMMUState) :
  cc_resync_frame resync ->
  1 < VTD_CONTEXT_CACHE_GEN_MAX < 2 ^ 32 ->
  cc_wf s ->
  let s' := vtd_context_global_invalidate resync s in
  context_cache_gen s' =
    (if context_cache_gen s + 1 =? VTD_CONTEXT_CACHE_GEN_MAX then 1
     else context_cache_gen s + 1) /\
  (context_cache_gen s + 1 = VTD_CONTEXT_CACHE_GEN_MAX ->
   forall k a, vtd_address_spaces s' !! k = Some a -> as_cache_gen a = 0) /\
  cc_wf s' /\
  (forall k a, vtd_address_spaces s' !! k = Some a ->
               as_cache_gen a <> context_cache_gen s').
Proof.
  intros Hres Hmax [Hg Has] s'. subst s'.
  unfold vtd_context_global_invalidate.
  cbn [context_cache_gen set_context_cache_gen].
  rewrite u32_small by lia.
  destruct (Z.eqb_spec (context_cache_gen s + 1) VTD_CONTEXT_CACHE_GEN_MAX)
    as [Hwrap | Hno].
  - match goal with |- context [resync ?t] =>
      destruct (Hres t) as (Hrg & _ & Hra); set (s2 := t) in * end.
    assert (Hz : forall k a, vtd_address_spaces (resync s2) !! k = Some a ->
                             as_cache_gen a = 0).
    { intros k a Hk. destruct (Hra k a Hk) as [H0 | (a0 & Hk0 & He)];
        [exact H0|].
      subst s2. unfold vtd_reset_context_cache_locked in Hk0.
      cbn [vtd_address_spaces set_context_cache_gen set_vtd_address_spaces]
        in Hk0.
      rewrite lookup_fmap in Hk0.
      destruct (vtd_address_spaces s !! k); [|discriminate].
      injection Hk0 as <-. unfold as_cache_gen. now rewrite He. }
    unfold cc_wf. rewrite !Hrg. subst s2. cbn [context_cache_gen vtd_reset_context_cache_locked
                                 set_context_cache_gen set_vtd_address_spaces].
    split; [reflexivity|]. split; [intros _; exact Hz|]. split.
    + split; [lia|]. intros k a Hk. rewrite (Hz k a Hk). lia.
    + intros k a Hk. rewrite (Hz k a Hk). lia.
  - match goal with |- context [resync ?t] =>
      destruct (Hres t) as (Hrg & _ & Hra); set (s2 := t) in * end.
    assert (Hle : forall k a, vtd_address_spaces (resync s2) !! k = Some a ->
                              0 <= as_cache_gen a <= context_cache_gen s).
    { intros k a Hk. destruct (Hra k a Hk) as [H0 | (a0 & Hk0 & He)];
        [lia|].
      subst s2. cbn in Hk0. unfold as_cache_gen. rewrite He.
      apply (Has k a0 Hk0). }
    unfold cc_wf. rewrite !Hrg. subst s2. cbn [context_cache_gen set_context_cache_gen].
    split; [reflexivity|]. split; [intros ?; lia|]. split.
    + split; [lia|]. intros k a Hk. specialize (Hle k a Hk). lia.
    + intros k a Hk. specialize (Hle k a Hk). lia.
Qed.

Lemma vtd_update_iotlb_address_spaces (s s' : IntelIOMMUState)
    (source_id domain_id addr slpte : Z) (flags : IOMMUAccessFlags)
    (level pasid : Z) :
  vtd_update_iotlb s source_id domain_id addr slpte flags level pasid
    = Some s' ->
  vtd_address_spaces s' = vtd_address_spaces s.
Proof.
  unfold vtd_update_iotlb. intros H.
  apply bind_Some in H as (gfn & _ & H).
  apply bind_Some in H as (mask & _ & [= <-]).
  destruct (_ >=? _); reflexivity.
Qed.

(** When no cached generation of the address space equals the global
    one, a translation either hits the leaf translation cache at its
    first lookup, or fails, or has read the context entry from guest
    memory and stored it in the cache under the current generation. *)
Lemma vtd_do_iommu_translate_refetch (s : IntelIOMMUState) (k : vtd_as_key)
    (bus devfn addr : Z) (is_write : bool) (entry e : IOMMUTLBEntry)
    (ok : bool) (s' : IntelIOMMUState) :
  (forall a, vtd_address_spaces s !! k = Some a ->
             as_cache_gen a <> context_cache_gen s) ->
  do_translate s k bus devfn addr is_write entry = Some (ok, e, s') ->
  (exists a hit,
     vtd_address_spaces s !! k = Some a /\
     vtd_lookup_iotlb s (u16 (PCI_BUILD_BDF (u8 (pci_bus_num bus)) devfn))
       (as_pasid a) addr = Some (Some hit)) \/
  ok = false \/
  (exists ce a',
     dev_to_ce s (u8 (pci_bus_num bus)) devfn ce_uninit = (VTD_SUCCESS, ce) /\
     vtd_address_spaces s' !! k = Some a' /\
     context_cache_entry a' =
       {| cc_context_entry := ce;
          cc_context_cache_gen := context_cache_gen s |}).
Proof.
  intros Hstale. unfold vtd_do_iommu_translate. intros H.
  apply bind_Some in H as (vtd_as & Has & H).
  apply bind_Some in H as (_ & _ & H).
  apply bind_Some in H as ([hit|] & Hhit & H).
  { left. exists vtd_as, hit. split; [exact Has|].
    destruct (negb _); [exact Hhit | discriminate]. }
  apply bind_Some in H as (f & Hf & H).
  destruct f as [s1 | ce fpd s1].
  { injection H as <- _ _. auto. }
  apply vtd_translate_fetch_ce_fresh in Hf; [|now apply Hstale].
  destruct Hf as [Hce ->].
  assert (Hup : vtd_address_spaces (update_context_cache s k vtd_as ce) !! k
                = Some {| as_bus := as_bus vtd_as; as_devfn := as_devfn vtd_as;
                          as_pasid := as_pasid vtd_as;
                          context_cache_entry :=
                            {| cc_context_entry := ce;
                               cc_context_cache_gen := context_cache_gen s |} |}).
  { unfold update_context_cache.
    cbn [vtd_address_spaces set_vtd_address_spaces].
    apply lookup_insert_eq. }
  destruct (vtd_dev_pt_enabled _ _ _ _ _).
  { injection H as _ _ <-. right. right. eexists _, _.
    split; [exact Hce|]. split; [exact Hup|]. reflexivity. }
  apply bind_Some in H as ([hit|] & _ & H).
  { injection H as _ _ <-. right. right. eexists _, _.
    split; [exact Hce|]. split; [exact Hup|]. reflexivity. }
  apply bind_Some in H as (w & _ & H).
  destruct (w_ret w) as [|fr].
  - apply bind_Some in H as (pm & _ & H).
    apply bind_Some in H as (s2 & Hu & H). injection H as _ _ <-.
    apply vtd_update_iotlb_address_spaces in Hu.
    right. right. eexists _, _.
    split; [exact Hce|]. rewrite Hu. split; [exact Hup|]. reflexivity.
  - apply bind_Some in H as (s2 & _ & H). injection H as <- _ _. auto.
Qed.

(** C2, as amended (context-cache generation).  From a state with
    well-formed generations, a global context-cache invalidation bumps
    the global generation, or, when the bump reaches
    [VTD_CONTEXT_CACHE_GEN_MAX], zeroes every stored generation and
    restarts the global one at 1; either way no address space is left
    with a stored generation equal to the global one, and generations
    stay well formed.  The context-entry step of a translation uses
    the cached entry (and leaves the cache alone) when the stored
    generation equals the global one, and otherwise reads the entry
    from guest memory and caches it.  So the next translation after the
    invalidation hits the leaf translation cache at its first lookup,
    or fails, or has re-read the context entry from guest memory. *)
Theorem vtd_context_cache_generation (s : IntelIOMMUState) :
  cc_resync_frame resync ->
  1 < VTD_CONTEXT_CACHE_GEN_MAX < 2 ^ 32 ->
  cc_wf s ->
  let s' := vtd_context_global_invalidate resync s in
  context_cache_gen s' =
    (if context_cache_gen s + 1 =? VTD_CONTEXT_CACHE_GEN_MAX then 1
     else context_cache_gen s + 1) /\
  (context_cache_gen s + 1 = VTD_CONTEXT_CACHE_GEN_MAX ->
   forall k a, vtd_address_spaces s' !! k = Some a -> as_cache_gen a = 0) /\
  cc_wf s' /\
  (forall k a, vtd_address_spaces s' !! k = Some a ->
               as_cache_gen a <> context_cache_gen s') /\
  (forall t k vtd_as bus_num devfn pasid source_id addr is_write ce fpd t',
      fetch_ce t k vtd_as bus_num devfn pasid source_id addr is_write
        = Some (CEReady ce fpd t') ->
      (as_cache_gen vtd_as = context_cache_gen t ->
       ce = cc_context_entry (context_cache_entry vtd_as) /\ t' = t) /\
      (as_cache_gen vtd_as <> context_cache_gen t ->
       dev_to_ce t bus_num devfn ce_uninit = (VTD_SUCCESS, ce) /\
       t' = update_context_cache t k vtd_as ce)) /\
  (forall k bus devfn addr is_write entry ok e s'',
      do_translate s' k bus devfn addr is_write entry = Some (ok, e, s'') ->
      (exists a hit,
         vtd_address_spaces s' !! k = Some a /\
         vtd_lookup_iotlb s'
           (u16 (PCI_BUILD_BDF (u8 (pci_bus_num bus)) devfn))
           (as_pasid a) addr = Some (Some hit)) \/
      ok = false \/
      (exists ce a',
         dev_to_ce s' (u8 (pci_bus_num bus)) devfn ce_uninit
           = (VTD_SUCCESS, ce) /\
         vtd_address_spaces s'' !! k = Some a' /\
         context_cache_entry a' =
           {| cc_context_entry := ce;
              cc_context_cache_gen := context_cache_gen s' |})).
Proof.
  intros Hres Hmax Hwf s'.
  destruct (vtd_context_global_invalidate_spec s Hres Hmax Hwf)
    as (Hgen & Hzero & Hwf' & Hstale).
  fold s' in Hgen, Hzero, Hwf', Hstale.
  split; [exact Hgen|]. split; [exact Hzero|]. split; [exact Hwf'|].
  split; [exact Hstale|]. split.
  - intros t k vtd_as bus_num devfn pasid source_id addr is_write ce fpd t' Hf.
    split; intros Hg.
    + eapply vtd_translate_fetch_ce_cached; eauto.
    + eapply vtd_translate_fetch_ce_fresh; eauto.
  - intros k bus devfn addr is_write entry ok e s'' Ht.
    eapply vtd_do_iommu_translate_refetch; [|exact Ht].
    intros a Ha. now apply (Hstale k).
Qed.

End ContextCache.

(** ** The invalidation queue *)
Section QueueArith.

Lemma iq_wrap_mod (h size : Z) :
  0 <= h < size -> size < 2 ^ 16 ->
  (if u16 (h + 1) =? size then 0 else u16 (h + 1)) = (h + 1) mod size.
Proof.
  intros Hh Hs. rewrite u16_small by lia.
  destruct (Z.eqb_spec (h + 1) size) as [-> | Hne].
  - now rewrite Z_mod_same_full.
  - now rewrite Z.mod_small by lia.
Qed.

Lemma iq_distance_step (h t size : Z) :
  0 <= h < size -> 0 <= t < size -> h <> t ->
  (t - (h + 1) mod size) mod size = (t - h) mod size - 1.
Proof.
  intros Hh Ht Hne.
  destruct (Z.eq_dec (h + 1) size) as [He | He].
  - rewrite He, Z_mod_same_full, Z.sub_0_r, Z.mod_small by lia.
    symmetry. assert (t + 1 = (t - h) mod size); [|lia].
    apply (Z.mod_unique_pos _ _ (-1)); lia.
  - rewrite (Z.mod_small (h + 1)) by lia.
    destruct (Z_lt_le_dec h t).
    + rewrite !Z.mod_small by lia. lia.
    + assert (t - (h + 1) + size = (t - (h + 1)) mod size)
        by (apply (Z.mod_unique_pos _ _ (-1)); lia).
      assert (t - h + size = (t - h) mod size)
        by (apply (Z.mod_unique_pos _ _ (-1)); lia).
      lia.
Qed.

End QueueArith.

Section QueueFacts.
Context {RH : VTDRegHeader} {QH : VTDQueueHeader} {OK : VTDRegHeaderOK RH}.
Variable handlers : VTDDescHandlers.
Variable desc_uninit : VTDInvDesc.
Hypothesis Hframe : handlers_frame handlers.

Local Abbreviation process := (vtd_process_inv_desc handlers desc_uninit).
Local Abbreviation fetch_loop := (vtd_fetch_inv_desc_loop handlers desc_uninit).
Local Abbreviation outcome_at := (iq_desc_outcome handlers desc_uninit).

Lemma vtd_dispatch_inv_desc_frame (s : IntelIOMMUState) (ty : Z)
    (d : VTDInvDesc) (b : bool) (s' : IntelIOMMUState) :
  vtd_dispatch_inv_desc handlers s ty d = Some (b, s') ->
  iq_head s' = iq_head s /\ iq_tail s' = iq_tail s /\
  iq_size s' = iq_size s /\ iq_dw s' = iq_dw s /\
  vtd_get_quad_raw s' DMAR_IQH_REG = vtd_get_quad_raw s DMAR_IQH_REG.
Proof.
  destruct Hframe as (H1 & H2 & H3 & H4 & H5 & H6 & H7 & H8).
  unfold vtd_dispatch_inv_desc.
  repeat (destruct (_ =? _); [solve [eauto]|]).
  intros [= <- <-]. auto.
Qed.

(** The queue-error handler always returns, raises IQE and changes
    neither the cursors nor the head register. *)
Lemma vtd_handle_inv_queue_error_spec (s : IntelIOMMUState) :
  exists s',
    vtd_handle_inv_queue_error s = Some s' /\
    fault_frame s s' /\
    vtd_inv_queue_error s' = true /\
    vtd_get_quad_raw s' DMAR_IQH_REG = vtd_get_quad_raw s DMAR_IQH_REG.
Proof.
  unfold vtd_handle_inv_queue_error.
  set (s1 := (vtd_set_clear_mask_long s DMAR_FSTS_REG 0 VTD_FSTS_IQE).2).
  destruct (vtd_generate_fault_event_spec s1
              (vtd_get_long_raw s DMAR_FSTS_REG))
    as (s' & He & Hf & _ & Hq & Hl & _).
  exists s'. split; [exact He|]. split_and!.
  - eapply fault_frame_trans; [apply fault_frame_scm_long | exact Hf].
  - unfold vtd_inv_queue_error.
    rewrite Hl by (destruct fsts_fectl_disjoint; lia).
    subst s1. rewrite get_long_scm_long_same.
    destruct fsts_iqe_bit.
    rewrite land_u32, land_lor_same by lia.
    unfold nonzero. destruct (Z.eqb_spec VTD_FSTS_IQE 0); [lia|reflexivity].
  - rewrite Hq by (destruct iqh_fectl_disjoint; lia).
    subst s1. apply get_quad_scm_long_other.
    destruct iqh_fsts_disjoint; lia.
Qed.

(** A tail write while IQE is set records the tail and drains
    nothing. *)
Lemma vtd_handle_iqt_write_error (fuel : nat) (s : IntelIOMMUState) :
  vtd_inv_queue_error s = true ->
  exists t,
    vtd_handle_iqt_write handlers desc_uninit fuel s
    = Finished (set_iq_tail t s).
Proof.
  unfold vtd_inv_queue_error, vtd_handle_iqt_write. intros He.
  destruct (_ && _).
  - exists (iq_tail s). now destruct s.
  - eexists. unfold vtd_get_long_raw in *. cbn [csr set_iq_tail].
    rewrite He, andb_false_r. reflexivity.
Qed.

Lemma vtd_get_inv_desc_slot (s : IntelIOMMUState) :
  vtd_get_inv_desc s desc_uninit =
  match iq_desc_at_head desc_uninit s with
  | Some d => (true, d)
  | None => (false, desc_uninit)
  end.
Proof.
  unfold vtd_get_inv_desc, iq_desc_at_head.
  destruct (iq_dw s).
  - change (Z.to_nat (32 / 8)) with 4%nat. cbn [dma_read_qs].
    set (a := u64 (iq s + u32 (iq_head s * 32))).
    destruct (dma_read_q (guest_mem s) a); [|reflexivity].
    destruct (dma_read_q (guest_mem s) (a + 8)); [|reflexivity].
    destruct (dma_read_q (guest_mem s) (a + 8 + 8)); [|reflexivity].
    destruct (dma_read_q (guest_mem s) (a + 8 + 8 + 8)); reflexivity.
  - change (Z.to_nat (16 / 8)) with 2%nat. cbn [dma_read_qs].
    set (a := u64 (iq s + u32 (iq_head s * 16))).
    destruct (dma_read_q (guest_mem s) a); [|reflexivity].
    destruct (dma_read_q (guest_mem s) (a + 8)); reflexivity.
Qed.

Lemma vtd_dispatch_inv_desc_handler (s : IntelIOMMUState) (ty : Z)
    (d : VTDInvDesc) :
  vtd_dispatch_inv_desc handlers s ty d =
  match iq_handler_for handlers ty with
  | Some h => h s d
  | None => Some (false, s)
  end.
Proof.
  unfold vtd_dispatch_inv_desc, iq_handler_for.
  repeat (destruct (_ =? _); [reflexivity|]). reflexivity.
Qed.

(** One descriptor: [vtd_process_inv_desc] advances the head exactly
    when the handler of the descriptor under the head accepts it. *)
Lemma vtd_process_inv_desc_outcome (s : IntelIOMMUState) :
  process s =
  match outcome_at s with
  | DescAccepted s1 => Some (true, vtd_advance_iq_head s1)
  | DescRefused s1 => Some (false, s1)
  | DescAborted => None
  end.
Proof.
  unfold vtd_process_inv_desc, iq_desc_outcome.
  rewrite vtd_get_inv_desc_slot.
  destruct (iq_desc_at_head desc_uninit s) as [d|]; [|reflexivity].
  rewrite vtd_dispatch_inv_desc_handler.
  destruct (iq_handler_for handlers _) as [h|]; [|reflexivity].
  cbn [mbind option_bind].
  destruct (h _ d) as [[[|] s1]|]; reflexivity.
Qed.

(** A handler's outcome leaves the queue to the processor. *)
Lemma iq_desc_outcome_frame (s s1 : IntelIOMMUState) :
  outcome_at s = DescAccepted s1 \/ outcome_at s = DescRefused s1 ->
  iq_head s1 = iq_head s /\ iq_tail s1 = iq_tail s /\
  iq_size s1 = iq_size s /\ iq_dw s1 = iq_dw s /\
  vtd_get_quad_raw s1 DMAR_IQH_REG = vtd_get_quad_raw s DMAR_IQH_REG.
Proof.
  unfold iq_desc_outcome.
  destruct (iq_desc_at_head desc_uninit s) as [d|].
  2:{ intros [H | H]; [discriminate|]. injection H as <-.
      split_and!; reflexivity. }
  destruct (iq_handler_for handlers _) as [h|] eqn:Hfor.
  2:{ intros [H | H]; [discriminate|]. injection H as <-.
      split_and!; reflexivity. }
  destruct (h _ d) as [[b s2]|] eqn:Hh.
  2:{ intros [H | H]; discriminate. }
  intros H.
  assert (s2 = s1) as -> by (destruct b, H as [H | H]; congruence).
  eapply (vtd_dispatch_inv_desc_frame (set_iq_last_desc_type _ s) _ d b s1).
  rewrite vtd_dispatch_inv_desc_handler, Hfor. exact Hh.
Qed.

Lemma vtd_persist_advance_completed (qi_shift : Z) (s : IntelIOMMUState) :
  0 <= iq_head s < iq_size s -> iq_size s < 2 ^ 16 ->
  vtd_persist_iq_head (vtd_advance_iq_head s) qi_shift
  = iq_completed qi_shift s.
Proof.
  intros Hh Hs. unfold vtd_persist_iq_head, vtd_advance_iq_head, iq_completed.
  cbn [iq_head set_iq_head]. rewrite iq_wrap_mod by lia. reflexivity.
Qed.

(** The drain loop, by induction on the fuel: with more fuel than the
    distance from head to tail it returns, having completed the [n]
    descriptors that their handlers accept, and then either met the
    tail or stopped at the first descriptor that is not accepted. *)
Lemma vtd_fetch_inv_desc_loop_drained (qi_shift : Z) (fuel : nat) :
  forall s,
    0 <= iq_head s < iq_size s -> 0 <= iq_tail s < iq_size s ->
    iq_size s < 2 ^ 16 ->
    (iq_tail s - iq_head s) mod iq_size s < Z.of_nat fuel ->
    exists n sk,
      iq_drained handlers desc_uninit qi_shift n s sk /\
      Z.of_nat n <= (iq_tail s - iq_head s) mod iq_size s /\
      iq_head sk = (iq_head s + Z.of_nat n) mod iq_size s /\
      iq_tail sk = iq_tail s /\ iq_size sk = iq_size s /\
      (n <> O ->
       vtd_get_quad_raw sk DMAR_IQH_REG
       = u64 (Z.land (u64 (Z.shiftl (iq_head sk) qi_shift))
                     VTD_IQH_QH_MASK)) /\
      ((Z.of_nat n = (iq_tail s - iq_head s) mod iq_size s /\
        iq_head sk = iq_tail sk /\ fetch_loop fuel qi_shift s = Finished sk)
       \/ (iq_head sk <> iq_tail sk /\ outcome_at sk = DescAborted /\
           fetch_loop fuel qi_shift s = Aborted)
       \/ (iq_head sk <> iq_tail sk /\
           exists s1 s2,
             outcome_at sk = DescRefused s1 /\
             vtd_handle_inv_queue_error s1 = Some s2 /\
             fetch_loop fuel qi_shift s = Finished s2)).
Proof.
  induction fuel as [|fuel IH]; intros s Hh Ht Hs Hd.
  { pose proof (Z.mod_pos_bound (iq_tail s - iq_head s) (iq_size s)). lia. }
  pose proof (Z.mod_pos_bound (iq_tail s - iq_head s) (iq_size s)
                ltac:(lia)) as Hdist.
  cbn [vtd_fetch_inv_desc_loop].
  destruct (Z.eqb_spec (iq_head s) (iq_tail s)) as [Heq | Hne].
  { exists O, s. split; [constructor|].
    rewrite Z.add_0_r, (Z.mod_small (iq_head s)) by lia.
    assert (Hz : (iq_tail s - iq_head s) mod iq_size s = 0).
    { rewrite Heq, Z.sub_diag. apply Z.mod_0_l. lia. }
    split_and!; [cbn; lia|reflexivity|reflexivity|reflexivity|congruence|].
    left. rewrite Hz. auto. }
  rewrite vtd_process_inv_desc_outcome.
  destruct (outcome_at s) as [s1 | s1 |] eqn:Hp.
  - destruct (iq_desc_outcome_frame s s1 (or_introl Hp))
      as (Hh1 & Ht1 & Hs1 & _ & _).
    rewrite vtd_persist_advance_completed by (rewrite ?Hh1, ?Hs1; lia).
    set (s2 := iq_completed qi_shift s1).
    assert (Hh2 : iq_head s2 = (iq_head s + 1) mod iq_size s)
      by (rewrite <- Hh1, <- Hs1; reflexivity).
    assert (Ht2 : iq_tail s2 = iq_tail s) by (subst s2; exact Ht1).
    assert (Hs2 : iq_size s2 = iq_size s) by (subst s2; exact Hs1).
    assert (Hq2 : vtd_get_quad_raw s2 DMAR_IQH_REG
                  = u64 (Z.land (u64 (Z.shiftl (iq_head s2) qi_shift))
                                VTD_IQH_QH_MASK)).
    { rewrite Hh2. subst s2. unfold iq_completed.
      rewrite get_quad_set_quad_same, Hh1, Hs1. reflexivity. }
    pose proof (Z.mod_pos_bound (iq_head s + 1) (iq_size s) ltac:(lia)) as Hb.
    assert (Hstep : (iq_tail s2 - iq_head s2) mod iq_size s2
                    = (iq_tail s - iq_head s) mod iq_size s - 1).
    { rewrite Hh2, Ht2, Hs2. apply iq_distance_step; lia. }
    destruct (IH s2) as (n & sk & Hdr & Hn & Hhk & Htk & Hsk & Hqk & Hout).
    { rewrite Hh2, Hs2. lia. }
    { rewrite Ht2, Hs2. lia. }
    { rewrite Hs2. lia. }
    { rewrite Hstep. lia. }
    exists (S n), sk. split; [econstructor; eauto|].
    split_and!.
    + lia.
    + rewrite Hhk, Hh2, Hs2, Zplus_mod_idemp_l. f_equal. lia.
    + congruence.
    + congruence.
    + intros _. destruct n as [|n]; [|apply Hqk; discriminate].
      inversion Hdr; subst. exact Hq2.
    + destruct Hout as [(Hn' & He & Hf) | Hout]; [|right; exact Hout].
      left. split_and!; auto. lia.
  - destruct (vtd_handle_inv_queue_error_spec s1) as (s2 & He & _).
    exists O, s. split; [constructor|].
    rewrite Z.add_0_r, (Z.mod_small (iq_head s)) by lia.
    split_and!; [cbn; lia|reflexivity|reflexivity|reflexivity|congruence|].
    right. right. split; [exact Hne|]. exists s1, s2.
    rewrite He. auto.
  - exists O, s. split; [constructor|].
    rewrite Z.add_0_r, (Z.mod_small (iq_head s)) by lia.
    split_and!; [cbn; lia|reflexivity|reflexivity|reflexivity|congruence|].
    right. left. auto.
Qed.

End QueueFacts.

Section QueueTheorems.
Context {RH : VTDRegHeader} {QH : VTDQueueHeader}.
Variable handlers : VTDDescHandlers.
Variable desc_uninit : VTDInvDesc.

Local Abbreviation iqt_write := (vtd_handle_iqt_write handlers desc_uninit).
Local Abbreviation outcome_at := (iq_desc_outcome handlers desc_uninit).

(** C3: draining the invalidation queue after a tail write.  The
    guest writes the tail register of an enabled queue; the new tail
    and the head lie inside the queue, and there is fuel for one pass
    over it.  If the invalidation-queue-error flag is set, the write
    only records the tail: nothing is drained.  Otherwise
    [vtd_handle_iqt_write] completes, one after the other, the [n]
    descriptors from the head on that their handlers accept, as
    guest memory holds them, each one moving the head by one modulo
    the queue size and writing it to the head register, and reaches
    a state [sk] where either all [n] descriptors up to the tail are
    done and the write returns [sk]; or an assertion of the handler
    fails on the descriptor at the head; or the descriptor at the
    head is not processed (unreadable, of unknown type or refused by
    its handler), and then the write returns with the head and the
    head register as in [sk], that is, as after the last completed
    descriptor, with the invalidation-queue-error flag raised, so
    that a later tail write records the tail and drains nothing. *)
Theorem vtd_inv_queue_drain (s0 : IntelIOMMUState) (fuel : nat) :
  VTDRegHeaderOK RH ->
  handlers_frame handlers ->
  let val := vtd_get_quad_raw s0 DMAR_IQT_REG in
  let s := set_iq_tail (u16 (VTD_IQT_QT (iq_dw s0) val)) s0 in
  let qi_shift :=
    if iq_dw s0 then VTD_IQH_QH_SHIFT_5 else VTD_IQH_QH_SHIFT_4 in
  iq_dw s0 && nonzero (Z.land val VTD_IQT_QT_256_RSV_BIT) = false ->
  qi_enabled s0 = true ->
  0 <= iq_head s0 < iq_size s0 ->
  0 <= iq_tail s < iq_size s0 ->
  iq_size s0 < 2 ^ 16 ->
  iq_size s0 <= Z.of_nat fuel ->
  (vtd_inv_queue_error s0 = true -> iqt_write fuel s0 = Finished s) /\
  (vtd_inv_queue_error s0 = false ->
   exists n sk,
     iq_drained handlers desc_uninit qi_shift n s sk /\
     Z.of_nat n <= (iq_tail s - iq_head s) mod iq_size s /\
     iq_head sk = (iq_head s + Z.of_nat n) mod iq_size s /\
     (n <> O ->
      vtd_get_quad_raw sk DMAR_IQH_REG
      = u64 (Z.land (u64 (Z.shiftl (iq_head sk) qi_shift))
                    VTD_IQH_QH_MASK)) /\
     ((Z.of_nat n = (iq_tail s - iq_head s) mod iq_size s /\
       iq_head sk = iq_tail s /\ iqt_write fuel s0 = Finished sk)
      \/ (iq_head sk <> iq_tail s /\ outcome_at sk = DescAborted /\
          iqt_write fuel s0 = Aborted)
      \/ (iq_head sk <> iq_tail s /\
          exists s1 s',
            outcome_at sk = DescRefused s1 /\
            iqt_write fuel s0 = Finished s' /\
            iq_head s' = iq_head sk /\
            vtd_get_quad_raw s' DMAR_IQH_REG
            = vtd_get_quad_raw sk DMAR_IQH_REG /\
            vtd_inv_queue_error s' = true /\
            forall fuel', exists t,
              iqt_write fuel' s' = Finished (set_iq_tail t s')))).
Proof.
  intros OK Hframe val s qi_shift Hrsv Hqi Hh Ht Hs Hfuel.
  assert (Hw : iqt_write fuel s0 =
               if negb (vtd_inv_queue_error s0)
               then vtd_fetch_inv_desc handlers desc_uninit fuel s
               else Finished s).
  { unfold vtd_handle_iqt_write. fold val. rewrite Hrsv. fold s.
    change (qi_enabled s) with (qi_enabled s0). rewrite Hqi.
    reflexivity. }
  split; intros He; rewrite Hw, He; cbn [negb]; [reflexivity|].
  change (iq_size s0) with (iq_size s) in Hh, Ht, Hs, Hfuel.
  change (iq_head s0) with (iq_head s) in Hh.
  pose proof (Z.mod_pos_bound (iq_tail s - iq_head s) (iq_size s)) as Hb.
  destruct (vtd_fetch_inv_desc_loop_drained handlers desc_uninit Hframe
              qi_shift fuel s Hh Ht Hs)
    as (n & sk & Hdr & Hn & Hhk & Htk & Hsk & Hqk & Hout); [lia|].
  exists n, sk. split; [exact Hdr|]. split; [exact Hn|].
  split; [exact Hhk|]. split; [exact Hqk|].
  unfold vtd_fetch_inv_desc.
  change (iq_dw s) with (iq_dw s0). fold qi_shift.
  destruct (Z.geb_spec (iq_tail s) (iq_size s)); [lia|].
  rewrite <- Htk.
  destruct Hout
    as [(Hn' & Hm & Hf) | [(Hne & Hp & Hf) | (Hne & s1 & s2 & Hp & Hq & Hf)]].
  - left. rewrite Htk at 1. auto.
  - right. left. auto.
  - right. right. split; [exact Hne|]. exists s1, s2.
    destruct (iq_desc_outcome_frame handlers desc_uninit Hframe sk s1
                (or_intror Hp)) as (Hh1 & _ & _ & _ & Hq1).
    destruct (vtd_handle_inv_queue_error_spec s1)
      as (s2' & He' & Hff & Hiqe & Hq2).
    rewrite Hq in He'. injection He' as <-.
    apply fault_frame_queue in Hff as (Hh2 & _).
    split_and!; auto; try congruence.
    intros fuel'. now apply vtd_handle_iqt_write_error.
Qed.

End QueueTheorems.

(** ** The test bench *)

Section TestBench.
Import Example.
#[local] Existing Instance reg_header.
#[local] Existing Instance paging_header.
#[local] Existing Instance context_header.
#[local] Existing Instance queue_header.

(** The instance of the register header is well formed. *)
Lemma reg_header_ok : VTDRegHeaderOK reg_header.
Proof.
  constructor; try (cbn; lia); try reflexivity.
  intros x. cbn. rewrite <- Z.land_assoc. apply Z.land_0_r.
Qed.

(** C4 on the test bench: two faults of source-id [0x10] on the device
    after reset. *)
Lemma vtd_fault_compression_witness :
  exists s1,
    vtd_report_frcd_fault state0 0x10 0x10 0x1000 = Some s1 /\
    vtd_frcd_present s1 (next_frcd_reg state0) = true /\
    vtd_frcd_sid s1 (next_frcd_reg state0) = u16 0x10 /\
    vtd_frcd_lo s1 (next_frcd_reg state0) = u64 0x1000 /\
    (forall j, 0 <= j < DMAR_FRCD_REG_NR -> j <> next_frcd_reg state0 ->
               vtd_frcd_lo s1 j = vtd_frcd_lo state0 j /\
               vtd_frcd_hi s1 j = vtd_frcd_hi state0 j) /\
    msi_at_most_one state0 s1 /\
    vtd_try_collapse_fault s1 (u16 0x10) = true /\
    vtd_report_frcd_fault s1 0x10 0x10 0x2000 = Some s1.
Proof.
  apply (vtd_fault_compression state0 0x10 0x10 0x1000 0x10 0x2000).
  - exact reg_header_ok.
  - cbn. lia.
  - reflexivity.
  - reflexivity.
  - reflexivity.
  - reflexivity.
Defined.

(** C5 on the test bench: a fault of source-id [0x20] with the one
    fault recording register taken by source-id [0x10]. *)
Lemma vtd_fault_ring_overflow_witness :
  exists s',
    vtd_report_frcd_fault state_full 0x20 0x20 0x1000 = Some s' /\
    vtd_fault_overflow s' = true /\
    (forall j, 0 <= j < DMAR_FRCD_REG_NR ->
               vtd_frcd_lo s' j = vtd_frcd_lo state_full j /\
               vtd_frcd_hi s' j = vtd_frcd_hi state_full j /\
               vtd_frcd_present s' j = vtd_frcd_present state_full j) /\
    next_frcd_reg s' = next_frcd_reg state_full /\
    msi_log s' = msi_log state_full.
Proof.
  apply (vtd_fault_ring_overflow state_full 0x20 0x20 0x1000).
  - exact reg_header_ok.
  - cbn. lia.
  - intros j Hj. cbn in Hj. replace j with 0 by lia. reflexivity.
  - intros j Hj. cbn in Hj. replace j with 0 by lia. vm_compute. discriminate.
Defined.



(** C7 on the test bench: a 2 MiB entry cached for [0x200000] serves
    [0x2ff000]. *)
Lemma vtd_iotlb_lookup_granularity_witness :
  exists s' entry,
    vtd_update_iotlb state0 0 1 0x200000 0x40000083 IOMMU_RW 2 (2 ^ 32 - 1)
      = Some s' /\
    vtd_iotlb_new_entry 1 0x200000 0x40000083 IOMMU_RW 2 (2 ^ 32 - 1)
      = Some entry /\
    vtd_iotlb_probe s' 0 (2 ^ 32 - 1) 0x2ff000 2 = Some entry /\
    vtd_lookup_iotlb s' 0 (2 ^ 32 - 1) 0x2ff000 = Some (Some entry).
Proof.
  destruct (vtd_update_iotlb state0 0 1 0x200000 0x40000083 IOMMU_RW 2
              (2 ^ 32 - 1)) as [s'|] eqn:Hu; [|discriminate Hu].
  destruct (vtd_iotlb_lookup_granularity state0 s' 0 1 0x200000 0x2ff000
              0x40000083 IOMMU_RW 2 (2 ^ 32 - 1))
    as (_ & entry & He & Hp & _ & Hl).
  - unfold VTD_SL_PT_LEVEL, VTD_SL_PML4_LEVEL. lia.
  - lia.
  - lia.
  - reflexivity.
  - exact Hu.
  - exists s', entry. split_and!; auto. apply Hl.
    intros l Hl1. replace l with 1 by lia.
    injection Hu as <-. reflexivity.
Defined.


(** Chains of the test bench are checked entry by entry. *)
Ltac run := vm_compute; reflexivity.
Ltac bench_entry :=
  eexists; split_and!; [run | run | vm_compute; discriminate].
Ltac bench_path :=
  repeat first
    [ apply sl_path_nil
    | eapply sl_path_cons; [bench_entry | run | run | run | ]
    | apply fl_path_nil
    | eapply fl_path_cons; [bench_entry | run | run | ] ].

(** C1 on the test bench: a write walk of [0x1000] returns its leaf,
    and a write walk of [0x3000] meets the reserved bit. *)
Lemma vtd_iova_to_slpte_walk_witness :
  vtd_iova_to_slpte pe0 0 state0 ce_dev0 0x1000 true 0 0 true true 48
    (2 ^ 32 - 1)
  = Some {| w_ret := VTD_SUCCESS; w_ptep := 0x2003; w_level := 1;
            w_reads := true; w_writes := true |} /\
  exists out,
    vtd_iova_to_slpte pe0 0 state0 ce_dev0 0x3000 true 0 0 true true 48
      (2 ^ 32 - 1) = Some out /\
    w_ret out = VTD_FAULT VTD_FR_PAGING_ENTRY_RSVD.
Proof.
  split.
  - destruct (vtd_iova_to_slpte_walk pe0 0 state0 ce_dev0 0x1000 true 0 0 48
                (2 ^ 32 - 1) [0x11003; 0x12003; 0x13003] 1 0x13000 0x2003)
      as [Hleaf _].
    + run.
    + bench_path.
    + bench_entry.
    + run.
    + apply Hleaf; [run | run |].
      intros (a & Ha & Hb).
      assert (E1 : vtd_get_slpte_addr 0x2003 48 = 0x2000) by run.
      assert (E2 : sl_page_size (Z.of_nat 1) = 0x1000) by run.
      rewrite E1, E2 in Ha.
      unfold VTD_INTERRUPT_ADDR_FIRST in Hb. lia.
  - destruct (vtd_iova_to_slpte_walk pe0 0 state0 ce_dev0 0x3000 true 0 0 48
                (2 ^ 32 - 1) [0x11003; 0x12003; 0x13003] 1 0x13000 0x4803)
      as [_ Hrsvd].
    + run.
    + bench_path.
    + bench_entry.
    + run.
    + apply Hrsvd. run.
Defined.


(** Counterexample to C1 as the specification words it.  The chain
    of [2^39 + 0x1000] is readable and clean of reserved bits down to a
    leaf with read and write permission, and a read walk succeeds
    without write permission, since the top-level entry lacks it.
    The leaf entry of [0x4000] has a reserved bit set, and a write
    walk fails on its missing write permission, not on the reserved
    bit. *)
Lemma vtd_iova_to_slpte_walk_counterexample :
  (exists out,
     sl_path state0 (2 ^ 39 + 0x1000) false 48 4 0x10000
       [0x14001; 0x15003; 0x16003] 1 0x16000 /\
     sl_entry_at state0 (2 ^ 39 + 0x1000) 1 0x16000 0x3003 /\
     vtd_slpte_nonzero_rsvd state0 0x3003 1 = Some false /\
     nonzero (Z.land 0x3003 VTD_SL_R) = true /\
     nonzero (Z.land 0x3003 VTD_SL_W) = true /\
     vtd_iova_to_slpte pe0 0 state0 ce_dev0 (2 ^ 39 + 0x1000) false 0 0
       true true 48 (2 ^ 32 - 1) = Some out /\
     w_ret out = VTD_SUCCESS /\ w_ptep out = 0x3003 /\
     w_reads out = true /\ w_writes out = false) /\
  (exists out,
     sl_entry_at state0 0x4000 1 0x13000 0x5801 /\
     vtd_slpte_nonzero_rsvd state0 0x5801 1 = Some true /\
     vtd_iova_to_slpte pe0 0 state0 ce_dev0 0x4000 true 0 0
       true true 48 (2 ^ 32 - 1) = Some out /\
     w_ret out = VTD_FAULT VTD_FR_WRITE).
Proof.
  split.
  - eexists. split; [bench_path|]. split; [bench_entry|].
    split_and!; run.
  - eexists. split; [bench_entry|]. split_and!; run.
Qed.

(** C8 on the test bench: the leaf of [0x2000] maps into the interrupt
    window. *)
Lemma vtd_iova_to_slpte_interrupt_window_witness :
  exists out,
    vtd_iova_to_slpte pe0 0 state0 ce_dev0 0x2000 true 0 0 true true 48
      (2 ^ 32 - 1) = Some out /\
    w_ret out <> VTD_SUCCESS /\
    w_ret out = VTD_FAULT VTD_FR_INTERRUPT_ADDR.
Proof.
  destruct (vtd_iova_to_slpte_interrupt_window pe0 0 state0 ce_dev0 0x2000
              true 0 0 48 (2 ^ 32 - 1) [0x11003; 0x12003; 0x13003] 1 0x13000
              0xfee00003)
    as (out & Hout & Hok & Hfault).
  - run.
  - bench_path.
  - bench_entry.
  - run.
  - run.
  - run.
  - assert (Hov : overlaps_interrupt_window
                    (vtd_get_slpte_addr 0xfee00003 48)
                    (sl_page_size (Z.of_nat 1))).
    { exists 0xfee00000.
      split; vm_compute; split; first [reflexivity | discriminate]. }
    exists out. split_and!.
    + exact Hout.
    + intros Hs. apply Hok in Hs. exact (Hs Hov).
    + exact (Hfault Hov).
Defined.

(** C9 on the test bench: a write walk of [0x1000] through the
    first-stage table. *)
Lemma vtd_iova_to_flpte_permissions_witness :
  exists out,
    vtd_iova_to_flpte state0 pe_fl 0x1000 true 0 0 true true 48 = Some out /\
    w_ret out = VTD_SUCCESS /\ w_ptep out = 0x2003 /\ w_level out = 1 /\
    w_reads out = true /\ w_writes out = true.
Proof.
  destruct (vtd_iova_to_flpte_permissions state0 pe_fl 0x1000 true 0 0 48
              [0x11003; 0x12003; 0x13003] 1 0x13000 0x2003)
    as [_ Hpresent].
  - bench_path.
  - bench_entry.
  - destruct Hpresent as (out & Hout & _ & Hok & Hres); [run | run |].
    assert (Hs : w_ret out = VTD_SUCCESS).
    { apply Hok. intros [_ Hw]. vm_compute in Hw. discriminate Hw. }
    destruct (Hres Hs) as (Hp & Hl & Hr & Hw).
    exists out. split_and!; auto.
Defined.


Lemma handlers0_frame : handlers_frame handlers0.
Proof.
  unfold handlers_frame, desc_handler_frame, handlers0, accept_desc.
  cbn. split_and!; intros s d b s' [= <- <-]; auto.
Qed.

Lemma resync_id_frame : cc_resync_frame id.
Proof.
  intros t. split_and!; [reflexivity | reflexivity |].
  intros k a' Ha. right. eauto.
Qed.

Lemma state_cached_wf : cc_wf state_cached.
Proof.
  split; [cbn; lia|]. intros k a Ha.
  unfold state_cached, bench_state in Ha. cbn [vtd_address_spaces] in Ha.
  apply lookup_singleton_Some in Ha as [_ <-]. cbn. lia.
Qed.

(** C10 on the test bench: a write to the reserved-bit page [0x3000]
    fails at the public interface. *)
Lemma vtd_translate_failure_atomic_witness :
  exists e' s',
    vtd_iommu_translate ce0 pe0 0 re0 0 piotlb_key state0 as_key0 0x3000
      IOMMU_RW = Some (false, e', s') /\
    e' = zero_entry /\
    iotlb s' = iotlb state0 /\ p_iotlb s' = p_iotlb state0.
Proof.
  destruct (vtd_iommu_translate ce0 pe0 0 re0 0 piotlb_key state0 as_key0
              0x3000 IOMMU_RW) as [[[ok e'] s']|] eqn:Ht.
  - assert (Hok : match vtd_iommu_translate ce0 pe0 0 re0 0 piotlb_key
                          state0 as_key0 0x3000 IOMMU_RW with
                  | Some (ok, _, _) => ok
                  | None => true
                  end = false) by run.
    rewrite Ht in Hok. subst ok.
    exists e', s'. split; [reflexivity|].
    apply (vtd_translate_failure_atomic ce0 pe0 0 re0 0 piotlb_key state0
             as_key0 0 0 0x3000 true IOMMU_RW zero_entry
             (vtd_iommu_translate ce0 pe0 0 re0 0 piotlb_key state0 as_key0
                0x3000 IOMMU_RW)).
    + right. right. reflexivity.
    + exact Ht.
  - assert (Hn : match vtd_iommu_translate ce0 pe0 0 re0 0 piotlb_key
                         state0 as_key0 0x3000 IOMMU_RW with
                 | Some _ => true
                 | None => false
                 end = true) by run.
    rewrite Ht in Hn. discriminate Hn.
Defined.

(** C2 on the test bench: a global invalidation of the cached device
    moves the generation from 1 to 2 and leaves no cached context
    entry valid. *)
Lemma vtd_context_cache_generation_witness :
  context_cache_gen (vtd_context_global_invalidate id state_cached) = 2 /\
  cc_wf (vtd_context_global_invalidate id state_cached) /\
  forall k a,
    vtd_address_spaces (vtd_context_global_invalidate id state_cached) !! k
      = Some a ->
    as_cache_gen a
    <> context_cache_gen (vtd_context_global_invalidate id state_cached).
Proof.
  pose proof (vtd_context_cache_generation ce0 pe0 0 re0 0 id state_cached
                resync_id_frame) as H.
  destruct H as (Hgen & _ & Hwf & Hstale & _).
  - cbn. lia.
  - exact state_cached_wf.
  - split_and!; [exact Hgen | exact Hwf | exact Hstale].
Defined.


(** Counterexample to C2 as the specification words it.  A
    translation of [0x1000] leaves the caches of [state_cached]; the guest then
    clears its tables and invalidates the context cache globally.
    After that no cached context entry is valid, and a fetch of the
    context entry from guest memory finds the root entry absent; yet
    the next translation of [0x1000] succeeds with the old frame from
    the leaf translation cache, and fetches nothing: the context-cache
    entry of the device keeps its stale generation. *)
Lemma vtd_context_cache_generation_counterexample :
  match vtd_do_iommu_translate ce0 pe0 0 re0 0 state0 as_key0 0 0 0x1000
          true zero_entry with
  | Some (ok, _, s1) =>
      ok = true /\
      map_to_list (iotlb s1) = map_to_list (iotlb state_cached) /\
      map_to_list (vtd_address_spaces s1)
      = map_to_list (vtd_address_spaces state_cached) /\
      context_cache_gen s1 = context_cache_gen state_cached
  | None => False
  end /\
  let s' := vtd_context_global_invalidate id state_cleared in
  context_cache_gen s' = 2 /\
  vtd_address_spaces s' !! as_key0 = Some (as_dev0 ce_dev0 1) /\
  as_cache_gen (as_dev0 ce_dev0 1) = 1 /\
  (vtd_dev_to_context_entry pe0 0 re0 s' 0 0 ce0).1
  = VTD_FAULT VTD_FR_ROOT_ENTRY_P /\
  match vtd_do_iommu_translate ce0 pe0 0 re0 0 s' as_key0 0 0 0x1000 true
          zero_entry with
  | Some (ok, e, s'') =>
      ok = true /\
      translated_addr e = 0x2000 /\ perm e = IOMMU_RW /\
      context_cache_gen s'' = 2 /\
      vtd_address_spaces s'' !! as_key0 = Some (as_dev0 ce_dev0 1)
  | None => False
  end.
Proof. vm_compute. split_and!; reflexivity. Qed.

(** C3 on the test bench: after the guest writes tail 3, exactly the
    wait and the IOTLB descriptor are completed; the drain stops at
    the descriptor of unknown type with head 2, the head register at
    [0x20] and the queue error raised, and a later tail write drains
    nothing. *)
Lemma vtd_inv_queue_drain_witness :
  exists sk s1 s',
    iq_drained handlers0 desc0 VTD_IQH_QH_SHIFT_4 2
      (set_iq_tail 3 state_tail_written) sk /\
    iq_desc_outcome handlers0 desc0 sk = DescRefused s1 /\
    vtd_handle_iqt_write handlers0 desc0 4 state_tail_written
      = Finished s' /\
    iq_head s' = 2 /\
    vtd_get_quad_raw s' DMAR_IQH_REG = 0x20 /\
    vtd_inv_queue_error s' = true /\
    forall fuel', exists t,
      vtd_handle_iqt_write handlers0 desc0 fuel' s'
      = Finished (set_iq_tail t s').
Proof.
  assert (Hrun : match vtd_handle_iqt_write handlers0 desc0 4
                         state_tail_written with
                 | Finished s => iq_head s = 2 /\
                                 vtd_get_quad_raw s DMAR_IQH_REG = 0x20
                 | _ => False
                 end) by (vm_compute; split; reflexivity).
  assert (Et : u16 (VTD_IQT_QT (iq_dw state_tail_written)
                      (vtd_get_quad_raw state_tail_written DMAR_IQT_REG))
               = 3) by (vm_compute; reflexivity).
  pose proof (vtd_inv_queue_drain handlers0 desc0 state_tail_written 4
                reg_header_ok handlers0_frame) as H.
  cbv zeta in H. rewrite Et in H.
  destruct H as [_ H]; try (cbn; lia); try reflexivity.
  destruct H as (n & sk & Hdr & Hn & Hhk & _ & Hout); [reflexivity|].
  change (iq_head (set_iq_tail 3 state_tail_written)) with 0 in *.
  change (iq_tail (set_iq_tail 3 state_tail_written)) with 3 in *.
  change (iq_size (set_iq_tail 3 state_tail_written)) with 4 in *.
  change ((3 - 0) mod 4) with 3 in *.
  destruct Hout
    as [(_ & Hm & Hf)
       | [(_ & _ & Hf)
         | (_ & s1 & s' & Hp & Hf & Hh' & Hq' & He & Hl)]].
  - rewrite Hf in Hrun. destruct Hrun as [Hh2 _]. lia.
  - rewrite Hf in Hrun. contradiction.
  - rewrite Hf in Hrun. destruct Hrun as [Hh2 Hq2].
    assert (n = 2%nat) as ->.
    { rewrite Hh', Hhk in Hh2.
      destruct n as [|[|[|[|n]]]]; cbn in Hh2; try discriminate;
        [reflexivity | lia]. }
    exists sk, s1, s'. split_and!; auto.
Defined.

(** The drain of the test bench processes two descriptors and stops at
    the third with the queue error raised. *)
Example vtd_fetch_inv_desc_bench :
  match vtd_fetch_inv_desc handlers0 desc0 4 state0 with
  | Finished s =>
      iq_head s = 2 /\ vtd_get_quad_raw s DMAR_IQH_REG = 0x20 /\
      vtd_inv_queue_error s = true
  | _ => False
  end.
Proof. vm_compute. split_and!; reflexivity. Qed.

(** The scenario of a single 4 KiB leaf: a write to [0x1000]
    translates to frame [0x2000] with read and write permission and a
    page of 4096 bytes. *)
Example vtd_do_iommu_translate_bench :
  match vtd_iommu_translate ce0 pe0 0 re0 0 piotlb_key state0 as_key0
          0x1000 IOMMU_WO with
  | Some (ok, e, _) =>
      ok = true /\ iova e = 0x1000 /\ translated_addr e = 0x2000 /\
      addr_mask e = 0xfff /\ perm e = IOMMU_RW
  | None => False
  end.
Proof. vm_compute. split_and!; reflexivity. Qed.

End TestBench.


(** ** Interrupt events *)

Section EventFacts.
Context {RH : VTDRegHeader}.

Lemma ld_le_range (n : nat) (m : Z -> Z) (a : Z) :
  0 <= ld_le n m a < 2 ^ (8 * Z.of_nat n).
Proof.
  revert a. induction n as [|n IH]; intros a.
  - simpl. lia.
  - cbn [ld_le]. specialize (IH (a + 1)).
    pose proof (Z.mod_pos_bound (m a) 256).
    replace (8 * Z.of_nat (S n)) with (8 + 8 * Z.of_nat n) by lia.
    rewrite Z.pow_add_r by lia. change (2 ^ 8) with 256. nia.
Qed.

Lemma vtd_get_long_raw_range (s : IntelIOMMUState) (a : Z) :
  0 <= vtd_get_long_raw s a < 2 ^ 32.
Proof. apply (ld_le_range 4). Qed.

Lemma vtd_get_quad_raw_range (s : IntelIOMMUState) (a : Z) :
  0 <= vtd_get_quad_raw s a < 2 ^ 64.
Proof. apply (ld_le_range 8). Qed.

(** Setting a flag of a 32-bit register makes it read as set, clearing
    it makes it read as clear, and a flag disjoint from the one
    written keeps its value. *)
Lemma scm_long_set (s : IntelIOMMUState) (r m : Z) :
  0 < m < 2 ^ 32 ->
  nonzero (Z.land (vtd_get_long_raw (vtd_set_clear_mask_long s r 0 m).2 r) m)
  = true.
Proof.
  intros Hm. rewrite get_long_scm_long_same, land_u32, land_lor_same by lia.
  apply nonzero_true. lia.
Qed.

Lemma scm_long_clear (s : IntelIOMMUState) (r c : Z) :
  0 <= c < 2 ^ 32 ->
  Z.land (vtd_get_long_raw (vtd_set_clear_mask_long s r c 0).2 r) c = 0.
Proof.
  intros Hc. rewrite get_long_scm_long_same, land_u32, Z.lor_0_r by lia.
  rewrite <- Z.land_assoc, (Z.land_comm (Z.lnot c)), Z.land_lnot_diag.
  apply Z.land_0_r.
Qed.

Lemma scm_long_set_other (s : IntelIOMMUState) (r m b : Z) :
  0 <= b < 2 ^ 32 -> Z.land m b = 0 ->
  Z.land (vtd_get_long_raw (vtd_set_clear_mask_long s r 0 m).2 r) b
  = Z.land (vtd_get_long_raw s r) b.
Proof.
  intros Hb Hd. rewrite get_long_scm_long_same, land_u32 by lia.
  change (Z.lnot 0) with (-1). rewrite Z.land_m1_r.
  now rewrite Z.land_lor_distr_l, Hd, Z.lor_0_r.
Qed.

Lemma u32_land_id (a b : Z) : 0 <= a < 2 ^ 32 -> u32 (Z.land a b) = Z.land a b.
Proof.
  intros Ha. unfold u32. rewrite <- Z.land_ones by lia.
  rewrite <- Z.land_assoc, (Z.land_comm b), Z.land_assoc.
  rewrite Z.land_ones by lia. now rewrite Z.mod_small by lia.
Qed.

Lemma u32_lor_id (a b : Z) :
  0 <= a < 2 ^ 32 -> 0 <= b < 2 ^ 32 -> u32 (Z.lor a b) = Z.lor a b.
Proof.
  intros Ha Hb. unfold u32. rewrite <- Z.land_ones by lia.
  rewrite Z.land_lor_distr_l, !Z.land_ones by lia.
  now rewrite !Z.mod_small by lia.
Qed.

(** Setting the pending flag of an event control register leaves its
    mask flag as it is. *)
Lemma scm_long_set_mask (s : IntelIOMMUState) (r ip im : Z) :
  0 <= ip < 2 ^ 32 -> Z.land ip im = 0 ->
  Z.land (vtd_get_long_raw (vtd_set_clear_mask_long s r 0 ip).2 r) im
  = Z.land (vtd_get_long_raw s r) im.
Proof.
  intros Hip Hd. rewrite get_long_scm_long_same.
  change (Z.lnot 0) with (-1). rewrite Z.land_m1_r.
  rewrite u32_lor_id by (try apply vtd_get_long_raw_range; lia).
  now rewrite Z.land_lor_distr_l, Hd, Z.lor_0_r.
Qed.

(** Clearing the pending flag leaves the mask flag as it is. *)
Lemma scm_long_clear_mask (s : IntelIOMMUState) (r ip im : Z) :
  Z.land ip im = 0 ->
  Z.land (vtd_get_long_raw (vtd_set_clear_mask_long s r ip 0).2 r) im
  = Z.land (vtd_get_long_raw s r) im.
Proof.
  intros Hd. rewrite get_long_scm_long_same, Z.lor_0_r.
  rewrite u32_land_id by apply vtd_get_long_raw_range.
  apply Z.bits_inj'. intros n Hn.
  apply (f_equal (fun x => Z.testbit x n)) in Hd.
  rewrite Z.land_spec, Z.bits_0 in Hd.
  rewrite !Z.land_spec, Z.lnot_spec by lia.
  destruct (Z.testbit (vtd_get_long_raw s r) n), (Z.testbit ip n),
    (Z.testbit im n); try discriminate; reflexivity.
Qed.

Lemma nonzero_lor (a b : Z) : nonzero (Z.lor a b) = nonzero a || nonzero b.
Proof.
  unfold nonzero.
  destruct (Z.eqb_spec (Z.lor a b) 0) as [H | H].
  - apply Z.lor_eq_0_iff in H as [-> ->]. reflexivity.
  - destruct (Z.eqb_spec a 0) as [-> |]; [|reflexivity].
    destruct (Z.eqb_spec b 0) as [-> |]; [|reflexivity].
    now rewrite Z.lor_0_l in H.
Qed.

Lemma lor_u32_range (a b : Z) :
  0 <= a < 2 ^ 32 -> 0 <= b < 2 ^ 32 -> 0 <= Z.lor a b < 2 ^ 32.
Proof.
  intros Ha Hb. rewrite <- (u32_lor_id a b) by lia.
  apply Z.mod_pos_bound. lia.
Qed.

(** Clearing bits of a register sets no flag. *)
Lemma land_u32_land_zero (a b m : Z) :
  Z.land a m = 0 -> Z.land (u32 (Z.land a b)) m = 0.
Proof.
  intros H. unfold u32. rewrite <- Z.land_ones by lia.
  apply Z.bits_inj'. intros n Hn.
  apply (f_equal (fun x => Z.testbit x n)) in H.
  rewrite Z.land_spec, Z.bits_0 in H.
  rewrite !Z.land_spec, Z.bits_0.
  destruct (Z.testbit a n), (Z.testbit m n); try discriminate;
    now rewrite ?andb_false_r.
Qed.

End EventFacts.

Section FaultEventTheorems.
Context {RH : VTDRegHeader}.

(** X1.  The fault event is edge triggered.  While an earlier condition
    (pending fault, overflow or queue error, as [pre_fsts] shows them)
    waits for software, [vtd_generate_fault_event] changes nothing.
    Otherwise, with the interrupt masked it sends no message and
    leaves the Interrupt Pending flag set, and with the interrupt
    unmasked it sends exactly one message, whose address and data are
    the contents of the fault event address and data registers, and
    leaves Interrupt Pending clear. *)
Theorem vtd_generate_fault_event_edge (s : IntelIOMMUState) (pre_fsts : Z) :
  VTDRegHeaderOK RH -> VTDFaultEventOK RH ->
  exists s',
    vtd_generate_fault_event s pre_fsts = Some s' /\
    fault_frame s s' /\ next_frcd_reg s' = next_frcd_reg s /\
    if nonzero (Z.land pre_fsts VTD_FSTS_PPF)
       || nonzero (Z.land pre_fsts VTD_FSTS_PFO)
       || nonzero (Z.land pre_fsts VTD_FSTS_IQE)
    then s' = s
    else if vtd_fault_event_masked s
    then msi_log s' = msi_log s /\
         vtd_fault_event_pending s' = true /\
         vtd_fault_event_masked s' = true
    else msi_log s' =
           msi_log s ++ [(vtd_get_long_raw s DMAR_FEADDR_REG,
                          vtd_get_long_raw s DMAR_FEDATA_REG)] /\
         vtd_fault_event_pending s' = false /\
         vtd_fault_event_masked s' = false.
Proof.
  intros OK EOK.
  unfold vtd_generate_fault_event, vtd_fault_event_masked,
    vtd_fault_event_pending.
  destruct (_ || _ || _).
  { exists s. split_and!; auto using fault_frame_refl. }
  set (s1 := (vtd_set_clear_mask_long s DMAR_FECTL_REG 0 VTD_FECTL_IP).2).
  pose proof fectl_ip_bit as Hip. pose proof fectl_ip_not_im as Hnim.
  pose proof (vtd_get_long_raw_range s DMAR_FECTL_REG) as Hr.
  assert (Him : Z.land (vtd_get_long_raw s1 DMAR_FECTL_REG) VTD_FECTL_IM
                = Z.land (vtd_get_long_raw s DMAR_FECTL_REG) VTD_FECTL_IM).
  { subst s1. rewrite get_long_scm_long_same.
    change (Z.lnot 0) with (-1). rewrite Z.land_m1_r.
    rewrite u32_small.
    - now rewrite Z.land_lor_distr_l, Hnim, Z.lor_0_r.
    - split; [apply Z.lor_nonneg; lia|].
      apply Z.log2_lt_cancel. rewrite Z.log2_lor by lia.
      destruct (Z.max_spec (Z.log2 (vtd_get_long_raw s DMAR_FECTL_REG))
                  (Z.log2 VTD_FECTL_IP)) as [[_ ->] | [_ ->]];
        rewrite Z.log2_pow2 by lia.
      + apply Z.log2_lt_pow2; lia.
      + destruct (Z.eq_dec (vtd_get_long_raw s DMAR_FECTL_REG) 0) as [->|];
          [reflexivity | apply Z.log2_lt_pow2; lia]. }
  rewrite Him.
  destruct (nonzero (Z.land (vtd_get_long_raw s DMAR_FECTL_REG) VTD_FECTL_IM))
    eqn:Hm.
  { exists s1. split; [reflexivity|].
    split; [apply fault_frame_scm_long|]. split; [reflexivity|].
    split; [reflexivity|]. split; [apply scm_long_set; lia|].
    now rewrite Him. }
  unfold vtd_generate_interrupt, assert_.
  destruct fe_regs_in_csr as [Hd Ha].
  destruct (Z.ltb_spec DMAR_FEDATA_REG DMAR_REG_SIZE); [|lia].
  destruct (Z.ltb_spec DMAR_FEADDR_REG DMAR_REG_SIZE); [|lia].
  cbn [mbind option_bind].
  eexists. split; [reflexivity|]. split_and!.
  - eapply fault_frame_trans; [apply fault_frame_scm_long|].
    eapply fault_frame_trans; [apply fault_frame_set_msi_log|].
    apply fault_frame_scm_long.
  - reflexivity.
  - cbn [snd msi_log set_msi_log vtd_set_clear_mask_long set_csr].
    subst s1.
    rewrite !get_long_scm_long_other
      by (pose proof fedata_fectl_disjoint; pose proof feaddr_fectl_disjoint;
          lia).
    reflexivity.
  - apply nonzero_false.
    apply (scm_long_clear (set_msi_log _ s1)). lia.
  - rewrite get_long_scm_long_same, Z.lor_0_r.
    apply nonzero_false, land_u32_land_zero.
    change (vtd_get_long_raw (set_msi_log _ s1) DMAR_FECTL_REG)
      with (vtd_get_long_raw s1 DMAR_FECTL_REG).
    rewrite Him. now apply nonzero_false.
Qed.

End FaultEventTheorems.

Ltac reg_other :=
  repeat first
    [ rewrite get_quad_set_quad_other by lia
    | rewrite get_long_set_quad_other by lia
    | rewrite get_long_scm_long_other by lia
    | rewrite get_quad_scm_long_other by lia
    | rewrite get_quad_scm_quad_other by lia
    | rewrite get_long_scm_quad_other by lia ].

Section PendingFaultFacts.
Context {RH : VTDRegHeader} {OK : VTDRegHeaderOK RH}.

(** The scan of [vtd_update_fsts_ppf] finds a register exactly when
    one is present. *)
Lemma vtd_any_frcd_set_spec (s : IntelIOMMUState) (n : nat) (i : Z) :
  0 <= i -> i + Z.of_nat n <= DMAR_FRCD_REG_NR ->
  exists b,
    vtd_any_frcd_set s i n = Some b /\
    (b = true <->
     exists j, i <= j < i + Z.of_nat n /\ vtd_frcd_present s j = true).
Proof.
  revert i. induction n as [|n IH]; intros i H0 H1; cbn [vtd_any_frcd_set].
  - exists false. split; [reflexivity|].
    split; [discriminate | intros (j & Hj & _); lia].
  - rewrite vtd_is_frcd_set_present by lia. cbn [mbind option_bind].
    destruct (vtd_frcd_present s i) eqn:Hp.
    + exists true. split; [reflexivity|].
      split; [intros _; exists i; split; [lia | exact Hp] | reflexivity].
    + destruct frcd_nr_range. rewrite u32_small by lia.
      destruct (IH (i + 1)) as (b & Hb & Hiff); [lia | lia |].
      exists b. split; [exact Hb|]. rewrite Hiff.
      split; intros (j & Hj & Hpj).
      * exists j. split; [lia | exact Hpj].
      * exists j. split; [|exact Hpj].
        destruct (Z.eq_dec j i) as [-> | Hne]; [congruence | lia].
Qed.

Lemma land_lnot_disjoint (a p b : Z) :
  Z.land p b = 0 -> Z.land (Z.land a (Z.lnot p)) b = Z.land a b.
Proof.
  intros H. apply Z.bits_inj'. intros n Hn.
  apply (f_equal (fun x => Z.testbit x n)) in H.
  rewrite Z.land_spec, Z.bits_0 in H.
  rewrite !Z.land_spec, Z.lnot_spec by lia.
  destruct (Z.testbit a n), (Z.testbit p n), (Z.testbit b n);
    try discriminate; reflexivity.
Qed.

End PendingFaultFacts.

Section PendingFaultSteps.
Context {RH : VTDRegHeader} {OK : VTDRegHeaderOK RH} {EOK : VTDFaultEventOK RH}.

Lemma vtd_update_fsts_ppf_full (s : IntelIOMMUState) :
  exists s',
    vtd_update_fsts_ppf s = Some s' /\
    fault_frame s s' /\
    msi_log s' = msi_log s /\ next_frcd_reg s' = next_frcd_reg s /\
    (vtd_fault_pending s' = true <->
     exists j, 0 <= j < DMAR_FRCD_REG_NR /\ vtd_frcd_present s j = true) /\
    (forall b, 0 <= b < 2 ^ 32 -> Z.land VTD_FSTS_PPF b = 0 ->
               Z.land (vtd_get_long_raw s' DMAR_FSTS_REG) b
               = Z.land (vtd_get_long_raw s DMAR_FSTS_REG) b) /\
    (forall j, 0 <= j < DMAR_FRCD_REG_NR ->
               vtd_frcd_lo s' j = vtd_frcd_lo s j /\
               vtd_frcd_hi s' j = vtd_frcd_hi s j).
Proof.
  unfold vtd_update_fsts_ppf.
  pose proof frcd_nr_range as Hnr.
  pose proof fsts_ppf_bit as Hppf. pose proof fsts_ppf_pos as Hpos.
  destruct (vtd_any_frcd_set_spec s (Z.to_nat DMAR_FRCD_REG_NR) 0)
    as (b & Hb & Hiff); [lia | lia |].
  rewrite Hb. cbn [mbind option_bind].
  rewrite Z2Nat.id in Hiff by lia.
  eexists. split; [reflexivity|].
  split; [apply fault_frame_scm_long|].
  split; [reflexivity|]. split; [reflexivity|].
  unfold vtd_fault_pending. split_and!.
  - rewrite get_long_scm_long_same, land_u32 by lia.
    rewrite <- Hiff. rewrite Z.land_lor_distr_l.
    rewrite <- Z.land_assoc, (Z.land_comm (Z.lnot _)), Z.land_lnot_diag,
      Z.land_0_r, Z.lor_0_l.
    destruct b.
    + rewrite Z.land_diag. split; [reflexivity|].
      intros _. apply nonzero_true. lia.
    + rewrite Z.land_0_l. split; discriminate.
  - intros m Hm Hd.
    rewrite get_long_scm_long_same, land_u32 by lia.
    rewrite Z.land_lor_distr_l, land_lnot_disjoint by exact Hd.
    destruct b; [rewrite Hd | rewrite Z.land_0_l]; apply Z.lor_0_r.
  - intros j Hj. unfold vtd_frcd_lo, vtd_frcd_hi.
    rewrite frcd_reg_addr_hi, frcd_reg_addr_lo by lia.
    pose proof fsts_frcd_disjoint. pose proof frcd_regs_fit.
    split; reg_other; reflexivity.
Qed.


(** After [vtd_set_frcd_and_update_ppf] a fault is pending. *)
Lemma set_frcd_pending (s1 : IntelIOMMUState) (n : Z) :
  0 <= n < DMAR_FRCD_REG_NR ->
  exists s3,
    vtd_set_frcd_and_update_ppf s1 n = Some s3 /\
    vtd_fault_pending s3 = true /\
    next_frcd_reg s3 = next_frcd_reg s1 /\
    msi_log s3 = msi_log s1.
Proof.
  intros Hn. unfold vtd_set_frcd_and_update_ppf, assert_.
  destruct (Z.ltb_spec n DMAR_FRCD_REG_NR); [|lia].
  cbn [mbind option_bind].
  match goal with |- context [vtd_update_fsts_ppf ?x] =>
    destruct (vtd_update_fsts_ppf_full x)
      as (s3 & E & _ & Hm & Hx & Hiff & _) end.
  exists s3. split; [exact E|]. split_and!; auto.
  apply Hiff. exists n. split; [exact Hn|].
  unfold vtd_frcd_present, vtd_frcd_hi.
  rewrite get_quad_scm_quad_same.
  pose proof frcd_f_bit.
  rewrite land_u64, land_lor_same by lia. apply nonzero_true. lia.
Qed.

Lemma advance_next_mod (n : Z) :
  0 <= n < DMAR_FRCD_REG_NR ->
  (if u16 (n + 1) =? DMAR_FRCD_REG_NR then 0 else u16 (n + 1))
  = (n + 1) mod DMAR_FRCD_REG_NR.
Proof.
  intros Hn. pose proof frcd_nr_range as Hr.
  destruct (Z.eq_dec (n + 1) (2 ^ 16)) as [He | He].
  - assert (DMAR_FRCD_REG_NR = 2 ^ 16) as -> by lia.
    rewrite He. reflexivity.
  - rewrite u16_small by lia.
    destruct (Z.eqb_spec (n + 1) DMAR_FRCD_REG_NR) as [-> | Hne].
    + now rewrite Z_mod_same_full.
    + now rewrite Z.mod_small by lia.
Qed.

End PendingFaultSteps.

Section PendingFaultTheorems.
Context {RH : VTDRegHeader}.

(** X2.  The Primary Pending Fault flag is the disjunction of the Fault
    bits.  [vtd_update_fsts_ppf] always returns; afterwards PPF is set
    exactly when some fault recording register is present, the other
    flags of the fault status register are as before, and nothing but
    that register has changed. *)
Theorem vtd_update_fsts_ppf_pending (s : IntelIOMMUState) :
  VTDRegHeaderOK RH -> VTDFaultEventOK RH ->
  exists s',
    vtd_update_fsts_ppf s = Some s' /\
    fault_frame s s' /\
    msi_log s' = msi_log s /\ next_frcd_reg s' = next_frcd_reg s /\
    (vtd_fault_pending s' = true <->
     exists j, 0 <= j < DMAR_FRCD_REG_NR /\ vtd_frcd_present s j = true) /\
    (forall b, 0 <= b < 2 ^ 32 -> Z.land VTD_FSTS_PPF b = 0 ->
               Z.land (vtd_get_long_raw s' DMAR_FSTS_REG) b
               = Z.land (vtd_get_long_raw s DMAR_FSTS_REG) b) /\
    (forall j, 0 <= j < DMAR_FRCD_REG_NR ->
               vtd_frcd_lo s' j = vtd_frcd_lo s j /\
               vtd_frcd_hi s' j = vtd_frcd_hi s j).
Proof. intros OK EOK. apply vtd_update_fsts_ppf_full. Qed.

(** X3.  A recorded fault moves the cursor and raises PPF.  A fault
    reported while no overflow is pending, no present register
    carries its source-id and the register under the cursor is free,
    leaves the cursor on the next register, wrapping at the number of
    registers, and the Primary Pending Fault flag set; when a fault
    was already pending no interrupt message is sent. *)
Theorem vtd_report_frcd_fault_advance (s : IntelIOMMUState)
    (source_id hi lo : Z) :
  VTDRegHeaderOK RH -> VTDFaultEventOK RH ->
  0 <= next_frcd_reg s < DMAR_FRCD_REG_NR ->
  vtd_fault_overflow s = false ->
  vtd_try_collapse_fault s (u16 source_id) = false ->
  vtd_frcd_present s (next_frcd_reg s) = false ->
  exists s',
    vtd_report_frcd_fault s source_id hi lo = Some s' /\
    next_frcd_reg s' = (next_frcd_reg s + 1) mod DMAR_FRCD_REG_NR /\
    vtd_fault_pending s' = true /\
    (vtd_fault_pending s = true -> msi_log s' = msi_log s).
Proof.
  intros OK EOK Hn Hov Hcol Hfree.
  pose proof fsts_fectl_disjoint as D3.
  unfold vtd_report_frcd_fault.
  fold (vtd_fault_overflow s). rewrite Hov, Hcol.
  rewrite vtd_is_frcd_set_present by lia. rewrite Hfree.
  cbn [mbind option_bind].
  destruct (record_frcd_spec s (next_frcd_reg s) hi lo Hn)
    as (s1 & E1 & _ & Hnx1 & Hmsi1 & _).
  rewrite E1. cbn [mbind option_bind]. rewrite Hnx1.
  fold (vtd_fault_pending s).
  destruct (vtd_fault_pending s) eqn:Hpend.
  - destruct (set_frcd_pending s1 (next_frcd_reg s) Hn)
      as (s3 & E3 & Hp3 & Hnx3 & Hmsi3).
    rewrite E3. cbn [mbind option_bind].
    eexists. split; [reflexivity|].
    unfold vtd_advance_next_frcd_reg. cbn [next_frcd_reg set_next_frcd_reg].
    rewrite Hnx3, Hnx1, advance_next_mod by exact Hn.
    split; [reflexivity|]. split; [exact Hp3|].
    intros _. cbn [msi_log set_next_frcd_reg]. congruence.
  - set (s2 := (vtd_set_clear_mask_long s1 DMAR_FSTS_REG _ _).2).
    change (next_frcd_reg s2) with (next_frcd_reg s1). rewrite Hnx1.
    destruct (set_frcd_pending s2 (next_frcd_reg s) Hn)
      as (s3 & E3 & Hp3 & Hnx3 & Hmsi3).
    rewrite E3. cbn [mbind option_bind].
    destruct (vtd_generate_fault_event_spec (vtd_advance_next_frcd_reg s3)
                (vtd_get_long_raw s DMAR_FSTS_REG))
      as (s5 & E5 & _ & Hnx5 & _ & Hl5 & _).
    rewrite E5. eexists. split; [reflexivity|].
    split_and!.
    + rewrite Hnx5. unfold vtd_advance_next_frcd_reg.
      cbn [next_frcd_reg set_next_frcd_reg].
      change (next_frcd_reg s2) with (next_frcd_reg s1) in Hnx3.
      now rewrite Hnx3, Hnx1, advance_next_mod by exact Hn.
    + unfold vtd_fault_pending in *. rewrite Hl5 by lia. exact Hp3.
    + discriminate.
Qed.

End PendingFaultTheorems.

Section StatusWriteTheorems.
Context {RH : VTDRegHeader} {EH : VTDEventHeader}.

(** X4.  A write to the fault event control register delivers a pending
    fault event.  [vtd_handle_fectl_write] always returns; when
    Interrupt Pending is set and the interrupt is not masked it sends
    exactly one message, with the contents of the fault event address
    and data registers, and clears Interrupt Pending; otherwise it
    changes nothing. *)
Theorem vtd_handle_fectl_write_delivers (s : IntelIOMMUState) :
  VTDRegHeaderOK RH -> VTDFaultEventOK RH ->
  exists s',
    vtd_handle_fectl_write s = Some s' /\
    fault_frame s s' /\ next_frcd_reg s' = next_frcd_reg s /\
    if vtd_fault_event_pending s && negb (vtd_fault_event_masked s)
    then msi_log s' =
           msi_log s ++ [(vtd_get_long_raw s DMAR_FEADDR_REG,
                          vtd_get_long_raw s DMAR_FEDATA_REG)] /\
         vtd_fault_event_pending s' = false /\
         vtd_fault_event_masked s' = false
    else s' = s.
Proof.
  intros OK EOK.
  unfold vtd_handle_fectl_write, vtd_fault_event_pending,
    vtd_fault_event_masked.
  destruct (nonzero (Z.land _ VTD_FECTL_IP)); cbn [andb];
    [|exists s; split_and!; auto using fault_frame_refl].
  destruct (nonzero (Z.land _ VTD_FECTL_IM)) eqn:Hm; cbn [negb];
    [exists s; split_and!; auto using fault_frame_refl|].
  unfold vtd_generate_interrupt, assert_.
  destruct fe_regs_in_csr as [Hd Ha].
  destruct (Z.ltb_spec DMAR_FEDATA_REG DMAR_REG_SIZE); [|lia].
  destruct (Z.ltb_spec DMAR_FEADDR_REG DMAR_REG_SIZE); [|lia].
  cbn [mbind option_bind].
  pose proof fectl_ip_bit. pose proof fectl_ip_not_im.
  eexists. split; [reflexivity|].
  split; [|split; [reflexivity|split_and!]].
  - eapply fault_frame_trans; [apply fault_frame_set_msi_log|].
    apply fault_frame_scm_long.
  - reflexivity.
  - apply nonzero_false, (scm_long_clear (set_msi_log _ s)). lia.
  - rewrite (scm_long_clear_mask (set_msi_log _ s)) by assumption.
    exact Hm.
Qed.

(** X5.  A write to the fault status register retires the pending fault
    event once every status flag is clear.  [vtd_handle_fsts_write]
    clears Interrupt Pending when none of PFO, PPF and IQE is set, and
    keeps it otherwise; the mask flag, the status register, the
    interrupts sent and everything outside the register file are
    unchanged. *)
Theorem vtd_handle_fsts_write_retires (s : IntelIOMMUState) :
  VTDRegHeaderOK RH -> VTDFaultEventOK RH ->
  let s' := vtd_handle_fsts_write s in
  fault_frame s s' /\ msi_log s' = msi_log s /\
  next_frcd_reg s' = next_frcd_reg s /\
  vtd_get_long_raw s' DMAR_FSTS_REG = vtd_get_long_raw s DMAR_FSTS_REG /\
  vtd_fault_event_masked s' = vtd_fault_event_masked s /\
  vtd_fault_event_pending s' =
    vtd_fault_event_pending s
    && (vtd_fault_overflow s || vtd_fault_pending s
        || vtd_inv_queue_error s).
Proof.
  intros OK EOK.
  assert (Hst :
    nonzero (Z.land (vtd_get_long_raw s DMAR_FSTS_REG)
               (u32 (Z.lor (Z.lor VTD_FSTS_PFO VTD_FSTS_PPF) VTD_FSTS_IQE)))
    = vtd_fault_overflow s || vtd_fault_pending s || vtd_inv_queue_error s).
  { unfold vtd_fault_overflow, vtd_fault_pending, vtd_inv_queue_error.
    pose proof fsts_pfo_bit. pose proof fsts_ppf_bit.
    pose proof fsts_iqe_bit.
    pose proof (lor_u32_range VTD_FSTS_PFO VTD_FSTS_PPF).
    rewrite u32_lor_id by lia.
    now rewrite !Z.land_lor_distr_r, !nonzero_lor. }
  cbn zeta. unfold vtd_handle_fsts_write. rewrite Hst.
  fold (vtd_fault_event_pending s).
  destruct (vtd_fault_event_pending s) eqn:Hp; cbn [andb];
    [|split_and!; auto using fault_frame_refl].
  destruct (_ || _ || _); cbn [negb];
    [split_and!; auto using fault_frame_refl|].
  pose proof fectl_ip_bit. pose proof fsts_fectl_disjoint.
  split_and!.
  - apply fault_frame_scm_long.
  - reflexivity.
  - reflexivity.
  - apply get_long_scm_long_other. lia.
  - unfold vtd_fault_event_masked.
    now rewrite scm_long_clear_mask by apply fectl_ip_not_im.
  - apply nonzero_false, scm_long_clear. lia.
Qed.

(** X6.  The invalidation completion event is edge triggered.
    [vtd_generate_completion_event] always returns.  While an earlier
    wait completion is unacknowledged it changes nothing.  Otherwise
    it sets the Invalidation Wait Descriptor Complete flag and, with
    the interrupt masked, sends no message and leaves Interrupt
    Pending set; with the interrupt unmasked it sends exactly one
    message, with the contents of the invalidation event address and
    data registers, and leaves Interrupt Pending clear. *)
Theorem vtd_generate_completion_event_edge (s : IntelIOMMUState) :
  VTDEventHeaderOK RH EH ->
  exists s',
    vtd_generate_completion_event s = Some s' /\
    fault_frame s s' /\ next_frcd_reg s' = next_frcd_reg s /\
    if vtd_wait_complete s then s' = s
    else
      vtd_wait_complete s' = true /\
      if vtd_inv_event_masked s
      then msi_log s' = msi_log s /\ vtd_inv_event_pending s' = true
      else msi_log s' =
             msi_log s ++ [(vtd_get_long_raw s DMAR_IEADDR_REG,
                            vtd_get_long_raw s DMAR_IEDATA_REG)] /\
           vtd_inv_event_pending s' = false.
Proof.
  intros EOK.
  unfold vtd_generate_completion_event, vtd_wait_complete,
    vtd_inv_event_masked, vtd_inv_event_pending.
  destruct (nonzero (Z.land _ VTD_ICS_IWC)).
  { exists s. split_and!; auto using fault_frame_refl. }
  set (s1 := (vtd_set_clear_mask_long s DMAR_ICS_REG 0 VTD_ICS_IWC).2).
  set (s2 := (vtd_set_clear_mask_long s1 DMAR_IECTL_REG 0 VTD_IECTL_IP).2).
  pose proof ics_iwc_bit as Hiwc. pose proof iectl_ip_bit as Hip.
  pose proof ics_iectl_disjoint as D1.
  pose proof iedata_iectl_disjoint as D2.
  pose proof ieaddr_iectl_disjoint as D3.
  pose proof iedata_ics_disjoint as D4.
  pose proof ieaddr_ics_disjoint as D5.
  assert (Him : Z.land (vtd_get_long_raw s2 DMAR_IECTL_REG) VTD_IECTL_IM
                = Z.land (vtd_get_long_raw s DMAR_IECTL_REG) VTD_IECTL_IM).
  { subst s2. rewrite scm_long_set_mask by (try apply iectl_ip_not_im; lia).
    subst s1. now rewrite get_long_scm_long_other by lia. }
  assert (Hwc : forall t c m,
    nonzero (Z.land (vtd_get_long_raw
                       (vtd_set_clear_mask_long t DMAR_IECTL_REG c m).2
                       DMAR_ICS_REG) VTD_ICS_IWC)
    = nonzero (Z.land (vtd_get_long_raw t DMAR_ICS_REG) VTD_ICS_IWC)).
  { intros. now rewrite get_long_scm_long_other by lia. }
  assert (F2 : fault_frame s s2).
  { eapply fault_frame_trans; apply fault_frame_scm_long. }
  rewrite Him.
  destruct (nonzero (Z.land (vtd_get_long_raw s DMAR_IECTL_REG) VTD_IECTL_IM)).
  { exists s2. split; [reflexivity|]. split; [exact F2|].
    split; [reflexivity|]. split_and!.
    - subst s2. rewrite Hwc. apply scm_long_set. lia.
    - reflexivity.
    - apply scm_long_set. lia. }
  unfold vtd_generate_interrupt, assert_.
  destruct ie_regs_in_csr as [Hd Ha].
  destruct (Z.ltb_spec DMAR_IEDATA_REG DMAR_REG_SIZE); [|lia].
  destruct (Z.ltb_spec DMAR_IEADDR_REG DMAR_REG_SIZE); [|lia].
  cbn [mbind option_bind].
  eexists. split; [reflexivity|].
  split; [|split; [reflexivity|split_and!]].
  - eapply fault_frame_trans; [exact F2|].
    eapply fault_frame_trans; [apply fault_frame_set_msi_log|].
    apply fault_frame_scm_long.
  - rewrite Hwc.
    change (vtd_get_long_raw (set_msi_log _ s2) DMAR_ICS_REG)
      with (vtd_get_long_raw s2 DMAR_ICS_REG).
    subst s2. rewrite Hwc. apply scm_long_set. lia.
  - cbn [snd msi_log set_msi_log vtd_set_clear_mask_long set_csr].
    subst s2 s1. rewrite !get_long_scm_long_other by lia. reflexivity.
  - apply nonzero_false, (scm_long_clear (set_msi_log _ s2)). lia.
Qed.

End StatusWriteTheorems.


(** ** Cache invalidation *)

Section InvalidateFacts.
Context {PH : VTDPagingHeader}.

(** A hit of the lookup is the entry stored under the key of one of
    the levels 1 to 3. *)
Lemma vtd_lookup_iotlb_hit (s : IntelIOMMUState) (source_id pasid addr : Z)
    (e : VTDIOTLBEntry) :
  vtd_lookup_iotlb s source_id pasid addr = Some (Some e) ->
  exists level gfn,
    1 <= level <= 3 /\
    vtd_get_iotlb_gfn addr level = Some gfn /\
    iotlb s !! mk_iotlb_key gfn source_id level pasid = Some e.
Proof.
  rewrite vtd_lookup_iotlb_first_hit. intros [= H].
  assert (Hp : forall l, vtd_iotlb_probe s source_id pasid addr l = Some e ->
               1 <= l <= 3 ->
               exists level gfn,
                 1 <= level <= 3 /\
                 vtd_get_iotlb_gfn addr level = Some gfn /\
                 iotlb s !! mk_iotlb_key gfn source_id level pasid = Some e).
  { intros l Hl Hr. unfold vtd_iotlb_probe in Hl.
    apply bind_Some in Hl as (gfn & Hg & Hl). exists l, gfn. auto. }
  destruct (vtd_iotlb_probe s source_id pasid addr 1) eqn:P1;
    [injection H as ->; apply (Hp 1); [exact P1 | lia]|].
  destruct (vtd_iotlb_probe s source_id pasid addr 2) eqn:P2;
    [injection H as ->; apply (Hp 2); [exact P2 | lia]|].
  apply (Hp 3); [exact H | lia].
Qed.

(** With an empty cache every lookup misses. *)
Lemma vtd_lookup_iotlb_empty (s : IntelIOMMUState) (source_id pasid addr : Z) :
  iotlb s = ∅ -> vtd_lookup_iotlb s source_id pasid addr = Some None.
Proof.
  intros He. rewrite vtd_lookup_iotlb_first_hit. unfold vtd_iotlb_probe.
  rewrite He.
  destruct (vtd_get_iotlb_gfn addr 1), (vtd_get_iotlb_gfn addr 2),
    (vtd_get_iotlb_gfn addr 3); cbn; now rewrite ?lookup_empty.
Qed.

Lemma iotlb_foreach_remove_lookup (pred : VTDIOTLBEntry -> bool)
    (s : IntelIOMMUState) (k : vtd_iotlb_key) (e : VTDIOTLBEntry) :
  iotlb (iotlb_foreach_remove pred s) !! k = Some e <->
  iotlb s !! k = Some e /\ pred e = false.
Proof.
  unfold iotlb_foreach_remove. cbn [iotlb set_iotlb].
  now rewrite map_lookup_filter_Some.
Qed.

Lemma iotlb_wf_remove (pred : VTDIOTLBEntry -> bool) (s : IntelIOMMUState) :
  iotlb_wf s -> iotlb_wf (iotlb_foreach_remove pred s).
Proof.
  intros Hwf k e He. apply iotlb_foreach_remove_lookup in He as [He _].
  now apply Hwf.
Qed.

Lemma iotlb_wf_frame (s s' : IntelIOMMUState) :
  iotlb s' = iotlb s -> iotlb_wf s -> iotlb_wf s'.
Proof. unfold iotlb_wf. intros ->. auto. Qed.

Lemma iotlb_wf_empty (s : IntelIOMMUState) : iotlb s = ∅ -> iotlb_wf s.
Proof. intros He k e. rewrite He, lookup_empty. discriminate. Qed.

(** An insertion for a level that fits the [uint8_t] of the key keeps
    the cache consistent. *)
Lemma iotlb_wf_update (s s' : IntelIOMMUState)
    (source_id domain_id addr slpte : Z) (flags : IOMMUAccessFlags)
    (level pasid : Z) :
  0 <= level < 2 ^ 8 ->
  iotlb_wf s ->
  vtd_update_iotlb s source_id domain_id addr slpte flags level pasid
    = Some s' ->
  iotlb_wf s'.
Proof.
  intros Hl Hwf Hu.
  apply vtd_update_iotlb_unfold in Hu as (key & entry & Hk & He & Hs').
  unfold vtd_iotlb_new_key in Hk. unfold vtd_iotlb_new_entry in He.
  apply bind_Some in Hk as (gfn & Hg & [= <-]).
  rewrite Hg in He. cbn [mbind option_bind] in He.
  apply bind_Some in He as (mask & Hm & [= <-]).
  intros k e. rewrite Hs'.
  destruct (decide (mk_iotlb_key gfn source_id level pasid = k)) as [<- | Hne].
  - rewrite lookup_insert_eq. intros [= <-]. cbn.
    rewrite u8_small by lia. auto.
  - rewrite lookup_insert_ne by exact Hne.
    destruct (_ >=? _); [rewrite lookup_empty; discriminate | apply Hwf].
Qed.

End InvalidateFacts.

Section InvalidateTheorems.
Context {PH : VTDPagingHeader} {CH : VTDContextHeader} {IH : VTDInvHeader}.
Variable z_uninit : Z.
Variable replay_all : IntelIOMMUState -> IntelIOMMUState.
Variable domain_sync : IntelIOMMUState -> Z -> IntelIOMMUState.
Variable page_notify : IntelIOMMUState -> Z -> Z -> Z -> Z -> IntelIOMMUState.
Variable pasid_cache_reset : IntelIOMMUState -> IntelIOMMUState.

(** X7.  A global invalidation empties the leaf translation cache: when the
    replay of the mappings leaves the caches alone, every lookup
    misses afterwards, while the context cache is as before. *)
Theorem vtd_iotlb_global_invalidate_misses (s : IntelIOMMUState) :
  (forall t, notify_frame t (replay_all t)) ->
  let s' := vtd_iotlb_global_invalidate replay_all s in
  iotlb s' = ∅ /\
  (forall source_id pasid addr,
      vtd_lookup_iotlb s' source_id pasid addr = Some None) /\
  vtd_address_spaces s' = vtd_address_spaces s /\
  context_cache_gen s' = context_cache_gen s.
Proof.
  intros Hf. cbn zeta. unfold vtd_iotlb_global_invalidate, vtd_reset_iotlb.
  destruct (Hf (vtd_reset_iotlb_locked s)) as (Hi & _ & Ha & Hg).
  assert (He : iotlb (replay_all (vtd_reset_iotlb_locked s)) = ∅)
    by (rewrite Hi; reflexivity).
  split_and!; [exact He | | rewrite Ha; reflexivity | rewrite Hg; reflexivity].
  intros. now apply vtd_lookup_iotlb_empty.
Qed.

(** X8.  A domain-selective invalidation removes the entries of the domain
    and no other: when the resynchronisation of the observers leaves
    the caches alone, the cache afterwards holds exactly the entries
    it held for other domains, and no lookup returns an entry of the
    invalidated domain. *)
Theorem vtd_iotlb_domain_invalidate_removes (s : IntelIOMMUState)
    (domain_id : Z) :
  (forall t d, notify_frame t (domain_sync t d)) ->
  let s' := vtd_iotlb_domain_invalidate domain_sync s domain_id in
  (forall k e, iotlb s' !! k = Some e <->
               iotlb s !! k = Some e /\ iotlb_domain_id e <> domain_id) /\
  (forall source_id pasid addr e,
      vtd_lookup_iotlb s' source_id pasid addr = Some (Some e) ->
      iotlb_domain_id e <> domain_id) /\
  vtd_address_spaces s' = vtd_address_spaces s /\
  context_cache_gen s' = context_cache_gen s.
Proof.
  intros Hf. cbn zeta. unfold vtd_iotlb_domain_invalidate.
  match goal with |- context [domain_sync ?t ?d] =>
    destruct (Hf t d) as (Hi & _ & Ha & Hg) end.
  assert (Hl : forall k e,
    iotlb (domain_sync
             (iotlb_foreach_remove
                (fun e => vtd_hash_remove_by_domain e domain_id) s)
             domain_id) !! k = Some e <->
    iotlb s !! k = Some e /\ iotlb_domain_id e <> domain_id).
  { intros k e. rewrite Hi, iotlb_foreach_remove_lookup.
    unfold vtd_hash_remove_by_domain.
    destruct (Z.eqb_spec (iotlb_domain_id e) domain_id);
      (split; intros [H1 H2]; (split; [exact H1|]); congruence). }
  split_and!; [exact Hl | | rewrite Ha; reflexivity | rewrite Hg; reflexivity].
  intros source_id pasid addr e He.
  apply vtd_lookup_iotlb_hit in He as (l & gfn & _ & _ & He).
  now apply Hl in He.
Qed.

Lemma inv_mask_value (am : Z) :
  0 <= am < 64 ->
  u64 (Z.lnot (Z.shiftl 1 am - 1)) = not64 (u64 (shl1_64 am - 1)).
Proof.
  intros H. rewrite shl1_64_small by lia. rewrite Z.shiftl_1_l.
  assert (0 < 2 ^ am < 2 ^ 64)
    by (split; [apply Z.pow_pos_nonneg; lia | apply Z.pow_lt_mono_r; lia]).
  now rewrite (u64_small (2 ^ am - 1)) by lia.
Qed.

Lemma shiftr_12_range (a : Z) : 0 <= a < 2 ^ 64 -> 0 <= Z.shiftr a 12 < 2 ^ 52.
Proof.
  intros H. rewrite Z.shiftr_div_pow2 by lia. split.
  - apply Z.div_pos; lia.
  - apply Z.div_lt_upper_bound; lia.
Qed.

(** The removal predicate of a page-selective invalidation holds of
    the consistent entry of any level for any address of the
    invalidated block. *)
Lemma vtd_hash_remove_by_page_block (e : VTDIOTLBEntry)
    (domain_id pasid0 addr am a' level gfn : Z) :
  0 <= am < 64 -> 0 <= addr < 2 ^ 64 -> 0 <= a' < 2 ^ 64 ->
  a' / 2 ^ (12 + am) = addr / 2 ^ (12 + am) ->
  1 <= level <= 3 ->
  vtd_get_iotlb_gfn a' level = Some gfn ->
  iotlb_gfn e = gfn ->
  vtd_slpt_level_page_mask level = Some (iotlb_mask e) ->
  iotlb_domain_id e = domain_id ->
  vtd_hash_remove_by_page e
    {| info_domain_id := domain_id; info_pasid := pasid0; info_addr := addr;
       info_mask := u64 (Z.lnot (Z.shiftl 1 am - 1));
       info_is_piotlb := false |} = true.
Proof.
  intros Ham Haddr Ha' Hblk Hl Hg Hge Hm Hd.
  unfold vtd_hash_remove_by_page. cbn [info_domain_id info_pasid info_addr
    info_mask info_is_piotlb].
  rewrite Hd, Z.eqb_refl. cbn [andb].
  rewrite vtd_get_iotlb_gfn_val in Hg by lia. injection Hg as Hg.
  set (sh := 9 * (level - 1)) in *.
  assert (Hsh : 0 <= sh <= 18) by (subst sh; lia).
  rewrite <- !Z.shiftr_div_pow2 in Hblk by lia.
  rewrite <- Z.shiftr_div_pow2 in Hg by lia.
  destruct (Z_le_gt_dec sh am) as [Hle | Hgt].
  - (* the block is at least as large as the page *)
    apply orb_true_intro. left. apply Z.eqb_eq.
    rewrite inv_mask_value by lia.
    pose proof (shiftr_12_range addr Haddr).
    pose proof (shiftr_12_range a' Ha').
    rewrite (land_page_mask (Z.shiftr addr VTD_PAGE_SHIFT_4K))
      by (unfold VTD_PAGE_SHIFT_4K; lia).
    assert (Hgr : 0 <= gfn < 2 ^ 64).
    { subst gfn. rewrite Z.shiftl_mul_pow2, Z.shiftr_div_pow2 by lia.
      assert (0 < 2 ^ sh) by (apply Z.pow_pos_nonneg; lia).
      assert (0 < 2 ^ (12 + sh)) by (apply Z.pow_pos_nonneg; lia).
      assert (0 <= a' / 2 ^ (12 + sh)) by (apply Z.div_pos; lia).
      assert (a' / 2 ^ (12 + sh) * 2 ^ sh <= a' / 2 ^ 12).
      { rewrite Z.pow_add_r, <- Z.div_div by lia.
        rewrite Z.mul_comm. apply Z.mul_div_le. lia. }
      assert (a' / 2 ^ 12 < 2 ^ 52) by (apply Z.div_lt_upper_bound; lia).
      split; [nia | lia]. }
    rewrite Hge, land_page_mask by lia.
    f_equal. unfold VTD_PAGE_SHIFT_4K.
    rewrite <- Hg, Z.shiftr_shiftl_r by lia.
    rewrite !Z.shiftr_shiftr by lia.
    replace (12 + sh + (am - sh)) with (12 + am) by lia. exact Hblk.
  - (* the page is larger than the block *)
    apply orb_true_intro. right. apply Z.eqb_eq.
    assert (Hg2 : vtd_get_iotlb_gfn addr level
                  = Some (Z.shiftr (Z.land addr (iotlb_mask e))
                            VTD_PAGE_SHIFT_4K)).
    { unfold vtd_get_iotlb_gfn. now rewrite Hm. }
    rewrite vtd_get_iotlb_gfn_val in Hg2 by lia. injection Hg2 as <-.
    fold sh. rewrite Hge, <- Hg. f_equal.
    rewrite <- Z.shiftr_div_pow2 by lia.
    replace (12 + sh) with (12 + am + (sh - am)) by lia.
    rewrite <- (Z.shiftr_shiftr a' (12 + am)),
      <- (Z.shiftr_shiftr addr (12 + am)) by lia.
    now rewrite Hblk.
Qed.

(** X9.  A page-selective invalidation flushes the whole block.  After the
    invalidation of the [2^am] pages around [addr] for a domain, a
    consistent cache holds no entry of the domain, at any level, for
    any address of the block, so that no lookup of such an address
    returns one; entries of other domains are kept and no entry is
    added. *)
Theorem vtd_iotlb_page_invalidate_flushes (s s' : IntelIOMMUState)
    (domain_id addr am : Z) :
  (forall t d a m p, notify_frame t (page_notify t d a m p)) ->
  0 <= am < 64 -> 0 <= addr < 2 ^ 64 ->
  iotlb_wf s ->
  vtd_iotlb_page_invalidate z_uninit page_notify s domain_id addr am
    = Some s' ->
  iotlb_wf s' /\
  (forall k e, iotlb s' !! k = Some e -> iotlb s !! k = Some e) /\
  (forall k e, iotlb s !! k = Some e -> iotlb_domain_id e <> domain_id ->
               iotlb s' !! k = Some e) /\
  (forall source_id pasid a' e,
      0 <= a' < 2 ^ 64 ->
      a' / 2 ^ (12 + am) = addr / 2 ^ (12 + am) ->
      vtd_lookup_iotlb s' source_id pasid a' = Some (Some e) ->
      iotlb_domain_id e <> domain_id).
Proof.
  intros Hf Ham Haddr Hwf Hinv. unfold vtd_iotlb_page_invalidate in Hinv.
  apply bind_Some in Hinv as (_ & _ & [= <-]).
  match goal with |- context [page_notify ?t ?d ?a ?m ?p] =>
    destruct (Hf t d a m p) as (Hi & _) end.
  split_and!.
  - eapply iotlb_wf_frame; [exact Hi|]. now apply iotlb_wf_remove.
  - intros k e. rewrite Hi, iotlb_foreach_remove_lookup. intros [H1 _]. exact H1.
  - intros k e He Hd. rewrite Hi, iotlb_foreach_remove_lookup.
    split; [exact He|]. unfold vtd_hash_remove_by_page.
    cbn [info_domain_id].
    destruct (Z.eqb_spec (iotlb_domain_id e) domain_id); [contradiction|].
    reflexivity.
  - intros source_id pasid a' e Ha' Hblk He Hd.
    apply vtd_lookup_iotlb_hit in He as (l & gfn & Hl & Hg & He).
    rewrite Hi in He. apply iotlb_foreach_remove_lookup in He as [He Hp].
    destruct (Hwf _ _ He) as [Hge Hm]. cbn [key_gfn key_level mk_iotlb_key] in *.
    rewrite u8_small in Hm by lia.
    rewrite (vtd_hash_remove_by_page_block e domain_id z_uninit addr am a' l gfn)
      in Hp by assumption.
    discriminate.
Qed.

(** X10.  A reset of the caches empties both translation caches and
    invalidates every cached context entry: the global generation is
    1, every address space is kept with generation 0, and every lookup
    misses. *)
Theorem vtd_reset_caches_clears (s : IntelIOMMUState) :
  (forall t, notify_frame t (pasid_cache_reset t)) ->
  let s' := vtd_reset_caches pasid_cache_reset s in
  iotlb s' = ∅ /\ p_iotlb s' = ∅ /\
  context_cache_gen s' = 1 /\
  (forall k, as_cache_gen <$> vtd_address_spaces s' !! k
             = (fun _ => 0) <$> vtd_address_spaces s !! k) /\
  (forall k a, vtd_address_spaces s' !! k = Some a ->
               as_cache_gen a <> context_cache_gen s') /\
  (forall source_id pasid addr,
      vtd_lookup_iotlb s' source_id pasid addr = Some None).
Proof.
  intros Hf. cbn zeta. unfold vtd_reset_caches.
  match goal with |- context [pasid_cache_reset ?t] =>
    destruct (Hf t) as (Hi & _ & Ha & Hg); set (t0 := t) in * end.
  unfold vtd_reset_piotlb.
  cbn [iotlb p_iotlb context_cache_gen vtd_address_spaces set_p_iotlb].
  rewrite Hi, Ha, Hg.
  assert (Hsp : forall k,
    vtd_address_spaces t0 !! k
    = (fun a => {| as_bus := as_bus a; as_devfn := as_devfn a;
                   as_pasid := as_pasid a;
                   context_cache_entry :=
                     {| cc_context_entry :=
                          cc_context_entry (context_cache_entry a);
                        cc_context_cache_gen := 0 |} |})
      <$> vtd_address_spaces s !! k).
  { intros k. subst t0. unfold vtd_reset_context_cache_locked.
    cbn [vtd_address_spaces set_vtd_address_spaces set_context_cache_gen
         vtd_reset_iotlb_locked set_iotlb].
    now rewrite lookup_fmap. }
  split_and!; try reflexivity.
  - intros k. rewrite Hsp. now destruct (vtd_address_spaces s !! k).
  - intros k a. rewrite Hsp.
    destruct (vtd_address_spaces s !! k); [|discriminate].
    intros [= <-]. cbn. discriminate.
  - intros. apply vtd_lookup_iotlb_empty.
    cbn [iotlb set_p_iotlb]. rewrite Hi. reflexivity.
Qed.

End InvalidateTheorems.

Section ContextDeviceInvalidate.
Context {PH : VTDPagingHeader} {CH : VTDContextHeader} {IH : VTDInvHeader}.
Variable device_sync : IntelIOMMUState -> vtd_as_key -> Z -> IntelIOMMUState.

(** X11.  A device-selective invalidation of the context cache.  When the
    notifications leave the caches alone, every address space that
    matches the source-id under the function mask is kept with its
    generation set to 0, so that, the global generation being at
    least 1, its cached context entry is not valid; every other
    address space, the global generation and the leaf translation
    cache are unchanged. *)
Theorem vtd_context_device_invalidate_zeroes (s : IntelIOMMUState)
    (source_id func_mask : Z) :
  (forall t k d, notify_frame t (device_sync t k d)) ->
  1 <= context_cache_gen s ->
  let s' := vtd_context_device_invalidate device_sync s source_id func_mask in
  context_cache_gen s' = context_cache_gen s /\
  iotlb s' = iotlb s /\
  (forall k,
      vtd_address_spaces s' !! k =
      (fun a => if vtd_context_device_match source_id func_mask a
                then vtd_as_clear_gen a else a)
        <$> vtd_address_spaces s !! k) /\
  (forall k a a',
      vtd_address_spaces s !! k = Some a ->
      vtd_context_device_match source_id func_mask a = true ->
      vtd_address_spaces s' !! k = Some a' ->
      as_cache_gen a' = 0 /\ as_cache_gen a' <> context_cache_gen s').
Proof.
  intros Hf Hgen. cbn zeta.
  set (zap := fun a => if vtd_context_device_match source_id func_mask a
                       then vtd_as_clear_gen a else a).
  set (M := vtd_address_spaces s).
  assert (H :
    context_cache_gen
      (vtd_context_device_invalidate device_sync s source_id func_mask)
    = context_cache_gen s /\
    iotlb (vtd_context_device_invalidate device_sync s source_id func_mask)
    = iotlb s /\
    forall k,
      vtd_address_spaces
        (vtd_context_device_invalidate device_sync s source_id func_mask)
        !! k = zap <$> M !! k).
  { set (f := fun (k : vtd_as_key) (vtd_as : VTDAddressSpace)
                   (s0 : IntelIOMMUState) =>
                 if vtd_context_device_match source_id func_mask vtd_as
                 then device_sync
                        (set_vtd_address_spaces
                           (<[k := vtd_as_clear_gen vtd_as]>
                              (vtd_address_spaces s0)) s0)
                        k (u8 (VTD_SID_TO_DEVFN source_id))
                 else s0).
    change (vtd_context_device_invalidate device_sync s source_id func_mask)
      with (map_fold f s M).
    enough (Hind : forall m, m ⊆ M ->
      context_cache_gen (map_fold f s m) = context_cache_gen s /\
      iotlb (map_fold f s m) = iotlb s /\
      forall k, vtd_address_spaces (map_fold f s m) !! k =
                match m !! k with
                | Some a => Some (zap a)
                | None => M !! k
                end).
    { destruct (Hind M) as (Hg & Hi & Hsp); [reflexivity|].
      split_and!; auto. intros k. rewrite Hsp.
      now destruct (M !! k). }
    apply (map_fold_weak_ind
      (fun r m => m ⊆ M ->
                  context_cache_gen r = context_cache_gen s /\
                  iotlb r = iotlb s /\
                  forall k, vtd_address_spaces r !! k =
                            match m !! k with
                            | Some a => Some (zap a)
                            | None => M !! k
                            end)).
    - intros _. split_and!; auto.
    - intros i x m r Hnone IHm Hsub.
      assert (Hix : M !! i = Some x).
      { eapply lookup_weaken; [apply lookup_insert_eq | exact Hsub]. }
      destruct IHm as (Hg & Hi & Hsp).
      { etransitivity; [|exact Hsub]. now apply insert_subseteq. }
      subst zap f. cbn beta in *.
      destruct (vtd_context_device_match source_id func_mask x) eqn:Hm.
      + match goal with |- context [device_sync ?t ?k ?d] =>
          destruct (Hf t k d) as (Hi' & _ & Ha' & Hg') end.
        rewrite Hi', Ha', Hg'. split_and!; auto.
        intros k. cbn [vtd_address_spaces set_vtd_address_spaces].
        destruct (decide (i = k)) as [<- | Hne].
        * rewrite !lookup_insert_eq, Hm. reflexivity.
        * rewrite !lookup_insert_ne by exact Hne. apply Hsp.
      + split_and!; auto. intros k.
        destruct (decide (i = k)) as [<- | Hne].
        * now rewrite lookup_insert_eq, Hm, Hsp, Hnone.
        * rewrite lookup_insert_ne by exact Hne. apply Hsp. }
  destruct H as (Hg & Hi & Hsp).
  split_and!; auto.
  intros k a a' Ha Hm. rewrite Hsp. fold M in Ha. rewrite Ha. cbn.
  subst zap. cbn beta. rewrite Hm. intros [= <-].
  split; [reflexivity|]. rewrite Hg. cbn. lia.
Qed.

End ContextDeviceInvalidate.


(** ** The translation cache across translations *)

Section WalkLevel.
Context {PH : VTDPagingHeader} {CH : VTDContextHeader}.
Variable pe_uninit : VTDPASIDEntry.
Variable pdire_uninit : Z.

(** A leaf of the second-stage walk is at a level of 1 to 4: the
    reserved-bit check has passed on it. *)
Lemma vtd_iova_to_slpte_loop_level (s : IntelIOMMUState)
    (ce : VTDContextEntry) (iova : Z) (is_write : bool) (aw pasid : Z)
    (level : nat) :
  forall addr reads writes pte lv r w,
    vtd_iova_to_slpte_loop pe_uninit pdire_uninit s ce iova is_write aw pasid
      level addr reads writes = Some (WalkLeaf pte lv r w) ->
    1 <= lv <= 4.
Proof.
  induction level as [|level IH]; intros addr reads writes pte lv r w H;
    [discriminate|].
  cbn [vtd_iova_to_slpte_loop] in H.
  apply bind_Some in H as (offset & _ & H).
  apply bind_Some in H as (slpte & _ & H).
  destruct (_ =? _); [destruct (_ =? _); discriminate|].
  destruct (negb _); [discriminate|].
  apply bind_Some in H as (rsvd & Hr & H).
  destruct rsvd; [discriminate|].
  destruct (vtd_is_last_slpte _ _).
  - injection H as _ <- _ _.
    unfold vtd_slpte_nonzero_rsvd, assert_ in Hr.
    unfold VTD_SPTE_RSVD_LEN in Hr.
    destruct (Z.ltb_spec (Z.of_nat (S level)) 5); [lia | discriminate].
  - eapply IH. exact H.
Qed.

Lemma vtd_iova_to_slpte_level (s : IntelIOMMUState) (ce : VTDContextEntry)
    (iova : Z) (is_write : bool) (p0 l0 : Z) (r0 w0 : bool) (aw pasid : Z)
    (w : walk_out) :
  vtd_iova_to_slpte pe_uninit pdire_uninit s ce iova is_write p0 l0 r0 w0
    aw pasid = Some w ->
  w_ret w = VTD_SUCCESS ->
  1 <= w_level w <= 4.
Proof.
  unfold vtd_iova_to_slpte. destruct (negb _).
  { intros [= <-]. discriminate. }
  intros H. apply bind_Some in H as ([fr r1 w1 | pte lv r1 w1] & Hl & H).
  - injection H as <-. discriminate.
  - apply bind_Some in H as (st & _ & [= <-]). intros _. cbn.
    eapply vtd_iova_to_slpte_loop_level. exact Hl.
Qed.

End WalkLevel.

Section TranslateCache.
Context {RH : VTDRegHeader} {PH : VTDPagingHeader} {CH : VTDContextHeader}.
Variable ce_uninit : VTDContextEntry.
Variable pe_uninit : VTDPASIDEntry.
Variable pdire_uninit : Z.
Variable re_uninit : VTDRootEntry.
Variable z_uninit : Z.

Local Abbreviation do_translate :=
  (vtd_do_iommu_translate ce_uninit pe_uninit pdire_uninit re_uninit z_uninit).

(** X12.  A translation keeps the leaf translation cache consistent: after
    [vtd_do_iommu_translate], whatever it returns, every cached entry
    still carries the frame number of its key and the page mask of
    the level of its key. *)
Theorem vtd_do_iommu_translate_keeps_wf (s : IntelIOMMUState)
    (k : vtd_as_key) (bus devfn addr : Z) (is_write : bool)
    (entry e : IOMMUTLBEntry) (ok : bool) (s' : IntelIOMMUState) :
  iotlb_wf s ->
  do_translate s k bus devfn addr is_write entry = Some (ok, e, s') ->
  iotlb_wf s'.
Proof.
  intros Hwf. unfold vtd_do_iommu_translate. intros H.
  apply bind_Some in H as (vtd_as & _ & H).
  apply bind_Some in H as (_ & _ & H).
  apply bind_Some in H as ([hit|] & _ & H); [injection H as _ _ <-; exact Hwf|].
  apply bind_Some in H as (f & Hf & H).
  apply vtd_translate_fetch_ce_caches in Hf.
  destruct f as [s1 | ce fpd s1].
  - injection H as _ _ <-.
    apply fault_frame_caches in Hf as (Hi & _).
    now apply (iotlb_wf_frame s).
  - assert (Hwf1 : iotlb_wf s1) by (destruct Hf as [-> | ->]; exact Hwf).
    destruct (vtd_dev_pt_enabled _ _ _ _ _); [injection H as _ _ <-; exact Hwf1|].
    apply bind_Some in H as ([hit|] & _ & H); [injection H as _ _ <-; exact Hwf1|].
    apply bind_Some in H as (w & Hw & H).
    destruct (w_ret w) as [|fr] eqn:Hret.
    + apply bind_Some in H as (pm & _ & H).
      apply bind_Some in H as (s2 & Hu & H). injection H as _ _ <-.
      pose proof (vtd_iova_to_slpte_level _ _ _ _ _ _ _ _ _ _ _ _ _ Hw Hret).
      eapply iotlb_wf_update; [|exact Hwf1|exact Hu]. lia.
    + apply bind_Some in H as (s2 & Hr & H). injection H as _ _ <-.
      apply vtd_report_fault_frame, fault_frame_caches in Hr as (Hi & _).
      now apply (iotlb_wf_frame s1).
Qed.

(** The lookup only reads the cache. *)
Lemma vtd_lookup_iotlb_ext (t t' : IntelIOMMUState) (sid pasid addr : Z) :
  iotlb t' = iotlb t ->
  vtd_lookup_iotlb t' sid pasid addr = vtd_lookup_iotlb t sid pasid addr.
Proof.
  intros He. rewrite !vtd_lookup_iotlb_first_hit. unfold vtd_iotlb_probe.
  now rewrite He.
Qed.

(** After a miss, the entry that [vtd_update_iotlb] stores for a level
    of 1 to 3 is the one the next lookup of the address returns. *)
Lemma vtd_lookup_iotlb_update (t t' : IntelIOMMUState)
    (sid did addr pte : Z) (flags : IOMMUAccessFlags) (level pasid : Z) :
  1 <= level <= 3 ->
  vtd_lookup_iotlb t sid pasid addr = Some None ->
  vtd_update_iotlb t sid did addr pte flags level pasid = Some t' ->
  exists ie,
    vtd_iotlb_new_entry did addr pte flags level pasid = Some ie /\
    vtd_lookup_iotlb t' sid pasid addr = Some (Some ie).
Proof.
  intros Hl Hmiss Hu.
  apply vtd_update_iotlb_unfold in Hu as (key & ie & Hk & He & Hs').
  exists ie. split; [exact He|].
  rewrite vtd_lookup_iotlb_first_hit in Hmiss |- *.
  unfold vtd_iotlb_new_key in Hk.
  apply bind_Some in Hk as (gfn & Hg & [= <-]).
  assert (Hp : forall l, 1 <= l <= 3 ->
    vtd_iotlb_probe t' sid pasid addr l =
    if l =? level then Some ie
    else match vtd_iotlb_probe t sid pasid addr l with
         | Some x => if Z.of_nat (size (iotlb t)) >=? VTD_IOTLB_MAX_SIZE
                     then None else Some x
         | None => None
         end).
  { intros l Hlr. unfold vtd_iotlb_probe. rewrite Hs'.
    destruct (Z.eqb_spec l level) as [-> | Hne].
    - rewrite Hg. cbn [mbind option_bind]. apply lookup_insert_eq.
    - destruct (vtd_get_iotlb_gfn addr l) as [g|]; cbn [mbind option_bind];
        [|reflexivity].
      rewrite lookup_insert_ne.
      + destruct (_ >=? _); [rewrite lookup_empty|];
          now destruct (iotlb t !! _).
      + unfold mk_iotlb_key. intros [= _ Hlv].
        rewrite !u8_small in Hlv by lia. lia. }
  rewrite !Hp by lia.
  destruct (vtd_iotlb_probe t sid pasid addr 1); [discriminate|].
  destruct (vtd_iotlb_probe t sid pasid addr 2); [discriminate|].
  destruct (vtd_iotlb_probe t sid pasid addr 3); [discriminate|].
  assert (level = 1 \/ level = 2 \/ level = 3) as [-> | [-> | ->]] by lia;
    reflexivity.
Qed.

(** In legacy mode a translation that hits the cache returns the
    cached entry and leaves the state as it is. *)
Lemma vtd_do_iommu_translate_hit (t : IntelIOMMUState) (k : vtd_as_key)
    (a : VTDAddressSpace) (bus devfn addr : Z) (is_write : bool)
    (entry : IOMMUTLBEntry) (ie : VTDIOTLBEntry) :
  root_scalable t = false ->
  vtd_address_spaces t !! k = Some a ->
  vtd_is_interrupt_addr addr = false ->
  vtd_lookup_iotlb t (u16 (PCI_BUILD_BDF (u8 (pci_bus_num bus)) devfn))
    (as_pasid a) addr = Some (Some ie) ->
  do_translate t k bus devfn addr is_write entry =
  Some (true,
        translate_out t addr (iotlb_pte ie) (iotlb_mask ie)
          (iotlb_access_flags ie), t).
Proof.
  intros Hrs Ha Hint Hhit. unfold vtd_do_iommu_translate.
  rewrite Ha. cbn [mbind option_bind]. rewrite Hint, Hrs, andb_false_r.
  cbn [negb assert_ mbind option_bind]. rewrite Hhit. reflexivity.
Qed.

(** X13.  Repeating a translation.  In legacy mode, a successful translation
    whose page is not a 512 GiB page (a leaf of level 4, which the
    lookup does not probe) can be repeated: the same request on the
    state it leaves returns the same entry and changes nothing
    more. *)
Theorem vtd_do_iommu_translate_repeat (s : IntelIOMMUState) (k : vtd_as_key)
    (bus devfn addr : Z) (is_write : bool) (entry entry' e : IOMMUTLBEntry)
    (s' : IntelIOMMUState) :
  root_scalable s = false ->
  do_translate s k bus devfn addr is_write entry = Some (true, e, s') ->
  addr_mask e <> 2 ^ 39 - 1 ->
  do_translate s' k bus devfn addr is_write entry' = Some (true, e, s').
Proof.
  intros Hrs H0 Hmask.
  assert (Hsame : s' = s ->
    do_translate s' k bus devfn addr is_write entry' = Some (true, e, s')).
  { intros ->. exact H0. }
  pose proof H0 as H. unfold vtd_do_iommu_translate in H.
  apply bind_Some in H as (vtd_as & Has & H).
  apply bind_Some in H as (u0 & Hint & H).
  assert (Hint' : vtd_is_interrupt_addr addr = false).
  { unfold assert_ in Hint. destruct (vtd_is_interrupt_addr addr);
      [discriminate | reflexivity]. }
  rewrite Hrs, andb_false_r in H. cbn [negb] in H.
  apply bind_Some in H as ([hit|] & Hhit & H).
  { injection H as _ <-. apply Hsame. reflexivity. }
  apply bind_Some in H as (f & Hf & H).
  destruct f as [s1 | ce fpd s1]; [discriminate|].
  assert (Hwalk : forall (t : IntelIOMMUState) (a : VTDAddressSpace)
            (w : walk_out) (pm did : Z) (t' : IntelIOMMUState),
    root_scalable t = false ->
    vtd_address_spaces t !! k = Some a -> as_pasid a = as_pasid vtd_as ->
    vtd_lookup_iotlb t (u16 (PCI_BUILD_BDF (u8 (pci_bus_num bus)) devfn))
      (as_pasid vtd_as) addr = Some None ->
    1 <= w_level w <= 4 ->
    vtd_slpt_level_page_mask (w_level w) = Some pm ->
    vtd_update_iotlb t (u16 (PCI_BUILD_BDF (u8 (pci_bus_num bus)) devfn))
      did addr (w_ptep w) (IOMMU_ACCESS_FLAG (w_reads w) (w_writes w))
      (w_level w) (as_pasid vtd_as) = Some t' ->
    not64 pm <> 2 ^ 39 - 1 ->
    do_translate t' k bus devfn addr is_write entry' =
    Some (true,
          translate_out t' addr (w_ptep w) pm
            (IOMMU_ACCESS_FLAG (w_reads w) (w_writes w)), t')).
  { intros t a w pm did t' Hrt Ha Hpa Hmiss Hlv Hpm Hu Hm.
    assert (Hl3 : 1 <= w_level w <= 3).
    { destruct (Z.eq_dec (w_level w) 4) as [H4 | H4]; [|lia].
      rewrite H4 in Hpm. vm_compute in Hpm. injection Hpm as <-.
      exfalso. apply Hm. vm_compute. reflexivity. }
    destruct (vtd_lookup_iotlb_update _ _ _ _ _ _ _ _ _ Hl3 Hmiss Hu)
      as (ie & Hie & Hhit').
    pose proof (vtd_update_iotlb_address_spaces _ _ _ _ _ _ _ _ _ Hu) as Hsp.
    assert (Hrt' : root_scalable t' = false).
    { clear - Hu Hrt. unfold vtd_update_iotlb in Hu.
      apply bind_Some in Hu as (gfn & _ & Hu).
      apply bind_Some in Hu as (mask & _ & [= <-]).
      destruct (_ >=? _); exact Hrt. }
    rewrite <- Hpa in Hhit'.
    rewrite (vtd_do_iommu_translate_hit t' k a bus devfn addr is_write entry'
               ie Hrt') by (rewrite ?Hsp; assumption).
    unfold vtd_iotlb_new_entry in Hie.
    apply bind_Some in Hie as (gfn & _ & Hie).
    apply bind_Some in Hie as (pm' & Hpm' & [= <-]).
    rewrite Hpm in Hpm'. injection Hpm' as <-. reflexivity. }
  destruct (Z.eq_dec (as_cache_gen vtd_as) (context_cache_gen s))
    as [Hgen | Hgen].
  - (* the context entry was cached: only a walk changes the state *)
    destruct (vtd_translate_fetch_ce_cached _ _ _ _ _ _ _ _ _ _ _ _ _ _ _ _
                Hgen Hf) as [_ ->].
    destruct (vtd_dev_pt_enabled _ _ _ _ _).
    { injection H as _ <-. apply Hsame. reflexivity. }
    cbn [mbind option_bind] in H.
    apply bind_Some in H as (w & Hw & H).
    destruct (w_ret w) as [|fr] eqn:Hret.
    2:{ apply bind_Some in H as (s2 & _ & H). discriminate. }
    apply bind_Some in H as (pm & Hpm & H).
    apply bind_Some in H as (s2 & Hu & H). injection H as <- <-.
    cbn [translate_out addr_mask] in Hmask.
    eapply Hwalk; eauto.
    eapply vtd_iova_to_slpte_level; eassumption.
  - (* the context entry was read from guest memory and cached *)
    destruct (vtd_translate_fetch_ce_fresh _ _ _ _ _ _ _ _ _ _ _ _ _ _ _ _
                Hgen Hf) as [Hce ->].
    set (s1 := update_context_cache s k vtd_as ce) in *.
    assert (Hrs1 : root_scalable s1 = false) by exact Hrs.
    assert (Has1 : exists a1, vtd_address_spaces s1 !! k = Some a1 /\
              as_pasid a1 = as_pasid vtd_as /\
              as_cache_gen a1 = context_cache_gen s1 /\
              cc_context_entry (context_cache_entry a1) = ce).
    { eexists. split; [apply lookup_insert_eq|]. split_and!; reflexivity. }
    destruct Has1 as (a1 & Ha1 & Hp1 & Hg1 & Hc1).
    assert (Hmiss1 : vtd_lookup_iotlb s1
              (u16 (PCI_BUILD_BDF (u8 (pci_bus_num bus)) devfn))
              (as_pasid vtd_as) addr = Some None).
    { rewrite (vtd_lookup_iotlb_ext s s1) by reflexivity. exact Hhit. }
    destruct (vtd_dev_pt_enabled _ _ _ _ _) eqn:Hpt.
    + injection H as <- <-. unfold vtd_pt_enable_fast_path.
      unfold vtd_do_iommu_translate. rewrite Ha1. cbn [mbind option_bind].
      rewrite Hint', Hrs1, andb_false_r, Hp1.
      cbn [negb assert_ mbind option_bind]. rewrite Hmiss1.
      cbn [mbind option_bind].
      unfold vtd_translate_fetch_ce. unfold as_cache_gen in Hg1.
      rewrite Hg1, Z.eqb_refl, Hrs1, andb_false_r, Hc1.
      cbn [mbind option_bind]. rewrite Hpt. reflexivity.
    + cbn [mbind option_bind] in H.
      apply bind_Some in H as (w & Hw & H).
      destruct (w_ret w) as [|fr] eqn:Hret.
      2:{ apply bind_Some in H as (s2 & _ & H). discriminate. }
      apply bind_Some in H as (pm & Hpm & H).
      apply bind_Some in H as (s2 & Hu & H). injection H as <- <-.
      cbn [translate_out addr_mask] in Hmask.
      eapply (Hwalk s1 a1); eauto.
      eapply vtd_iova_to_slpte_level; eassumption.
Qed.

End TranslateCache.


(** ** Invalidation requests *)

Section RequestFacts.
Context {RH : VTDRegHeader} {PH : VTDPagingHeader} {CH : VTDContextHeader}.
Context {EH : VTDEventHeader} {IH : VTDInvHeader}.

(** The completion event returns, with the wait-complete flag set, and
    writes the ICS and IECTL registers and the interrupt log only. *)
Lemma vtd_generate_completion_event_sets (s : IntelIOMMUState) :
  VTDEventHeaderOK RH EH ->
  exists s',
    vtd_generate_completion_event s = Some s' /\
    fault_frame s s' /\ vtd_wait_complete s' = true /\
    forall a,
      (a + 8 <= DMAR_ICS_REG \/ DMAR_ICS_REG + 4 <= a) ->
      (a + 8 <= DMAR_IECTL_REG \/ DMAR_IECTL_REG + 4 <= a) ->
      vtd_get_quad_raw s' a = vtd_get_quad_raw s a.
Proof.
  intros EOK. unfold vtd_generate_completion_event, vtd_wait_complete.
  destruct (nonzero (Z.land _ VTD_ICS_IWC)) eqn:Hw.
  { exists s. split_and!; auto using fault_frame_refl. }
  set (s1 := (vtd_set_clear_mask_long s DMAR_ICS_REG 0 VTD_ICS_IWC).2).
  set (s2 := (vtd_set_clear_mask_long s1 DMAR_IECTL_REG 0 VTD_IECTL_IP).2).
  pose proof ics_iwc_bit as Hiwc.
  pose proof ics_iectl_disjoint as D1.
  assert (W2 : nonzero (Z.land (vtd_get_long_raw s2 DMAR_ICS_REG) VTD_ICS_IWC)
               = true).
  { subst s2. rewrite get_long_scm_long_other by lia.
    apply scm_long_set. lia. }
  assert (F2 : fault_frame s s2).
  { eapply fault_frame_trans; apply fault_frame_scm_long. }
  assert (Q2 : forall a,
    (a + 8 <= DMAR_ICS_REG \/ DMAR_ICS_REG + 4 <= a) ->
    (a + 8 <= DMAR_IECTL_REG \/ DMAR_IECTL_REG + 4 <= a) ->
    vtd_get_quad_raw s2 a = vtd_get_quad_raw s a).
  { intros a H1 H2. subst s2 s1.
    now rewrite !get_quad_scm_long_other by lia. }
  destruct (nonzero (Z.land (vtd_get_long_raw s2 DMAR_IECTL_REG) VTD_IECTL_IM)).
  { exists s2. split_and!; auto. }
  unfold vtd_generate_interrupt, assert_.
  destruct ie_regs_in_csr as [Hd Ha].
  destruct (Z.ltb_spec DMAR_IEDATA_REG DMAR_REG_SIZE); [|lia].
  destruct (Z.ltb_spec DMAR_IEADDR_REG DMAR_REG_SIZE); [|lia].
  cbn [mbind option_bind].
  eexists. split; [reflexivity|]. split_and!.
  - eapply fault_frame_trans; [exact F2|].
    eapply fault_frame_trans; [apply fault_frame_set_msi_log|].
    apply fault_frame_scm_long.
  - rewrite get_long_scm_long_other by lia. exact W2.
  - intros a H1 H2. rewrite get_quad_scm_long_other by lia.
    apply (Q2 a H1 H2).
Qed.

End RequestFacts.

Section DescriptorTheorems.
Context {RH : VTDRegHeader} {PH : VTDPagingHeader} {CH : VTDContextHeader}.
Context {EH : VTDEventHeader} {IH : VTDInvHeader} {DH : VTDInvDescHeader}.
Variable z_uninit : Z.
Variable replay_all : IntelIOMMUState -> IntelIOMMUState.
Variable domain_sync : IntelIOMMUState -> Z -> IntelIOMMUState.
Variable page_notify : IntelIOMMUState -> Z -> Z -> Z -> Z -> IntelIOMMUState.
Variable device_sync : IntelIOMMUState -> vtd_as_key -> Z -> IntelIOMMUState.
Variable resync : IntelIOMMUState -> IntelIOMMUState.
Variable dma_memory_write_long :
  IntelIOMMUState -> Z -> Z -> bool * IntelIOMMUState.

Local Abbreviation process_iotlb_desc :=
  (InvDesc.vtd_process_iotlb_desc z_uninit replay_all domain_sync page_notify).
Local Abbreviation process_context_cache_desc :=
  (InvDesc.vtd_process_context_cache_desc device_sync resync).
Local Abbreviation process_wait_desc :=
  (InvDesc.vtd_process_wait_desc dma_memory_write_long).

(** X14.  A queued IOTLB invalidation.  Whatever the descriptor holds,
    [vtd_process_iotlb_desc] returns: the assertion on the address
    mask in [vtd_iotlb_page_invalidate] is never reached with a mask
    above the maximum.  It only removes entries from the leaf
    translation cache and leaves the context caches alone; a refused
    descriptor leaves the state as it was, and an accepted one of
    global granularity leaves the cache empty. *)
Theorem vtd_process_iotlb_desc_shrinks (s : IntelIOMMUState)
    (inv_desc : VTDInvDesc) :
  (forall t, notify_frame t (replay_all t)) ->
  (forall t d, notify_frame t (domain_sync t d)) ->
  (forall t d a m p, notify_frame t (page_notify t d a m p)) ->
  exists b s',
    process_iotlb_desc s inv_desc = Some (b, s') /\
    iotlb s' ⊆ iotlb s /\
    p_iotlb s' = p_iotlb s /\
    vtd_address_spaces s' = vtd_address_spaces s /\
    context_cache_gen s' = context_cache_gen s /\
    (b = false -> s' = s) /\
    (b = true ->
     Z.land (desc_lo inv_desc) VTD_INV_DESC_IOTLB_G = VTD_INV_DESC_IOTLB_GLOBAL ->
     iotlb s' = ∅).
Proof.
  intros Hr Hd Hp. unfold InvDesc.vtd_process_iotlb_desc.
  destruct (_ || _).
  { exists false, s. split_and!; auto; discriminate. }
  destruct (Z.eqb_spec (Z.land (desc_lo inv_desc) VTD_INV_DESC_IOTLB_G)
              VTD_INV_DESC_IOTLB_GLOBAL) as [Hg | Hg].
  { eexists _, _. split; [reflexivity|]. unfold vtd_iotlb_global_invalidate.
    destruct (Hr (vtd_reset_iotlb s)) as (-> & -> & -> & ->).
    split_and!; try reflexivity; try discriminate.
    apply map_empty_subseteq. }
  destruct (_ =? VTD_INV_DESC_IOTLB_DOMAIN).
  { eexists _, _. split; [reflexivity|]. unfold vtd_iotlb_domain_invalidate.
    match goal with |- context [domain_sync ?t ?d] =>
      destruct (Hd t d) as (-> & -> & -> & ->) end.
    split_and!; try reflexivity; try discriminate; try contradiction.
    apply map_filter_subseteq. }
  destruct (_ =? VTD_INV_DESC_IOTLB_PAGE).
  2:{ exists false, s. split_and!; auto; discriminate. }
  destruct (Z.gtb_spec (u8 (VTD_INV_DESC_IOTLB_AM (desc_hi inv_desc))) VTD_MAMV)
    as [Ham | Ham].
  { exists false, s. split_and!; auto; discriminate. }
  unfold vtd_iotlb_page_invalidate, assert_.
  destruct (Z.leb_spec (u8 (VTD_INV_DESC_IOTLB_AM (desc_hi inv_desc))) VTD_MAMV);
    [|lia].
  cbn [mbind option_bind].
  eexists _, _. split; [reflexivity|].
  match goal with |- context [page_notify ?t ?d ?a ?m ?p] =>
    destruct (Hp t d a m p) as (-> & -> & -> & ->) end.
  split_and!; try reflexivity; try discriminate; try contradiction.
  apply map_filter_subseteq.
Qed.

(** X15.  A queued context-cache invalidation of domain granularity is
    performed as a global one: for a descriptor without reserved bits
    and of either granularity the handler accepts, and afterwards no
    address space holds a context entry of the current generation;
    the leaf translation cache is not flushed. *)
Theorem vtd_process_context_cache_desc_global (s : IntelIOMMUState)
    (inv_desc : VTDInvDesc) :
  cc_resync_frame resync ->
  1 < VTD_CONTEXT_CACHE_GEN_MAX < 2 ^ 32 ->
  cc_wf s ->
  Z.land (desc_lo inv_desc) VTD_INV_DESC_CC_RSVD = 0 ->
  desc_hi inv_desc = 0 ->
  Z.land (desc_lo inv_desc) VTD_INV_DESC_CC_G = VTD_INV_DESC_CC_DOMAIN \/
  Z.land (desc_lo inv_desc) VTD_INV_DESC_CC_G = VTD_INV_DESC_CC_GLOBAL ->
  exists s',
    process_context_cache_desc s inv_desc = Some (true, s') /\
    s' = vtd_context_global_invalidate resync s /\
    cc_wf s' /\
    (forall k a, vtd_address_spaces s' !! k = Some a ->
                 as_cache_gen a <> context_cache_gen s') /\
    iotlb s' = iotlb s.
Proof.
  intros Hres Hmax Hwf Hrs Hhi Hg.
  unfold InvDesc.vtd_process_context_cache_desc.
  rewrite Hrs, Hhi. cbn [nonzero Z.eqb negb orb].
  assert (E : (Z.land (desc_lo inv_desc) VTD_INV_DESC_CC_G
                 =? VTD_INV_DESC_CC_DOMAIN)
              || (Z.land (desc_lo inv_desc) VTD_INV_DESC_CC_G
                    =? VTD_INV_DESC_CC_GLOBAL) = true).
  { destruct Hg as [-> | ->]; rewrite Z.eqb_refl; [reflexivity|].
    apply orb_true_r. }
  rewrite E. eexists. split; [reflexivity|]. split; [reflexivity|].
  destruct (vtd_context_global_invalidate_spec resync s Hres Hmax Hwf)
    as (_ & _ & Hwf' & Hne).
  split; [exact Hwf'|]. split; [exact Hne|].
  unfold vtd_context_global_invalidate. cbv zeta.
  match goal with |- context [resync ?t] =>
    destruct (Hres t) as (_ & -> & _) end.
  destruct (_ =? VTD_CONTEXT_CACHE_GEN_MAX); reflexivity.
Qed.

(** X16.  A wait descriptor without reserved bits.  With the status-write
    and the interrupt flag both set it stops the device model on the
    assertion; with the status write alone its result is that of the
    write to guest memory; with the interrupt flag alone it raises the
    completion event; otherwise it is accepted as a fence if the fence
    flag is set and refused if no flag is. *)
Theorem vtd_process_wait_desc_outcome (s : IntelIOMMUState)
    (inv_desc : VTDInvDesc) :
  VTDEventHeaderOK RH EH ->
  Z.land (desc_hi inv_desc) VTD_INV_DESC_WAIT_RSVD_HI = 0 ->
  Z.land (desc_lo inv_desc) VTD_INV_DESC_WAIT_RSVD_LO = 0 ->
  let lo := desc_lo inv_desc in
  let sw := nonzero (Z.land lo VTD_INV_DESC_WAIT_SW) in
  let iflag := nonzero (Z.land lo VTD_INV_DESC_WAIT_IF) in
  let r := process_wait_desc s inv_desc in
  (r = None <-> sw = true /\ iflag = true) /\
  (sw = true -> iflag = false ->
   r = Some (negb (dma_memory_write_long s (desc_hi inv_desc)
                     (u32 (Z.shiftr lo VTD_INV_DESC_WAIT_DATA_SHIFT))).1,
             (dma_memory_write_long s (desc_hi inv_desc)
                (u32 (Z.shiftr lo VTD_INV_DESC_WAIT_DATA_SHIFT))).2)) /\
  (sw = false -> iflag = true ->
   exists s', r = Some (true, s') /\
              vtd_generate_completion_event s = Some s' /\
              vtd_wait_complete s' = true /\ fault_frame s s') /\
  (sw = false -> iflag = false ->
   r = Some (nonzero (Z.land lo VTD_INV_DESC_WAIT_FN), s)).
Proof.
  intros EOK Hhi Hlo lo sw iflag r. subst r lo sw iflag.
  unfold InvDesc.vtd_process_wait_desc. rewrite Hhi, Hlo.
  cbn [nonzero Z.eqb negb orb].
  change (negb (?x =? 0)) with (nonzero x).
  destruct (vtd_generate_completion_event_sets s EOK)
    as (s1 & Hc & Hf & Hw & _).
  destruct (nonzero (Z.land (desc_lo inv_desc) VTD_INV_DESC_WAIT_SW));
    destruct (nonzero (Z.land (desc_lo inv_desc) VTD_INV_DESC_WAIT_IF));
    cbn [assert_ negb mbind option_bind].
  - repeat split; intros; try discriminate; auto.
  - destruct (dma_memory_write_long _ _ _) as [[] s2];
      repeat split; intros; try discriminate;
      match goal with H : _ /\ _ |- _ => destruct H; discriminate end.
  - rewrite Hc. cbn [mbind option_bind].
    repeat split; intros; try discriminate;
      try match goal with H : _ /\ _ |- _ => destruct H; discriminate end.
    exists s1. auto.
  - destruct (nonzero _);
      repeat split; intros; try discriminate;
      match goal with H : _ /\ _ |- _ => destruct H; discriminate end.
Qed.

(** X17.  The modelled descriptor handlers meet what the queue processor
    is assumed of its handlers: given notifications and a guest-memory
    write that leave the registers and the queue alone, they leave the
    queue cursors, the queue geometry and the head register as they
    were. *)
Theorem inv_desc_handlers_queue_frame :
  VTDEventHeaderOK RH EH ->
  (DMAR_IQH_REG + 8 <= DMAR_ICS_REG \/ DMAR_ICS_REG + 4 <= DMAR_IQH_REG) ->
  (DMAR_IQH_REG + 8 <= DMAR_IECTL_REG \/ DMAR_IECTL_REG + 4 <= DMAR_IQH_REG) ->
  (forall t, notify_regs_frame t (replay_all t)) ->
  (forall t d, notify_regs_frame t (domain_sync t d)) ->
  (forall t d a m p, notify_regs_frame t (page_notify t d a m p)) ->
  (forall t k d, notify_regs_frame t (device_sync t k d)) ->
  (forall t, notify_regs_frame t (resync t)) ->
  (forall t a v, notify_regs_frame t (dma_memory_write_long t a v).2) ->
  desc_handler_frame process_wait_desc /\
  desc_handler_frame process_context_cache_desc /\
  desc_handler_frame process_iotlb_desc.
Proof.
  intros EOK D1 D2 Hr Hd Hp Hv Hs Hw.
  assert (Hq : forall t t', notify_regs_frame t t' ->
    iq_head t' = iq_head t /\ iq_tail t' = iq_tail t /\
    iq_size t' = iq_size t /\ iq_dw t' = iq_dw t /\
    vtd_get_quad_raw t' DMAR_IQH_REG = vtd_get_quad_raw t DMAR_IQH_REG).
  { intros t t' (Hc & _ & _ & H1 & H2 & H3 & H4).
    unfold vtd_get_quad_raw. rewrite Hc. auto. }
  assert (Hrefl : forall t, notify_regs_frame t t).
  { intros t. unfold notify_regs_frame. auto 10. }
  split_and!.
  - intros s d b s'. unfold InvDesc.vtd_process_wait_desc.
    destruct (_ || _); [intros [= <- <-]; apply Hq, Hrefl|].
    destruct (nonzero (Z.land _ VTD_INV_DESC_WAIT_SW)).
    { intros H. apply bind_Some in H as (u0 & _ & H).
      match type of H with context [dma_memory_write_long ?t ?a ?v] =>
        pose proof (Hw t a v) as Hf;
        destruct (dma_memory_write_long t a v) as [[] s1] end;
        injection H as <- <-; apply Hq, Hf. }
    destruct (nonzero (Z.land _ VTD_INV_DESC_WAIT_IF)).
    { intros H. apply bind_Some in H as (s1 & Hc & [= <- <-]).
      destruct (vtd_generate_completion_event_sets s EOK)
        as (s1' & Hc' & Hf & _ & Hreg).
      rewrite Hc in Hc'. injection Hc' as <-.
      apply fault_frame_queue in Hf as (-> & -> & -> & -> & _).
      rewrite Hreg by lia. auto. }
    destruct (nonzero _); intros [= <- <-]; apply Hq, Hrefl.
  - intros s d b s'. unfold InvDesc.vtd_process_context_cache_desc.
    destruct (_ || _); [intros [= <- <-]; apply Hq, Hrefl|].
    destruct (_ || _).
    { intros [= <- <-]. unfold vtd_context_global_invalidate. cbv zeta.
      match goal with |- context [resync ?t] =>
        destruct (Hq t (resync t) (Hs t)) as (-> & -> & -> & -> & ->) end.
      destruct (_ =? VTD_CONTEXT_CACHE_GEN_MAX); auto. }
    destruct (_ =? _); [|intros [= <- <-]; apply Hq, Hrefl].
    intros [= <- <-]. apply Hq.
    unfold vtd_context_device_invalidate.
    apply (map_fold_weak_ind
             (fun t (_ : gmap vtd_as_key VTDAddressSpace) =>
                notify_regs_frame s t)); [apply Hrefl|].
    intros k a m t _ Ht.
    destruct (vtd_context_device_match _ _ _); [|exact Ht].
    match goal with |- context [device_sync ?t0 ?k0 ?d0] =>
      pose proof (Hv t0 k0 d0) as Hf end.
    unfold notify_regs_frame in *.
    destruct Hf as (-> & -> & -> & -> & -> & -> & ->). exact Ht.
  - intros s d b s'. unfold InvDesc.vtd_process_iotlb_desc.
    destruct (_ || _); [intros [= <- <-]; apply Hq, Hrefl|].
    destruct (_ =? VTD_INV_DESC_IOTLB_GLOBAL).
    { intros [= <- <-]. unfold vtd_iotlb_global_invalidate.
      match goal with |- context [replay_all ?t] =>
        destruct (Hq t (replay_all t) (Hr t)) as (-> & -> & -> & -> & ->) end.
      auto. }
    destruct (_ =? VTD_INV_DESC_IOTLB_DOMAIN).
    { intros [= <- <-]. unfold vtd_iotlb_domain_invalidate.
      match goal with |- context [domain_sync ?t ?x] =>
        destruct (Hq t _ (Hd t x)) as (-> & -> & -> & -> & ->) end.
      auto. }
    destruct (_ =? VTD_INV_DESC_IOTLB_PAGE);
      [|intros [= <- <-]; apply Hq, Hrefl].
    destruct (_ >? _); [intros [= <- <-]; apply Hq, Hrefl|].
    intros H. apply bind_Some in H as (s1 & H & [= <- <-]).
    unfold vtd_iotlb_page_invalidate in H.
    apply bind_Some in H as (u0 & _ & [= <-]).
    match goal with |- context [page_notify ?t ?x ?y ?z ?w] =>
      destruct (Hq t _ (Hp t x y z w)) as (-> & -> & -> & -> & ->) end.
    auto.
Qed.

End DescriptorTheorems.

Section RegisterTheorems.
Context {RH : VTDRegHeader} {PH : VTDPagingHeader} {CH : VTDContextHeader}.
Context {IH : VTDInvHeader} {DH : VTDInvDescHeader}.
Variable z_uninit : Z.
Variable replay_all : IntelIOMMUState -> IntelIOMMUState.
Variable domain_sync : IntelIOMMUState -> Z -> IntelIOMMUState.
Variable page_notify : IntelIOMMUState -> Z -> Z -> Z -> Z -> IntelIOMMUState.

Local Abbreviation iotlb_flush :=
  (vtd_iotlb_flush z_uninit replay_all domain_sync page_notify).
Local Abbreviation handle_iotlb_write :=
  (vtd_handle_iotlb_write z_uninit replay_all domain_sync page_notify).

Lemma land_lnot_same (a m : Z) : Z.land (Z.land a (Z.lnot m)) m = 0.
Proof.
  rewrite <- Z.land_assoc, (Z.land_comm (Z.lnot m)), Z.land_lnot_diag.
  apply Z.land_0_r.
Qed.

(** [vtd_iotlb_flush] returns; it only removes entries, leaves the
    registers alone and reports a granularity of its field. *)
Lemma vtd_iotlb_flush_spec (s : IntelIOMMUState) (val : Z) :
  VTDTlbRegOK DH ->
  (forall t, notify_frame t (replay_all t) /\
             notify_regs_frame t (replay_all t)) ->
  (forall t d, notify_frame t (domain_sync t d) /\
               notify_regs_frame t (domain_sync t d)) ->
  (forall t d a m p, notify_frame t (page_notify t d a m p) /\
                     notify_regs_frame t (page_notify t d a m p)) ->
  exists iaig s1,
    iotlb_flush s val = Some (iaig, s1) /\
    iotlb s1 ⊆ iotlb s /\ csr s1 = csr s /\
    Z.land iaig VTD_TLB_FLUSH_GRANU_MASK_A = iaig /\
    (Z.land val VTD_TLB_FLUSH_GRANU_MASK = VTD_TLB_GLOBAL_FLUSH ->
     iaig = VTD_TLB_GLOBAL_FLUSH_A /\ iotlb s1 = ∅).
Proof.
  intros ROK Hr Hd Hp. unfold vtd_iotlb_flush.
  destruct (Z.eqb_spec (Z.land val VTD_TLB_FLUSH_GRANU_MASK)
              VTD_TLB_GLOBAL_FLUSH) as [Hg | Hg].
  { eexists _, _. split; [reflexivity|]. unfold vtd_iotlb_global_invalidate.
    destruct (Hr (vtd_reset_iotlb s)) as ((-> & _) & (-> & _)).
    split_and!; try reflexivity.
    - apply map_empty_subseteq.
    - apply tlb_global_a_field.
    - auto. }
  destruct (_ =? VTD_TLB_DSI_FLUSH).
  { eexists _, _. split; [reflexivity|]. unfold vtd_iotlb_domain_invalidate.
    match goal with |- context [domain_sync ?t ?d] =>
      destruct (Hd t d) as ((-> & _) & (-> & _)) end.
    split_and!; try reflexivity; try contradiction.
    - apply map_filter_subseteq.
    - apply tlb_dsi_a_field. }
  destruct (_ =? VTD_TLB_PSI_FLUSH).
  2:{ exists 0, s. split_and!; try done. }
  match goal with |- context [?x >? VTD_MAMV] =>
    destruct (Z.gtb_spec x VTD_MAMV) as [Ham | Ham] end.
  { exists 0, s. split_and!; try done. }
  unfold vtd_iotlb_page_invalidate, assert_.
  match goal with |- context [?x <=? VTD_MAMV] =>
    destruct (Z.leb_spec x VTD_MAMV); [|lia] end.
  cbn [mbind option_bind].
  eexists _, _. split; [reflexivity|].
  match goal with |- context [page_notify ?t ?d ?a ?m ?p] =>
    destruct (Hp t d a m p) as ((-> & _) & (-> & _)) end.
  split_and!; try reflexivity; try contradiction.
  - apply map_filter_subseteq.
  - apply tlb_psi_a_field.
Qed.

(** X18.  The handshake of the IOTLB invalidation register.  A write
    without the request bit, or while queued invalidation is enabled,
    changes nothing.  Otherwise the handler returns with the request
    bit cleared and the actual granularity, as [vtd_iotlb_flush]
    gives it (0 for an invalid request), in its field; it only
    removes entries from the leaf translation cache, all of them for
    a global request. *)
Theorem vtd_handle_iotlb_write_handshake (s : IntelIOMMUState) :
  VTDTlbRegOK DH ->
  (forall t, notify_frame t (replay_all t) /\
             notify_regs_frame t (replay_all t)) ->
  (forall t d, notify_frame t (domain_sync t d) /\
               notify_regs_frame t (domain_sync t d)) ->
  (forall t d a m p, notify_frame t (page_notify t d a m p) /\
                     notify_regs_frame t (page_notify t d a m p)) ->
  let val := vtd_get_quad_raw s DMAR_IOTLB_REG in
  exists s',
    handle_iotlb_write s = Some s' /\
    iotlb s' ⊆ iotlb s /\
    if nonzero (Z.land val VTD_TLB_IVT) && negb (qi_enabled s)
    then
      exists iaig s1,
        iotlb_flush s val = Some (iaig, s1) /\
        Z.land (vtd_get_quad_raw s' DMAR_IOTLB_REG) VTD_TLB_IVT = 0 /\
        Z.land (vtd_get_quad_raw s' DMAR_IOTLB_REG)
          VTD_TLB_FLUSH_GRANU_MASK_A = iaig /\
        (Z.land val VTD_TLB_FLUSH_GRANU_MASK = VTD_TLB_GLOBAL_FLUSH ->
         iaig = VTD_TLB_GLOBAL_FLUSH_A /\ iotlb s' = ∅)
    else s' = s.
Proof.
  intros ROK Hr Hd Hp val. unfold vtd_handle_iotlb_write. fold val.
  destruct (nonzero (Z.land val VTD_TLB_IVT)); cbn [andb].
  2:{ exists s. auto. }
  destruct (qi_enabled s); cbn [negb].
  { exists s. auto. }
  destruct (vtd_iotlb_flush_spec s val ROK Hr Hd Hp)
    as (iaig & s1 & Hfl & Hsub & Hcsr & Hfield & Hglob).
  rewrite Hfl. cbn [mbind option_bind].
  eexists. split; [reflexivity|].
  split; [exact Hsub|].
  exists iaig, s1. split; [reflexivity|].
  pose proof tlb_ivt_bit as Hivt. pose proof tlb_granu_a_range as Hma.
  rewrite get_quad_scm_quad_same, get_quad_scm_quad_same.
  rewrite Z.lor_0_r.
  set (v := vtd_get_quad_raw s1 DMAR_IOTLB_REG).
  split_and!.
  - rewrite land_u64 by lia. rewrite Z.land_lor_distr_l.
    rewrite <- Hfield at 1.
    rewrite <- (Z.land_assoc iaig), tlb_ivt_not_granu_a, Z.land_0_r, Z.lor_0_r.
    rewrite <- Z.land_assoc, (Z.land_comm (Z.lnot _) VTD_TLB_IVT), Z.land_assoc.
    rewrite land_u64 by lia. rewrite land_lnot_same. apply Z.land_0_l.
  - rewrite land_u64 by lia. rewrite Z.land_lor_distr_l.
    rewrite land_lnot_same, Hfield. apply Z.lor_0_l.
  - exact Hglob.
Qed.

End RegisterTheorems.


(** ** The second-stage walk always returns *)

Section WalkReturns.
Context {PH : VTDPagingHeader} {CH : VTDContextHeader}.
Variable pe_uninit : VTDPASIDEntry.
Variable pdire_uninit : Z.

Lemma vtd_slpt_level_shift_some (level : Z) :
  level <> 0 -> exists sh, vtd_slpt_level_shift level = Some sh.
Proof.
  intros H. unfold vtd_slpt_level_shift, assert_.
  destruct (Z.eqb_spec level 0); [contradiction|].
  cbn [negb mbind option_bind]. eauto.
Qed.

(** The index into a table is below 512. *)
Lemma vtd_iova_level_offset_range (iova level offset : Z) :
  vtd_iova_level_offset iova level = Some offset -> 0 <= offset < 512.
Proof.
  unfold vtd_iova_level_offset. intros H.
  apply bind_Some in H as (sh & _ & [= <-]).
  replace (u64 (shl1_64 VTD_SL_LEVEL_BITS - 1)) with (Z.ones 9)
    by (vm_compute; reflexivity).
  rewrite Z.land_ones by lia.
  pose proof (Z.mod_pos_bound (Z.shiftr iova sh) (2 ^ 9) ltac:(lia)) as Hm.
  rewrite u32_small; lia.
Qed.

Lemma vtd_iova_to_slpte_loop_returns (s : IntelIOMMUState)
    (ce : VTDContextEntry) (iova : Z) (is_write : bool) (aw pasid : Z)
    (level : nat) :
  512 <= VTD_SL_PT_ENTRY_NR ->
  (1 <= level <= 4)%nat ->
  forall addr reads writes,
    exists r,
      vtd_iova_to_slpte_loop pe_uninit pdire_uninit s ce iova is_write aw
        pasid level addr reads writes = Some r /\
      match r with
      | WalkLeaf _ lv _ _ => 1 <= lv <= Z.of_nat level
      | WalkFault _ _ _ => True
      end.
Proof.
  intros Hnr. induction level as [|level IHl]; intros Hl addr reads writes;
    [lia|].
  cbn [vtd_iova_to_slpte_loop].
  destruct (vtd_slpt_level_shift_some (Z.of_nat (S level)) ltac:(lia))
    as (sh & Hsh).
  destruct (vtd_iova_level_offset iova (Z.of_nat (S level))) as [offset|] eqn:Ho.
  2:{ unfold vtd_iova_level_offset in Ho. rewrite Hsh in Ho. discriminate. }
  pose proof (vtd_iova_level_offset_range _ _ _ Ho) as Hor.
  cbn [mbind option_bind].
  unfold vtd_get_slpte at 1, assert_.
  destruct (Z.ltb_spec offset VTD_SL_PT_ENTRY_NR); [|lia].
  cbn [mbind option_bind].
  match goal with |- context [match ?m with Some x => Some x | None => _ end] =>
    destruct m as [slpte|] end; cbn [mbind option_bind].
  2:{ rewrite Z.eqb_refl.
      destruct (_ =? _); (eexists; split; [reflexivity | exact I]). }
  destruct (slpte =? u64 (-1));
    [destruct (_ =? _); (eexists; split; [reflexivity | exact I])|].
  destruct (negb _); [eexists; split; [reflexivity | exact I]|].
  unfold vtd_slpte_nonzero_rsvd, assert_, VTD_SPTE_RSVD_LEN.
  destruct (Z.ltb_spec (Z.of_nat (S level)) 5); [|lia].
  destruct (Z.eqb_spec (Z.of_nat (S level)) 0); [lia|].
  cbn [negb mbind option_bind].
  destruct (nonzero (Z.land slpte _));
    [eexists; split; [reflexivity | exact I]|].
  unfold vtd_is_last_slpte, VTD_SL_PT_LEVEL.
  destruct (Z.eqb_spec (Z.of_nat (S level)) 1) as [H1 | H1]; cbn [orb].
  { eexists. split; [reflexivity|]. cbn. lia. }
  destruct (nonzero _).
  { eexists. split; [reflexivity|]. cbn. lia. }
  destruct (IHl ltac:(lia) (vtd_get_slpte_addr slpte aw)
              (reads && nonzero (Z.land slpte VTD_SL_R))
              (writes && nonzero (Z.land slpte VTD_SL_W))) as (r & Hr & Hlv).
  exists r. split; [exact Hr|]. destruct r; [exact I | lia].
Qed.

(** X19.  The second-stage walk always returns.  For a table of 1 to 4
    levels, none of the assertions under [vtd_iova_to_slpte] (a level
    of 0, a level beyond the reserved-bit tables, an index beyond the
    table) can fail, whatever guest memory and the address hold; and a
    successful walk ends at a level between 1 and the level of the
    table. *)
Theorem vtd_iova_to_slpte_returns (s : IntelIOMMUState) (ce : VTDContextEntry)
    (iova : Z) (is_write : bool) (p0 l0 : Z) (r0 w0 : bool) (aw pasid : Z) :
  512 <= VTD_SL_PT_ENTRY_NR ->
  1 <= vtd_get_iova_level pe_uninit pdire_uninit s ce pasid <= 4 ->
  exists w,
    vtd_iova_to_slpte pe_uninit pdire_uninit s ce iova is_write p0 l0 r0 w0
      aw pasid = Some w /\
    (w_ret w = VTD_SUCCESS ->
     1 <= w_level w <= vtd_get_iova_level pe_uninit pdire_uninit s ce pasid).
Proof.
  intros Hnr Hl. unfold vtd_iova_to_slpte.
  destruct (negb _).
  { eexists. split; [reflexivity|]. discriminate. }
  destruct (vtd_iova_to_slpte_loop_returns s ce iova is_write aw pasid
              (Z.to_nat (vtd_get_iova_level pe_uninit pdire_uninit s ce pasid))
              Hnr ltac:(lia)
              (vtd_get_iova_pgtbl_base pe_uninit pdire_uninit s ce pasid)
              r0 w0) as (r & -> & Hr).
  cbn [mbind option_bind]. destruct r as [fr r1 w1 | pte lv r1 w1].
  { eexists. split; [reflexivity|]. discriminate. }
  unfold vtd_slpte_interrupt_check.
  destruct (vtd_slpt_level_shift_some lv ltac:(lia)) as (sh & Hsh).
  unfold vtd_slpt_level_page_mask. rewrite Hsh. cbn [mbind option_bind].
  destruct (_ || _); eexists; (split; [reflexivity|]); cbn; intros _; lia.
Qed.

End WalkReturns.


(** ** The first-stage walk always returns *)

Section FirstStageReturns.
Context {PH : VTDPagingHeader} {CH : VTDContextHeader}.

Lemma vtd_flpt_level_shift_some (level : Z) :
  level <> 0 -> exists sh, vtd_flpt_level_shift level = Some sh.
Proof.
  intros H. unfold vtd_flpt_level_shift, assert_.
  destruct (Z.eqb_spec level 0); [contradiction|].
  cbn [negb mbind option_bind]. eauto.
Qed.

(** The index into a first-stage table is below the number of index
    values of a level. *)
Lemma vtd_iova_fl_level_offset_range (iova level offset : Z) :
  0 <= VTD_FL_LEVEL_BITS < 64 ->
  vtd_iova_fl_level_offset iova level = Some offset ->
  0 <= offset < 2 ^ VTD_FL_LEVEL_BITS.
Proof.
  intros Hb. unfold vtd_iova_fl_level_offset. intros H.
  apply bind_Some in H as (sh & _ & [= <-]).
  assert (Hp : 0 < 2 ^ VTD_FL_LEVEL_BITS) by (apply Z.pow_pos_nonneg; lia).
  assert (Hlt : 2 ^ VTD_FL_LEVEL_BITS < 2 ^ 64)
    by (apply Z.pow_lt_mono_r; lia).
  assert (Hm : u64 (shl1_64 VTD_FL_LEVEL_BITS - 1) = Z.ones VTD_FL_LEVEL_BITS).
  { unfold shl1_64. rewrite Z.shiftl_1_l, (u64_small (2 ^ _)) by lia.
    rewrite u64_small by lia. rewrite Z.ones_equiv. lia. }
  rewrite Hm, Z.land_ones by lia.
  pose proof (Z.mod_pos_bound (Z.shiftr iova sh) (2 ^ VTD_FL_LEVEL_BITS) Hp)
    as Hr.
  unfold u32. split; [apply Z.mod_pos_bound; lia|].
  eapply Z.le_lt_trans; [apply Z.mod_le; lia | lia].
Qed.

Lemma vtd_iova_to_flpte_loop_returns (s : IntelIOMMUState) (pe : VTDPASIDEntry)
    (iova : Z) (is_write : bool) (aw : Z) (level : nat) :
  VTD_FL_PT_LEVEL = 1 ->
  0 <= VTD_FL_LEVEL_BITS < 64 ->
  2 ^ VTD_FL_LEVEL_BITS <= VTD_FL_PT_ENTRY_NR ->
  (1 <= level)%nat ->
  forall addr reads writes,
    exists r,
      vtd_iova_to_flpte_loop s pe iova is_write aw level addr reads writes
        = Some r /\
      match r with
      | WalkLeaf _ lv _ _ => 1 <= lv <= Z.of_nat level
      | WalkFault _ _ _ => True
      end.
Proof.
  intros Hpt Hb Hnr. induction level as [|level IHl];
    intros Hl addr reads writes; [lia|].
  cbn [vtd_iova_to_flpte_loop].
  destruct (vtd_flpt_level_shift_some (Z.of_nat (S level)) ltac:(lia))
    as (sh & Hsh).
  destruct (vtd_iova_fl_level_offset iova (Z.of_nat (S level)))
    as [offset|] eqn:Ho.
  2:{ unfold vtd_iova_fl_level_offset in Ho. rewrite Hsh in Ho. discriminate. }
  pose proof (vtd_iova_fl_level_offset_range _ _ _ Hb Ho) as Hor.
  cbn [mbind option_bind].
  unfold vtd_get_flpte at 1, assert_.
  destruct (Z.ltb_spec offset VTD_FL_PT_ENTRY_NR); [|lia].
  cbn [mbind option_bind].
  match goal with |- context [match ?m with Some x => Some x | None => _ end] =>
    destruct m as [flpte|] end; cbn [mbind option_bind].
  2:{ rewrite Z.eqb_refl.
      destruct (_ =? _); (eexists; split; [reflexivity | exact I]). }
  destruct (flpte =? u64 (-1));
    [destruct (_ =? _); (eexists; split; [reflexivity | exact I])|].
  destruct (negb _); [eexists; split; [reflexivity | exact I]|].
  destruct (_ && _); [eexists; split; [reflexivity | exact I]|].
  unfold vtd_is_last_flpte. rewrite Hpt.
  destruct (Z.eqb_spec (Z.of_nat (S level)) 1) as [H1 | H1]; cbn [orb].
  { eexists. split; [reflexivity|]. cbn. lia. }
  destruct (nonzero _).
  { eexists. split; [reflexivity|]. cbn. lia. }
  destruct (IHl ltac:(lia) (vtd_get_flpte_addr flpte aw) true
              (writes && nonzero (Z.land flpte VTD_FL_RW_MASK)))
    as (r & Hr & Hlv).
  exists r. split; [exact Hr|]. destruct r; [exact I | lia].
Qed.

(** X20.  The first-stage walk always returns.  With the leaf level
    numbered 1 and tables that hold an entry for every index of a
    level, none of the assertions under [vtd_iova_to_flpte] (a level
    of 0, an index beyond the table) can fail for a table of one
    level or more, whatever the address and guest memory hold; and a
    successful walk ends at a level between 1 and the level of the
    table. *)
Theorem vtd_iova_to_flpte_returns (s : IntelIOMMUState) (pe : VTDPASIDEntry)
    (iova : Z) (is_write : bool) (p0 l0 : Z) (r0 w0 : bool) (aw : Z) :
  VTD_FL_PT_LEVEL = 1 ->
  0 <= VTD_FL_LEVEL_BITS < 64 ->
  2 ^ VTD_FL_LEVEL_BITS <= VTD_FL_PT_ENTRY_NR ->
  1 <= vtd_pe_get_flpt_level pe ->
  exists w,
    vtd_iova_to_flpte s pe iova is_write p0 l0 r0 w0 aw = Some w /\
    (w_ret w = VTD_SUCCESS -> 1 <= w_level w <= vtd_pe_get_flpt_level pe).
Proof.
  intros Hpt Hb Hnr Hl. unfold vtd_iova_to_flpte.
  destruct (vtd_iova_to_flpte_loop_returns s pe iova is_write aw
              (Z.to_nat (vtd_pe_get_flpt_level pe)) Hpt Hb Hnr ltac:(lia)
              (vtd_pe_get_flpt_base pe) r0 w0) as (r & -> & Hr).
  cbn [mbind option_bind]. destruct r as [fr r1 w1 | pte lv r1 w1].
  { eexists. split; [reflexivity|]. discriminate. }
  eexists. split; [reflexivity|]. cbn. intros _. lia.
Qed.

End FirstStageReturns.

(** ** A validated context entry and the walk *)

Section ValidatedContext.
Context {PH : VTDPagingHeader} {CH : VTDContextHeader}.
Variable pe_uninit : VTDPASIDEntry.
Variable pdire_uninit : Z.
Variable re_uninit : VTDRootEntry.

(** X21.  Validation guards the walk.  In legacy mode a context entry
    that [vtd_dev_to_context_entry] returns with success is present,
    free of reserved bits, of a supported level and of an accepted
    translation type; hence, when the capability register advertises
    no more than four levels, no second-stage walk through it can
    fail an assertion. *)
Theorem vtd_dev_to_context_entry_guards_walk (s : IntelIOMMUState)
    (bus_num devfn : Z) (ce0 ce : VTDContextEntry) :
  root_scalable s = false ->
  512 <= VTD_SL_PT_ENTRY_NR ->
  (forall l, 0 <= l < 2 ^ 32 -> vtd_is_level_supported s l = true ->
             1 <= l <= 4) ->
  vtd_dev_to_context_entry pe_uninit pdire_uninit re_uninit s bus_num devfn
    ce0 = (VTD_SUCCESS, ce) ->
  vtd_ce_present ce = true /\
  vtd_context_entry_rsvd_bits_check s ce = VTD_SUCCESS /\
  vtd_is_level_supported s (vtd_ce_get_level ce) = true /\
  vtd_ce_type_check s ce = true /\
  forall iova is_write p0 l0 r0 w0 aw pasid,
    exists w,
      vtd_iova_to_slpte pe_uninit pdire_uninit s ce iova is_write p0 l0 r0
        w0 aw pasid = Some w.
Proof.
  intros Hrs Hnr Hcap. unfold vtd_dev_to_context_entry. rewrite Hrs.
  destruct (vtd_get_root_entry _ _ _) as [[|fr] re]; [|discriminate].
  destruct (negb (vtd_root_entry_present _ _ _)); [discriminate|].
  destruct (vtd_root_entry_rsvd_bits_check _ _); [|discriminate].
  destruct (vtd_get_context_entry_from_root _ _ _ _) as [[|fr] ce1];
    [|discriminate].
  destruct (vtd_ce_present ce1) eqn:Hp; cbn [negb]; [|discriminate].
  destruct (vtd_context_entry_rsvd_bits_check s ce1) eqn:Hr; [|discriminate].
  destruct (vtd_is_level_supported s (vtd_ce_get_level ce1)) eqn:Hs;
    cbn [negb andb]; [|discriminate].
  destruct (vtd_ce_type_check s ce1) eqn:Ht; cbn [negb]; [|discriminate].
  intros [= <-]. split_and!; auto.
  intros iova is_write p0 l0 r0 w0 aw pasid.
  assert (Hl : 1 <= vtd_get_iova_level pe_uninit pdire_uninit s ce1 pasid <= 4).
  { unfold vtd_get_iova_level. rewrite Hrs.
    apply Hcap; [|exact Hs].
    unfold vtd_ce_get_level, u32. apply Z.mod_pos_bound. lia. }
  unfold vtd_iova_to_slpte.
  destruct (negb _); [eauto|].
  destruct (vtd_iova_to_slpte_loop_returns pe_uninit pdire_uninit s ce1 iova
              is_write aw pasid
              (Z.to_nat (vtd_get_iova_level pe_uninit pdire_uninit s ce1
                           pasid))
              Hnr ltac:(lia)
              (vtd_get_iova_pgtbl_base pe_uninit pdire_uninit s ce1 pasid)
              r0 w0) as (r & -> & Hlv).
  cbn [mbind option_bind]. destruct r as [fr r1 w1 | pte lv r1 w1]; [eauto|].
  unfold vtd_slpte_interrupt_check, vtd_slpt_level_page_mask.
  destruct (vtd_slpt_level_shift_some lv ltac:(lia)) as (sh & ->).
  cbn [mbind option_bind]. destruct (_ || _); eauto.
Qed.

End ValidatedContext.


(** ** The test bench of the events and the invalidation requests *)

Section RequestBench.
Import Example RequestExample.
#[local] Existing Instance reg_header.
#[local] Existing Instance paging_header.
#[local] Existing Instance context_header.
#[local] Existing Instance queue_header.
#[local] Existing Instance event_header.
#[local] Existing Instance inv_header.
#[local] Existing Instance inv_desc_header.

Ltac run := vm_compute; reflexivity.

(** The instances of the headers are well formed. *)
Lemma fault_event_ok : VTDFaultEventOK reg_header.
Proof. constructor; try (cbn; lia); reflexivity. Qed.

Lemma event_header_ok : VTDEventHeaderOK reg_header event_header.
Proof. constructor; try (cbn; lia); reflexivity. Qed.

Lemma tlb_reg_ok : VTDTlbRegOK inv_desc_header.
Proof. constructor; try (cbn; lia); reflexivity. Qed.

Lemma notify_frame_refl (s : IntelIOMMUState) : notify_frame s s.
Proof. unfold notify_frame. auto. Qed.

Lemma notify_regs_frame_refl (s : IntelIOMMUState) : notify_regs_frame s s.
Proof. unfold notify_regs_frame. auto 10. Qed.

Lemma state_cached_iotlb_wf : iotlb_wf state_cached.
Proof.
  intros k e Hk.
  unfold state_cached, bench_state, tlb_page1 in Hk. cbn [iotlb] in Hk.
  apply lookup_singleton_Some in Hk as [<- <-]. split; run.
Qed.

(** X1 on the test bench.
    A first fault on the device after reset sends one message and
    leaves Interrupt Pending clear. *)
Lemma vtd_generate_fault_event_edge_witness :
  exists s',
    vtd_generate_fault_event state0 0 = Some s' /\
    msi_log s' = [(0, 0)] /\
    vtd_fault_event_pending s' = false.
Proof.
  destruct (vtd_generate_fault_event_edge state0 0 reg_header_ok
              fault_event_ok) as (s' & Hs & _ & _ & Hc).
  exists s'. split; [exact Hs|].
  change (msi_log s' = [] ++ [(0, 0)] /\
          vtd_fault_event_pending s' = false /\
          vtd_fault_event_masked s' = false) in Hc.
  destruct Hc as (Hm & Hp & _). auto.
Defined.

(** X2 on the test bench.
    With its one fault recording register present, the device has a
    primary fault pending. *)
Lemma vtd_update_fsts_ppf_pending_witness :
  exists s',
    vtd_update_fsts_ppf state_full = Some s' /\
    vtd_fault_pending s' = true.
Proof.
  destruct (vtd_update_fsts_ppf_pending state_full reg_header_ok
              fault_event_ok) as (s' & Hs & _ & _ & _ & [_ Hp] & _).
  exists s'. split; [exact Hs|]. apply Hp.
  exists 0. split; [cbn; lia | run].
Defined.

(** X3 on the test bench.
    A fault on the device after reset is recorded in register 0 and
    the cursor wraps to 0 in the ring of one register. *)
Lemma vtd_report_frcd_fault_advance_witness :
  exists s',
    vtd_report_frcd_fault state0 0x10 0x10 0x1000 = Some s' /\
    next_frcd_reg s' = 0 /\ vtd_fault_pending s' = true.
Proof.
  destruct (vtd_report_frcd_fault_advance state0 0x10 0x10 0x1000
              reg_header_ok fault_event_ok) as (s' & Hs & Hn & Hp & _).
  - cbn. lia.
  - reflexivity.
  - reflexivity.
  - reflexivity.
  - exists s'. auto.
Defined.

(** X4 on the test bench.
    A write to the fault event control register with a fault event
    pending and unmasked sends the message and clears the flag. *)
Lemma vtd_handle_fectl_write_delivers_witness :
  exists s',
    vtd_handle_fectl_write state_event_pending = Some s' /\
    msi_log s' = [(0, 0)] /\
    vtd_fault_event_pending s' = false.
Proof.
  destruct (vtd_handle_fectl_write_delivers state_event_pending reg_header_ok
              fault_event_ok) as (s' & Hs & _ & _ & Hc).
  exists s'. split; [exact Hs|].
  assert (E : vtd_fault_event_pending state_event_pending
              && negb (vtd_fault_event_masked state_event_pending) = true)
    by run.
  rewrite E in Hc.
  assert (Ea : vtd_get_long_raw state_event_pending DMAR_FEADDR_REG = 0) by run.
  assert (Ed : vtd_get_long_raw state_event_pending DMAR_FEDATA_REG = 0) by run.
  rewrite Ea, Ed in Hc.
  destruct Hc as (Hm & Hp & _). auto.
Defined.

(** X5 on the test bench.
    A write to the fault status register with nothing left to report
    retires the pending fault event. *)
Lemma vtd_handle_fsts_write_retires_witness :
  msi_log (vtd_handle_fsts_write state_event_pending) = [] /\
  vtd_fault_event_pending (vtd_handle_fsts_write state_event_pending) = false.
Proof.
  destruct (vtd_handle_fsts_write_retires state_event_pending reg_header_ok
              fault_event_ok) as (_ & Hm & _ & _ & _ & Hp).
  split; [exact Hm|]. rewrite Hp. run.
Defined.

(** X6 on the test bench.
    The first completion event on the device after reset sets the
    wait-complete flag and sends one message. *)
Lemma vtd_generate_completion_event_edge_witness :
  exists s',
    vtd_generate_completion_event state0 = Some s' /\
    vtd_wait_complete s' = true /\
    msi_log s' = [(0, 0)] /\
    vtd_inv_event_pending s' = false.
Proof.
  destruct (vtd_generate_completion_event_edge state0 event_header_ok)
    as (s' & Hs & _ & _ & Hc).
  exists s'. split; [exact Hs|].
  change (vtd_wait_complete s' = true /\
          msi_log s' = [] ++ [(0, 0)] /\
          vtd_inv_event_pending s' = false) in Hc.
  exact Hc.
Defined.

(** X7 on the test bench.
    A global invalidation of the cached device: the cached page is
    gone. *)
Lemma vtd_iotlb_global_invalidate_misses_witness :
  iotlb (vtd_iotlb_global_invalidate notify_none state_cached) = ∅ /\
  vtd_lookup_iotlb (vtd_iotlb_global_invalidate notify_none state_cached)
    0 (2 ^ 32 - 1) 0x1000 = Some None.
Proof.
  destruct (vtd_iotlb_global_invalidate_misses notify_none state_cached
              notify_frame_refl) as (He & Hl & _).
  split; [exact He | apply Hl].
Defined.

(** X8 on the test bench.
    An invalidation of domain 1 on the cached device: the page of
    domain 1 is no longer served. *)
Lemma vtd_iotlb_domain_invalidate_removes_witness :
  context_cache_gen (vtd_iotlb_domain_invalidate domain_sync_none
                       state_cached 1) = 1 /\
  forall e,
    vtd_lookup_iotlb (vtd_iotlb_domain_invalidate domain_sync_none
                        state_cached 1) 0 (2 ^ 32 - 1) 0x1000
      = Some (Some e) ->
    iotlb_domain_id e <> 1.
Proof.
  destruct (vtd_iotlb_domain_invalidate_removes domain_sync_none state_cached
              1 (fun t d => notify_frame_refl t)) as (_ & Hl & _ & Hg).
  split; [exact Hg|]. intros e. apply Hl.
Defined.

(** X9 on the test bench.
    An invalidation of the 4 KiB page [0x1000] of domain 1 on the
    cached device. *)
Lemma vtd_iotlb_page_invalidate_flushes_witness :
  exists s',
    vtd_iotlb_page_invalidate 0 page_notify_none state_cached 1 0x1000 0
      = Some s' /\
    iotlb_wf s' /\
    forall e,
      vtd_lookup_iotlb s' 0 (2 ^ 32 - 1) 0x1fff = Some (Some e) ->
      iotlb_domain_id e <> 1.
Proof.
  destruct (vtd_iotlb_page_invalidate 0 page_notify_none state_cached 1
              0x1000 0) as [s'|] eqn:E; [|discriminate E].
  exists s'. split; [reflexivity|].
  destruct (vtd_iotlb_page_invalidate_flushes 0 page_notify_none state_cached
              s' 1 0x1000 0 (fun t d a m p => notify_frame_refl t))
    as (Hwf & _ & _ & Hl).
  - lia.
  - lia.
  - exact state_cached_iotlb_wf.
  - exact E.
  - split; [exact Hwf|]. intros e. apply Hl; [lia | reflexivity].
Defined.

(** X10 on the test bench.
    A reset of the caches of the cached device. *)
Lemma vtd_reset_caches_clears_witness :
  iotlb (vtd_reset_caches notify_none state_cached) = ∅ /\
  context_cache_gen (vtd_reset_caches notify_none state_cached) = 1 /\
  forall a,
    vtd_address_spaces (vtd_reset_caches notify_none state_cached) !! as_key0
      = Some a ->
    as_cache_gen a <> 1.
Proof.
  destruct (vtd_reset_caches_clears notify_none state_cached
              notify_frame_refl) as (Hi & _ & Hg & _ & Hs & _).
  split; [exact Hi|]. split; [exact Hg|].
  intros a Ha. rewrite <- Hg. exact (Hs as_key0 a Ha).
Defined.

(** X11 on the test bench.
    A device-selective invalidation for source-id 0 on the cached
    device zeroes the generation of its address space. *)
Lemma vtd_context_device_invalidate_zeroes_witness :
  context_cache_gen
    (vtd_context_device_invalidate device_sync_none state_cached 0 0) = 1 /\
  forall a',
    vtd_address_spaces
      (vtd_context_device_invalidate device_sync_none state_cached 0 0)
      !! as_key0 = Some a' ->
    as_cache_gen a' = 0.
Proof.
  destruct (vtd_context_device_invalidate_zeroes device_sync_none
              state_cached 0 0 (fun t k d => notify_frame_refl t))
    as (Hg & _ & _ & Hz).
  - cbn. lia.
  - split; [exact Hg|]. intros a' Ha'.
    apply (Hz as_key0 (as_dev0 ce_dev0 1) a'); [|run|exact Ha'].
    unfold state_cached, bench_state. cbn [vtd_address_spaces].
    apply lookup_singleton_eq.
Defined.

(** X12 on the test bench.
    A first write to page [0x1000] on the device after reset walks
    the tables and caches the leaf: the cache is consistent
    afterwards. *)
Lemma vtd_do_iommu_translate_keeps_wf_witness :
  exists ok e s',
    vtd_do_iommu_translate ce0 pe0 0 re0 0 state0 as_key0 0 0 0x1000 true
      zero_entry = Some (ok, e, s') /\
    iotlb_wf s'.
Proof.
  destruct (vtd_do_iommu_translate ce0 pe0 0 re0 0 state0 as_key0 0 0 0x1000
              true zero_entry) as [[[ok e] s']|] eqn:Ht.
  - exists ok, e, s'. split; [reflexivity|].
    apply (vtd_do_iommu_translate_keeps_wf ce0 pe0 0 re0 0 state0 as_key0 0 0
             0x1000 true zero_entry e ok s').
    + apply iotlb_wf_empty. reflexivity.
    + exact Ht.
  - assert (Hn : match vtd_do_iommu_translate ce0 pe0 0 re0 0 state0 as_key0
                         0 0 0x1000 true zero_entry with
                 | Some _ => true
                 | None => false
                 end = true) by run.
    rewrite Ht in Hn. discriminate Hn.
Defined.

(** X13 on the test bench.
    The same write, repeated on the state the first one leaves, is
    served with the same entry and changes nothing more. *)
Lemma vtd_do_iommu_translate_repeat_witness :
  exists e s',
    vtd_do_iommu_translate ce0 pe0 0 re0 0 state0 as_key0 0 0 0x1000 true
      zero_entry = Some (true, e, s') /\
    vtd_do_iommu_translate ce0 pe0 0 re0 0 s' as_key0 0 0 0x1000 true
      zero_entry = Some (true, e, s').
Proof.
  assert (Hn : match vtd_do_iommu_translate ce0 pe0 0 re0 0 state0 as_key0
                       0 0 0x1000 true zero_entry with
               | Some (ok, e, _) => ok = true /\ addr_mask e = 0xfff
               | None => False
               end) by (vm_compute; split; reflexivity).
  destruct (vtd_do_iommu_translate ce0 pe0 0 re0 0 state0 as_key0 0 0 0x1000
              true zero_entry) as [[[ok e] s']|] eqn:Ht; [|contradiction].
  destruct Hn as [-> Hm].
  exists e, s'. split; [reflexivity|].
  apply (vtd_do_iommu_translate_repeat ce0 pe0 0 re0 0 state0 as_key0 0 0
           0x1000 true zero_entry zero_entry e s').
  - reflexivity.
  - exact Ht.
  - rewrite Hm. lia.
Defined.

(** X14 on the test bench.
    A queued global IOTLB invalidation on the cached device is
    accepted and empties the cache. *)
Lemma vtd_process_iotlb_desc_shrinks_witness :
  exists s',
    InvDesc.vtd_process_iotlb_desc 0 notify_none domain_sync_none
      page_notify_none state_cached desc_iotlb_global = Some (true, s') /\
    iotlb s' = ∅.
Proof.
  destruct (vtd_process_iotlb_desc_shrinks 0 notify_none domain_sync_none
              page_notify_none state_cached desc_iotlb_global
              notify_frame_refl (fun t d => notify_frame_refl t)
              (fun t d a m p => notify_frame_refl t))
    as (b & s' & Hs & _ & _ & _ & _ & _ & Hg).
  assert (Hb : match InvDesc.vtd_process_iotlb_desc 0 notify_none
                       domain_sync_none page_notify_none state_cached
                       desc_iotlb_global with
               | Some (b, _) => b
               | None => false
               end = true) by reflexivity.
  rewrite Hs in Hb. subst b.
  exists s'. split; [exact Hs|]. apply Hg; reflexivity.
Defined.

(** X15 on the test bench.
    A queued global context-cache invalidation on the cached device
    leaves its cached context entry stale and the cached page in
    place. *)
Lemma vtd_process_context_cache_desc_global_witness :
  exists s',
    InvDesc.vtd_process_context_cache_desc device_sync_none notify_none
      state_cached desc_cc_global = Some (true, s') /\
    (forall k a, vtd_address_spaces s' !! k = Some a ->
                 as_cache_gen a <> context_cache_gen s') /\
    iotlb s' = iotlb state_cached.
Proof.
  destruct (vtd_process_context_cache_desc_global device_sync_none
              notify_none state_cached desc_cc_global resync_id_frame)
    as (s' & Hs & _ & _ & Hne & Hi).
  - cbn. lia.
  - exact state_cached_wf.
  - reflexivity.
  - reflexivity.
  - right. reflexivity.
  - exists s'. auto.
Defined.

(** X16 on the test bench.
    A wait descriptor with the status-write and the interrupt flag
    both set stops the device model. *)
Lemma vtd_process_wait_desc_outcome_witness :
  InvDesc.vtd_process_wait_desc dma_write_ok state0 desc_wait_sw_if = None.
Proof.
  destruct (vtd_process_wait_desc_outcome dma_write_ok state0 desc_wait_sw_if
              event_header_ok) as ([_ Hn] & _).
  - reflexivity.
  - reflexivity.
  - apply Hn. split; reflexivity.
Defined.

(** X17 on the test bench.
    The handlers of the test bench, without observers, leave the
    queue alone. *)
Lemma inv_desc_handlers_queue_frame_witness :
  desc_handler_frame (InvDesc.vtd_process_wait_desc dma_write_ok) /\
  desc_handler_frame
    (InvDesc.vtd_process_context_cache_desc device_sync_none notify_none) /\
  desc_handler_frame
    (InvDesc.vtd_process_iotlb_desc 0 notify_none domain_sync_none
       page_notify_none).
Proof.
  apply (inv_desc_handlers_queue_frame 0 notify_none domain_sync_none
           page_notify_none device_sync_none notify_none dma_write_ok
           event_header_ok).
  - cbn. lia.
  - cbn. lia.
  - exact notify_regs_frame_refl.
  - intros t d. apply notify_regs_frame_refl.
  - intros t d a m p. apply notify_regs_frame_refl.
  - intros t k d. apply notify_regs_frame_refl.
  - exact notify_regs_frame_refl.
  - intros t a v. apply notify_regs_frame_refl.
Defined.

(** X18 on the test bench.
    A global flush requested through the register, with queued
    invalidation disabled: the request bit is cleared, the global
    granularity is reported and the cache is empty. *)
Lemma vtd_handle_iotlb_write_handshake_witness :
  exists s',
    vtd_handle_iotlb_write 0 notify_none domain_sync_none page_notify_none
      state_flush = Some s' /\
    Z.land (vtd_get_quad_raw s' DMAR_IOTLB_REG) VTD_TLB_IVT = 0 /\
    Z.land (vtd_get_quad_raw s' DMAR_IOTLB_REG) VTD_TLB_FLUSH_GRANU_MASK_A
      = VTD_TLB_GLOBAL_FLUSH_A /\
    iotlb s' = ∅.
Proof.
  destruct (vtd_handle_iotlb_write_handshake 0 notify_none domain_sync_none
              page_notify_none state_flush tlb_reg_ok
              (fun t => conj (notify_frame_refl t) (notify_regs_frame_refl t))
              (fun t d =>
                 conj (notify_frame_refl t) (notify_regs_frame_refl t))
              (fun t d a m p =>
                 conj (notify_frame_refl t) (notify_regs_frame_refl t)))
    as (s' & Hs & _ & Hc).
  assert (E : nonzero (Z.land (vtd_get_quad_raw state_flush DMAR_IOTLB_REG)
                         VTD_TLB_IVT) && negb (qi_enabled state_flush) = true)
    by run.
  rewrite E in Hc. destruct Hc as (iaig & s1 & _ & Hivt & Hgr & Hg).
  destruct Hg as [-> He]; [run|].
  exists s'. auto.
Defined.

(** X19 on the test bench.
    The walk of page [0x1000] through the four-level table of
    device 0 returns. *)
Lemma vtd_iova_to_slpte_returns_witness :
  exists w,
    vtd_iova_to_slpte pe0 0 state0 ce_dev0 0x1000 true 0 0 true true 48
      (2 ^ 32 - 1) = Some w /\
    (w_ret w = VTD_SUCCESS -> 1 <= w_level w <= 4).
Proof.
  assert (E : vtd_get_iova_level pe0 0 state0 ce_dev0 (2 ^ 32 - 1) = 4)
    by run.
  destruct (vtd_iova_to_slpte_returns pe0 0 state0 ce_dev0 0x1000 true 0 0
              true true 48 (2 ^ 32 - 1)) as (w & Hw & Hl).
  - cbn. lia.
  - rewrite E. lia.
  - exists w. split; [exact Hw|]. rewrite E in Hl. exact Hl.
Defined.

End RequestBench.


Section WalkBench.
Import Example.
#[local] Existing Instance reg_header.
#[local] Existing Instance paging_header.
#[local] Existing Instance context_header.

Ltac run := vm_compute; reflexivity.

(** The capability register of the test bench advertises tables of
    three and of four levels. *)
Lemma state0_levels (l : Z) :
  0 <= l < 2 ^ 32 -> vtd_is_level_supported state0 l = true -> 1 <= l <= 4.
Proof.
  intros Hl. unfold vtd_is_level_supported.
  assert (E : Z.land VTD_CAP_SAGAW_MASK (cap state0)
              = Z.lor (2 ^ 9) (2 ^ 10)) by run.
  rewrite E.
  change VTD_CAP_SAGAW_SHIFT with 8.
  set (n := u32 (l - 2 + 8)).
  assert (Hn : 0 <= n < 2 ^ 32) by (apply Z.mod_pos_bound; lia).
  intros H. apply nonzero_true in H.
  destruct (Z.eq_dec n 9) as [H9 | H9];
    [|destruct (Z.eq_dec n 10) as [H10 | H10]].
  - subst n. unfold u32 in H9.
    destruct (Z_lt_le_dec (l + 6) (2 ^ 32)) as [Hs | Hs].
    + rewrite Z.mod_small in H9 by lia. lia.
    + replace (l - 2 + 8) with (l + 6 - 2 ^ 32 + 1 * 2 ^ 32) in H9 by lia.
      rewrite Z.mod_add, Z.mod_small in H9 by lia. lia.
  - subst n. unfold u32 in H10.
    destruct (Z_lt_le_dec (l + 6) (2 ^ 32)) as [Hs | Hs].
    + rewrite Z.mod_small in H10 by lia. lia.
    + replace (l - 2 + 8) with (l + 6 - 2 ^ 32 + 1 * 2 ^ 32) in H10 by lia.
      rewrite Z.mod_add, Z.mod_small in H10 by lia. lia.
  - exfalso. apply H. unfold shl1_64, u64. rewrite Z.shiftl_1_l.
    apply Z.bits_inj'. intros i Hi.
    rewrite Z.land_spec, Z.lor_spec, Z.bits_0.
    rewrite !Z.pow2_bits_eqb by lia.
    destruct (Z_lt_le_dec i 64) as [Hi64 | Hi64].
    + rewrite Z.mod_pow2_bits_low by lia.
      rewrite Z.pow2_bits_eqb by lia.
      destruct (Z.eqb_spec 9 i) as [E9 | E9],
               (Z.eqb_spec 10 i) as [E10 | E10],
               (Z.eqb_spec n i) as [En | En];
        cbn [orb andb]; try reflexivity; lia.
    + rewrite Z.mod_pow2_bits_high by lia. apply andb_false_r.
Qed.

(** X20 on the test bench.
    The first-stage walk of page [0x1000] through the four-level
    table that the PASID entry selects returns. *)
Lemma vtd_iova_to_flpte_returns_witness :
  exists w,
    vtd_iova_to_flpte state0 pe_fl 0x1000 true 0 0 true true 48 = Some w /\
    (w_ret w = VTD_SUCCESS -> 1 <= w_level w <= 4).
Proof.
  assert (E : vtd_pe_get_flpt_level pe_fl = 4) by run.
  destruct (vtd_iova_to_flpte_returns state0 pe_fl 0x1000 true 0 0 true true
              48) as (w & Hw & Hl).
  - reflexivity.
  - cbn. lia.
  - cbn. lia.
  - rewrite E. lia.
  - exists w. split; [exact Hw|]. rewrite E in Hl. exact Hl.
Defined.

(** X21 on the test bench.
    The context entry of device 0 passes the validation, and the walk
    of page [0x1000] through it returns. *)
Lemma vtd_dev_to_context_entry_guards_walk_witness :
  exists ce,
    vtd_dev_to_context_entry pe0 0 re0 state0 0 0 ce0 = (VTD_SUCCESS, ce) /\
    vtd_ce_present ce = true /\
    exists w,
      vtd_iova_to_slpte pe0 0 state0 ce 0x1000 true 0 0 true true 48
        (2 ^ 32 - 1) = Some w.
Proof.
  destruct (vtd_dev_to_context_entry pe0 0 re0 state0 0 0 ce0) as [st ce]
    eqn:Hd.
  assert (Hst : (vtd_dev_to_context_entry pe0 0 re0 state0 0 0 ce0).1
                = VTD_SUCCESS) by run.
  rewrite Hd in Hst. cbn [fst] in Hst. subst st.
  destruct (vtd_dev_to_context_entry_guards_walk pe0 0 re0 state0 0 0 ce0 ce)
    as (Hp & _ & _ & _ & Hw).
  - reflexivity.
  - cbn. lia.
  - exact state0_levels.
  - exact Hd.
  - exists ce. split; [reflexivity|]. split; [exact Hp|]. apply Hw.
Defined.

End WalkBench.
